(** * Recurrence rules (rrule.go): a shallow embedding and its properties

    The development follows the Go source top-down: the calendar tables,
    the option and rule records, [validateBounds] and [NewRRule], the
    per-year tables of [iterInfo.rebuild], the day and time sets, the
    loop of [rIterator.generate], and the iterator protocol on top of it.

    Conventions.
    - Go's [int] is 64 bits wide.  Values are carried in [Z]; the additions
      and multiplications of the frequency stepper that involve the
      caller-chosen [Interval], and the Easter offset, wrap as the machine
      does ([int_add], [int_mul]).  Table indices and calendar components
      are bounded by construction and are computed in [Z] directly.
    - A slice is a [list]; indexing, storing and re-slicing outside the
      bounds is a run-time panic, rendered by the [Panic] outcome.
    - Loops that Go writes as [for { ... }] take a fuel argument and answer
      [Timeout] when it is exhausted.
    - [*RRule] is shared between the rule's owner and its iterators: the
      rule is threaded through [generate] and [next] next to the iterator,
      so that writes through the pointer are visible in the result.
    - [time.Time] is an instant (seconds and nanoseconds since
      0001-01-01T00:00:00Z) with a location; locations are fixed offsets
      from UTC, and the civil-calendar conversions are those of Go's
      [time] package. *)

From Stdlib Require Import ZArith Lia Bool List Sorting.Sorted Permutation.
From stdpp Require Import base list numbers strings.

Local Open Scope Z_scope.

(** ** Outcomes of partial computations *)

Inductive result (A : Type) : Type :=
| Ok (a : A)
| Panic
| Timeout.
Arguments Ok {A} a.
Arguments Panic {A}.
Arguments Timeout {A}.

#[global] Instance result_ret : MRet result := fun _ a => Ok a.
#[global] Instance result_bind : MBind result := fun _ _ f m =>
  match m with
  | Ok a => f a
  | Panic => Panic
  | Timeout => Timeout
  end.

(** Short-circuit connectives over computations that may panic. *)
Definition orR (a b : result bool) : result bool :=
  x ← a; if x : bool then Ok true else b.
Definition andR (a b : result bool) : result bool :=
  x ← a; if x : bool then b else Ok false.
Definition notR (a : result bool) : result bool :=
  x ← a; Ok (negb x).

(** ** Machine integers *)

Definition wrap (x : Z) : Z := (x + 2 ^ 63) mod 2 ^ 64 - 2 ^ 63.
Definition int_add (a b : Z) : Z := wrap (a + b).
Definition int_sub (a b : Z) : Z := wrap (a - b).
Definition int_mul (a b : Z) : Z := wrap (a * b).

(** Go's [/] on integers truncates toward zero and panics on a zero divisor. *)
Definition int_div (a b : Z) : result Z :=
  if b =? 0 then Panic else Ok (wrap (Z.quot a b)).

(** ** Slices *)

Definition len {A} (l : list A) : Z := Z.of_nat (length l).

Definition index {A} (l : list A) (i : Z) : result A :=
  if i <? 0 then Panic
  else match l !! Z.to_nat i with
       | Some x => Ok x
       | None => Panic
       end.

Definition store {A} (l : list A) (i : Z) (x : A) : result (list A) :=
  if (0 <=? i) && (i <? len l) then Ok (<[Z.to_nat i := x]> l) else Panic.

Definition slice {A} (l : list A) (lo hi : Z) : result (list A) :=
  if (0 <=? lo) && (lo <=? hi) && (hi <=? len l)
  then Ok (take (Z.to_nat (hi - lo)) (drop (Z.to_nat lo) l))
  else Panic.

Definition slice_from {A} (l : list A) (lo : Z) : result (list A) :=
  slice l lo (len l).

Definition make (n : Z) : list Z := replicate (Z.to_nat n) 0.

(** ** Helpers of the package that the iterator calls *)

(** Modelled from the spec: [pymod] (util.go is not part of the sources at
    hand).  Python's remainder, whose sign follows the divisor. *)
Definition pymod (a b : Z) : Z := a mod b.

(** Modelled from the spec: [divmod] (util.go), Python's floor division
    together with the sign-matched remainder. *)
Definition divmod (a b : Z) : Z * Z := (a / b, pymod a b).

(** Modelled from the spec: [contains] (util.go), membership in a list of
    integers. *)
Definition contains (l : list Z) (x : Z) : bool := existsb (Z.eqb x) l.

(** Modelled from the spec: [isLeap] (util.go), 1 in a Gregorian leap year
    and 0 otherwise. *)
Definition isLeap (year : Z) : Z :=
  if (year mod 4 =? 0) && (negb (year mod 100 =? 0) || (year mod 400 =? 0))
  then 1 else 0.

(** Modelled from the spec: [MAXYEAR] (util.go), the largest year the
    engine reaches. *)
Definition MAXYEAR : Z := 9999.

(** Modelled from the spec: [pySubscript] (util.go), Python-style indexing:
    a negative index counts from the end, an index outside the list is an
    error (here [None]). *)
Definition pySubscript (l : list Z) (i : Z) : option Z :=
  let i := if i <? 0 then i + len l else i in
  if (i <? 0) || (len l <=? i) then None else l !! Z.to_nat i.

(** Modelled from the spec: [repeat], [rang] and [concat] (util.go), the
    builders of the calendar tables. *)
Definition repeat' (value count : Z) : list Z := replicate (Z.to_nat count) value.
Definition rang (lo hi : Z) : list Z :=
  map (fun k => lo + Z.of_nat k) (seq 0 (Z.to_nat (hi - lo))).

(** ** Calendar tables *)

Definition M366MASK : list Z := Eval vm_compute in
  concat [repeat' 1 31; repeat' 2 29; repeat' 3 31; repeat' 4 30;
          repeat' 5 31; repeat' 6 30; repeat' 7 31; repeat' 8 31;
          repeat' 9 30; repeat' 10 31; repeat' 11 30; repeat' 12 31;
          repeat' 1 7].
Definition M365MASK : list Z := Eval vm_compute in
  take 59 M366MASK ++ drop 60 M366MASK.
Definition MDAY366MASK : list Z := Eval vm_compute in
  let M29 := rang 1 30 in
  let M30 := rang 1 31 in
  let M31 := rang 1 32 in
  concat [M31; M29; M31; M30; M31; M30; M31; M31; M30; M31; M30; M31; take 7 M31].
Definition MDAY365MASK : list Z := Eval vm_compute in
  take 59 MDAY366MASK ++ drop 60 MDAY366MASK.
Definition NMDAY366MASK : list Z := Eval vm_compute in
  let M29 := rang (-29) 0 in
  let M30 := rang (-30) 0 in
  let M31 := rang (-31) 0 in
  concat [M31; M29; M31; M30; M31; M30; M31; M31; M30; M31; M30; M31; take 7 M31].
Definition NMDAY365MASK : list Z := Eval vm_compute in
  take 31 NMDAY366MASK ++ drop 32 NMDAY366MASK.
Definition WDAYMASK : list Z := Eval vm_compute in
  concat (replicate 55 [0; 1; 2; 3; 4; 5; 6]).
Definition M366RANGE : list Z :=
  [0; 31; 60; 91; 121; 152; 182; 213; 244; 274; 305; 335; 366].
Definition M365RANGE : list Z :=
  [0; 31; 59; 90; 120; 151; 181; 212; 243; 273; 304; 334; 365].

(** ** Go's [time] package, as far as the rule engine uses it *)

Record Location : Type := mkLocation { zoneOffset : Z }.
Definition UTC : Location := mkLocation 0.

(** An instant: seconds and nanoseconds since 0001-01-01T00:00:00 UTC (the
    zero [time.Time]), and the location it is displayed in. *)
Record Time : Type := mkTime { tsec : Z; tnsec : Z; tloc : Location }.

Definition zeroTime : Time := mkTime 0 0 UTC.

Definition Month := Z.
Definition Duration := Z.
Definition Second : Duration := 1000000000.

Definition IsZero (t : Time) : bool := (tsec t =? 0) && (tnsec t =? 0).
Definition Before (t u : Time) : bool :=
  (tsec t <? tsec u) || ((tsec t =? tsec u) && (tnsec t <? tnsec u)).
Definition After (t u : Time) : bool :=
  (tsec u <? tsec t) || ((tsec t =? tsec u) && (tnsec u <? tnsec t)).

Definition daysBefore : list Z :=
  [0; 31; 59; 90; 120; 151; 181; 212; 243; 273; 304; 334; 365].

Definition leapYear (year : Z) : bool := isLeap year =? 1.

(** Days from 0001-01-01 to January 1 of [year]. *)
Definition daysSinceEpoch (year : Z) : Z :=
  let y := year - 1 in 365 * y + y / 4 - y / 100 + y / 400.

(** [norm hi lo base]: carry [lo] into [hi] so that [0 <= lo < base]. *)
Definition norm (hi lo base : Z) : Z * Z := (hi + lo / base, lo mod base).

Definition Date (year : Z) (month : Month) (day hour min sec nsec : Z)
    (loc : Location) : Time :=
  let '(year, m) := norm year (month - 1) 12 in
  let '(sec, nsec) := norm sec nsec 1000000000 in
  let '(min, sec) := norm min sec 60 in
  let '(hour, min) := norm hour min 60 in
  let '(day, hour) := norm day hour 24 in
  let d := daysSinceEpoch year + nth (Z.to_nat m) daysBefore 0 in
  let d := if leapYear year && (2 <=? m) then d + 1 else d in
  let d := d + (day - 1) in
  mkTime (d * 86400 + hour * 3600 + min * 60 + sec - zoneOffset loc) nsec loc.

(** Seconds since the epoch on the clock of the time's own location. *)
Definition abs (t : Time) : Z := tsec t + zoneOffset (tloc t).

(** Year and zero-based day of the year of a day count. *)
Definition absDate (days : Z) : Z * Z :=
  let n400 := days / 146097 in
  let d := days mod 146097 in
  let n100 := Z.min (d / 36524) 3 in
  let d := d - 36524 * n100 in
  let n4 := d / 1461 in
  let d := d - 1461 * n4 in
  let n1 := Z.min (d / 365) 3 in
  let d := d - 365 * n1 in
  (1 + 400 * n400 + 100 * n100 + 4 * n4 + n1, d).

(** Month (1..12) and day of the month of a zero-based day of the year. *)
Definition monthDay (year yday : Z) : Month * Z :=
  let leap := leapYear year in
  if leap && (yday =? 59) then (2, 29)
  else
    let day := if leap && (59 <? yday) then yday - 1 else yday in
    let month := day / 31 in
    let e := nth (Z.to_nat (month + 1)) daysBefore 0 in
    if e <=? day then (month + 2, day - e + 1)
    else (month + 1, day - nth (Z.to_nat month) daysBefore 0 + 1).

Definition Year (t : Time) : Z := fst (absDate (abs t / 86400)).
Definition YearDay (t : Time) : Z := snd (absDate (abs t / 86400)) + 1.
Definition MonthOf (t : Time) : Month :=
  let '(y, yd) := absDate (abs t / 86400) in fst (monthDay y yd).
Definition Day (t : Time) : Z :=
  let '(y, yd) := absDate (abs t / 86400) in snd (monthDay y yd).
Definition Hour (t : Time) : Z := (abs t mod 86400) / 3600.
Definition Minute (t : Time) : Z := (abs t mod 3600) / 60.
Definition Sec (t : Time) : Z := abs t mod 60.
Definition Nanosecond (t : Time) : Z := tnsec t.
Definition LocationOf (t : Time) : Location := tloc t.

(** [time.Weekday]: Sunday is 0.  0001-01-01 was a Monday. *)
Definition WeekdayOf (t : Time) : Z := (abs t / 86400 + 1) mod 7.

Definition Add (t : Time) (d : Duration) : Time :=
  let n := tnsec t + Z.rem d 1000000000 in
  let s := tsec t + Z.quot d 1000000000 in
  if 1000000000 <=? n then mkTime (s + 1) (n - 1000000000) (tloc t)
  else if n <? 0 then mkTime (s - 1) (n + 1000000000) (tloc t)
  else mkTime s n (tloc t).

(** [t.Truncate(time.Second)]: the sub-second part is dropped. *)
Definition TruncateSecond (t : Time) : Time := mkTime (tsec t) 0 (tloc t).

Definition AddDate (t : Time) (years months days : Z) : Time :=
  Date (Year t + years) (MonthOf t + months) (Day t + days)
       (Hour t) (Minute t) (Sec t) (Nanosecond t) (LocationOf t).

(** Modelled from the spec: [toPyWeekday] (util.go), from Go's
    Sunday-based weekday to the rule's Monday-based index. *)
Definition toPyWeekday (from : Z) : Z :=
  nth (Z.to_nat from) [6; 0; 1; 2; 3; 4; 5] 0.

(** Modelled from the spec: [daysIn] (util.go), the length of a month: the
    day of the month of the day before the first of the following month. *)
Definition daysIn (m : Month) (year : Z) : Z :=
  Day (Date year (m + 1) 0 0 0 0 0 UTC).

(** Modelled from the spec: [easter] (util.go), Western Easter by the
    anonymous Gregorian computus. *)
Definition easter (year : Z) : Time :=
  let a := year mod 19 in
  let b := year / 100 in
  let c := year mod 100 in
  let d := b / 4 in
  let e := b mod 4 in
  let f := (b + 8) / 25 in
  let g := (b - f + 1) / 3 in
  let h := (19 * a + b - d - g + 15) mod 30 in
  let i := c / 4 in
  let k := c mod 4 in
  let l := (32 + 2 * e + 2 * i - h - k) mod 7 in
  let m := (a + 11 * h + 22 * l) / 451 in
  let p := h + l - 7 * m + 114 in
  Date year (p / 31) (p mod 31 + 1) 0 0 0 0 UTC.

(** Modelled from the spec: [timeSlice] and its [sort.Sort] (util.go):
    ascending order of instants, by insertion. *)
Fixpoint insertTime (t : Time) (l : list Time) : list Time :=
  match l with
  | [] => [t]
  | u :: l' => if Before u t then u :: insertTime t l' else t :: l
  end.
Definition sortTimes (l : list Time) : list Time := foldr insertTime [] l.

Definition Time_eqb (t u : Time) : bool :=
  (tsec t =? tsec u) && (tnsec t =? tnsec u)
  && (zoneOffset (tloc t) =? zoneOffset (tloc u)).

(** Modelled from the spec: [timeContains] (util.go), membership of a
    time in a list of times. *)
Definition timeContains (l : list Time) (t : Time) : bool :=
  existsb (Time_eqb t) l.

(** ** Frequencies, weekdays, options and rules *)

Inductive Frequency : Type :=
| YEARLY | MONTHLY | WEEKLY | DAILY | HOURLY | MINUTELY | SECONDLY.

(** The value of the constant ([iota] numbering), used by the source's
    order comparisons such as [r.Freq < HOURLY]. *)
Definition freqZ (f : Frequency) : Z :=
  match f with
  | YEARLY => 0 | MONTHLY => 1 | WEEKLY => 2 | DAILY => 3
  | HOURLY => 4 | MINUTELY => 5 | SECONDLY => 6
  end.

Definition Frequency_eqb (f g : Frequency) : bool := freqZ f =? freqZ g.

Record Weekday : Type := mkWeekday { wd_weekday : Z; wd_n : Z }.

Definition Nth (wday : Weekday) (n : Z) : Weekday := mkWeekday (wd_weekday wday) n.
Definition MO := mkWeekday 0 0.
Definition TU := mkWeekday 1 0.
Definition WE := mkWeekday 2 0.
Definition TH := mkWeekday 3 0.
Definition FR := mkWeekday 4 0.
Definition SA := mkWeekday 5 0.
Definition SU := mkWeekday 6 0.

Module Opt.
Record ROption : Type := mk {
    Freq : Frequency;
    Dtstart : Time;
    Interval : Z;
    Wkst : Weekday;
    Count : Z;
    Until : Time;
    Bysetpos : list Z;
    Bymonth : list Z;
    Bymonthday : list Z;
    Byyearday : list Z;
    Byweekno : list Z;
    Byweekday : list Weekday;
    Byhour : list Z;
    Byminute : list Z;
    Bysecond : list Z;
    Byeaster : list Z;
    RFC : bool
  }.
End Opt.
Abbreviation ROption := Opt.ROption.

Record RRule : Type := mkRRule {
  OrigOptions : ROption;
  Options : ROption;
  Freq : Frequency;
  DateStart : Time;
  Interval : Z;
  Wkst : Z;
  Count : Z;
  UntilTime : Time;
  Bysetpos : list Z;
  Bymonth : list Z;
  Bymonthday : list Z;
  Bynmonthday : list Z;
  Byyearday : list Z;
  Byweekno : list Z;
  Byweekday : list Z;
  Bynweekday : list Weekday;
  Byhour : list Z;
  Byminute : list Z;
  Bysecond : list Z;
  Byeaster : list Z;
  Timeset : list Time;
  Len : Z
}.

(** The one write the iterator makes through its rule pointer. *)
Definition set_Len (r : RRule) (v : Z) : RRule :=
  mkRRule (OrigOptions r) (Options r) (Freq r) (DateStart r) (Interval r)
    (Wkst r) (Count r) (UntilTime r) (Bysetpos r) (Bymonth r) (Bymonthday r)
    (Bynmonthday r) (Byyearday r) (Byweekno r) (Byweekday r) (Bynweekday r)
    (Byhour r) (Byminute r) (Bysecond r) (Byeaster r) (Timeset r) v.

(** ** Validation *)

Inductive error : Type :=
| ErrBounds (param : string) (lo hi : Z) (plusMinus : bool)
    (* "<param> must be between <lo> and <hi>[ or <-lo> and <-hi>]" *)
| ErrByday      (* "byday must be between 1 and 53 or -1 and -53" *)
| ErrInterval.  (* "Interval must be greater than 0" *)

Definition checkBounds (param : string) (value lo hi : Z) (plusMinus : bool)
    : option error :=
  if negb ((lo <=? value) && (value <=? hi))
     && (negb plusMinus || negb ((value <=? - lo) && (- hi <=? value)))
  then Some (ErrBounds param lo hi plusMinus)
  else None.

(** The first error of a loop over a list, if any. *)
Fixpoint firstError {A} (f : A -> option error) (l : list A) : option error :=
  match l with
  | [] => None
  | x :: l' => match f x with
               | Some e => Some e
               | None => firstError f l'
               end
  end.

Definition boundsTable (arg : ROption) : list (list Z * string * (Z * Z) * bool) :=
  [ (Opt.Bysecond arg, "Bysecond"%string, (0, 59), false);
    (Opt.Byminute arg, "Byminute"%string, (0, 59), false);
    (Opt.Byhour arg, "Byhour"%string, (0, 23), false);
    (Opt.Bymonthday arg, "Bymonthday"%string, (1, 31), true);
    (Opt.Byyearday arg, "Byyearday"%string, (1, 366), true);
    (Opt.Byweekno arg, "Byweekno"%string, (1, 53), true);
    (Opt.Bymonth arg, "Bymonth"%string, (1, 12), false);
    (Opt.Bysetpos arg, "Bysetpos"%string, (1, 366), true) ].

Definition validateBounds (arg : ROption) : option error :=
  match firstError
          (fun '(field, param, (lo, hi), plusMinus) =>
             firstError (fun value => checkBounds param value lo hi plusMinus) field)
          (boundsTable arg) with
  | Some e => Some e
  | None =>
    match firstError
            (fun w => if (53 <? wd_n w) || (wd_n w <? -53)
                      then Some ErrByday else None)
            (Opt.Byweekday arg) with
    | Some e => Some e
    | None => if Opt.Interval arg <? 0 then Some ErrInterval else None
    end
  end.

(** ** Construction *)

Module OptUpd.
Import Opt.
Definition with_Dtstart (a : ROption) (v : Time) : ROption :=
    mk (Freq a) v (Interval a) (Wkst a) (Count a) (Until a) (Bysetpos a)
       (Bymonth a) (Bymonthday a) (Byyearday a) (Byweekno a) (Byweekday a)
       (Byhour a) (Byminute a) (Bysecond a) (Byeaster a) (RFC a).
Definition with_Until (a : ROption) (v : Time) : ROption :=
    mk (Freq a) (Dtstart a) (Interval a) (Wkst a) (Count a) v (Bysetpos a)
       (Bymonth a) (Bymonthday a) (Byyearday a) (Byweekno a) (Byweekday a)
       (Byhour a) (Byminute a) (Bysecond a) (Byeaster a) (RFC a).
Definition with_Bymonth (a : ROption) (v : list Z) : ROption :=
    mk (Freq a) (Dtstart a) (Interval a) (Wkst a) (Count a) (Until a) (Bysetpos a)
       v (Bymonthday a) (Byyearday a) (Byweekno a) (Byweekday a)
       (Byhour a) (Byminute a) (Bysecond a) (Byeaster a) (RFC a).
Definition with_Bymonthday (a : ROption) (v : list Z) : ROption :=
    mk (Freq a) (Dtstart a) (Interval a) (Wkst a) (Count a) (Until a) (Bysetpos a)
       (Bymonth a) v (Byyearday a) (Byweekno a) (Byweekday a)
       (Byhour a) (Byminute a) (Bysecond a) (Byeaster a) (RFC a).
Definition with_Byweekday (a : ROption) (v : list Weekday) : ROption :=
    mk (Freq a) (Dtstart a) (Interval a) (Wkst a) (Count a) (Until a) (Bysetpos a)
       (Bymonth a) (Bymonthday a) (Byyearday a) (Byweekno a) v
       (Byhour a) (Byminute a) (Bysecond a) (Byeaster a) (RFC a).
Definition with_Count (a : ROption) (v : Z) : ROption :=
    mk (Freq a) (Dtstart a) (Interval a) (Wkst a) v (Until a) (Bysetpos a)
       (Bymonth a) (Bymonthday a) (Byyearday a) (Byweekno a) (Byweekday a)
       (Byhour a) (Byminute a) (Bysecond a) (Byeaster a) (RFC a).
End OptUpd.

(** The largest [time.Duration], [1<<63 - 1] nanoseconds. *)
Definition maxDuration : Duration := 2 ^ 63 - 1.

(** [calculateTimeset]: the time set of a rule coarser than HOURLY. *)
Definition calculateTimeset (freq : Frequency) (byhour byminute bysecond : list Z)
    (loc : Location) : list Time :=
  if freqZ freq <? freqZ HOURLY then
    sortTimes
      (hour ← byhour; minute ← byminute; second ← bysecond;
       [Date 1 1 1 hour minute second 0 loc])
  else [].

(** The defaults taken from the start when no day-selecting part is given
    (the [arg.Bymonth], [arg.Bymonthday] and [arg.Byweekday] writes). *)
Definition defaultsFromStart (freq : Frequency) (start : Time) (arg : ROption)
    : ROption :=
  if (len (Opt.Byweekno arg) =? 0) && (len (Opt.Byyearday arg) =? 0)
     && (len (Opt.Bymonthday arg) =? 0) && (len (Opt.Byweekday arg) =? 0)
     && (len (Opt.Byeaster arg) =? 0)
  then
    match freq with
    | YEARLY =>
        let arg := if len (Opt.Bymonth arg) =? 0
                   then OptUpd.with_Bymonth arg [MonthOf start] else arg in
        OptUpd.with_Bymonthday arg [Day start]
    | MONTHLY => OptUpd.with_Bymonthday arg [Day start]
    | WEEKLY =>
        OptUpd.with_Byweekday arg [mkWeekday (toPyWeekday (WeekdayOf start)) 0]
    | _ => arg
    end
  else arg.

(** The loop over [arg.Bymonthday]: positive days are appended to
    [r.Bymonthday], negative ones to [r.Bynmonthday]. *)
Definition splitMonthdays (l : list Z) : list Z * list Z :=
  fold_left
    (fun '(pos, neg) mday =>
       if 0 <? mday then (pos ++ [mday], neg)
       else if mday <? 0 then (pos, neg ++ [mday])
       else (pos, neg))
    l ([], []).

(** The loop over [arg.Byweekday]: an entry goes to [r.Byweekday] (its
    weekday only) or, with its ordinal, to [r.Bynweekday]. *)
Definition splitWeekdays (freq : Frequency) (l : list Weekday)
    : list Z * list Weekday :=
  fold_left
    (fun '(plain, positioned) wday =>
       if (wd_n wday =? 0) || (freqZ MONTHLY <? freqZ freq)
       then (plain ++ [wd_weekday wday], positioned)
       else (plain, positioned ++ [wday]))
    l ([], []).

(** The body of [NewRRule] after validation: the rule made of the
    options.  [now] is the reading of the clock, used when the options
    carry no start. *)
Definition normalize (now : Time) (arg : ROption) : RRule :=
  let orig := arg in
  let arg := if IsZero (Opt.Dtstart arg)
             then OptUpd.with_Dtstart arg (mkTime (tsec now) (tnsec now) UTC)
             else arg in
  let arg := OptUpd.with_Dtstart arg (TruncateSecond (Opt.Dtstart arg)) in
  let dateStart := Opt.Dtstart arg in
  let freq := Opt.Freq arg in
  let interval := if Opt.Interval arg =? 0 then 1 else Opt.Interval arg in
  let count := Opt.Count arg in
  let arg := if IsZero (Opt.Until arg)
             then OptUpd.with_Until arg (Add dateStart maxDuration)
             else arg in
  let untilTime := Opt.Until arg in
  let wkst := wd_weekday (Opt.Wkst arg) in
  let bysetpos := Opt.Bysetpos arg in
  let arg := defaultsFromStart freq dateStart arg in
  let bymonth := Opt.Bymonth arg in
  let byyearday := Opt.Byyearday arg in
  let byeaster := Opt.Byeaster arg in
  let '(bymonthday, bynmonthday) := splitMonthdays (Opt.Bymonthday arg) in
  let byweekno := Opt.Byweekno arg in
  let '(byweekday, bynweekday) := splitWeekdays freq (Opt.Byweekday arg) in
  let byhour :=
    if len (Opt.Byhour arg) =? 0
    then (if freqZ freq <? freqZ HOURLY then [Hour dateStart] else [])
    else Opt.Byhour arg in
  let byminute :=
    if len (Opt.Byminute arg) =? 0
    then (if freqZ freq <? freqZ MINUTELY then [Minute dateStart] else [])
    else Opt.Byminute arg in
  let bysecond :=
    if len (Opt.Bysecond arg) =? 0
    then (if freqZ freq <? freqZ SECONDLY then [Sec dateStart] else [])
    else Opt.Bysecond arg in
  mkRRule orig arg freq dateStart interval wkst count untilTime bysetpos
    bymonth bymonthday bynmonthday byyearday byweekno byweekday
    bynweekday byhour byminute bysecond byeaster
    (calculateTimeset freq byhour byminute bysecond (LocationOf dateStart))
    0.

(** [NewRRule]: the options are validated, then made into a rule. *)
Definition NewRRule (now : Time) (arg : ROption) : error + RRule :=
  match validateBounds arg with
  | Some err => inl err
  | None => inr (normalize now arg)
  end.

(** ** Per-year tables: [iterInfo] and [rebuild] *)

Record iterInfo : Type := mkIterInfo {
  lastyear : Z;
  lastmonth : Month;
  yearlen : Z;
  nextyearlen : Z;
  firstyday : Time;
  yearweekday : Z;
  mmask : list Z;
  mrange : list Z;
  mdaymask : list Z;
  nmdaymask : list Z;
  wdaymask : list Z;
  wnomask : list Z;
  nwdaymask : list Z;
  eastermask : list Z
}.

(** [iterInfo{rrule: r}]: every other field has its zero value. *)
Definition iterInfo0 : iterInfo :=
  mkIterInfo 0 0 0 0 zeroTime 0 [] [] [] [] [] [] [] [].

(** A [for ... range] loop whose body may panic. *)
Fixpoint foldR {A B} (f : B -> A -> result B) (l : list A) (b : B) : result B :=
  match l with
  | [] => Ok b
  | x :: l' => b' ← f b x; foldR f l' b'
  end.

(** The loop [for j := 0; j < 7; j++ { mask[i] = 1; i++; if wdaymask[i] ==
    wkst { break } }], with [j] iterations left. *)
Fixpoint markWeek (wdmask : list Z) (wkst : Z) (j : nat) (mask : list Z) (i : Z)
    : result (list Z) :=
  match j with
  | O => Ok mask
  | S j' =>
      mask ← store mask i 1;
      let i := i + 1 in
      w ← index wdmask i;
      if w =? wkst then Ok mask else markWeek wdmask wkst j' mask i
  end.

(** The loop [for i := 0; i < no1wkst; i++ { mask[i] = 1 }]. *)
Definition markLeading (mask : list Z) (no1wkst : Z) : result (list Z) :=
  foldR (fun m i => store m i 1) (rang 0 no1wkst) mask.

Section Rebuild.
Variable r : RRule.

  (** The week-number mask of [year] (the [else] branch of
      [len(info.rrule.Byweekno) == 0]). *)
Definition buildWnomask (year ylen yweekday : Z) (wdmask : list Z)
      : result (list Z) :=
    let mask := make (ylen + 7) in
    let firstwkst := pymod (7 - yweekday + Wkst r) 7 in
    let no1wkst := firstwkst in
    let '(no1wkst, wyearlen) :=
      if 4 <=? no1wkst
      then (0, ylen + pymod (yweekday - Wkst r) 7)
      else (no1wkst, ylen - no1wkst) in
    let '(div, mod') := divmod wyearlen 7 in
    let numweeks := div + Z.quot mod' 4 in
    mask ← foldR
      (fun mask n =>
         let n := if n <? 0 then n + (numweeks + 1) else n in
         if negb ((0 <? n) && (n <=? numweeks)) then Ok mask
         else
           let i :=
             if 1 <? n then
               let i := no1wkst + (n - 1) * 7 in
               if negb (no1wkst =? firstwkst) then i - (7 - firstwkst) else i
             else no1wkst in
           markWeek wdmask (Wkst r) 7 mask i)
      (Byweekno r) mask;
    mask ←
      (if contains (Byweekno r) 1 then
         let i := no1wkst + numweeks * 7 in
         let i := if negb (no1wkst =? firstwkst) then i - (7 - firstwkst) else i in
         if i <? ylen then markWeek wdmask (Wkst r) 7 mask i else Ok mask
       else Ok mask);
    if negb (no1wkst =? 0) then
      let lnumweeks :=
        if negb (contains (Byweekno r) (-1)) then
          let lyearweekday :=
            toPyWeekday
              (WeekdayOf (Date (year - 1) 1 1 0 0 0 0 (LocationOf (DateStart r)))) in
          let lno1wkst := pymod (7 - lyearweekday + Wkst r) 7 in
          let lyearlen := 365 + isLeap (year - 1) in
          if 4 <=? lno1wkst
          then 52 + Z.quot (pymod (lyearlen + pymod (lyearweekday - Wkst r) 7) 7) 4
          else 52 + Z.quot (pymod (ylen - no1wkst) 7) 4
        else -1 in
      if contains (Byweekno r) lnumweeks then markLeading mask no1wkst
      else Ok mask
    else Ok mask.

  (** The ranges over which positioned weekdays are counted. *)
Definition nwdayRanges (mrng : list Z) (ylen : Z) (month : Month)
      : result (list (list Z)) :=
    match Freq r with
    | YEARLY =>
        if negb (len (Bymonth r) =? 0) then
          foldR (fun ranges month =>
                   x ← slice mrng (month - 1) (month + 1); Ok (ranges ++ [x]))
                (Bymonth r) []
        else Ok [[0; ylen]]
    | MONTHLY => x ← slice mrng (month - 1) (month + 1); Ok [x]
    | _ => Ok []
    end.

  (** The positioned-weekday mask over the given ranges. *)
Definition buildNwdaymask (ylen : Z) (wdmask : list Z) (ranges : list (list Z))
      : result (list Z) :=
    foldR
      (fun mask x =>
         first ← index x 0;
         last ← index x 1;
         let last := last - 1 in
         foldR
           (fun mask y =>
              let wday := wd_weekday y in
              let n := wd_n y in
              i ← (if n <? 0 then
                     let i := last + (n + 1) * 7 in
                     w ← index wdmask i; Ok (i - pymod (w - wday) 7)
                   else
                     let i := first + (n - 1) * 7 in
                     w ← index wdmask i; Ok (i + pymod (7 - w + wday) 7));
              if (first <=? i) && (i <=? last) then store mask i 1 else Ok mask)
           (Bynweekday r) mask)
      ranges (make ylen).

  (** The Easter mask of [year]. *)
Definition buildEastermask (ylen year : Z) : result (list Z) :=
    let eyday := YearDay (easter year) - 1 in
    foldR (fun mask offset => store mask (int_add eyday offset) 1)
      (Byeaster r) (make (ylen + 7)).

Definition rebuild (info : iterInfo) (year : Z) (month : Month)
      : result iterInfo :=
    (* the year-scoped tables *)
    info1 ←
      (if negb (year =? lastyear info) then
         let ylen := 365 + isLeap year in
         let nylen := 365 + isLeap (year + 1) in
         let fyday := Date year 1 1 0 0 0 0 (LocationOf (DateStart r)) in
         let yweekday := toPyWeekday (WeekdayOf fyday) in
         wdmask ← slice_from WDAYMASK yweekday;
         let '(mm, mdm, nmdm, mr) :=
           if ylen =? 365
           then (M365MASK, MDAY365MASK, NMDAY365MASK, M365RANGE)
           else (M366MASK, MDAY366MASK, NMDAY366MASK, M366RANGE) in
         wno ← (if len (Byweekno r) =? 0 then Ok []
                else buildWnomask year ylen yweekday wdmask);
         Ok (mkIterInfo (lastyear info) (lastmonth info) ylen nylen fyday yweekday
               mm mr mdm nmdm wdmask wno (nwdaymask info) (eastermask info))
       else Ok info);
    (* the positioned-weekday mask *)
    nwd ←
      (if negb (len (Bynweekday r) =? 0)
          && (negb (month =? lastmonth info1) || negb (year =? lastyear info1))
       then
         ranges ← nwdayRanges (mrange info1) (yearlen info1) month;
         if negb (len ranges =? 0)
         then buildNwdaymask (yearlen info1) (wdaymask info1) ranges
         else Ok (nwdaymask info1)
       else Ok (nwdaymask info1));
    (* the Easter mask *)
    east ←
      (if negb (len (Byeaster r) =? 0)
       then buildEastermask (yearlen info1) year
       else Ok (eastermask info1));
    Ok (mkIterInfo year month (yearlen info1) (nextyearlen info1) (firstyday info1)
          (yearweekday info1) (mmask info1) (mrange info1) (mdaymask info1)
          (nmdaymask info1) (wdaymask info1) (wnomask info1) nwd east).
End Rebuild.

(** ** Day sets and time sets *)

(** A day set is a slice of nullable cells ([[]*int]): cell [i] is either
    [nil] or points to [i]. *)
Definition dayset := list (option Z).

Definition makeDayset (n : Z) : dayset := replicate (Z.to_nat n) None.

(** The loop of the WEEKLY case: up to seven cells from [i] on, stopping
    when the next weekday is the week start. *)
Fixpoint weekWindow (wdmask : list Z) (wkst : Z) (j : nat) (set : dayset) (i : Z)
    : result (dayset * Z) :=
  match j with
  | O => Ok (set, i)
  | S j' =>
      set ← store set i (Some i);
      let i := i + 1 in
      w ← index wdmask i;
      if w =? wkst then Ok (set, i) else weekWindow wdmask wkst j' set i
  end.

Section Sets.
Variable r : RRule.
Variable info : iterInfo.

Definition getdayset (freq : Frequency) (year : Z) (month : Month) (day : Z)
      : result (dayset * Z * Z) :=
    match freq with
    | YEARLY =>
        set ← foldR (fun set i => store set i (Some i))
                (rang 0 (yearlen info)) (makeDayset (yearlen info));
        Ok (set, 0, yearlen info)
    | MONTHLY =>
        let set := makeDayset (yearlen info) in
        start ← index (mrange info) (month - 1);
        end' ← index (mrange info) month;
        set ← foldR (fun set i => store set i (Some i)) (rang start end') set;
        Ok (set, start, end')
    | WEEKLY =>
        let set := makeDayset (yearlen info + 7) in
        let i := YearDay (Date year month day 0 0 0 0 UTC) - 1 in
        let start := i in
        '(set, i) ← weekWindow (wdaymask info) (Wkst r) 7 set i;
        Ok (set, start, i)
    | _ =>
        let set := makeDayset (yearlen info) in
        let i := YearDay (Date year month day 0 0 0 0 UTC) - 1 in
        set ← store set i (Some i);
        Ok (set, i, i + 1)
    end.

Definition gettimeset (freq : Frequency) (hour minute second : Z) : list Time :=
    let loc := LocationOf (DateStart r) in
    match freq with
    | HOURLY =>
        sortTimes
          (minute ← Byminute r; second ← Bysecond r;
           [Date 1 1 1 hour minute second 0 loc])
    | MINUTELY =>
        sortTimes (second ← Bysecond r; [Date 1 1 1 hour minute second 0 loc])
    | SECONDLY => [Date 1 1 1 hour minute second 0 loc]
    | _ => []
    end.

  (** The test of the filter loop on the day [i]: [true] when some active
      part of the rule rejects the day.  The connectives short-circuit as
      Go's do, so a table is only indexed when its part is active. *)
Definition rejects (i : Z) : result bool :=
    orR (andR (Ok (negb (len (Bymonth r) =? 0)))
              (m ← index (mmask info) i; Ok (negb (contains (Bymonth r) m))))
   (orR (andR (Ok (negb (len (Byweekno r) =? 0)))
              (w ← index (wnomask info) i; Ok (w =? 0)))
   (orR (andR (Ok (negb (len (Byweekday r) =? 0)))
              (w ← index (wdaymask info) i; Ok (negb (contains (Byweekday r) w))))
   (orR (andR (Ok (negb (len (nwdaymask info) =? 0)))
              (w ← index (nwdaymask info) i; Ok (w =? 0)))
   (orR (andR (Ok (negb (len (Byeaster r) =? 0)))
              (w ← index (eastermask info) i; Ok (w =? 0)))
   (orR (andR (Ok (negb (len (Bymonthday r) =? 0) || negb (len (Bynmonthday r) =? 0)))
        (andR (d ← index (mdaymask info) i; Ok (negb (contains (Bymonthday r) d)))
              (d ← index (nmdaymask info) i; Ok (negb (contains (Bynmonthday r) d)))))
        (andR (Ok (negb (len (Byyearday r) =? 0)))
              (Ok ((i <? yearlen info)
                   && negb (contains (Byyearday r) (i + 1))
                   && negb (contains (Byyearday r) (- yearlen info + i))
                   || (yearlen info <=? i)
                      && negb (contains (Byyearday r) (i + 1 - yearlen info))
                      && negb (contains (Byyearday r)
                                 (- nextyearlen info + i - yearlen info)))))))))).

  (** The filter loop over [dayset[start:end]].  The window shares its
      cells with [dayset], which the body overwrites: each cell is read from
      the current state of the set. *)
Definition filterDays (set : dayset) (start end' : Z) : result (dayset * bool) :=
    _ ← slice set start end';
    foldR
      (fun '(set, filtered) k =>
         cell ← index set k;
         match cell with
         | None => Panic
         | Some i =>
             rej ← rejects i;
             if rej : bool then set ← store set i None; Ok (set, true)
             else Ok (set, filtered)
         end)
      (rang start end') (set, false).
End Sets.

(** ** The iterator *)

Record rIterator : Type := mkIter {
  year : Z;
  month : Month;
  day : Z;
  hour : Z;
  minute : Z;
  second : Z;
  weekday : Z;
  ii : iterInfo;
  timeset : list Time;
  total : Z;
  count : Z;
  remain : list Time;
  finished : bool
}.

(** The position of the iterator in time: the fields that the frequency
    stepper reads and writes. *)
Definition cursor : Type :=
  Z * Month * Z * Z * Z * Z * Z * iterInfo * list Time.

Definition cursor_of (it : rIterator) : cursor :=
  (year it, month it, day it, hour it, minute it, second it, weekday it,
   ii it, timeset it).

Definition set_cursor (it : rIterator) (c : cursor) : rIterator :=
  let '(y, m, d, h, mi, s, wd, info, ts) := c in
  mkIter y m d h mi s wd info ts (total it) (count it) (remain it) (finished it).

(** [r.Len = iterator.total; iterator.finished = true; return] *)
Definition finish (r : RRule) (it : rIterator) : RRule * rIterator :=
  (set_Len r (total it),
   mkIter (year it) (month it) (day it) (hour it) (minute it) (second it)
     (weekday it) (ii it) (timeset it) (total it) (count it) (remain it) true).

(** How a piece of the body of [generate] ends: by [return], with the rule
    as written through the pointer, or by falling through. *)
Inductive control : Type :=
| Return (r : RRule) (it : rIterator)
| Continue (it : rIterator).

(** The date of day [i] of the current year at the time of day [timeTemp]. *)
Definition occurrence (info : iterInfo) (i : Z) (timeTemp : Time) : Time :=
  let date := AddDate (firstyday info) 0 0 i in
  Date (Year date) (MonthOf date) (Day date)
       (Hour timeTemp) (Minute timeTemp) (Sec timeTemp)
       (Nanosecond timeTemp) (LocationOf timeTemp).

Section Emit.
Variable r : RRule.

  (** The treatment of one candidate [res] in the output loops. *)
Definition emitOne (it : rIterator) (res : Time) : control :=
    if negb (IsZero (UntilTime r)) && After res (UntilTime r) then
      let '(r', it') := finish r it in Return r' it'
    else if negb (Before res (DateStart r)) then
      let it := mkIter (year it) (month it) (day it) (hour it) (minute it)
                  (second it) (weekday it) (ii it) (timeset it)
                  (total it + 1) (count it) (remain it ++ [res]) (finished it) in
      if negb (count it =? 0) then
        let it := mkIter (year it) (month it) (day it) (hour it) (minute it)
                    (second it) (weekday it) (ii it) (timeset it)
                    (total it) (count it - 1) (remain it) (finished it) in
        if count it =? 0 then let '(r', it') := finish r it in Return r' it'
        else Continue it
      else Continue it
    else Continue it.

  (** A loop over candidates that are at hand ([for _, res := range ...]). *)
Fixpoint emitList (it : rIterator) (l : list Time) : control :=
    match l with
    | [] => Continue it
    | res :: l' =>
        match emitOne it res with
        | Return r' it' => Return r' it'
        | Continue it' => emitList it' l'
        end
    end.

  (** The output loops without BYSETPOS: over the cells of the window and,
      for each day that is left, over the time set. *)
Fixpoint emitDays (it : rIterator) (window : dayset) : control :=
    match window with
    | [] => Continue it
    | None :: w' => emitDays it w'
    | Some i :: w' =>
        match emitList it (map (occurrence (ii it) i) (timeset it)) with
        | Return r' it' => Return r' it'
        | Continue it' => emitDays it' w'
        end
    end.

  (** The days that are left in the window ([temp]). *)
Definition surviving (window : dayset) : list Z := omap id window.

  (** The BYSETPOS selection: the candidates [poslist], before sorting. *)
Definition selectPositions (info : iterInfo) (ts : list Time) (window : dayset)
      : result (list Time) :=
    foldR
      (fun poslist pos =>
         let '(daypos, timepos) :=
           if pos <? 0 then divmod pos (len ts) else divmod (pos - 1) (len ts) in
         let temp := surviving window in
         match pySubscript temp daypos with
         | None => Ok poslist
         | Some i =>
             timeTemp ← index ts timepos;
             let res := occurrence info i timeTemp in
             if negb (timeContains poslist res) then Ok (poslist ++ [res])
             else Ok poslist
         end)
      (Bysetpos r) [].

  (** "Output results". *)
Definition emit (it : rIterator) (set : dayset) (start end' : Z) : result control :=
    window ← slice set start end';
    if negb (len (Bysetpos r) =? 0) && negb (len (timeset it) =? 0) then
      poslist ← selectPositions (ii it) (timeset it) window;
      Ok (emitList it (sortTimes poslist))
    else Ok (emitDays it window).
End Emit.

(** ** The frequency stepper *)

Section Stepper.
Variable r : RRule.

  (** The [for { ... }] loop of the HOURLY case. *)
Fixpoint hourLoop (fuel : nat) (hour day : Z) (fixday : bool)
      : result (Z * Z * bool) :=
    match fuel with
    | O => Timeout
    | S fuel' =>
        let hour := int_add hour (Interval r) in
        let '(div, mod') := divmod hour 24 in
        let '(hour, day, fixday) :=
          if negb (div =? 0) then (mod', int_add day div, true)
          else (hour, day, fixday) in
        if (len (Byhour r) =? 0) || contains (Byhour r) hour
        then Ok (hour, day, fixday)
        else hourLoop fuel' hour day fixday
    end.

  (** The [for { ... }] loop of the MINUTELY case. *)
Fixpoint minuteLoop (fuel : nat) (minute hour day : Z) (fixday : bool)
      : result (Z * Z * Z * bool) :=
    match fuel with
    | O => Timeout
    | S fuel' =>
        let minute := int_add minute (Interval r) in
        let '(div, mod') := divmod minute 60 in
        let '(minute, hour, day, fixday) :=
          if negb (div =? 0) then
            let minute := mod' in
            let hour := int_add hour div in
            let '(div, mod') := divmod hour 24 in
            if negb (div =? 0) then (minute, mod', int_add day div, true)
            else (minute, hour, day, fixday)
          else (minute, hour, day, fixday) in
        if ((len (Byhour r) =? 0) || contains (Byhour r) hour)
           && ((len (Byminute r) =? 0) || contains (Byminute r) minute)
        then Ok (minute, hour, day, fixday)
        else minuteLoop fuel' minute hour day fixday
    end.

  (** The [for { ... }] loop of the SECONDLY case. *)
Fixpoint secondLoop (fuel : nat) (second minute hour day : Z) (fixday : bool)
      : result (Z * Z * Z * Z * bool) :=
    match fuel with
    | O => Timeout
    | S fuel' =>
        let second := int_add second (Interval r) in
        let '(div, mod') := divmod second 60 in
        let '(second, minute, hour, day, fixday) :=
          if negb (div =? 0) then
            let second := mod' in
            let minute := int_add minute div in
            let '(div, mod') := divmod minute 60 in
            if negb (div =? 0) then
              let minute := mod' in
              let hour := int_add hour div in
              let '(div, mod') := divmod hour 24 in
              if negb (div =? 0) then (second, minute, mod', int_add day div, true)
              else (second, minute, hour, day, fixday)
            else (second, minute, hour, day, fixday)
          else (second, minute, hour, day, fixday) in
        if ((len (Byhour r) =? 0) || contains (Byhour r) hour)
           && ((len (Byminute r) =? 0) || contains (Byminute r) minute)
           && ((len (Bysecond r) =? 0) || contains (Bysecond r) second)
        then Ok (second, minute, hour, day, fixday)
        else secondLoop fuel' second minute hour day fixday
    end.

  (** The loop [for iterator.day > daysinmonth { ... }]; the flag tells
      whether it left by the [return] on a year beyond [MAXYEAR]. *)
Fixpoint fixLoop (fuel : nat) (year : Z) (month : Month) (day daysinmonth : Z)
      : result (bool * (Z * Month * Z)) :=
    if daysinmonth <? day then
      match fuel with
      | O => Timeout
      | S fuel' =>
          let day := int_sub day daysinmonth in
          let month := int_add month 1 in
          if month =? 13 then
            let month := 1 in
            let year := int_add year 1 in
            if MAXYEAR <? year then Ok (true, (year, month, day))
            else fixLoop fuel' year month day (daysIn month year)
          else fixLoop fuel' year month day (daysIn month year)
      end
    else Ok (false, (year, month, day)).

  (** "Handle frequency and Interval", on the cursor.  The flag tells
      whether the step left by a [return] on a year beyond [MAXYEAR]; the
      cursor is the one at that point. *)
Definition stepCursor (fuel : nat) (filtered : bool) (c : cursor)
      : result (bool * cursor) :=
    let '(year, month, day, hour, minute, second, weekday, info, ts) := c in
    st ←
      match Freq r with
      | YEARLY =>
          let year := int_add year (Interval r) in
          if MAXYEAR <? year
          then Ok (true, false, (year, month, day, hour, minute, second, weekday, info, ts))
          else
            info ← rebuild r info year month;
            Ok (false, false, (year, month, day, hour, minute, second, weekday, info, ts))
      | MONTHLY =>
          let month := int_add month (Interval r) in
          let '(over, year, month) :=
            if 12 <? month then
              let '(div, mod') := divmod month 12 in
              let month := mod' in
              let year := int_add year div in
              let '(year, month) :=
                if month =? 0 then (int_sub year 1, 12) else (year, month) in
              (MAXYEAR <? year, year, month)
            else (false, year, month) in
          if over : bool
          then Ok (true, false, (year, month, day, hour, minute, second, weekday, info, ts))
          else
            info ← rebuild r info year month;
            Ok (false, false, (year, month, day, hour, minute, second, weekday, info, ts))
      | WEEKLY =>
          let day :=
            if weekday <? Wkst r
            then int_add day (int_add (- (weekday + 1 + (6 - Wkst r)))
                                      (int_mul (Interval r) 7))
            else int_add day (int_add (- (weekday - Wkst r))
                                      (int_mul (Interval r) 7)) in
          Ok (false, true, (year, month, day, hour, minute, second, Wkst r, info, ts))
      | DAILY =>
          let day := int_add day (Interval r) in
          Ok (false, true, (year, month, day, hour, minute, second, weekday, info, ts))
      | HOURLY =>
          hour ← (if filtered : bool then
                    q ← int_div (23 - hour) (Interval r);
                    Ok (int_add hour (int_mul q (Interval r)))
                  else Ok hour);
          '(hour, day, fixday) ← hourLoop fuel hour day false;
          let ts := gettimeset r HOURLY hour minute second in
          Ok (false, fixday, (year, month, day, hour, minute, second, weekday, info, ts))
      | MINUTELY =>
          minute ← (if filtered : bool then
                      q ← int_div (1439 - (hour * 60 + minute)) (Interval r);
                      Ok (int_add minute (int_mul q (Interval r)))
                    else Ok minute);
          '(minute, hour, day, fixday) ← minuteLoop fuel minute hour day false;
          let ts := gettimeset r MINUTELY hour minute second in
          Ok (false, fixday, (year, month, day, hour, minute, second, weekday, info, ts))
      | SECONDLY =>
          second ← (if filtered : bool then
                      q ← int_div (86399 - (hour * 3600 + minute * 60 + second))
                            (Interval r);
                      Ok (int_add second (int_mul q (Interval r)))
                    else Ok second);
          '(second, minute, hour, day, fixday) ←
            secondLoop fuel second minute hour day false;
          let ts := gettimeset r SECONDLY hour minute second in
          Ok (false, fixday, (year, month, day, hour, minute, second, weekday, info, ts))
      end;
    let '(over, fixday, c) := st in
    let '(year, month, day, hour, minute, second, weekday, info, ts) := c in
    if over : bool then Ok (true, c)
    else if (fixday : bool) && (28 <? day) then
      let daysinmonth := daysIn month year in
      if daysinmonth <? day then
        '(over, (year, month, day)) ← fixLoop fuel year month day daysinmonth;
        if over : bool
        then Ok (true, (year, month, day, hour, minute, second, weekday, info, ts))
        else
          info ← rebuild r info year month;
          Ok (false, (year, month, day, hour, minute, second, weekday, info, ts))
      else Ok (false, c)
    else Ok (false, c).

  (** The stepper on the iterator. *)
Definition step (fuel : nat) (filtered : bool) (it : rIterator) : result control :=
    '(over, c) ← stepCursor fuel filtered (cursor_of it);
    let it := set_cursor it c in
    if over : bool then let '(r', it') := finish r it in Ok (Return r' it')
    else Ok (Continue it).

  (** One round of the loop of [generate]: a period is enumerated,
      filtered and emitted, and the cursor is moved to the next one. *)
Definition period (fuel : nat) (it : rIterator) : result control :=
    '(set, start, end') ←
      getdayset r (ii it) (Freq r) (year it) (month it) (day it);
    '(set, filtered) ← filterDays r (ii it) set start end';
    ctl ← emit r it set start end';
    match ctl with
    | Return r' it' => Ok (Return r' it')
    | Continue it => step fuel filtered it
    end.
End Stepper.

(** [generate]: periods are processed until the buffer [remain] holds an
    occurrence or the iterator has finished.  The rule comes back as the
    iterator's writes through its pointer have left it. *)
Fixpoint generate (fuel : nat) (r : RRule) (it : rIterator)
    : result (RRule * rIterator) :=
  if len (remain it) =? 0 then
    match fuel with
    | O => Timeout
    | S fuel' =>
        ctl ← period r fuel it;
        match ctl with
        | Return r' it' => Ok (r', it')
        | Continue it' => generate fuel' r it'
        end
    end
  else Ok (r, it).

(** [next]: the next occurrence, if there is one. *)
Definition next (fuel : nat) (r : RRule) (it : rIterator)
    : result (RRule * rIterator * option Time) :=
  '(r, it) ← (if negb (finished it) then generate fuel r it else Ok (r, it));
  match remain it with
  | [] => Ok (r, it, None)
  | value :: rest =>
      Ok (r,
          mkIter (year it) (month it) (day it) (hour it) (minute it) (second it)
            (weekday it) (ii it) (timeset it) (total it) (count it) rest
            (finished it),
          Some value)
  end.

(** [Iterator]: the iterator of a rule, positioned at its start. *)
Definition Iterator (r : RRule) : result rIterator :=
  let start := DateStart r in
  let '(year, month, day) := (Year start, MonthOf start, Day start) in
  let '(hour, minute, second) := (Hour start, Minute start, Sec start) in
  let weekday := toPyWeekday (WeekdayOf start) in
  info ← rebuild r iterInfo0 year month;
  let ts :=
    if freqZ (Freq r) <? freqZ HOURLY then Timeset r
    else if (freqZ HOURLY <=? freqZ (Freq r)) && negb (len (Byhour r) =? 0)
              && negb (contains (Byhour r) hour)
            || (freqZ MINUTELY <=? freqZ (Freq r)) && negb (len (Byminute r) =? 0)
               && negb (contains (Byminute r) minute)
            || (freqZ SECONDLY <=? freqZ (Freq r)) && negb (len (Bysecond r) =? 0)
               && negb (contains (Bysecond r) second)
    then []
    else gettimeset r (Freq r) hour minute second in
  Ok (mkIter year month day hour minute second weekday info ts 0 (Count r) [] false).

(** A client that calls [next] up to [k] times and keeps what it is given,
    stopping at the first report of exhaustion. *)
Fixpoint nexts (fuel : nat) (k : nat) (r : RRule) (it : rIterator)
    : result (RRule * rIterator * list Time) :=
  match k with
  | O => Ok (r, it, [])
  | S k' =>
      '(r, it, v) ← next fuel r it;
      match v with
      | None => Ok (r, it, [])
      | Some t => '(r, it, l) ← nexts fuel k' r it; Ok (r, it, t :: l)
      end
  end.

(** The first occurrences of a rule: an iterator is made and asked up to
    [k] times; the rule and the iterator come back as they are then. *)
Definition iterate (fuel : nat) (k : nat) (r : RRule)
    : result (RRule * rIterator * list Time) :=
  it ← Iterator r; nexts fuel k r it.

(** Modelled from the spec: [all] (util.go), which drains an iterator:
    [next] is called until it reports exhaustion.  [k] bounds the number
    of calls. *)
Fixpoint drain (fuel : nat) (k : nat) (r : RRule) (it : rIterator)
    : result (RRule * list Time) :=
  match k with
  | O => Timeout
  | S k' =>
      '(r, it, v) ← next fuel r it;
      match v with
      | None => Ok (r, [])
      | Some t => '(r, l) ← drain fuel k' r it; Ok (r, t :: l)
      end
  end.

(** [All]: every occurrence of the rule, and the rule as the iteration
    leaves it. *)
Definition All (fuel : nat) (r : RRule) : result (RRule * list Time) :=
  it ← Iterator r; drain fuel fuel r it.

(** ** Setters *)

(** [DTStart]: a new start for the rule.  The hour, minute and second
    parts follow the start when the options left them out; the time set
    is calculated again. *)
Definition DTStart (r : RRule) (dt : Time) : RRule :=
  let dateStart := TruncateSecond dt in
  let options := OptUpd.with_Dtstart (Options r) dateStart in
  let byhour :=
    if (len (Opt.Byhour options) =? 0) && (freqZ (Freq r) <? freqZ HOURLY)
    then [Hour dateStart] else Byhour r in
  let byminute :=
    if (len (Opt.Byminute options) =? 0) && (freqZ (Freq r) <? freqZ MINUTELY)
    then [Minute dateStart] else Byminute r in
  let bysecond :=
    if (len (Opt.Bysecond options) =? 0) && (freqZ (Freq r) <? freqZ SECONDLY)
    then [Sec dateStart] else Bysecond r in
  mkRRule (OrigOptions r) options (Freq r) dateStart (Interval r) (Wkst r)
    (Count r) (UntilTime r) (Bysetpos r) (Bymonth r) (Bymonthday r)
    (Bynmonthday r) (Byyearday r) (Byweekno r) (Byweekday r) (Bynweekday r)
    byhour byminute bysecond (Byeaster r)
    (calculateTimeset (Freq r) byhour byminute bysecond (LocationOf dateStart))
    (Len r).

(** [Until]: a new until for the rule. *)
Definition Until (r : RRule) (ut : Time) : RRule :=
  mkRRule (OrigOptions r) (OptUpd.with_Until (Options r) ut) (Freq r)
    (DateStart r) (Interval r) (Wkst r) (Count r) ut (Bysetpos r) (Bymonth r)
    (Bymonthday r) (Bynmonthday r) (Byyearday r) (Byweekno r) (Byweekday r)
    (Bynweekday r) (Byhour r) (Byminute r) (Bysecond r) (Byeaster r)
    (Timeset r) (Len r).

(** * Statements: predicates, relations and rules at hand *)

(** A value lies outside [lo..hi], and, for a signed part, outside
    [-hi..-lo] too. *)
Definition outOfBounds (lo hi : Z) (plusMinus : bool) (v : Z) : Prop :=
  ~ (lo <= v <= hi) /\ (plusMinus = true -> ~ (- hi <= v <= - lo)).

(** The options that [NewRRule] turns down, in the words of the
    documentation. *)
Definition invalidOptions (arg : ROption) : Prop :=
  Exists (outOfBounds 0 59 false) (Opt.Bysecond arg)
  \/ Exists (outOfBounds 0 59 false) (Opt.Byminute arg)
  \/ Exists (outOfBounds 0 23 false) (Opt.Byhour arg)
  \/ Exists (outOfBounds 1 31 true) (Opt.Bymonthday arg)
  \/ Exists (outOfBounds 1 366 true) (Opt.Byyearday arg)
  \/ Exists (outOfBounds 1 53 true) (Opt.Byweekno arg)
  \/ Exists (outOfBounds 1 12 false) (Opt.Bymonth arg)
  \/ Exists (outOfBounds 1 366 true) (Opt.Bysetpos arg)
  \/ Exists (fun w => 53 < Z.abs (wd_n w)) (Opt.Byweekday arg)
  \/ Opt.Interval arg < 0.

(** The start of the rule made of [arg]. *)
Definition startOf (now : Time) (arg : ROption) : Time :=
  TruncateSecond
    (if IsZero (Opt.Dtstart arg) then mkTime (tsec now) (tnsec now) UTC
     else Opt.Dtstart arg).

Ltac normalize_field :=
  unfold normalize, startOf; cbv zeta;
  repeat match goal with |- context [let '(_, _) := ?p in _] => destruct p end;
  cbn [Interval DateStart UntilTime Count Freq Bysetpos Wkst];
  repeat match goal with
         | |- context [IsZero ?t] => destruct (IsZero t)
         end; reflexivity.

Definition intervalZeroOptions : ROption :=
  Opt.mk DAILY (Date 2018 1 1 0 0 0 0 UTC) 0 MO 3 zeroTime
    [] [] [] [] [] [] [] [] [] [] false.

(** Whether a frequency counts positioned weekdays (MONTHLY and YEARLY). *)
Definition keepsPosition (f : Frequency) : bool :=
  match f with YEARLY | MONTHLY => true | _ => false end.

(** No day-selecting part is given. *)
Definition noDaySelector (arg : ROption) : Prop :=
  Opt.Byweekno arg = [] /\ Opt.Byyearday arg = [] /\ Opt.Bymonthday arg = []
  /\ Opt.Byweekday arg = [] /\ Opt.Byeaster arg = [].

Definition weeklyOptions : ROption :=
  Opt.mk WEEKLY (Date 2018 1 1 0 0 0 0 UTC) 2 MO 6 zeroTime
    [] [] [] [] [] [Nth MO 2; TU] [] [] [] [] false.

(** [sameCore r r']: the two rules agree on every field that the iterator
    reads; they may differ in the options they were made of, in [Count]
    and in [Len]. *)
Definition sameCore (r r' : RRule) : Prop :=
  exists o1 o2 c l,
    r' = mkRRule o1 o2 (Freq r) (DateStart r) (Interval r) (Wkst r) c
           (UntilTime r) (Bysetpos r) (Bymonth r) (Bymonthday r)
           (Bynmonthday r) (Byyearday r) (Byweekno r) (Byweekday r)
           (Bynweekday r) (Byhour r) (Byminute r) (Bysecond r) (Byeaster r)
           (Timeset r) l.

(** The iterator after an output loop: the cursor is as before. *)
Definition withEmit (it : rIterator) (tot cnt : Z) (rem : list Time) (fin : bool)
    : rIterator :=
  mkIter (year it) (month it) (day it) (hour it) (minute it) (second it)
    (weekday it) (ii it) (timeset it) tot cnt rem fin.

(** The outcome of a piece of [generate] when it is run on the rule [r2]
    instead: the same, with [r2] written to on return. *)
Definition onRule (r2 : RRule) (ctl : control) : control :=
  match ctl with
  | Return _ it' => Return (set_Len r2 (total it')) it'
  | Continue it' => Continue it'
  end.

Definition mapR {A B} (f : A -> B) (m : result A) : result B :=
  match m with Ok a => Ok (f a) | Panic => Panic | Timeout => Timeout end.

Ltac rsimpl :=
  cbn [mbind result_bind mret result_ret mapR onRule negb andb orb fst snd].

Tactic Notation "rsimpl" "in" hyp(H) :=
  cbn [mbind result_bind mret result_ret mapR onRule negb andb orb fst snd] in H.

Ltac simpl_iter :=
  cbn [year month day hour minute second weekday ii timeset total count
       remain finished withEmit] in *.

(** A candidate lies beyond the rule's until. *)
Definition exceeds (r : RRule) (res : Time) : bool :=
  negb (IsZero (UntilTime r)) && After res (UntilTime r).

(** A candidate is an occurrence: not before the start, and not after the
    until if there is one. *)
Definition inRange (r : RRule) (res : Time) : Prop :=
  Before res (DateStart r) = false /\ exceeds r res = false.

(** The candidates of a list that the output loop takes when nothing is
    counted, and whether it met one beyond the until. *)
Fixpoint accepted (r : RRule) (l : list Time) : list Time * bool :=
  match l with
  | [] => ([], false)
  | res :: l' =>
      if exceeds r res then ([], true)
      else
        let '(a, cut) := accepted r l' in
        if Before res (DateStart r) then (a, cut) else (res :: a, cut)
  end.

(** The candidates of the output loops without BYSETPOS, in their order:
    the days that are left, each at every time of the time set. *)
Definition plainCandidates (info : iterInfo) (ts : list Time) (window : dayset)
    : list Time :=
  flat_map (fun i => map (occurrence info i) ts) (surviving window).

(** The candidates of a period, in the order in which the output loops
    treat them. *)
Definition candidates (r : RRule) (info : iterInfo) (ts : list Time)
    (window : dayset) : result (list Time) :=
  if negb (len (Bysetpos r) =? 0) && negb (len ts =? 0) then
    poslist ← selectPositions r info ts window; Ok (sortTimes poslist)
  else Ok (plainCandidates info ts window).

(** The candidates of the period at a cursor, and whether a day of the
    period was filtered out. *)
Definition periodCandidates (r : RRule) (c : cursor) : result (list Time * bool) :=
  let '(y, m, d, _, _, _, _, info, ts) := c in
  '(set, start, end') ← getdayset r info (Freq r) y m d;
  '(set, filtered) ← filterDays r info set start end';
  window ← slice set start end';
  cands ← candidates r info ts window;
  Ok (cands, filtered).

(** [r'] is [r] up to its [Len]. *)
Definition lenOnly (r r' : RRule) : Prop := r' = set_Len r (Len r').

(** The state after some rounds, against the state before: the rule has
    changed in [Len] at most, and the buffer and [total] have grown by
    occurrences. *)
Definition extends (r : RRule) (it : rIterator) (r' : RRule) (it' : rIterator)
    : Prop :=
  lenOnly r r'
  /\ exists a, Forall (inRange r) a
               /\ remain it' = remain it ++ a
               /\ total it' = total it + len a.

(** Once an iterator has finished, the [Len] of its rule is its [total]. *)
Definition lenWritten (r : RRule) (it : rIterator) : Prop :=
  finished it = true -> Len r = total it.

Definition utc (y mo d h mi s : Z) : Time := Date y mo d h mi s 0 UTC.

(** FREQ=DAILY;COUNT=3 from 2018-01-01T00:00:00Z. *)
Definition dailyOptions : ROption :=
  Opt.mk DAILY (utc 2018 1 1 0 0 0) 0 MO 3 zeroTime
    [] [] [] [] [] [] [] [] [] [] false.

(** FREQ=DAILY;UNTIL=2018-01-03T00:00:00Z from 2018-01-01T00:00:00Z. *)
Definition dailyUntilOptions : ROption :=
  Opt.mk DAILY (utc 2018 1 1 0 0 0) 0 MO 0 (utc 2018 1 3 0 0 0)
    [] [] [] [] [] [] [] [] [] [] false.

(** FREQ=YEARLY;INTERVAL=100 from 2000-01-01T00:00:00Z, with no until. *)
Definition centuryOptions : ROption :=
  Opt.mk YEARLY (utc 2000 1 1 0 0 0) 100 MO 0 zeroTime
    [] [] [] [] [] [] [] [] [] [] false.

(** FREQ=YEARLY;BYEASTER=262 from 2018-01-01T09:00:00Z. *)
Definition easterOptions : ROption :=
  Opt.mk YEARLY (utc 2018 1 1 9 0 0) 0 MO 0 zeroTime
    [] [] [] [] [] [] [] [] [] [262] false.

(** FREQ=DAILY;BYHOUR=9,9;COUNT=2 from 2018-01-01T09:00:00Z. *)
Definition twiceNineOptions : ROption :=
  Opt.mk DAILY (utc 2018 1 1 9 0 0) 0 MO 2 zeroTime
    [] [] [] [] [] [] [9; 9] [] [] [] false.

(** FREQ=MONTHLY;BYMONTHDAY=31;COUNT=4 from 2020-01-31T09:00:00Z. *)
Definition monthEndOptions : ROption :=
  Opt.mk MONTHLY (utc 2020 1 31 9 0 0) 0 MO 4 zeroTime
    [] [] [31] [] [] [] [] [] [] [] false.

(** C1 as stated: after any number of calls of [next], the rule equals
    the rule as constructed. *)
Definition ruleUnchanged (arg : ROption) : Prop :=
  forall r fuel k r' it' outs,
    NewRRule zeroTime arg = inr r ->
    iterate fuel k r = Ok (r', it', outs) ->
    r' = r.

(** FREQ=YEARLY;INTERVAL=100;UNTIL=9999-12-31T23:59:59Z from
    2000-01-01T00:00:00Z. *)
Definition centuryUntilOptions : ROption :=
  OptUpd.with_Until centuryOptions (utc 9999 12 31 23 59 59).

(** C2 as stated: a rule made without an until yields every occurrence
    that the same options yield with an until at the end of [MAXYEAR]. *)
Definition unboundedWithoutUntil (arg : ROption) : Prop :=
  forall fuel k r ru ru' itu' outs,
    NewRRule zeroTime arg = inr r ->
    NewRRule zeroTime (OptUpd.with_Until arg (utc 9999 12 31 23 59 59)) = inr ru ->
    iterate fuel k ru = Ok (ru', itu', outs) ->
    exists r' it', iterate fuel k r = Ok (r', it', outs).

(** The candidate that a position selects, in the words of the
    documentation: [(day_index, time_index)] is [divmod (pos - 1) |ts|] for
    a positive position and [divmod pos |ts|] for a negative one;
    [day_index] subscripts the surviving days [S] as Python does and
    [time_index] the time set. *)
Definition setposCandidate (info : iterInfo) (ts : list Time) (S : list Z)
    (pos : Z) : option Time :=
  let '(day_index, time_index) :=
    if 0 <? pos then divmod (pos - 1) (len ts) else divmod pos (len ts) in
  match pySubscript S day_index, ts !! Z.to_nat time_index with
  | Some i, Some timeTemp => Some (occurrence info i timeTemp)
  | _, _ => None
  end.

(** Removal of the repeated times of a list, the first of each kept. *)
Fixpoint dedupTimes (l : list Time) : list Time :=
  match l with
  | [] => []
  | t :: l' => t :: List.filter (fun u => negb (Time_eqb u t)) (dedupTimes l')
  end.

(** The candidates of a period under BYSETPOS, in the words of the
    documentation: one per position, without the repeated ones, in
    ascending order. *)
Definition setposSpec (positions : list Z) (info : iterInfo) (ts : list Time)
    (S : list Z) : list Time :=
  sortTimes (dedupTimes (omap (setposCandidate info ts S) positions)).

(** [a] is not after [b]. *)
Definition notAfter (a b : Time) : Prop := Before b a = false.

(** FREQ=MONTHLY;BYDAY=MO,TU,WE,TH,FR;BYSETPOS=-1;COUNT=3 from
    2018-01-01T09:00:00Z: the last working day of each month. *)
Definition lastWorkdayOptions : ROption :=
  Opt.mk MONTHLY (utc 2018 1 1 9 0 0) 0 MO 3 zeroTime
    [-1] [] [] [] [] [MO; TU; WE; TH; FR] [] [] [] [] false.

(** The counted iterator [itc] runs in step with the uncounted one [it0]:
    they differ in the count only, and [m] more occurrences may be handed
    out. *)
Definition inStep (m : Z) (it0 itc : rIterator) : Prop :=
  count it0 = 0
  /\ itc = withEmit it0 (total it0) (m - len (remain it0)) (remain it0)
             (finished it0)
  /\ len (remain it0) < m.

(** The counted iterator [itc] has finished: its buffer starts the
    uncounted one's, and holds at most the [m] occurrences that may still
    be handed out; if it holds fewer, the uncounted iterator has finished
    too, with the same buffer. *)
Definition cutShort (m : Z) (it0 itc : rIterator) : Prop :=
  finished itc = true
  /\ exists extra,
       remain it0 = remain itc ++ extra
       /\ len (remain itc) <= m
       /\ (len (remain itc) < m -> extra = [] /\ finished it0 = true).

(** The counted iterator may hand out [m] more occurrences. *)
Definition allows (m : Z) (it : rIterator) : Prop :=
  (0 < count it /\ count it + len (remain it) <= m)
  \/ (finished it = true /\ len (remain it) <= m).

Ltac push_count :=
  repeat match goal with
         | |- context [Opt.Freq (OptUpd.with_Count ?a ?c)] =>
             change (Opt.Freq (OptUpd.with_Count a c)) with (Opt.Freq a)
         | |- context [Opt.Dtstart (OptUpd.with_Count ?a ?c)] =>
             change (Opt.Dtstart (OptUpd.with_Count a c)) with (Opt.Dtstart a)
         | |- context [Opt.Interval (OptUpd.with_Count ?a ?c)] =>
             change (Opt.Interval (OptUpd.with_Count a c)) with (Opt.Interval a)
         | |- context [Opt.Wkst (OptUpd.with_Count ?a ?c)] =>
             change (Opt.Wkst (OptUpd.with_Count a c)) with (Opt.Wkst a)
         | |- context [Opt.Until (OptUpd.with_Count ?a ?c)] =>
             change (Opt.Until (OptUpd.with_Count a c)) with (Opt.Until a)
         | |- context [Opt.Bysetpos (OptUpd.with_Count ?a ?c)] =>
             change (Opt.Bysetpos (OptUpd.with_Count a c)) with (Opt.Bysetpos a)
         | |- context [Opt.Bymonth (OptUpd.with_Count ?a ?c)] =>
             change (Opt.Bymonth (OptUpd.with_Count a c)) with (Opt.Bymonth a)
         | |- context [Opt.Bymonthday (OptUpd.with_Count ?a ?c)] =>
             change (Opt.Bymonthday (OptUpd.with_Count a c)) with (Opt.Bymonthday a)
         | |- context [Opt.Byyearday (OptUpd.with_Count ?a ?c)] =>
             change (Opt.Byyearday (OptUpd.with_Count a c)) with (Opt.Byyearday a)
         | |- context [Opt.Byweekno (OptUpd.with_Count ?a ?c)] =>
             change (Opt.Byweekno (OptUpd.with_Count a c)) with (Opt.Byweekno a)
         | |- context [Opt.Byweekday (OptUpd.with_Count ?a ?c)] =>
             change (Opt.Byweekday (OptUpd.with_Count a c)) with (Opt.Byweekday a)
         | |- context [Opt.Byhour (OptUpd.with_Count ?a ?c)] =>
             change (Opt.Byhour (OptUpd.with_Count a c)) with (Opt.Byhour a)
         | |- context [Opt.Byminute (OptUpd.with_Count ?a ?c)] =>
             change (Opt.Byminute (OptUpd.with_Count a c)) with (Opt.Byminute a)
         | |- context [Opt.Bysecond (OptUpd.with_Count ?a ?c)] =>
             change (Opt.Bysecond (OptUpd.with_Count a c)) with (Opt.Bysecond a)
         | |- context [Opt.Byeaster (OptUpd.with_Count ?a ?c)] =>
             change (Opt.Byeaster (OptUpd.with_Count a c)) with (Opt.Byeaster a)
         | |- context [Opt.Count (OptUpd.with_Count ?a ?c)] =>
             change (Opt.Count (OptUpd.with_Count a c)) with c
         | |- context [OptUpd.with_Dtstart (OptUpd.with_Count ?a ?c) ?v] =>
             change (OptUpd.with_Dtstart (OptUpd.with_Count a c) v)
               with (OptUpd.with_Count (OptUpd.with_Dtstart a v) c)
         | |- context [OptUpd.with_Until (OptUpd.with_Count ?a ?c) ?v] =>
             change (OptUpd.with_Until (OptUpd.with_Count a c) v)
               with (OptUpd.with_Count (OptUpd.with_Until a v) c)
         end.

Ltac iter_simpl :=
  repeat match goal with
         | |- context [withEmit (withEmit ?it ?t ?c ?rm ?f) ?t' ?c' ?rm' ?f'] =>
             change (withEmit (withEmit it t c rm f) t' c' rm' f')
               with (withEmit it t' c' rm' f')
         | |- context [count (withEmit ?it ?t ?c ?rm ?f)] =>
             change (count (withEmit it t c rm f)) with c
         | |- context [total (withEmit ?it ?t ?c ?rm ?f)] =>
             change (total (withEmit it t c rm f)) with t
         | |- context [remain (withEmit ?it ?t ?c ?rm ?f)] =>
             change (remain (withEmit it t c rm f)) with rm
         | |- context [finished (withEmit ?it ?t ?c ?rm ?f)] =>
             change (finished (withEmit it t c rm f)) with f
         end.

Tactic Notation "iter_simpl" "in" hyp(H) :=
  repeat match type of H with
         | context [withEmit (withEmit ?it ?t ?c ?rm ?f) ?t' ?c' ?rm' ?f'] =>
             change (withEmit (withEmit it t c rm f) t' c' rm' f')
               with (withEmit it t' c' rm' f') in H
         | context [count (withEmit ?it ?t ?c ?rm ?f)] =>
             change (count (withEmit it t c rm f)) with c in H
         | context [total (withEmit ?it ?t ?c ?rm ?f)] =>
             change (total (withEmit it t c rm f)) with t in H
         | context [remain (withEmit ?it ?t ?c ?rm ?f)] =>
             change (remain (withEmit it t c rm f)) with rm in H
         | context [finished (withEmit ?it ?t ?c ?rm ?f)] =>
             change (finished (withEmit it t c rm f)) with f in H
         end.

Ltac push_opts :=
  repeat match goal with
         | |- context [Opt.Freq (OptUpd.with_Dtstart ?a ?v)] =>
             change (Opt.Freq (OptUpd.with_Dtstart a v)) with (Opt.Freq a)
         | |- context [Opt.Dtstart (OptUpd.with_Dtstart ?a ?v)] =>
             change (Opt.Dtstart (OptUpd.with_Dtstart a v)) with v
         | |- context [Opt.Interval (OptUpd.with_Dtstart ?a ?v)] =>
             change (Opt.Interval (OptUpd.with_Dtstart a v)) with (Opt.Interval a)
         | |- context [Opt.Wkst (OptUpd.with_Dtstart ?a ?v)] =>
             change (Opt.Wkst (OptUpd.with_Dtstart a v)) with (Opt.Wkst a)
         | |- context [Opt.Count (OptUpd.with_Dtstart ?a ?v)] =>
             change (Opt.Count (OptUpd.with_Dtstart a v)) with (Opt.Count a)
         | |- context [Opt.Until (OptUpd.with_Dtstart ?a ?v)] =>
             change (Opt.Until (OptUpd.with_Dtstart a v)) with (Opt.Until a)
         | |- context [Opt.Bysetpos (OptUpd.with_Dtstart ?a ?v)] =>
             change (Opt.Bysetpos (OptUpd.with_Dtstart a v)) with (Opt.Bysetpos a)
         | |- context [Opt.Bymonth (OptUpd.with_Dtstart ?a ?v)] =>
             change (Opt.Bymonth (OptUpd.with_Dtstart a v)) with (Opt.Bymonth a)
         | |- context [Opt.Bymonthday (OptUpd.with_Dtstart ?a ?v)] =>
             change (Opt.Bymonthday (OptUpd.with_Dtstart a v)) with (Opt.Bymonthday a)
         | |- context [Opt.Byyearday (OptUpd.with_Dtstart ?a ?v)] =>
             change (Opt.Byyearday (OptUpd.with_Dtstart a v)) with (Opt.Byyearday a)
         | |- context [Opt.Byweekno (OptUpd.with_Dtstart ?a ?v)] =>
             change (Opt.Byweekno (OptUpd.with_Dtstart a v)) with (Opt.Byweekno a)
         | |- context [Opt.Byweekday (OptUpd.with_Dtstart ?a ?v)] =>
             change (Opt.Byweekday (OptUpd.with_Dtstart a v)) with (Opt.Byweekday a)
         | |- context [Opt.Byhour (OptUpd.with_Dtstart ?a ?v)] =>
             change (Opt.Byhour (OptUpd.with_Dtstart a v)) with (Opt.Byhour a)
         | |- context [Opt.Byminute (OptUpd.with_Dtstart ?a ?v)] =>
             change (Opt.Byminute (OptUpd.with_Dtstart a v)) with (Opt.Byminute a)
         | |- context [Opt.Bysecond (OptUpd.with_Dtstart ?a ?v)] =>
             change (Opt.Bysecond (OptUpd.with_Dtstart a v)) with (Opt.Bysecond a)
         | |- context [Opt.Byeaster (OptUpd.with_Dtstart ?a ?v)] =>
             change (Opt.Byeaster (OptUpd.with_Dtstart a v)) with (Opt.Byeaster a)
         | |- context [Opt.RFC (OptUpd.with_Dtstart ?a ?v)] =>
             change (Opt.RFC (OptUpd.with_Dtstart a v)) with (Opt.RFC a)
         | |- context [Opt.Freq (OptUpd.with_Until ?a ?v)] =>
             change (Opt.Freq (OptUpd.with_Until a v)) with (Opt.Freq a)
         | |- context [Opt.Dtstart (OptUpd.with_Until ?a ?v)] =>
             change (Opt.Dtstart (OptUpd.with_Until a v)) with (Opt.Dtstart a)
         | |- context [Opt.Interval (OptUpd.with_Until ?a ?v)] =>
             change (Opt.Interval (OptUpd.with_Until a v)) with (Opt.Interval a)
         | |- context [Opt.Wkst (OptUpd.with_Until ?a ?v)] =>
             change (Opt.Wkst (OptUpd.with_Until a v)) with (Opt.Wkst a)
         | |- context [Opt.Count (OptUpd.with_Until ?a ?v)] =>
             change (Opt.Count (OptUpd.with_Until a v)) with (Opt.Count a)
         | |- context [Opt.Until (OptUpd.with_Until ?a ?v)] =>
             change (Opt.Until (OptUpd.with_Until a v)) with v
         | |- context [Opt.Bysetpos (OptUpd.with_Until ?a ?v)] =>
             change (Opt.Bysetpos (OptUpd.with_Until a v)) with (Opt.Bysetpos a)
         | |- context [Opt.Bymonth (OptUpd.with_Until ?a ?v)] =>
             change (Opt.Bymonth (OptUpd.with_Until a v)) with (Opt.Bymonth a)
         | |- context [Opt.Bymonthday (OptUpd.with_Until ?a ?v)] =>
             change (Opt.Bymonthday (OptUpd.with_Until a v)) with (Opt.Bymonthday a)
         | |- context [Opt.Byyearday (OptUpd.with_Until ?a ?v)] =>
             change (Opt.Byyearday (OptUpd.with_Until a v)) with (Opt.Byyearday a)
         | |- context [Opt.Byweekno (OptUpd.with_Until ?a ?v)] =>
             change (Opt.Byweekno (OptUpd.with_Until a v)) with (Opt.Byweekno a)
         | |- context [Opt.Byweekday (OptUpd.with_Until ?a ?v)] =>
             change (Opt.Byweekday (OptUpd.with_Until a v)) with (Opt.Byweekday a)
         | |- context [Opt.Byhour (OptUpd.with_Until ?a ?v)] =>
             change (Opt.Byhour (OptUpd.with_Until a v)) with (Opt.Byhour a)
         | |- context [Opt.Byminute (OptUpd.with_Until ?a ?v)] =>
             change (Opt.Byminute (OptUpd.with_Until a v)) with (Opt.Byminute a)
         | |- context [Opt.Bysecond (OptUpd.with_Until ?a ?v)] =>
             change (Opt.Bysecond (OptUpd.with_Until a v)) with (Opt.Bysecond a)
         | |- context [Opt.Byeaster (OptUpd.with_Until ?a ?v)] =>
             change (Opt.Byeaster (OptUpd.with_Until a v)) with (Opt.Byeaster a)
         | |- context [Opt.RFC (OptUpd.with_Until ?a ?v)] =>
             change (Opt.RFC (OptUpd.with_Until a v)) with (Opt.RFC a)
         end.

(** A value lies in [lo..hi] or, for a signed part, in [-hi..-lo]. *)
Definition inBounds (lo hi : Z) (plusMinus : bool) (v : Z) : Prop :=
  lo <= v <= hi \/ (plusMinus = true /\ - hi <= v <= - lo).

(** FREQ=YEARLY;BYMONTHDAY=-1,15;BYDAY=-1FR from 2018-01-01T09:00:00Z. *)
Definition mixedOptions : ROption :=
  Opt.mk YEARLY (utc 2018 1 1 9 0 0) 0 MO 0 zeroTime
    [] [] [-1; 15] [] [] [Nth FR (-1)] [] [] [] [] false.

(** Day [i] of a year lies in the month that the month mask gives it,
    between that month's bounds in the range table, and the month-day
    masks count it from the start and from the end of the month. *)
Definition dayEntry (mm mdm nmdm mr : list Z) (i : Z) : Prop :=
  exists m d nd lo hi,
    mm !! Z.to_nat i = Some m /\ mdm !! Z.to_nat i = Some d
    /\ nmdm !! Z.to_nat i = Some nd
    /\ 1 <= m <= 12
    /\ mr !! Z.to_nat (m - 1) = Some lo /\ mr !! Z.to_nat m = Some hi
    /\ lo <= i < hi /\ d = i - lo + 1 /\ nd = i - hi.

Definition dayEntryb (mm mdm nmdm mr : list Z) (i : Z) : bool :=
  match mm !! Z.to_nat i, mdm !! Z.to_nat i, nmdm !! Z.to_nat i with
  | Some m, Some d, Some nd =>
      match mr !! Z.to_nat (m - 1), mr !! Z.to_nat m with
      | Some lo, Some hi =>
          (1 <=? m) && (m <=? 12) && (lo <=? i) && (i <? hi)
          && (d =? i - lo + 1) && (nd =? i - hi)
      | _, _ => false
      end
  | _, _, _ => false
  end.

(** The seven entries after the year are the first week of a January. *)
Definition overhangEntryb (mm mdm nmdm : list Z) (ylen i : Z) : bool :=
  match mm !! Z.to_nat i, mdm !! Z.to_nat i, nmdm !! Z.to_nat i with
  | Some m, Some d, Some nd => (m =? 1) && (d =? i - ylen + 1) && (nd =? i - ylen - 31)
  | _, _, _ => false
  end.

(** No hour of the rule is among those that the HOURLY stepper visits from
    the hour [h] on. *)
Definition unreachableHour (r : RRule) (h : Z) : Prop :=
  forall n, 0 <= n -> contains (Byhour r) ((h + n * Interval r) mod 24) = false.

(** FREQ=HOURLY;INTERVAL=2;BYHOUR=1 from 2018-01-01T00:00:00Z. *)
Definition oddHourOptions : ROption :=
  Opt.mk HOURLY (utc 2018 1 1 0 0 0) 2 MO 0 zeroTime
    [] [] [] [] [] [] [1] [] [] [] false.

Definition plainRule (r : RRule) : Prop :=
  (Freq r = YEARLY \/ Freq r = MONTHLY)
  /\ Byweekno r = [] /\ Byeaster r = [] /\ Bynweekday r = []
  /\ 1 <= Interval r < 2 ^ 62
  /\ Forall (fun pos => pos <> 0) (Bysetpos r).

(** The tables of a year, as [rebuild] leaves them for such a rule. *)
Definition tablesOk (info : iterInfo) : Prop :=
  (yearlen info = 365 \/ yearlen info = 366)
  /\ len (mmask info) = yearlen info + 7
  /\ len (mdaymask info) = yearlen info + 7
  /\ len (nmdaymask info) = yearlen info + 7
  /\ yearlen info + 7 <= len (wdaymask info)
  /\ mrange info = (if yearlen info =? 365 then M365RANGE else M366RANGE)
  /\ nwdaymask info = [].

(** The cursor of an iterator in the course of an iteration. *)
Definition cursorOk (it : rIterator) : Prop :=
  1 <= month it <= 12 /\ 1 <= year it <= MAXYEAR /\ tablesOk (ii it).

(** The months left up to the end of [MAXYEAR]. *)
Definition monthsLeft (it : rIterator) : nat :=
  Z.to_nat (120012 - (12 * year it + month it)).

(** An iterator that [next] can be called on with the fuel at hand. *)
Definition goodIter (fuel : nat) (it : rIterator) : Prop :=
  finished it = true \/ (cursorOk it /\ (monthsLeft it < fuel)%nat).

(** The zero-based day of the year of a date, and the length of a month. *)
Definition ydayOf (y : Z) (m : Month) (d : Z) : Z :=
  nth (Z.to_nat (m - 1)) daysBefore 0
  + (if leapYear y && (2 <=? m - 1) then 1 else 0) + (d - 1).

Definition monthLength (y : Z) (m : Month) : Z :=
  nth (Z.to_nat m) daysBefore 0 - nth (Z.to_nat (m - 1)) daysBefore 0
  + (if leapYear y && (m =? 2) then 1 else 0).

Ltac eval_tables :=
  repeat match goal with
         | |- context [nth ?n daysBefore 0] =>
             let v := eval vm_compute in (nth n daysBefore 0) in
             change (nth n daysBefore 0) with v
         | |- context [if ?c then 1 else 0] =>
             let v := eval vm_compute in c in
             change (if c then 1 else 0) with (if v then 1 else 0); cbv iota
         end.

(** The month masks against the calendar of the year [y0]. *)
Definition maskEntryb (mm mdm nmdm : list Z) (y0 i : Z) : bool :=
  match mm !! Z.to_nat i, mdm !! Z.to_nat i, nmdm !! Z.to_nat i with
  | Some m, Some d, Some nd =>
      (m =? fst (monthDay y0 i)) && (d =? snd (monthDay y0 i))
      && (nd =? snd (monthDay y0 i) - monthLength y0 (fst (monthDay y0 i)) - 1)
  | _, _, _ => false
  end.

(** The month and the day of a day of the year, against a year [y0]. *)
Definition monthDayb (y0 yd : Z) : bool :=
  let '(m, d) := monthDay y0 yd in
  (1 <=? m) && (m <=? 12) && (1 <=? d) && (d <=? monthLength y0 m)
  && (ydayOf y0 m d =? yd).

(** The dates of a year [y0], numbered by [31 * (m - 1) + (d - 1)]. *)
Definition ydayOfb (y0 k : Z) : bool :=
  let m := k / 31 + 1 in
  let d := k mod 31 + 1 in
  (monthLength y0 m <? d)
  || (fst (monthDay y0 (ydayOf y0 m d)) =? m)
     && (snd (monthDay y0 (ydayOf y0 m d)) =? d).

(** The tables of the year [y], as the calendar has them. *)
Definition calendarOf (loc : Location) (y : Z) (info : iterInfo) : Prop :=
  lastyear info = y
  /\ yearlen info = 365 + isLeap y
  /\ firstyday info = Date y 1 1 0 0 0 0 loc
  /\ mrange info = (if 365 + isLeap y =? 365 then M365RANGE else M366RANGE)
  /\ nwdaymask info = []
  /\ (forall i, 0 <= i < 365 + isLeap y ->
        index (mmask info) i = Ok (fst (monthDay y i))
        /\ index (mdaymask info) i = Ok (snd (monthDay y i))
        /\ exists nd, index (nmdaymask info) i = Ok nd)
  /\ (forall i, 0 <= i < 379 ->
        index (wdaymask info) i = Ok ((daysSinceEpoch y + i) mod 7)).

(** The bounds of the months in the range table, over the pairs of a day
    and a month of the year [y0]. *)
Definition monthBoundsb (mr : list Z) (y0 j : Z) : bool :=
  let k := j / 12 in
  let m := j mod 12 + 1 in
  match mr !! Z.to_nat (m - 1), mr !! Z.to_nat m with
  | Some lo, Some hi =>
      (0 <=? lo) && (lo <=? hi) && (hi <=? 365 + isLeap y0)
      && (hi - lo =? monthLength y0 m)
      && Bool.eqb ((lo <=? k) && (k <? hi)) (fst (monthDay y0 k) =? m)
  | _, _ => false
  end.

(** A rule whose parts are those that [NewRRule] takes from the start
    when the options name none. *)
Definition startOnly (r : RRule) : Prop :=
  let s := DateStart r in
  Bysetpos r = [] /\ Byyearday r = [] /\ Byweekno r = [] /\ Byeaster r = []
  /\ Bynweekday r = [] /\ Bynmonthday r = []
  /\ Bymonth r = match Freq r with YEARLY => [MonthOf s] | _ => [] end
  /\ Bymonthday r = match Freq r with YEARLY | MONTHLY => [Day s] | _ => [] end
  /\ Byweekday r
     = match Freq r with WEEKLY => [toPyWeekday (WeekdayOf s)] | _ => [] end
  /\ Byhour r = (if freqZ (Freq r) <? freqZ HOURLY then [Hour s] else [])
  /\ Byminute r = (if freqZ (Freq r) <? freqZ MINUTELY then [Minute s] else [])
  /\ Bysecond r = (if freqZ (Freq r) <? freqZ SECONDLY then [Sec s] else [])
  /\ Timeset r
     = calculateTimeset (Freq r) (Byhour r) (Byminute r) (Bysecond r)
         (LocationOf s)
  /\ tnsec s = 0 /\ 1 <= Interval r.

(** The filter test of a rule that has months, weekdays and positive
    month days only, on day [k] of the year [y]. *)
Definition calendarRejects (r : RRule) (y k : Z) : bool :=
  negb (len (Bymonth r) =? 0) && negb (contains (Bymonth r) (fst (monthDay y k)))
  || negb (len (Byweekday r) =? 0)
     && negb (contains (Byweekday r) ((daysSinceEpoch y + k) mod 7))
  || negb (len (Bymonthday r) =? 0)
     && negb (contains (Bymonthday r) (snd (monthDay y k))).

(** Options that name no BY part. *)
Definition bareOptions (arg : ROption) : Prop :=
  Opt.Bysetpos arg = [] /\ Opt.Bymonth arg = [] /\ Opt.Bymonthday arg = []
  /\ Opt.Byyearday arg = [] /\ Opt.Byweekno arg = [] /\ Opt.Byweekday arg = []
  /\ Opt.Byhour arg = [] /\ Opt.Byminute arg = [] /\ Opt.Bysecond arg = []
  /\ Opt.Byeaster arg = [].

(** FREQ=WEEKLY;INTERVAL=2 from 2018-03-14T09:30:00Z. *)
Definition fortnightOptions : ROption :=
  Opt.mk WEEKLY (utc 2018 3 14 9 30 0) 2 MO 0 zeroTime
    [] [] [] [] [] [] [] [] [] [] false.

(** The reading of the BY parts on a date: [true] when the month, the
    weekday, the day of the month (counted from the start or back from the
    end of the month) or the day of the year (likewise) of [t] is not among
    those that the rule names. *)
Definition dateRejected (r : RRule) (t : Time) : bool :=
  let ylen := 365 + isLeap (Year t) in
  negb (len (Bymonth r) =? 0) && negb (contains (Bymonth r) (MonthOf t))
  || negb (len (Byweekday r) =? 0)
     && negb (contains (Byweekday r) (toPyWeekday (WeekdayOf t)))
  || (negb (len (Bymonthday r) =? 0) || negb (len (Bynmonthday r) =? 0))
     && negb (contains (Bymonthday r) (Day t))
     && negb (contains (Bynmonthday r)
                (Day t - daysIn (MonthOf t) (Year t) - 1))
  || negb (len (Byyearday r) =? 0)
     && negb (contains (Byyearday r) (YearDay t))
     && negb (contains (Byyearday r) (YearDay t - ylen - 1)).

(** The days of the year, or of the month [m] for a MONTHLY rule, that
    pass the BY parts, counted from January 1. *)
Definition periodDays (r : RRule) (info : iterInfo) (m : Month) : list Z :=
  List.filter
    (fun k =>
       let t := AddDate (firstyday info) 0 0 k in
       match Freq r with MONTHLY => MonthOf t =? m | _ => true end
       && negb (dateRejected r t))
    (rang 0 (yearlen info)).

(** * Properties *)

(** * Properties *)

(** ** Validation and construction *)

Lemma firstError_None {A} (f : A -> option error) (l : list A) :
  firstError f l = None <-> Forall (fun x => f x = None) l.
Proof.
  induction l as [|x l IH]; simpl.
  - split; [constructor | reflexivity].
  - destruct (f x) eqn:E.
    + split; [discriminate | intros H; inversion H; congruence].
    + rewrite IH. split; [intros; constructor; assumption | intros H; inversion H; assumption].
Qed.

Lemma firstError_Some {A} (f : A -> option error) (l : list A) :
  (exists e, firstError f l = Some e) <-> Exists (fun x => f x <> None) l.
Proof.
  induction l as [|x l IH]; simpl.
  - split; [intros [e He]; discriminate | intros H; inversion H].
  - destruct (f x) eqn:E.
    + split; [intros _; left; congruence | eauto].
    + rewrite IH. split; [intros H; right; assumption |].
      intros H; inversion H; subst; [congruence | assumption].
Qed.

Lemma firstError_not_None {A} (f : A -> option error) (l : list A) :
  firstError f l <> None <-> Exists (fun x => f x <> None) l.
Proof.
  rewrite <- firstError_Some. destruct (firstError f l) as [e|].
  - split; [eauto | congruence].
  - split; [congruence | intros [e He]; discriminate].
Qed.

Lemma checkBounds_Some param v lo hi pm :
  checkBounds param v lo hi pm <> None <-> outOfBounds lo hi pm v.
Proof.
  unfold checkBounds, outOfBounds.
  destruct (lo <=? v) eqn:E1, (v <=? hi) eqn:E2, pm,
    (v <=? - lo) eqn:E3, (- hi <=? v) eqn:E4; simpl;
    split; try congruence; try (intros _; split; [lia | intros; lia]);
    intros [H1 H2]; try lia; try (specialize (H2 eq_refl); lia).
Qed.

Lemma Exists_checkBounds param lo hi pm l :
  Exists (fun v => checkBounds param v lo hi pm <> None) l
  <-> Exists (outOfBounds lo hi pm) l.
Proof.
  split; intros H; induction H; try (right; assumption);
    left; apply (checkBounds_Some param); assumption.
Qed.

Lemma validateBounds_Some arg :
  (exists e, validateBounds arg = Some e) <-> invalidOptions arg.
Proof.
  unfold validateBounds, invalidOptions.
  match goal with |- context [firstError ?f (boundsTable arg)] =>
    set (F := f) end.
  match goal with |- context [firstError ?f (Opt.Byweekday arg)] =>
    set (G := f) end.
  assert (HF : (exists e, firstError F (boundsTable arg) = Some e) <->
    Exists (outOfBounds 0 59 false) (Opt.Bysecond arg)
    \/ Exists (outOfBounds 0 59 false) (Opt.Byminute arg)
    \/ Exists (outOfBounds 0 23 false) (Opt.Byhour arg)
    \/ Exists (outOfBounds 1 31 true) (Opt.Bymonthday arg)
    \/ Exists (outOfBounds 1 366 true) (Opt.Byyearday arg)
    \/ Exists (outOfBounds 1 53 true) (Opt.Byweekno arg)
    \/ Exists (outOfBounds 1 12 false) (Opt.Bymonth arg)
    \/ Exists (outOfBounds 1 366 true) (Opt.Bysetpos arg)).
  { rewrite firstError_Some. unfold boundsTable.
    repeat rewrite Exists_cons. rewrite Exists_nil. subst F. cbv beta iota.
    repeat rewrite firstError_not_None.
    repeat rewrite Exists_checkBounds. tauto. }
  assert (HG : (exists e, firstError G (Opt.Byweekday arg) = Some e) <->
    Exists (fun w => 53 < Z.abs (wd_n w)) (Opt.Byweekday arg)).
  { rewrite firstError_Some. subst G.
    split; intros H; induction H; try (right; assumption); left.
    - destruct (53 <? wd_n x) eqn:E1, (wd_n x <? -53) eqn:E2;
        simpl in *; try congruence; lia.
    - destruct (53 <? wd_n x) eqn:E1, (wd_n x <? -53) eqn:E2;
        simpl in *; try congruence; lia. }
  destruct (firstError F (boundsTable arg)) as [e|] eqn:EF.
  { split; [intros _ | eauto]. apply proj1 in HF.
    specialize (HF (ex_intro _ e eq_refl)). tauto. }
  destruct (firstError G (Opt.Byweekday arg)) as [e|] eqn:EG.
  { split; [intros _ | eauto]. apply proj1 in HG.
    specialize (HG (ex_intro _ e eq_refl)). tauto. }
  assert (NF : ~ exists e, @None error = Some e) by (intros [e He]; discriminate).
  destruct (Opt.Interval arg <? 0) eqn:EI.
  - split; [intros _ | eauto]. do 9 right. lia.
  - split; [intros [e He]; discriminate |].
    intros H. exfalso.
    assert (HF' : ~ (exists e, @None error = Some e)) by assumption.
    rewrite HF in HF'. rewrite HG in NF.
    assert (~ Opt.Interval arg < 0) by lia. tauto.
Qed.

(** C7: [NewRRule] returns an error exactly when some numeric BY* value
    lies outside its documented bounds (seconds and minutes 0..59, hours
    0..23, month-day +-1..31, year-day +-1..366, week-no +-1..53, month
    1..12, set-pos +-1..366), or some Byweekday ordinal N has |N| > 53, or
    the interval is negative; an interval of 0 is accepted and becomes 1. *)
Lemma NewRRule_inr (now : Time) (arg : ROption) (r : RRule) :
  NewRRule now arg = inr r <->
  validateBounds arg = None /\ r = normalize now arg.
Proof.
  unfold NewRRule. destruct (validateBounds arg) as [e|].
  - split; [discriminate | intros [H _]; discriminate].
  - split; [intros H; injection H as <-; auto | intros [_ ->]; reflexivity].
Qed.

Lemma normalize_Interval now arg :
  Interval (normalize now arg)
  = if Opt.Interval arg =? 0 then 1 else Opt.Interval arg.
Proof. normalize_field. Qed.

Lemma normalize_DateStart now arg :
  DateStart (normalize now arg) = startOf now arg.
Proof. normalize_field. Qed.

Lemma normalize_Freq now arg : Freq (normalize now arg) = Opt.Freq arg.
Proof. normalize_field. Qed.

Lemma normalize_Count now arg : Count (normalize now arg) = Opt.Count arg.
Proof. normalize_field. Qed.

Lemma normalize_UntilTime now arg :
  UntilTime (normalize now arg)
  = if IsZero (Opt.Until arg) then Add (startOf now arg) maxDuration
    else Opt.Until arg.
Proof.
  unfold normalize, startOf; cbv zeta;
  repeat match goal with |- context [let '(_, _) := ?p in _] => destruct p end.
  cbn [UntilTime].
  destruct (IsZero (Opt.Dtstart arg)); cbn;
    destruct (IsZero (Opt.Until arg)); reflexivity.
Qed.

Theorem NewRRule_error_iff (now : Time) (arg : ROption) :
  ((exists e, NewRRule now arg = inl e) <-> invalidOptions arg)
  /\ (Opt.Interval arg = 0 ->
      forall r, NewRRule now arg = inr r -> Interval r = 1).
Proof.
  split.
  - rewrite <- validateBounds_Some. unfold NewRRule.
    destruct (validateBounds arg) as [e|].
    + split; eauto.
    + split; intros [e He]; discriminate.
  - intros H0 r Hr. apply NewRRule_inr in Hr as [_ ->].
    rewrite normalize_Interval, H0. reflexivity.
Qed.

Lemma NewRRule_error_iff_witness :
  Opt.Interval intervalZeroOptions = 0
  /\ exists r, NewRRule zeroTime intervalZeroOptions = inr r /\ Interval r = 1.
Proof.
  split; [reflexivity |].
  destruct (NewRRule zeroTime intervalZeroOptions) as [e|r] eqn:E.
  { vm_compute in E. discriminate. }
  exists r. split; [reflexivity |].
  apply (proj2 (NewRRule_error_iff zeroTime intervalZeroOptions)
           eq_refl r E).
Defined.

(** ** Calendar facts *)

Lemma absDate_yday (days : Z) : 0 <= snd (absDate days) <= 365.
Proof.
  unfold absDate. cbv zeta. simpl snd.
  Z.to_euclidean_division_equations. lia.
Qed.

Lemma monthDay_day (year yday : Z) : 0 <= yday -> 1 <= snd (monthDay year yday).
Proof.
  intros H. unfold monthDay.
  destruct (leapYear year && (yday =? 59)); [simpl; lia |].
  set (day := if leapYear year && (59 <? yday) then yday - 1 else yday).
  assert (Hd : 0 <= day).
  { subst day. destruct (leapYear year); simpl; [| lia].
    destruct (59 <? yday) eqn:E; lia. }
  clearbody day. cbv zeta.
  set (e := nth (Z.to_nat (day / 31 + 1)) daysBefore 0).
  set (b := nth (Z.to_nat (day / 31)) daysBefore 0).
  assert (Hb : b <= day).
  { assert (Hm : 0 <= day / 31) by (apply Z.div_pos; lia).
    pose proof (Z.mul_div_le day 31 ltac:(lia)) as Hq.
    subst b.
    destruct (Z.to_nat (day / 31))
      as [|[|[|[|[|[|[|[|[|[|[|[|[|k]]]]]]]]]]]]] eqn:Ek;
      cbn [nth daysBefore]; try lia.
    destruct k; cbn [nth]; lia. }
  destruct (e <=? day) eqn:E; cbn [snd]; lia.
Qed.

Lemma Day_ge_1 (t : Time) : 1 <= Day t.
Proof.
  unfold Day. pose proof (absDate_yday (abs t / 86400)) as H.
  destruct (absDate (abs t / 86400)) as [y yd]. simpl in H.
  apply monthDay_day. lia.
Qed.

Lemma splitMonthdays_filter (l : list Z) :
  splitMonthdays l
  = (List.filter (fun d => 0 <? d) l, List.filter (fun d => d <? 0) l).
Proof.
  unfold splitMonthdays.
  enough (H : forall pos neg,
    fold_left
      (fun '(pos, neg) mday =>
         if 0 <? mday then (pos ++ [mday], neg)
         else if mday <? 0 then (pos, neg ++ [mday]) else (pos, neg))
      l (pos, neg)
    = (pos ++ List.filter (fun d => 0 <? d) l,
       neg ++ List.filter (fun d => d <? 0) l)) by apply (H [] []).
  induction l as [|d l IH]; intros pos neg; simpl.
  - rewrite !app_nil_r. reflexivity.
  - destruct (0 <? d) eqn:E1; [| destruct (d <? 0) eqn:E2]; rewrite IH.
    + assert ((d <? 0) = false) as -> by lia. rewrite <- app_assoc. reflexivity.
    + rewrite <- app_assoc. reflexivity.
    + reflexivity.
Qed.

Lemma splitWeekdays_filter (freq : Frequency) (l : list Weekday) :
  splitWeekdays freq l
  = (map wd_weekday
       (List.filter (fun w => (wd_n w =? 0) || negb (keepsPosition freq)) l),
     List.filter (fun w => negb (wd_n w =? 0) && keepsPosition freq) l).
Proof.
  unfold splitWeekdays.
  assert (Hk : (freqZ MONTHLY <? freqZ freq) = negb (keepsPosition freq))
    by (destruct freq; reflexivity).
  rewrite Hk.
  enough (H : forall plain positioned,
    fold_left
      (fun '(plain, positioned) wday =>
         if (wd_n wday =? 0) || negb (keepsPosition freq)
         then (plain ++ [wd_weekday wday], positioned)
         else (plain, positioned ++ [wday]))
      l (plain, positioned)
    = (plain ++ map wd_weekday
         (List.filter (fun w => (wd_n w =? 0) || negb (keepsPosition freq)) l),
       positioned
       ++ List.filter (fun w => negb (wd_n w =? 0) && keepsPosition freq) l))
    by apply (H [] []).
  induction l as [|w l IH]; intros plain positioned; simpl.
  - rewrite !app_nil_r. reflexivity.
  - destruct (wd_n w =? 0), (keepsPosition freq); simpl; rewrite IH; simpl;
      rewrite <- ?app_assoc; reflexivity.
Qed.

(** C8: when none of BYWEEKNO, BYYEARDAY, BYMONTHDAY, BYDAY, BYEASTER is
    given, [NewRRule] takes defaults from the start (YEARLY: BYMONTH is the
    start's month if unset and BYMONTHDAY the start's day; MONTHLY:
    BYMONTHDAY the start's day; WEEKLY: BYDAY the start's weekday); and a
    BYDAY entry with N <> 0 stays a positioned weekday only when the
    frequency is MONTHLY or YEARLY, otherwise it joins the unpositioned
    weekdays. *)
Theorem NewRRule_defaults (now : Time) (arg : ROption) (r : RRule) :
  NewRRule now arg = inr r ->
  (noDaySelector arg ->
   match Opt.Freq arg with
   | YEARLY =>
       Bymonth r = (if len (Opt.Bymonth arg) =? 0 then [MonthOf (DateStart r)]
                    else Opt.Bymonth arg)
       /\ Bymonthday r = [Day (DateStart r)] /\ Bynmonthday r = []
       /\ Byweekday r = [] /\ Bynweekday r = []
   | MONTHLY =>
       Bymonth r = Opt.Bymonth arg
       /\ Bymonthday r = [Day (DateStart r)] /\ Bynmonthday r = []
       /\ Byweekday r = [] /\ Bynweekday r = []
   | WEEKLY =>
       Bymonth r = Opt.Bymonth arg
       /\ Bymonthday r = [] /\ Bynmonthday r = []
       /\ Byweekday r = [toPyWeekday (WeekdayOf (DateStart r))]
       /\ Bynweekday r = []
   | _ =>
       Bymonth r = Opt.Bymonth arg
       /\ Bymonthday r = [] /\ Bynmonthday r = []
       /\ Byweekday r = [] /\ Bynweekday r = []
   end)
  /\ Bynweekday r
     = List.filter (fun w => negb (wd_n w =? 0) && keepsPosition (Freq r))
         (Opt.Byweekday arg)
  /\ (Opt.Byweekday arg <> [] ->
      Byweekday r
      = map wd_weekday
          (List.filter (fun w => (wd_n w =? 0) || negb (keepsPosition (Freq r)))
             (Opt.Byweekday arg))).
Proof.
  intros Hr. apply NewRRule_inr in Hr as [_ ->].
  unfold normalize. cbv zeta.
  rewrite splitMonthdays_filter, splitWeekdays_filter.
  cbn [Bymonth Bymonthday Bynmonthday Byweekday Bynweekday DateStart Freq].
  destruct arg as [freq dtstart interval wkst cnt until setpos bymonth
                     bymonthday byyearday byweekno byweekday byhour byminute
                     bysecond byeaster rfc].
  unfold noDaySelector. cbn [Opt.Byweekno Opt.Byyearday Opt.Bymonthday
    Opt.Byweekday Opt.Byeaster Opt.Freq Opt.Bymonth Opt.Dtstart Opt.Until].
  assert (Hpos : forall t, (0 <? Day t) = true /\ (Day t <? 0) = false)
    by (intros t; pose proof (Day_ge_1 t); lia).
  split; [| split]; [intros (-> & -> & -> & -> & ->) | | intros Hne];
    (destruct (IsZero dtstart); cbn [OptUpd.with_Dtstart Opt.Until Opt.Dtstart];
     destruct (IsZero until)).
  1-4: destruct freq, bymonth;
    cbv -[Day MonthOf WeekdayOf toPyWeekday Z.ltb TruncateSecond Add maxDuration];
    rewrite ?(proj1 (Hpos _)), ?(proj2 (Hpos _)); repeat split; reflexivity.
  all: destruct byweekno, byyearday, bymonthday, byweekday, byeaster, freq, bymonth;
    try congruence; reflexivity.
Qed.

Lemma NewRRule_defaults_witness :
  exists r, NewRRule zeroTime weeklyOptions = inr r
            /\ Bynweekday r = [] /\ Byweekday r = [0; 1].
Proof.
  destruct (NewRRule zeroTime weeklyOptions) as [e|r] eqn:E.
  { vm_compute in E. discriminate. }
  exists r. split; [reflexivity |].
  destruct (NewRRule_defaults zeroTime weeklyOptions r E) as (_ & H1 & H2).
  apply NewRRule_inr in E as [_ E].
  assert (HF : Freq r = WEEKLY) by (rewrite E; reflexivity).
  rewrite HF in H1, H2.
  split; [exact H1 | apply H2; discriminate].
Defined.

(** ** What the iterator reads of its rule *)

Lemma sameCore_refl r : sameCore r r.
Proof. destruct r. repeat eexists. Qed.

Lemma sameCore_set_Len r v : sameCore r (set_Len r v).
Proof. destruct r. repeat eexists. Qed.

Lemma sameCore_trans r1 r2 r3 : sameCore r1 r2 -> sameCore r2 r3 -> sameCore r1 r3.
Proof.
  intros (o1 & o2 & c & l & ->) (o1' & o2' & c' & l' & ->). repeat eexists.
Qed.

Lemma sameCore_sym r1 r2 : sameCore r1 r2 -> sameCore r2 r1.
Proof. intros (o1 & o2 & c & l & ->). destruct r1. repeat eexists. Qed.

Lemma sameCore_proj r r' :
  sameCore r r' ->
  Freq r' = Freq r /\ Interval r' = Interval r /\ Wkst r' = Wkst r
  /\ DateStart r' = DateStart r /\ UntilTime r' = UntilTime r
  /\ Bysetpos r' = Bysetpos r /\ Timeset r' = Timeset r
  /\ Byhour r' = Byhour r /\ Byminute r' = Byminute r
  /\ Bysecond r' = Bysecond r.
Proof. intros (o1 & o2 & c & l & ->). repeat split. Qed.

Lemma sameCore_rebuild r r' : sameCore r r' -> rebuild r' = rebuild r.
Proof. intros (o1 & o2 & c & l & ->). reflexivity. Qed.

Lemma sameCore_getdayset r r' : sameCore r r' -> getdayset r' = getdayset r.
Proof. intros (o1 & o2 & c & l & ->). reflexivity. Qed.

Lemma sameCore_filterDays r r' : sameCore r r' -> filterDays r' = filterDays r.
Proof. intros (o1 & o2 & c & l & ->). reflexivity. Qed.

Lemma sameCore_selectPositions r r' :
  sameCore r r' -> selectPositions r' = selectPositions r.
Proof. intros (o1 & o2 & c & l & ->). reflexivity. Qed.

Lemma sameCore_gettimeset r r' : sameCore r r' -> gettimeset r' = gettimeset r.
Proof. intros (o1 & o2 & c & l & ->). reflexivity. Qed.

Lemma sameCore_hourLoop r r' : sameCore r r' -> hourLoop r' = hourLoop r.
Proof. intros (o1 & o2 & c & l & ->). reflexivity. Qed.

Lemma sameCore_minuteLoop r r' : sameCore r r' -> minuteLoop r' = minuteLoop r.
Proof. intros (o1 & o2 & c & l & ->). reflexivity. Qed.

Lemma sameCore_secondLoop r r' : sameCore r r' -> secondLoop r' = secondLoop r.
Proof. intros (o1 & o2 & c & l & ->). reflexivity. Qed.

Lemma sameCore_stepCursor r r' : sameCore r r' -> stepCursor r' = stepCursor r.
Proof.
  intros H. unfold stepCursor.
  destruct (sameCore_proj r r' H) as (-> & -> & -> & _).
  rewrite (sameCore_rebuild r r'), (sameCore_gettimeset r r'),
    (sameCore_hourLoop r r'), (sameCore_minuteLoop r r'),
    (sameCore_secondLoop r r') by assumption.
  reflexivity.
Qed.

(** ** The output loops *)

Lemma bind_Ok {A B} (m : result A) (f : A -> result B) (b : B) :
  m ≫= f = Ok b <-> exists a, m = Ok a /\ f a = Ok b.
Proof.
  destruct m as [a| |]; simpl.
  - split; [eauto | intros (a' & [= <-] & H); exact H].
  - split; [discriminate | intros (a' & [=] & _)].
  - split; [discriminate | intros (a' & [=] & _)].
Qed.

Lemma withEmit_id it :
  withEmit it (total it) (count it) (remain it) (finished it) = it.
Proof. destruct it; reflexivity. Qed.

Lemma withEmit_withEmit it t c rm f t' c' rm' f' :
  withEmit (withEmit it t c rm f) t' c' rm' f' = withEmit it t' c' rm' f'.
Proof. reflexivity. Qed.

Lemma cursor_of_withEmit it t c rm f :
  cursor_of (withEmit it t c rm f) = cursor_of it.
Proof. reflexivity. Qed.

Lemma accepted_inRange r l : Forall (inRange r) (fst (accepted r l)).
Proof.
  induction l as [|res l IH]; simpl; [constructor |].
  destruct (exceeds r res) eqn:E; simpl; [constructor |].
  destruct (accepted r l) as [a cut]. simpl in IH.
  destruct (Before res (DateStart r)) eqn:B; simpl; [assumption |].
  constructor; [split; assumption | assumption].
Qed.

Lemma len_app {A} (l1 l2 : list A) : len (l1 ++ l2) = len l1 + len l2.
Proof. unfold len. rewrite length_app. lia. Qed.

Lemma len_cons {A} (x : A) (l : list A) : len (x :: l) = 1 + len l.
Proof. unfold len. simpl length. lia. Qed.

Lemma len_nonneg {A} (l : list A) : 0 <= len l.
Proof. unfold len. lia. Qed.

(** With no count the loop appends every accepted candidate. *)
Lemma emitList_uncounted r it l :
  count it = 0 ->
  emitList r it l
  = let '(a, cut) := accepted r l in
    let it' := withEmit it (total it + len a) 0 (remain it ++ a) in
    if cut : bool then Return (set_Len r (total it + len a)) (it' true)
    else Continue (it' (finished it)).
Proof.
  revert it. induction l as [|res l IH]; intros it Hc.
  - simpl. rewrite Z.add_0_r, app_nil_r, <- Hc, withEmit_id. reflexivity.
  - cbn [emitList accepted]. unfold emitOne, exceeds.
    destruct (negb (IsZero (UntilTime r)) && After res (UntilTime r)) eqn:E.
    + cbn. rewrite Z.add_0_r, app_nil_r. unfold withEmit. rewrite Hc.
      reflexivity.
    + destruct (Before res (DateStart r)) eqn:B; cbn [negb].
      * rewrite IH by assumption. destruct (accepted r l) as [a cut]. reflexivity.
      * cbn [count]. rewrite Hc. cbn [Z.eqb negb].
        rewrite IH by reflexivity. destruct (accepted r l) as [a cut].
        cbn [total remain finished]. rewrite len_cons, <- app_assoc.
        replace (total it + 1 + len a) with (total it + (1 + len a)) by lia.
        reflexivity.
Qed.

(** With a count the loop stops when the count is used up. *)
Lemma emitList_counted r it l :
  0 < count it ->
  emitList r it l
  = let '(a, cut) := accepted r l in
    if count it <=? len a then
      Return (set_Len r (total it + count it))
        (withEmit it (total it + count it) 0
           (remain it ++ take (Z.to_nat (count it)) a) true)
    else
      let it' := withEmit it (total it + len a) (count it - len a)
                   (remain it ++ a) in
      if cut : bool then Return (set_Len r (total it + len a)) (it' true)
      else Continue (it' (finished it)).
Proof.
  revert it. induction l as [|res l IH]; intros it Hc.
  - cbn [emitList accepted]. change (len (@nil Time)) with 0.
    assert (H : (count it <=? 0) = false) by lia. rewrite H.
    rewrite Z.add_0_r, Z.sub_0_r, app_nil_r, withEmit_id. reflexivity.
  - cbn [emitList accepted]. unfold emitOne, exceeds.
    destruct (negb (IsZero (UntilTime r)) && After res (UntilTime r)) eqn:E.
    + change (len (@nil Time)) with 0.
      assert (H : (count it <=? 0) = false) by lia. rewrite H.
      rewrite Z.add_0_r, Z.sub_0_r, app_nil_r. reflexivity.
    + destruct (Before res (DateStart r)) eqn:B; cbn [negb].
      * rewrite IH by assumption. destruct (accepted r l) as [a cut]. reflexivity.
      * cbn [count]. assert (H : (count it =? 0) = false) by lia. rewrite H.
        cbn [negb count].
        destruct (count it - 1 =? 0) eqn:E1.
        -- destruct (accepted r l) as [a cut].
           assert (H1 : count it = 1) by lia.
           rewrite len_cons. pose proof (len_nonneg a).
           assert (H2 : (count it <=? 1 + len a) = true) by lia. rewrite H2, H1.
           cbn. reflexivity.
        -- rewrite IH by (cbn [count]; lia).
           destruct (accepted r l) as [a cut].
           cbn [total remain finished count]. rewrite len_cons.
           assert (H2 : (count it - 1 <=? len a) = (count it <=? 1 + len a)) by lia.
           rewrite H2. rewrite <- !app_assoc.
           replace (total it + 1 + (count it - 1)) with (total it + count it) by lia.
           replace (total it + 1 + len a) with (total it + (1 + len a)) by lia.
           replace (count it - 1 - len a) with (count it - (1 + len a)) by lia.
           replace (Z.to_nat (count it)) with (S (Z.to_nat (count it - 1))) by lia.
           reflexivity.
Qed.

(** Whatever the count, the loop leaves the cursor alone, appends
    occurrences only, counts them in [total], and writes [Len] on return. *)
Lemma emitList_shape r it l :
  exists a cnt,
    Forall (inRange r) a
    /\ (emitList r it l
        = Continue (withEmit it (total it + len a) cnt (remain it ++ a) (finished it))
        \/ emitList r it l
           = Return (set_Len r (total it + len a))
               (withEmit it (total it + len a) cnt (remain it ++ a) true)).
Proof.
  revert it. induction l as [|res l IH]; intros it.
  - exists [], (count it). split; [constructor |]. left. cbn.
    rewrite Z.add_0_r, app_nil_r, withEmit_id. reflexivity.
  - cbn [emitList]. unfold emitOne, inRange, exceeds in *.
    destruct (negb (IsZero (UntilTime r)) && After res (UntilTime r)) eqn:E.
    + exists [], (count it). split; [constructor |]. right. cbn.
      rewrite Z.add_0_r, app_nil_r. reflexivity.
    + destruct (Before res (DateStart r)) eqn:B; cbn [negb]; [apply IH |].
      simpl_iter.
      assert (Hgo : forall cnt0,
        exists a cnt,
          Forall (fun res => Before res (DateStart r) = false
                  /\ negb (IsZero (UntilTime r)) && After res (UntilTime r) = false) a
          /\ (emitList r (withEmit it (total it + 1) cnt0 (remain it ++ [res])
                            (finished it)) l
               = Continue (withEmit it (total it + len a) cnt (remain it ++ a)
                             (finished it))
               \/ emitList r (withEmit it (total it + 1) cnt0 (remain it ++ [res])
                               (finished it)) l
                  = Return (set_Len r (total it + len a))
                      (withEmit it (total it + len a) cnt (remain it ++ a) true))).
      { intros cnt0.
        destruct (IH (withEmit it (total it + 1) cnt0 (remain it ++ [res])
                        (finished it))) as (a & cnt & Ha & H).
        exists (res :: a), cnt. split.
        - constructor; [split; assumption | assumption].
        - rewrite withEmit_withEmit in H. cbn [withEmit total remain finished] in H.
          rewrite len_cons. rewrite <- !app_assoc in H.
          replace (total it + (1 + len a)) with (total it + 1 + len a) by lia.
          exact H. }
      destruct (negb (count it =? 0)).
      * destruct (count it - 1 =? 0).
        -- exists [res], (count it - 1). split.
           ++ repeat constructor; assumption.
           ++ right. cbn. reflexivity.
        -- apply Hgo.
      * apply Hgo.
Qed.

Lemma emitList_app r it l1 l2 :
  emitList r it (l1 ++ l2)
  = match emitList r it l1 with
    | Return r' it' => Return r' it'
    | Continue it' => emitList r it' l2
    end.
Proof.
  revert it. induction l1 as [|res l1 IH]; intros it; [reflexivity |].
  cbn [app emitList]. destruct (emitOne r it res); [reflexivity | apply IH].
Qed.

Lemma emitList_Continue r it l it' :
  emitList r it l = Continue it' ->
  exists a cnt,
    Forall (inRange r) a
    /\ it' = withEmit it (total it + len a) cnt (remain it ++ a) (finished it).
Proof.
  intros H. destruct (emitList_shape r it l) as (a & cnt & Ha & [E | E]);
    rewrite E in H; [| discriminate].
  injection H as <-. eauto.
Qed.

Lemma emitList_Return r it l r' it' :
  emitList r it l = Return r' it' ->
  exists a cnt,
    Forall (inRange r) a
    /\ r' = set_Len r (total it + len a)
    /\ it' = withEmit it (total it + len a) cnt (remain it ++ a) true.
Proof.
  intros H. destruct (emitList_shape r it l) as (a & cnt & Ha & [E | E]);
    rewrite E in H; [discriminate |].
  injection H as <- <-. eauto.
Qed.

Lemma emitDays_flat r it window :
  emitDays r it window
  = emitList r it (plainCandidates (ii it) (timeset it) window).
Proof.
  revert it.
  induction window as [|[i|] w IH]; intros it; [reflexivity | | apply IH].
  change (plainCandidates (ii it) (timeset it) (Some i :: w))
    with (map (occurrence (ii it) i) (timeset it)
          ++ plainCandidates (ii it) (timeset it) w).
  cbn [emitDays]. rewrite emitList_app.
  destruct (emitList r it (map (occurrence (ii it) i) (timeset it))) as [r' it'|it'] eqn:E;
    [reflexivity |].
  apply emitList_Continue in E as (a & cnt & _ & ->). rewrite IH. reflexivity.
Qed.

Lemma emit_candidates r it set s e :
  emit r it set s e
  = window ← slice set s e;
    cands ← candidates r (ii it) (timeset it) window;
    Ok (emitList r it cands).
Proof.
  unfold emit, candidates. destruct (slice set s e) as [w| |]; rsimpl; try reflexivity.
  destruct (negb (len (Bysetpos r) =? 0) && negb (len (timeset it) =? 0)).
  - destruct (selectPositions r (ii it) (timeset it) w); reflexivity.
  - rsimpl. rewrite emitDays_flat. reflexivity.
Qed.

Lemma period_candidates r fuel it :
  period r fuel it
  = '(cands, filtered) ← periodCandidates r (cursor_of it);
    match emitList r it cands with
    | Return r' it' => Ok (Return r' it')
    | Continue it' => step r fuel filtered it'
    end.
Proof.
  unfold period, periodCandidates, cursor_of.
  destruct (getdayset r (ii it) (Freq r) (year it) (month it) (day it))
    as [[[set s] e]| |]; rsimpl; try reflexivity.
  destruct (filterDays r (ii it) set s e) as [[set' filtered]| |]; rsimpl;
    try reflexivity.
  rewrite emit_candidates.
  destruct (slice set' s e) as [w| |]; rsimpl; try reflexivity.
  destruct (candidates r (ii it) (timeset it) w); reflexivity.
Qed.

Lemma set_cursor_cursor_of it : set_cursor it (cursor_of it) = it.
Proof. destruct it; reflexivity. Qed.

Lemma set_cursor_withEmit it t c rm f cur :
  set_cursor (withEmit it t c rm f) cur = withEmit (set_cursor it cur) t c rm f.
Proof. destruct cur as [[[[[[[[? ?] ?] ?] ?] ?] ?] ?] ?]; reflexivity. Qed.

(** What a round of [generate] does to the iterator and to the rule: the
    cursor moves, occurrences are appended to the buffer and counted in
    [total], and the rule is written to in its [Len] only, on return. *)
Lemma period_shape r fuel it ctl :
  period r fuel it = Ok ctl ->
  exists a cnt cur,
    Forall (inRange r) a
    /\ (ctl = Continue (set_cursor (withEmit it (total it + len a) cnt
                                      (remain it ++ a) (finished it)) cur)
        \/ ctl = Return (set_Len r (total it + len a))
                   (set_cursor (withEmit it (total it + len a) cnt
                                  (remain it ++ a) true) cur)).
Proof.
  rewrite period_candidates. intros H.
  apply bind_Ok in H as ([cands filtered] & _ & H).
  destruct (emitList r it cands) as [r' it'|it'] eqn:E.
  - injection H as <-. apply emitList_Return in E as (a & cnt & Ha & -> & ->).
    exists a, cnt, (cursor_of it). split; [assumption |]. right.
    rewrite set_cursor_withEmit, set_cursor_cursor_of. reflexivity.
  - apply emitList_Continue in E as (a & cnt & Ha & ->).
    unfold step in H. apply bind_Ok in H as ([over cur] & _ & H).
    exists a, cnt, cur. split; [assumption |].
    destruct over; injection H as <-; [right | left]; [| reflexivity].
    destruct cur as [[[[[[[[? ?] ?] ?] ?] ?] ?] ?] ?]. reflexivity.
Qed.

(** ** Frame and range of [generate] and [next] *)

Lemma lenOnly_refl r : lenOnly r r.
Proof. destruct r; reflexivity. Qed.

Lemma lenOnly_set_Len r v : lenOnly r (set_Len r v).
Proof. reflexivity. Qed.

Lemma lenOnly_trans r1 r2 r3 : lenOnly r1 r2 -> lenOnly r2 r3 -> lenOnly r1 r3.
Proof. unfold lenOnly. intros -> ->. reflexivity. Qed.

Lemma lenOnly_sameCore r r' : lenOnly r r' -> sameCore r r'.
Proof. intros ->. apply sameCore_set_Len. Qed.

Lemma inRange_sameCore r r' t : sameCore r r' -> inRange r' t <-> inRange r t.
Proof. intros (o1 & o2 & c & l & ->). reflexivity. Qed.

Lemma extends_refl r it : extends r it r it.
Proof.
  split; [apply lenOnly_refl |]. exists []. rewrite app_nil_r.
  repeat split; [constructor | unfold len; simpl; lia].
Qed.

Lemma extends_trans r1 it1 r2 it2 r3 it3 :
  extends r1 it1 r2 it2 -> extends r2 it2 r3 it3 -> extends r1 it1 r3 it3.
Proof.
  intros (H1 & a & Ha & Hr & Ht) (H2 & b & Hb & Hr' & Ht').
  split; [eapply lenOnly_trans; eassumption |].
  exists (a ++ b). rewrite Hr', Hr, Ht', Ht, len_app, app_assoc.
  repeat split; [| lia]. apply Forall_app. split; [assumption |].
  eapply Forall_impl; [exact Hb |]. intros t.
  apply (proj1 (inRange_sameCore r1 r2 t (lenOnly_sameCore _ _ H1))).
Qed.

Lemma remain_set_cursor it c : remain (set_cursor it c) = remain it.
Proof. destruct c as [[[[[[[[? ?] ?] ?] ?] ?] ?] ?] ?]; reflexivity. Qed.

Lemma total_set_cursor it c : total (set_cursor it c) = total it.
Proof. destruct c as [[[[[[[[? ?] ?] ?] ?] ?] ?] ?] ?]; reflexivity. Qed.

Lemma count_set_cursor it c : count (set_cursor it c) = count it.
Proof. destruct c as [[[[[[[[? ?] ?] ?] ?] ?] ?] ?] ?]; reflexivity. Qed.

Lemma finished_set_cursor it c : finished (set_cursor it c) = finished it.
Proof. destruct c as [[[[[[[[? ?] ?] ?] ?] ?] ?] ?] ?]; reflexivity. Qed.

Lemma period_extends r fuel it ctl :
  period r fuel it = Ok ctl ->
  match ctl with
  | Return r' it' => extends r it r' it' /\ finished it' = true
  | Continue it' => extends r it r it' /\ finished it' = finished it
  end.
Proof.
  intros H. apply period_shape in H as (a & cnt & cur & Ha & [-> | ->]).
  - split; [| rewrite finished_set_cursor; reflexivity].
    split; [apply lenOnly_refl |]. exists a.
    rewrite remain_set_cursor, total_set_cursor. auto.
  - split; [| rewrite finished_set_cursor; reflexivity].
    split; [apply lenOnly_set_Len |]. exists a.
    rewrite remain_set_cursor, total_set_cursor. auto.
Qed.

Lemma generate_extends fuel r it r' it' :
  generate fuel r it = Ok (r', it') -> extends r it r' it'.
Proof.
  revert it. induction fuel as [|fuel IH]; intros it; cbn [generate].
  - destruct (len (remain it) =? 0); [discriminate |].
    intros [= <- <-]. apply extends_refl.
  - destruct (len (remain it) =? 0).
    + intros H. apply bind_Ok in H as (ctl & Hp & H).
      apply period_extends in Hp. destruct ctl as [r1 it1 | it1].
      * injection H as <- <-. apply Hp.
      * eapply extends_trans; [apply Hp | apply IH, H].
    + intros [= <- <-]. apply extends_refl.
Qed.

(** [next] hands out the head of the buffer. *)
Lemma next_extends fuel r it r' it' v :
  next fuel r it = Ok (r', it', v) ->
  exists it1,
    extends r it r' it1
    /\ match v with
       | None => remain it1 = [] /\ it' = it1
       | Some t =>
           exists rest,
             remain it1 = t :: rest
             /\ it' = withEmit it1 (total it1) (count it1) rest (finished it1)
       end.
Proof.
  unfold next. intros H. apply bind_Ok in H as ([r1 it1] & Hg & H).
  assert (Hx : extends r it r1 it1).
  { destruct (finished it); rsimpl in Hg.
    - injection Hg as <- <-. apply extends_refl.
    - apply generate_extends in Hg. exact Hg. }
  exists it1. destruct (remain it1) as [|t rest] eqn:E.
  - injection H as <- <- <-. auto.
  - injection H as <- <- <-. split; [assumption |]. exists rest. auto.
Qed.

(** Over any number of calls, the rule changes in [Len] at most and every
    occurrence handed out is in range, if the buffer was. *)
Lemma nexts_frame fuel k r it r' it' outs :
  nexts fuel k r it = Ok (r', it', outs) ->
  Forall (inRange r) (remain it) ->
  lenOnly r r' /\ Forall (inRange r) outs /\ Forall (inRange r) (remain it').
Proof.
  revert r it r' it' outs. induction k as [|k IH]; intros r it r' it' outs; cbn [nexts].
  - intros [= <- <- <-] Hrem. split; [apply lenOnly_refl |]. split; [constructor | assumption].
  - intros H Hrem. apply bind_Ok in H as ([[r1 it1] v] & Hn & H).
    apply next_extends in Hn as (it2 & (HL & a & Ha & Hr & _) & Hv).
    assert (Hrem2 : Forall (inRange r) (remain it2)).
    { rewrite Hr. apply Forall_app. auto. }
    destruct v as [t|].
    + destruct Hv as (rest & Hr2 & ->).
      apply bind_Ok in H as ([[r3 it3] l] & Hk & H). injection H as <- <- <-.
      rewrite Hr2 in Hrem2. inversion Hrem2 as [|? ? Ht Hrest]; subst.
      assert (HS : sameCore r r1) by (apply lenOnly_sameCore, HL).
      apply IH in Hk as (HL' & Ho & Hrm).
      * split; [eapply lenOnly_trans; eassumption |]. split.
        -- constructor; [assumption |].
           eapply Forall_impl; [exact Ho |]. intros x.
           apply (proj1 (inRange_sameCore r r1 x HS)).
        -- eapply Forall_impl; [exact Hrm |]. intros x.
           apply (proj1 (inRange_sameCore r r1 x HS)).
      * rsimpl. eapply Forall_impl; [exact Hrest |]. intros x Hx.
        apply (proj2 (inRange_sameCore r r1 x HS)), Hx.
    + destruct Hv as (Hr2 & ->). injection H as <- <- <-.
      split; [assumption |]. split; [constructor | assumption].
Qed.

(** ** Iterating a rule that differs in what the iterator does not read *)

Lemma emitOne_sameCore r r2 it res :
  sameCore r r2 -> emitOne r2 it res = onRule r2 (emitOne r it res).
Proof.
  intros H. destruct (sameCore_proj r r2 H) as (_ & _ & _ & HD & HU & _).
  unfold emitOne. rewrite HD, HU.
  destruct (negb (IsZero (UntilTime r)) && After res (UntilTime r)); [reflexivity |].
  destruct (negb (Before res (DateStart r))); [| reflexivity].
  simpl_iter. destruct (negb (count it =? 0)); [| reflexivity].
  destruct (count it - 1 =? 0); reflexivity.
Qed.

Lemma emitList_sameCore r r2 it l :
  sameCore r r2 -> emitList r2 it l = onRule r2 (emitList r it l).
Proof.
  intros H. revert it. induction l as [|res l IH]; intros it; [reflexivity |].
  cbn [emitList]. rewrite (emitOne_sameCore r r2) by assumption.
  destruct (emitOne r it res); [reflexivity | apply IH].
Qed.

Lemma candidates_sameCore r r2 : sameCore r r2 -> candidates r2 = candidates r.
Proof.
  intros H. unfold candidates.
  destruct (sameCore_proj r r2 H) as (_ & _ & _ & _ & _ & -> & _).
  rewrite (sameCore_selectPositions r r2) by assumption. reflexivity.
Qed.

Lemma periodCandidates_sameCore r r2 :
  sameCore r r2 -> periodCandidates r2 = periodCandidates r.
Proof.
  intros H. unfold periodCandidates.
  destruct (sameCore_proj r r2 H) as (-> & _).
  rewrite (sameCore_getdayset r r2), (sameCore_filterDays r r2),
    (candidates_sameCore r r2) by assumption.
  reflexivity.
Qed.

Lemma step_sameCore r r2 fuel filtered it :
  sameCore r r2 ->
  step r2 fuel filtered it = mapR (onRule r2) (step r fuel filtered it).
Proof.
  intros H. unfold step. rewrite (sameCore_stepCursor r r2) by assumption.
  destruct (stepCursor r fuel filtered (cursor_of it)) as [[over c]| |];
    [| reflexivity ..].
  rsimpl. destruct over; reflexivity.
Qed.

Lemma period_sameCore r r2 fuel it :
  sameCore r r2 -> period r2 fuel it = mapR (onRule r2) (period r fuel it).
Proof.
  intros H. rewrite !period_candidates.
  rewrite (periodCandidates_sameCore r r2) by assumption.
  destruct (periodCandidates r (cursor_of it)) as [[cands filtered]| |];
    [| reflexivity ..].
  rsimpl. rewrite (emitList_sameCore r r2) by assumption.
  destruct (emitList r it cands); [reflexivity |].
  rsimpl. apply step_sameCore, H.
Qed.

Lemma sameCore_set_Len_both r r2 v w :
  sameCore r r2 -> sameCore (set_Len r v) (set_Len r2 w).
Proof. intros (o1 & o2 & c & l & ->). destruct r. repeat eexists. Qed.

Lemma generate_sameCore fuel r r2 it r' it' :
  sameCore r r2 ->
  generate fuel r it = Ok (r', it') ->
  exists r2', generate fuel r2 it = Ok (r2', it') /\ sameCore r' r2'.
Proof.
  intros H. revert it. induction fuel as [|fuel IH]; intros it; cbn [generate].
  - destruct (len (remain it) =? 0); [discriminate |].
    intros [= <- <-]. eauto.
  - destruct (len (remain it) =? 0); [| intros [= <- <-]; eauto].
    rewrite (period_sameCore r r2) by assumption.
    destruct (period r (S fuel) it) as [[r1 it1|it1]| |] eqn:Hp; try discriminate.
    + rsimpl. intros [= <- <-]. eexists. split; [reflexivity |].
      apply period_extends in Hp as [[HL _] _].
      rewrite HL. apply sameCore_set_Len_both, H.
    + rsimpl. apply IH.
Qed.

Lemma next_sameCore fuel r r2 it r' it' v :
  sameCore r r2 ->
  next fuel r it = Ok (r', it', v) ->
  exists r2', next fuel r2 it = Ok (r2', it', v) /\ sameCore r' r2'.
Proof.
  intros H. unfold next. intros Hn.
  apply bind_Ok in Hn as ([r1 it1] & Hg & Hn).
  assert (Hg2 : exists r2', (if negb (finished it) then generate fuel r2 it
                             else Ok (r2, it)) = Ok (r2', it1) /\ sameCore r1 r2').
  { destruct (negb (finished it)).
    - eapply generate_sameCore; eassumption.
    - injection Hg as <- <-. eauto. }
  destruct Hg2 as (r2' & -> & HS). exists r2'. rsimpl.
  destruct (remain it1); injection Hn as <- <- <-; auto.
Qed.

Lemma nexts_sameCore fuel k r r2 it r' it' outs :
  sameCore r r2 ->
  nexts fuel k r it = Ok (r', it', outs) ->
  exists r2', nexts fuel k r2 it = Ok (r2', it', outs) /\ sameCore r' r2'.
Proof.
  revert r r2 it r' it' outs.
  induction k as [|k IH]; intros r r2 it r' it' outs H; cbn [nexts].
  - intros [= <- <- <-]. eauto.
  - intros Hn. apply bind_Ok in Hn as ([[r1 it1] v] & Hx & Hn).
    destruct (next_sameCore _ _ _ _ _ _ _ H Hx) as (r21 & -> & HS). rsimpl.
    destruct v as [t|].
    + apply bind_Ok in Hn as ([[r3 it3] l] & Hk & Hn). injection Hn as <- <- <-.
      destruct (IH _ _ _ _ _ _ HS Hk) as (r23 & -> & HS'). rsimpl. eauto.
    + injection Hn as <- <- <-. eauto.
Qed.

Lemma Iterator_sameCore r r2 :
  sameCore r r2 ->
  Iterator r2
  = mapR (fun it => withEmit it (total it) (Count r2) (remain it) (finished it))
      (Iterator r).
Proof.
  intros H. unfold Iterator.
  destruct (sameCore_proj r r2 H)
    as (-> & _ & _ & -> & _ & _ & -> & -> & -> & ->).
  rewrite (sameCore_rebuild r r2), (sameCore_gettimeset r r2) by assumption.
  cbv zeta.
  destruct (rebuild r iterInfo0 (Year (DateStart r)) (MonthOf (DateStart r)));
    reflexivity.
Qed.

Lemma Iterator_fresh r it :
  Iterator r = Ok it ->
  total it = 0 /\ count it = Count r /\ remain it = [] /\ finished it = false.
Proof.
  unfold Iterator. cbv zeta. intros H.
  apply bind_Ok in H as (info & _ & [= <-]). auto.
Qed.

Lemma period_lenWritten r fuel it ctl :
  period r fuel it = Ok ctl ->
  match ctl with
  | Return r' it' => Len r' = total it'
  | Continue it' => finished it' = finished it
  end.
Proof.
  intros H. apply period_shape in H as (a & cnt & cur & Ha & [-> | ->]).
  - rewrite finished_set_cursor. reflexivity.
  - rewrite total_set_cursor. reflexivity.
Qed.

Lemma generate_lenWritten fuel r it r' it' :
  finished it = false ->
  generate fuel r it = Ok (r', it') -> lenWritten r' it'.
Proof.
  revert it. induction fuel as [|fuel IH]; intros it Hf; cbn [generate].
  - destruct (len (remain it) =? 0); [discriminate |].
    intros [= <- <-] H. congruence.
  - destruct (len (remain it) =? 0); [| intros [= <- <-] H; congruence].
    intros H. apply bind_Ok in H as (ctl & Hp & H).
    apply period_lenWritten in Hp. destruct ctl as [r1 it1 | it1].
    + injection H as <- <-. intros _. exact Hp.
    + eapply IH; [| exact H]. congruence.
Qed.

Lemma next_lenWritten fuel r it r' it' v :
  lenWritten r it ->
  next fuel r it = Ok (r', it', v) -> lenWritten r' it'.
Proof.
  unfold next. intros Hinv H. apply bind_Ok in H as ([r1 it1] & Hg & H).
  assert (H1 : lenWritten r1 it1).
  { destruct (finished it) eqn:Hf; rsimpl in Hg.
    - injection Hg as <- <-. intros _. apply Hinv, Hf.
    - eapply generate_lenWritten; eassumption. }
  destruct (remain it1); injection H as <- <- <-; exact H1.
Qed.

Lemma nexts_lenWritten fuel k r it r' it' outs :
  lenWritten r it ->
  nexts fuel k r it = Ok (r', it', outs) -> lenWritten r' it'.
Proof.
  revert r it r' it' outs. induction k as [|k IH]; intros r it r' it' outs Hinv;
    cbn [nexts].
  - intros [= <- <- <-]. exact Hinv.
  - intros H. apply bind_Ok in H as ([[r1 it1] v] & Hn & H).
    apply next_lenWritten in Hn; [| exact Hinv].
    destruct v as [t|].
    + apply bind_Ok in H as ([[r3 it3] l] & Hk & H). injection H as <- <- <-.
      eapply IH; eassumption.
    + injection H as <- <- <-. exact Hn.
Qed.

(** C1, as the code has it: iterating a rule leaves every field of the
    rule but [Len] unchanged; [Len] holds the number of occurrences
    emitted once the iterator has finished; and the iterator never reads
    [Len], so that an iterator over the rule yields the same occurrences
    whatever another iterator has written there. *)
Theorem iteration_writes_Len_only (now : Time) (arg : ROption) (r : RRule)
    (fuel k : nat) (r' : RRule) (it' : rIterator) (outs : list Time) :
  NewRRule now arg = inr r ->
  iterate fuel k r = Ok (r', it', outs) ->
  r' = set_Len r (Len r')
  /\ (finished it' = true -> Len r' = total it')
  /\ forall v, exists r'',
       iterate fuel k (set_Len r v) = Ok (r'', it', outs)
       /\ r'' = set_Len r (Len r'').
Proof.
  intros _ H. unfold iterate in *.
  apply bind_Ok in H as (it & Hi & Hn).
  pose proof (Iterator_fresh _ _ Hi) as (_ & _ & Hrem & Hfin).
  split; [| split].
  - eapply nexts_frame in Hn as (HL & _); [exact HL |]. rewrite Hrem. constructor.
  - eapply nexts_lenWritten; [| exact Hn]. intros Hf. congruence.
  - intros v.
    rewrite (Iterator_sameCore r (set_Len r v) (sameCore_set_Len r v)), Hi. rsimpl.
    replace (withEmit it (total it) (Count (set_Len r v)) (remain it) (finished it))
      with it.
    2:{ pose proof (Iterator_fresh _ _ Hi) as (_ & Hc & _).
        destruct r, it; cbn in *; subst; reflexivity. }
    destruct (nexts_sameCore _ _ _ _ _ _ _ _ (sameCore_set_Len r v) Hn)
      as (r'' & Hn' & _).
    exists r''. split; [exact Hn' |].
    eapply nexts_frame in Hn' as (HL & _); [| rewrite Hrem; constructor].
    unfold lenOnly in HL. rewrite HL. destruct r; reflexivity.
Qed.

(** C5: every occurrence that the iterator of a rule yields is not before
    the rule's start and, when the options give an until, not after it;
    the first candidate after the until ends the stream, and a candidate at
    the until itself is taken. *)
Theorem occurrences_within_bounds (now : Time) (arg : ROption) (r : RRule)
    (fuel k : nat) (r' : RRule) (it' : rIterator) (outs : list Time) :
  NewRRule now arg = inr r ->
  iterate fuel k r = Ok (r', it', outs) ->
  Forall (fun t => Before t (DateStart r) = false
                   /\ (IsZero (Opt.Until arg) = false ->
                       After t (Opt.Until arg) = false)) outs
  /\ (forall it res,
        IsZero (Opt.Until arg) = false ->
        After res (Opt.Until arg) = true ->
        emitOne r it res
        = Return (set_Len r (total it))
            (withEmit it (total it) (count it) (remain it) true))
  /\ (forall it,
        IsZero (Opt.Until arg) = false ->
        Before (Opt.Until arg) (DateStart r) = false ->
        match emitOne r it (Opt.Until arg) with
        | Return _ it1 | Continue it1 =>
            remain it1 = remain it ++ [Opt.Until arg]
        end).
Proof.
  intros Hr H. apply NewRRule_inr in Hr as [_ Hr].
  assert (HU : IsZero (Opt.Until arg) = false -> UntilTime r = Opt.Until arg).
  { intros Hz. rewrite Hr, normalize_UntilTime, Hz. reflexivity. }
  clear Hr. split; [| split].
  - unfold iterate in H. apply bind_Ok in H as (it & Hi & Hn).
    pose proof (Iterator_fresh _ _ Hi) as (_ & _ & Hrem & _).
    eapply nexts_frame in Hn as (_ & Ho & _); [| rewrite Hrem; constructor].
    eapply Forall_impl; [exact Ho |]. intros t [Hb He].
    split; [exact Hb |]. intros Hz. unfold exceeds in He.
    rewrite (HU Hz), Hz in He. exact He.
  - intros it res Hz Ha. unfold emitOne. rewrite (HU Hz), Hz, Ha. reflexivity.
  - intros it Hz Hb. unfold emitOne. rewrite (HU Hz), Hz, Hb.
    assert (Ha : After (Opt.Until arg) (Opt.Until arg) = false).
    { unfold After. rewrite !Z.ltb_irrefl, andb_false_r. reflexivity. }
    rewrite Ha. cbn [negb andb]. simpl_iter.
    destruct (negb (count it =? 0)); [| reflexivity].
    destruct (count it - 1 =? 0); reflexivity.
Qed.

(** ** Rules at hand *)

Lemma iteration_writes_Len_only_witness :
  exists r' it' outs,
    iterate 10 3 (normalize zeroTime dailyOptions) = Ok (r', it', outs)
    /\ r' = set_Len (normalize zeroTime dailyOptions) (Len r').
Proof.
  assert (E : exists r' it' outs,
    iterate 10 3 (normalize zeroTime dailyOptions) = Ok (r', it', outs)).
  { vm_compute. repeat eexists. }
  destruct E as (r' & it' & outs & E). exists r', it', outs.
  split; [exact E |].
  exact (proj1 (iteration_writes_Len_only zeroTime dailyOptions
                  (normalize zeroTime dailyOptions) 10 3 r' it' outs
                  eq_refl E)).
Defined.

Lemma rule_changed_by_iteration : ~ ruleUnchanged dailyOptions.
Proof.
  intros H.
  assert (E : exists r' it' outs,
    iterate 10 3 (normalize zeroTime dailyOptions) = Ok (r', it', outs)
    /\ Len r' = 3).
  { vm_compute. repeat eexists. }
  destruct E as (r' & it' & outs & E & HL).
  specialize (H _ _ _ _ _ _ eq_refl E).
  rewrite H in HL. vm_compute in HL. discriminate.
Qed.

Lemma occurrences_within_bounds_witness :
  exists r' it' outs,
    iterate 10 5 (normalize zeroTime dailyUntilOptions) = Ok (r', it', outs)
    /\ Forall (fun t => Before t (utc 2018 1 1 0 0 0) = false
                        /\ After t (utc 2018 1 3 0 0 0) = false) outs.
Proof.
  assert (E : exists r' it' outs,
    iterate 10 5 (normalize zeroTime dailyUntilOptions) = Ok (r', it', outs)).
  { vm_compute. repeat eexists. }
  destruct E as (r' & it' & outs & E). exists r', it', outs.
  split; [exact E |].
  pose proof (proj1 (occurrences_within_bounds zeroTime dailyUntilOptions
                       (normalize zeroTime dailyUntilOptions) 10 5 r' it' outs
                       eq_refl E)) as H.
  eapply Forall_impl; [exact H |]. cbv beta.
  intros t [H1 H2]. split; [exact H1 | apply H2; reflexivity].
Defined.

(** C10: FREQ=MONTHLY;BYMONTHDAY=31;COUNT=4 from 2020-01-31T09:00:00Z has
    exactly the occurrences 2020-01-31, 2020-03-31, 2020-05-31 and
    2020-07-31 at 09:00:00Z: the months without a 31st are skipped. *)
Theorem month_end_occurrences :
  exists r r',
    NewRRule zeroTime monthEndOptions = inr r
    /\ All 10 r
       = Ok (r', [utc 2020 1 31 9 0 0; utc 2020 3 31 9 0 0;
                  utc 2020 5 31 9 0 0; utc 2020 7 31 9 0 0]).
Proof.
  exists (normalize zeroTime monthEndOptions).
  assert (E : exists r',
    All 10 (normalize zeroTime monthEndOptions)
    = Ok (r', [utc 2020 1 31 9 0 0; utc 2020 3 31 9 0 0;
               utc 2020 5 31 9 0 0; utc 2020 7 31 9 0 0])).
  { vm_compute. eexists. reflexivity. }
  destruct E as (r' & E). exists r'. split; [reflexivity | exact E].
Qed.

Lemma iterate_1_Panic fuel r it :
  Iterator r = Ok it -> iterate fuel 1 r = Panic -> next fuel r it = Panic.
Proof.
  unfold iterate. intros -> H. cbn [mbind result_bind nexts] in H.
  destruct (next fuel r it) as [[[r1 it1] [t|]]| |];
    cbn [mbind result_bind nexts] in H; try discriminate; reflexivity.
Qed.

(** C3, at the input on which the code fails: the options
    FREQ=YEARLY;BYEASTER=262 from 2018-01-01T09:00:00Z pass validation and
    an iterator is made, but the first call of [next] panics: rebuilding
    the tables for 2019 writes the Easter mask at index 110 + 262 = 372,
    one past its end. *)
Theorem next_panics_on_easter_offset :
  exists r it,
    NewRRule zeroTime easterOptions = inr r
    /\ Iterator r = Ok it
    /\ next 10 r it = Panic.
Proof.
  exists (normalize zeroTime easterOptions).
  assert (E : exists it,
    Iterator (normalize zeroTime easterOptions) = Ok it
    /\ iterate 10 1 (normalize zeroTime easterOptions) = Panic).
  { vm_compute. eexists. split; reflexivity. }
  destruct E as (it & Ei & En). exists it.
  split; [reflexivity |]. split; [exact Ei |].
  exact (iterate_1_Panic _ _ _ Ei En).
Qed.

(** C4, at the input on which the code fails: with
    FREQ=DAILY;BYHOUR=9,9;COUNT=2 from 2018-01-01T09:00:00Z the iterator
    yields 2018-01-01T09:00:00Z twice. *)
Theorem repeated_hour_yields_twice :
  exists r r' it',
    NewRRule zeroTime twiceNineOptions = inr r
    /\ iterate 10 2 r
       = Ok (r', it', [utc 2018 1 1 9 0 0; utc 2018 1 1 9 0 0]).
Proof.
  exists (normalize zeroTime twiceNineOptions).
  assert (E : exists r' it',
    iterate 10 2 (normalize zeroTime twiceNineOptions)
    = Ok (r', it', [utc 2018 1 1 9 0 0; utc 2018 1 1 9 0 0])).
  { vm_compute. repeat eexists. }
  destruct E as (r' & it' & E). exists r', it'. split; [reflexivity | exact E].
Qed.

Lemma stream_capped_without_until : ~ unboundedWithoutUntil centuryOptions.
Proof.
  intros H.
  assert (Eu : exists ru' itu',
    iterate 10 4 (normalize zeroTime centuryUntilOptions)
    = Ok (ru', itu', [utc 2000 1 1 0 0 0; utc 2100 1 1 0 0 0;
                      utc 2200 1 1 0 0 0; utc 2300 1 1 0 0 0])).
  { vm_compute. repeat eexists. }
  assert (E : exists r' it',
    iterate 10 4 (normalize zeroTime centuryOptions)
    = Ok (r', it', [utc 2000 1 1 0 0 0; utc 2100 1 1 0 0 0;
                    utc 2200 1 1 0 0 0])).
  { vm_compute. repeat eexists. }
  destruct Eu as (ru' & itu' & Eu). destruct E as (r' & it' & E).
  destruct (H 10%nat 4%nat _ _ _ _ _ eq_refl eq_refl Eu) as (r'' & it'' & E').
  congruence.
Qed.

Lemma Add_maxDuration_not_zero (t : Time) :
  IsZero (Add (TruncateSecond t) maxDuration) = false.
Proof.
  unfold Add, TruncateSecond. cbn [tsec tnsec tloc].
  change (Z.rem maxDuration 1000000000) with 854775807.
  cbn [Z.add Z.leb Z.ltb Z.compare Pos.compare Pos.compare_cont].
  unfold IsZero. cbn [tsec tnsec]. apply andb_false_r.
Qed.

(** X3: a rule made without an until has the until
    start + (2^63 - 1) nanoseconds, about 292 years after its start; the
    stream is limited by the count, by [MAXYEAR] and by that instant: no
    occurrence after it is yielded, and the first candidate after it ends
    the stream. *)
Theorem no_until_means_capped (now : Time) (arg : ROption) (r : RRule)
    (fuel k : nat) (r' : RRule) (it' : rIterator) (outs : list Time) :
  NewRRule now arg = inr r ->
  IsZero (Opt.Until arg) = true ->
  iterate fuel k r = Ok (r', it', outs) ->
  UntilTime r = Add (DateStart r) maxDuration
  /\ IsZero (UntilTime r) = false
  /\ Forall (fun t => After t (Add (DateStart r) maxDuration) = false) outs
  /\ (forall it res,
        After res (Add (DateStart r) maxDuration) = true ->
        emitOne r it res
        = Return (set_Len r (total it))
            (withEmit it (total it) (count it) (remain it) true)).
Proof.
  intros Hr Hz H. apply NewRRule_inr in Hr as [_ Hr].
  assert (HU : UntilTime r = Add (DateStart r) maxDuration).
  { rewrite Hr, normalize_UntilTime, normalize_DateStart, Hz. reflexivity. }
  assert (HZ : IsZero (UntilTime r) = false).
  { rewrite HU, Hr, normalize_DateStart. apply Add_maxDuration_not_zero. }
  split; [exact HU |]. split; [exact HZ |]. split.
  - unfold iterate in H. apply bind_Ok in H as (it & Hi & Hn).
    pose proof (Iterator_fresh _ _ Hi) as (_ & _ & Hrem & _).
    eapply nexts_frame in Hn as (_ & Ho & _); [| rewrite Hrem; constructor].
    eapply Forall_impl; [exact Ho |]. intros t [_ He].
    unfold exceeds in He. rewrite HZ, HU in He. exact He.
  - intros it res Ha. unfold emitOne. rewrite HZ, HU, Ha. reflexivity.
Qed.

Lemma no_until_means_capped_witness :
  exists r' it' outs,
    iterate 10 4 (normalize zeroTime centuryOptions) = Ok (r', it', outs)
    /\ Forall (fun t => After t (Add (utc 2000 1 1 0 0 0) maxDuration) = false)
         outs.
Proof.
  assert (E : exists r' it' outs,
    iterate 10 4 (normalize zeroTime centuryOptions) = Ok (r', it', outs)).
  { vm_compute. repeat eexists. }
  destruct E as (r' & it' & outs & E). exists r', it', outs.
  split; [exact E |].
  exact (proj1 (proj2 (proj2
           (no_until_means_capped zeroTime centuryOptions
              (normalize zeroTime centuryOptions) 10 4 r' it' outs
              eq_refl eq_refl E)))).
Defined.

(** ** The BYSETPOS selection *)

Lemma Time_eqb_eq (t u : Time) : Time_eqb t u = true <-> t = u.
Proof.
  unfold Time_eqb. destruct t as [s n [o]], u as [s' n' [o']]. cbn [tsec tnsec tloc zoneOffset].
  rewrite !andb_true_iff, !Z.eqb_eq. split.
  - intros [[-> ->] ->]. reflexivity.
  - intros H. injection H as -> -> ->. auto.
Qed.

Lemma Time_eqb_refl (t : Time) : Time_eqb t t = true.
Proof. apply Time_eqb_eq. reflexivity. Qed.

Lemma timeContains_elem (l : list Time) (t : Time) :
  timeContains l t = true <-> t ∈ l.
Proof.
  unfold timeContains. rewrite existsb_exists. split.
  - intros (u & Hin & He). apply Time_eqb_eq in He as ->.
    apply list_elem_of_In. exact Hin.
  - intros H. exists t. split; [apply list_elem_of_In; exact H | apply Time_eqb_refl].
Qed.

Lemma timeContains_app (l1 l2 : list Time) (t : Time) :
  timeContains (l1 ++ l2) t = timeContains l1 t || timeContains l2 t.
Proof. unfold timeContains. apply existsb_app. Qed.

Lemma filter_absorb {A} (p q : A -> bool) (l : list A) :
  (forall u, p u = true -> q u = true) ->
  List.filter p (List.filter q l) = List.filter p l.
Proof.
  intros H. induction l as [|x l IH]; [reflexivity |]. cbn [List.filter].
  destruct (q x) eqn:Eq.
  - cbn [List.filter]. rewrite IH. reflexivity.
  - destruct (p x) eqn:Ep; [| exact IH].
    apply H in Ep. congruence.
Qed.

Lemma filter_both {A} (p q : A -> bool) (l : list A) :
  List.filter p (List.filter q l) = List.filter (fun u => p u && q u) l.
Proof.
  induction l as [|x l IH]; [reflexivity |]. cbn [List.filter].
  destruct (q x) eqn:Eq.
  - cbn [List.filter]. rewrite IH, andb_true_r. reflexivity.
  - rewrite andb_false_r. exact IH.
Qed.

Lemma elem_filter {A} (p : A -> bool) (l : list A) (x : A) :
  x ∈ List.filter p l <-> x ∈ l /\ p x = true.
Proof. rewrite !list_elem_of_In. apply filter_In. Qed.

Lemma NoDup_List_filter {A} (p : A -> bool) (l : list A) :
  NoDup l -> NoDup (List.filter p l).
Proof.
  induction 1 as [|x l Hx Hl IH]; cbn [List.filter]; [constructor |].
  destruct (p x); [| exact IH].
  constructor; [| exact IH].
  rewrite elem_filter. tauto.
Qed.

Lemma NoDup_dedupTimes (l : list Time) : NoDup (dedupTimes l).
Proof.
  induction l as [|t l IH]; cbn [dedupTimes]; constructor.
  - rewrite elem_filter, Time_eqb_refl. intros [_ H]. discriminate.
  - apply NoDup_List_filter. exact IH.
Qed.

Lemma elem_dedupTimes (l : list Time) (t : Time) : t ∈ dedupTimes l <-> t ∈ l.
Proof.
  induction l as [|u l IH]; cbn [dedupTimes]; [reflexivity |].
  rewrite !elem_of_cons, elem_filter, IH.
  destruct (Time_eqb t u) eqn:E.
  - apply Time_eqb_eq in E. tauto.
  - cbn [negb]. tauto.
Qed.

Lemma insertTime_Permutation (t : Time) (l : list Time) :
  Permutation (insertTime t l) (t :: l).
Proof.
  induction l as [|u l IH]; cbn [insertTime]; [reflexivity |].
  destruct (Before u t); [| reflexivity].
  rewrite IH. apply perm_swap.
Qed.

Lemma sortTimes_Permutation (l : list Time) : Permutation (sortTimes l) l.
Proof.
  induction l as [|t l IH]; [reflexivity |].
  change (sortTimes (t :: l)) with (insertTime t (sortTimes l)).
  rewrite insertTime_Permutation, IH. reflexivity.
Qed.

Lemma Before_asym (t u : Time) : Before t u = true -> Before u t = false.
Proof.
  unfold Before.
  destruct (Z.ltb_spec (tsec t) (tsec u)), (Z.ltb_spec (tsec u) (tsec t)),
    (Z.eqb_spec (tsec t) (tsec u)), (Z.eqb_spec (tsec u) (tsec t)),
    (Z.ltb_spec (tnsec t) (tnsec u)), (Z.ltb_spec (tnsec u) (tnsec t));
    cbn [orb andb]; intros; try reflexivity; try discriminate; lia.
Qed.

Lemma notAfter_trans (a b c : Time) : notAfter a b -> notAfter b c -> notAfter a c.
Proof.
  unfold notAfter, Before.
  destruct (Z.ltb_spec (tsec b) (tsec a)), (Z.ltb_spec (tsec c) (tsec b)),
    (Z.ltb_spec (tsec c) (tsec a)),
    (Z.eqb_spec (tsec b) (tsec a)), (Z.eqb_spec (tsec c) (tsec b)),
    (Z.eqb_spec (tsec c) (tsec a)),
    (Z.ltb_spec (tnsec b) (tnsec a)), (Z.ltb_spec (tnsec c) (tnsec b)),
    (Z.ltb_spec (tnsec c) (tnsec a));
    cbn [orb andb]; intros; try reflexivity; try discriminate; lia.
Qed.

Lemma insertTime_sorted (t : Time) (l : list Time) :
  StronglySorted notAfter l -> StronglySorted notAfter (insertTime t l).
Proof.
  induction 1 as [|u l Hl IH Hu]; cbn [insertTime].
  - constructor; constructor.
  - destruct (Before u t) eqn:E.
    + constructor; [exact IH |].
      rewrite insertTime_Permutation. constructor; [| exact Hu].
      apply Before_asym. exact E.
    + constructor; [constructor; assumption |].
      constructor; [exact E |].
      eapply Forall_impl; [exact Hu |].
      intros x Hx. apply (notAfter_trans t u x); assumption.
Qed.

Lemma sortTimes_sorted (l : list Time) : StronglySorted notAfter (sortTimes l).
Proof.
  induction l as [|t l IH]; [constructor |].
  change (sortTimes (t :: l)) with (insertTime t (sortTimes l)).
  apply insertTime_sorted. exact IH.
Qed.

Lemma divmod_python (a b : Z) :
  0 < b -> a = fst (divmod a b) * b + snd (divmod a b) /\ 0 <= snd (divmod a b) < b.
Proof.
  intros Hb. unfold divmod, pymod. cbn [fst snd].
  pose proof (Z.div_mod a b). pose proof (Z.mod_pos_bound a b). lia.
Qed.

Lemma pySubscript_python (l : list Z) (d : Z) :
  (0 <= d < len l -> pySubscript l d = l !! Z.to_nat d)
  /\ (- len l <= d < 0 -> pySubscript l d = l !! Z.to_nat (len l + d))
  /\ (d < - len l \/ len l <= d -> pySubscript l d = None).
Proof.
  unfold pySubscript. pose proof (len_nonneg l).
  destruct (Z.ltb_spec d 0).
  - destruct (Z.ltb_spec (d + len l) 0), (Z.leb_spec (len l) (d + len l));
      cbn [orb]; repeat split; intros; try lia; try reflexivity.
    rewrite Z.add_comm. reflexivity.
  - destruct (Z.ltb_spec d 0), (Z.leb_spec (len l) d);
      cbn [orb]; repeat split; intros; try lia; reflexivity.
Qed.

Lemma index_lookup {A} (l : list A) (i : Z) :
  0 <= i < len l -> exists x, l !! Z.to_nat i = Some x /\ index l i = Ok x.
Proof.
  intros Hi. unfold index. destruct (Z.ltb_spec i 0); [lia |].
  destruct (l !! Z.to_nat i) as [x|] eqn:E; [eauto |].
  apply lookup_ge_None in E. unfold len in Hi. lia.
Qed.

Lemma filter_all {A} (l : list A) : List.filter (fun _ => true) l = l.
Proof. induction l as [|x l IH]; cbn [List.filter]; congruence. Qed.

Lemma foldR_select (info : iterInfo) (ts : list Time) (window : dayset)
    (l : list Z) (acc : list Time) :
  0 < len ts -> Forall (fun pos => pos <> 0) l ->
  foldR
    (fun poslist pos =>
       let '(daypos, timepos) :=
         if pos <? 0 then divmod pos (len ts) else divmod (pos - 1) (len ts) in
       let temp := surviving window in
       match pySubscript temp daypos with
       | None => Ok poslist
       | Some i =>
           timeTemp ← index ts timepos;
           let res := occurrence info i timeTemp in
           if negb (timeContains poslist res) then Ok (poslist ++ [res])
           else Ok poslist
       end) l acc
  = Ok (acc ++ List.filter (fun u => negb (timeContains acc u))
                 (dedupTimes (omap (setposCandidate info ts (surviving window)) l))).
Proof.
  intros Hts Hpos. revert acc.
  match goal with |- forall acc, foldR ?f _ _ = _ => set (F := f) end.
  assert (Hstep : forall acc pos, pos <> 0 ->
    F acc pos
    = match setposCandidate info ts (surviving window) pos with
      | None => Ok acc
      | Some res => if negb (timeContains acc res) then Ok (acc ++ [res]) else Ok acc
      end).
  { intros acc pos Hp. subst F. cbv beta. unfold setposCandidate.
    replace (0 <? pos) with (negb (pos <? 0))
      by (destruct (Z.ltb_spec pos 0), (Z.ltb_spec 0 pos); cbn [negb]; try reflexivity; lia).
    destruct (pos <? 0); cbn [negb]; unfold divmod; cbv zeta;
      match goal with |- context [pymod ?a (len ts)] =>
        destruct (index_lookup ts (pymod a (len ts))) as (x & Hx & Hi);
        [unfold pymod; apply Z.mod_pos_bound; exact Hts |];
        rewrite Hx, Hi end;
      destruct (pySubscript _ _); reflexivity. }
  clearbody F.
  induction Hpos as [|pos l Hp Hl IH]; intros acc.
  - cbn [foldR omap dedupTimes List.filter list_omap]. rewrite app_nil_r. reflexivity.
  - cbn [foldR]. rewrite (Hstep acc pos Hp).
    change (omap (setposCandidate info ts (surviving window)) (pos :: l))
      with (match setposCandidate info ts (surviving window) pos with
            | Some res => res :: omap (setposCandidate info ts (surviving window)) l
            | None => omap (setposCandidate info ts (surviving window)) l
            end).
    destruct (setposCandidate info ts (surviving window) pos) as [res|].
    2:{ rsimpl. apply IH. }
    cbn [dedupTimes List.filter].
    destruct (timeContains acc res) eqn:E; cbn [negb]; rsimpl; rewrite IH.
    + f_equal. f_equal. symmetry. apply filter_absorb.
      intros u Hu. destruct (Time_eqb u res) eqn:Eu; [| reflexivity].
      apply Time_eqb_eq in Eu. subst u. rewrite E in Hu. discriminate.
    + rewrite <- app_assoc. cbn [app]. f_equal. f_equal. f_equal.
      rewrite filter_both. apply List.filter_ext. intros u.
      rewrite timeContains_app. unfold timeContains at 2. cbn [existsb].
      rewrite orb_false_r, negb_orb. reflexivity.
Qed.

Lemma selectPositions_dedup (r : RRule) (info : iterInfo) (ts : list Time)
    (window : dayset) :
  0 < len ts -> Forall (fun pos => pos <> 0) (Bysetpos r) ->
  selectPositions r info ts window
  = Ok (dedupTimes (omap (setposCandidate info ts (surviving window)) (Bysetpos r))).
Proof.
  intros Hts Hpos. unfold selectPositions.
  etransitivity; [exact (foldR_select info ts window (Bysetpos r) [] Hts Hpos) |].
  cbn [app]. f_equal. apply filter_all.
Qed.

Lemma validated_Bysetpos (now : Time) (arg : ROption) (r : RRule) :
  NewRRule now arg = inr r -> Forall (fun pos => pos <> 0) (Bysetpos r).
Proof.
  intros H. apply NewRRule_inr in H as [Hv ->].
  replace (Bysetpos (normalize now arg)) with (Opt.Bysetpos arg)
    by (symmetry; normalize_field).
  apply Forall_forall. intros pos Hin ->.
  assert (Hinv : invalidOptions arg).
  { do 7 right. left. apply Exists_exists. exists 0. split; [exact Hin |].
    split; [lia | intros _; lia]. }
  apply validateBounds_Some in Hinv as [e He]. congruence.
Qed.

(** X2: with a non-empty BYSETPOS and a non-empty time set, the candidates
    of a period are those that the positions select: position [pos] takes
    [(day_index, time_index) = divmod (pos - 1) |ts|] when positive and
    [divmod pos |ts|] when negative, with floor division and a remainder
    in [0, |ts|); [day_index] subscripts the surviving days as Python does
    (from the end when negative, nothing when out of range) and
    [time_index] the time set; repeated results are dropped and the rest
    is treated in ascending order. *)
Theorem setpos_selection (now : Time) (arg : ROption) (r : RRule)
    (info : iterInfo) (ts : list Time) (window : dayset) :
  NewRRule now arg = inr r ->
  Bysetpos r <> [] -> ts <> [] ->
  let S := surviving window in
  let selected := setposSpec (Bysetpos r) info ts S in
  candidates r info ts window = Ok selected
  /\ (forall it set s e, ii it = info -> timeset it = ts ->
        slice set s e = Ok window ->
        emit r it set s e = Ok (emitList r it selected))
  /\ StronglySorted notAfter selected
  /\ NoDup selected
  /\ (forall t, t ∈ selected <->
        exists pos, pos ∈ Bysetpos r /\ setposCandidate info ts S pos = Some t)
  /\ (forall a, a = fst (divmod a (len ts)) * len ts + snd (divmod a (len ts))
                /\ 0 <= snd (divmod a (len ts)) < len ts)
  /\ (forall d,
        (0 <= d < len S -> pySubscript S d = S !! Z.to_nat d)
        /\ (- len S <= d < 0 -> pySubscript S d = S !! Z.to_nat (len S + d))
        /\ (d < - len S \/ len S <= d -> pySubscript S d = None)).
Proof.
  intros Hr Hp Ht S selected.
  assert (Hlen : 0 < len ts).
  { destruct ts; [congruence |]. rewrite len_cons. pose proof (len_nonneg ts). lia. }
  assert (Hlp : 0 < len (Bysetpos r)).
  { destruct (Bysetpos r) as [|p l]; [congruence |].
    rewrite len_cons. pose proof (len_nonneg l). lia. }
  assert (Hc : candidates r info ts window = Ok selected).
  { unfold candidates.
    destruct (Z.eqb_spec (len (Bysetpos r)) 0); [lia |].
    destruct (Z.eqb_spec (len ts) 0); [lia |]. cbn [negb andb].
    rewrite (selectPositions_dedup r info ts window Hlen (validated_Bysetpos _ _ _ Hr)).
    reflexivity. }
  split; [exact Hc |]. split.
  { intros it set s e Hi Hts Hs. rewrite emit_candidates, Hs, Hi, Hts. rsimpl.
    rewrite Hc. reflexivity. }
  split; [apply sortTimes_sorted |]. split.
  { unfold selected, setposSpec. rewrite sortTimes_Permutation. apply NoDup_dedupTimes. }
  split.
  { intros t. unfold selected, setposSpec.
    rewrite sortTimes_Permutation, elem_dedupTimes, list_elem_of_omap. reflexivity. }
  split.
  { intros a. apply divmod_python. exact Hlen. }
  intros d. apply pySubscript_python.
Qed.

Lemma setpos_selection_witness :
  let r := normalize zeroTime lastWorkdayOptions in
  let ts := [utc 2018 1 1 9 0 0] in
  let window := [Some 29; None; Some 30] in
  candidates r iterInfo0 ts window
  = Ok (setposSpec (Bysetpos r) iterInfo0 ts (surviving window)).
Proof.
  intros r ts window.
  refine (proj1 (setpos_selection zeroTime lastWorkdayOptions r iterInfo0 ts
                   window eq_refl _ _)).
  - vm_compute. discriminate.
  - discriminate.
Defined.

Lemma last_workday_occurrences :
  exists r',
    All 10 (normalize zeroTime lastWorkdayOptions)
    = Ok (r', [utc 2018 1 31 9 0 0; utc 2018 2 28 9 0 0; utc 2018 3 30 9 0 0]).
Proof. vm_compute. eexists. reflexivity. Qed.

(** ** The count *)

Lemma validateBounds_with_Count arg c :
  validateBounds (OptUpd.with_Count arg c) = validateBounds arg.
Proof. reflexivity. Qed.

Lemma defaultsFromStart_with_Count freq start arg c :
  defaultsFromStart freq start (OptUpd.with_Count arg c)
  = OptUpd.with_Count (defaultsFromStart freq start arg) c.
Proof.
  unfold defaultsFromStart.
  change (Opt.Byweekno (OptUpd.with_Count arg c)) with (Opt.Byweekno arg).
  change (Opt.Byyearday (OptUpd.with_Count arg c)) with (Opt.Byyearday arg).
  change (Opt.Bymonthday (OptUpd.with_Count arg c)) with (Opt.Bymonthday arg).
  change (Opt.Byweekday (OptUpd.with_Count arg c)) with (Opt.Byweekday arg).
  change (Opt.Byeaster (OptUpd.with_Count arg c)) with (Opt.Byeaster arg).
  change (Opt.Bymonth (OptUpd.with_Count arg c)) with (Opt.Bymonth arg).
  destruct ((len (Opt.Byweekno arg) =? 0) && (len (Opt.Byyearday arg) =? 0)
            && (len (Opt.Bymonthday arg) =? 0) && (len (Opt.Byweekday arg) =? 0)
            && (len (Opt.Byeaster arg) =? 0)); [| reflexivity].
  destruct freq; try reflexivity.
  destruct (len (Opt.Bymonth arg) =? 0); reflexivity.
Qed.

Lemma normalize_sameCore_Count now arg c1 c2 :
  sameCore (normalize now (OptUpd.with_Count arg c1))
           (normalize now (OptUpd.with_Count arg c2)).
Proof.
  unfold normalize. cbv zeta. push_count.
  destruct (IsZero (Opt.Dtstart arg)); push_count;
    match goal with |- context [if IsZero ?t then _ else _] =>
      destruct (IsZero t) end;
    push_count; rewrite !defaultsFromStart_with_Count; push_count;
    repeat match goal with
           | |- context [let '(_, _) := ?p in _] => destruct p
           end;
    repeat eexists.
Qed.

Lemma accepted_sameCore r r2 l : sameCore r r2 -> accepted r2 l = accepted r l.
Proof.
  intros H. destruct (sameCore_proj r r2 H) as (_ & _ & _ & HD & HU & _).
  induction l as [|res l IH]; [reflexivity |].
  cbn [accepted]. unfold exceeds. rewrite HD, HU, IH. reflexivity.
Qed.

Lemma generate_buffered fuel r it :
  len (remain it) <> 0 -> generate fuel r it = Ok (r, it).
Proof.
  intros H. destruct fuel; cbn [generate];
    destruct (Z.eqb_spec (len (remain it)) 0); congruence.
Qed.

Lemma step_withEmit r fuel filtered it t c rm f :
  step r fuel filtered (withEmit it t c rm f)
  = mapR (fun ctl =>
            match ctl with
            | Return _ it' => Return (set_Len r t) (withEmit it' t c rm true)
            | Continue it' => Continue (withEmit it' t c rm f)
            end)
      (step r fuel filtered it).
Proof.
  unfold step. rewrite cursor_of_withEmit.
  destruct (stepCursor r fuel filtered (cursor_of it)) as [[over cur]| |];
    [| reflexivity ..].
  rsimpl. destruct cur as [[[[[[[[? ?] ?] ?] ?] ?] ?] ?] ?].
  destruct over; reflexivity.
Qed.

Lemma len_take_le {A} (l : list A) (c : Z) :
  0 <= c <= len l -> len (take (Z.to_nat c) l) = c.
Proof. unfold len. intros H. rewrite length_take. lia. Qed.

Lemma count_withEmit it t c rm f : count (withEmit it t c rm f) = c.
Proof. reflexivity. Qed.

Lemma total_withEmit it t c rm f : total (withEmit it t c rm f) = t.
Proof. reflexivity. Qed.

Lemma remain_withEmit it t c rm f : remain (withEmit it t c rm f) = rm.
Proof. reflexivity. Qed.

Lemma finished_withEmit it t c rm f : finished (withEmit it t c rm f) = f.
Proof. reflexivity. Qed.

(** A run of [generate] of the uncounted iterator is matched by the
    counted one, which ends in step with it or cut short. *)
Lemma generate_counted fuel m r0 rc it0 itc r0' it0' :
  sameCore r0 rc -> inStep m it0 itc ->
  generate fuel r0 it0 = Ok (r0', it0') ->
  exists rc' itc',
    generate fuel rc itc = Ok (rc', itc') /\ sameCore r0' rc'
    /\ (inStep m it0' itc' \/ cutShort m it0' itc').
Proof.
  intros HS. revert it0 itc r0' it0'.
  induction fuel as [|fuel IH]; intros it0 itc r0' it0' (Hc & -> & Hm) H.
  - cbn [generate] in H |- *. iter_simpl.
    destruct (len (remain it0) =? 0); [discriminate |].
    injection H as <- <-. eexists _, _. split; [reflexivity |].
    split; [exact HS |]. left. repeat split; assumption.
  - cbn [generate] in H |- *. iter_simpl.
    destruct (Z.eqb_spec (len (remain it0)) 0) as [E0|E0].
    2:{ injection H as <- <-. eexists _, _. split; [reflexivity |].
        split; [exact HS |]. left. repeat split; assumption. }
    rewrite period_candidates in H |- *.
    rewrite cursor_of_withEmit, (periodCandidates_sameCore r0 rc HS).
    destruct (periodCandidates r0 (cursor_of it0)) as [[cands filtered]| |];
      rsimpl in H; rsimpl; try discriminate.
    rewrite (emitList_uncounted r0 it0 cands Hc) in H.
    rewrite (emitList_counted rc _ cands) by (rewrite count_withEmit; lia).
    rewrite (accepted_sameCore r0 rc _ HS).
    destruct (accepted r0 cands) as [a cut]. cbv zeta in H |- *.
    iter_simpl in H. iter_simpl.
    pose proof (len_nonneg a) as Ha.
    destruct (Z.leb_spec (m - len (remain it0)) (len a)) as [Hle|Hgt].
    + rsimpl. eexists _, _. split; [reflexivity |].
      assert (Hx : lenOnly r0 r0' /\ remain it0' = remain it0 ++ a).
      { destruct cut; rsimpl in H.
        - injection H as <- <-. split; [apply lenOnly_set_Len | reflexivity].
        - rewrite step_withEmit in H.
          destruct (step r0 (S fuel) filtered it0) as [[r1 it1|it1]| |];
            rsimpl in H; try discriminate.
          + injection H as <- <-. split; [apply lenOnly_set_Len | reflexivity].
          + rewrite generate_buffered in H
              by (rewrite remain_withEmit, len_app; lia).
            injection H as <- <-. split; [apply lenOnly_refl | reflexivity]. }
      destruct Hx as [HL Hr]. split.
      * eapply sameCore_trans; [apply sameCore_sym, lenOnly_sameCore, HL |].
        eapply sameCore_trans; [exact HS | apply sameCore_set_Len].
      * right. unfold cutShort. iter_simpl. split; [reflexivity |].
        exists (drop (Z.to_nat (m - len (remain it0))) a).
        split; [rewrite Hr, <- app_assoc, take_drop; reflexivity |].
        rewrite len_app, len_take_le by lia. split; [lia | intros; lia].
    + destruct cut; rsimpl in H; rsimpl.
      * injection H as <- <-. eexists _, _. split; [reflexivity |].
        split; [apply sameCore_set_Len_both, HS |]. left.
        unfold inStep. iter_simpl. split; [reflexivity |].
        rewrite len_app. split; [f_equal; lia | lia].
      * rewrite step_withEmit in H.
        rewrite (step_sameCore r0 rc) by assumption. rewrite step_withEmit.
        destruct (step r0 (S fuel) filtered it0) as [[r1 it1|it1]| |];
          rsimpl in H; rsimpl; try discriminate.
        -- injection H as <- <-. eexists _, _. split; [reflexivity |].
           split; [apply sameCore_set_Len_both, HS |]. left.
           unfold inStep. iter_simpl. split; [reflexivity |].
           rewrite len_app. split; [f_equal; lia | lia].
        -- eapply IH; [| exact H].
           unfold inStep. iter_simpl. split; [reflexivity |].
           rewrite len_app. split; [f_equal; lia | lia].
Qed.

Lemma len_nil_inv {A} (l : list A) : len l = 0 -> l = [].
Proof. destruct l; [reflexivity |]. rewrite len_cons. pose proof (len_nonneg l). lia. Qed.

(** A call of [next] on the uncounted iterator is matched by the counted
    one: it hands out the same occurrence, unless its allowance is used
    up. *)
Lemma next_counted fuel m r0 rc it0 itc r1 it1 v :
  sameCore r0 rc -> 0 <= m -> inStep m it0 itc \/ cutShort m it0 itc ->
  next fuel r0 it0 = Ok (r1, it1, v) ->
  exists rc1 itc1 vc,
    next fuel rc itc = Ok (rc1, itc1, vc)
    /\ match vc with
       | Some t =>
           v = Some t /\ 0 < m /\ sameCore r1 rc1
           /\ (inStep (m - 1) it1 itc1 \/ cutShort (m - 1) it1 itc1)
       | None => v = None \/ m = 0
       end.
Proof.
  intros HS Hm0 Hrel Hn. unfold next in Hn |- *.
  apply bind_Ok in Hn as ([r0g it0g] & Hg & Hp).
  assert (Hgen : exists rcg itcg,
    (if negb (finished itc) then generate fuel rc itc else Ok (rc, itc))
    = Ok (rcg, itcg)
    /\ sameCore r0g rcg
    /\ (inStep m it0g itcg \/ cutShort m it0g itcg)).
  { destruct Hrel as [Hin | Hcut].
    - pose proof Hin as (Hc & Hi & Hm).
      assert (Ef : finished itc = finished it0) by (rewrite Hi; reflexivity).
      rewrite Ef.
      destruct (finished it0); rsimpl in Hg; rsimpl.
      + injection Hg as <- <-. eexists _, _. split; [reflexivity |]. auto.
      + destruct (generate_counted _ _ _ _ _ _ _ _ HS Hin Hg)
          as (rcg & itcg & Hgc & HSg & Hr).
        exists rcg, itcg. auto.
    - pose proof Hcut as (Hf & extra & Hr & Hle & Hlt). rewrite Hf. rsimpl.
      eexists _, _. split; [reflexivity |].
      destruct (finished it0) eqn:Ef; rsimpl in Hg.
      + injection Hg as <- <-. auto.
      + destruct (Z.eq_dec (len (remain it0)) 0) as [E0|E0].
        * assert (Erc : remain itc = []).
          { apply len_nil_inv. rewrite Hr, len_app in E0.
            pose proof (len_nonneg (remain itc)). pose proof (len_nonneg extra). lia. }
          rewrite Erc in Hle, Hlt. change (len (@nil Time)) with 0 in Hle, Hlt.
          assert (m = 0).
          { destruct (Z.eq_dec m 0) as [|Hne]; [assumption |].
            destruct Hlt as [_ Hfin]; [lia | congruence]. }
          subst m. split.
          -- apply generate_extends in Hg as [HL _].
             eapply sameCore_trans; [apply sameCore_sym, lenOnly_sameCore, HL | exact HS].
          -- right. split; [exact Hf |]. exists (remain it0g). rewrite Erc.
             split; [reflexivity |]. change (len (@nil Time)) with 0.
             split; [lia | intros; lia].
        * rewrite generate_buffered in Hg by assumption.
          injection Hg as <- <-. auto. }
  destruct Hgen as (rcg & itcg & -> & HSg & Hrel'). rsimpl.
  destruct Hrel' as [(Hc & Hi & Hm) | (Hf & extra & Hr & Hle & Hlt)].
  - rewrite Hi. iter_simpl.
    destruct (remain it0g) as [|t rest] eqn:Er.
    + injection Hp as <- <- <-. eexists _, _, None. split; [reflexivity |]. auto.
    + injection Hp as <- <- <-. eexists _, _, (Some t). split; [reflexivity |].
      rewrite len_cons in Hm. pose proof (len_nonneg rest).
      split; [reflexivity |]. split; [lia |]. split; [exact HSg |].
      left. unfold inStep. cbn [count total remain finished withEmit year month
        day hour minute second weekday ii timeset].
      split; [exact Hc |]. rewrite len_cons. split; [f_equal; lia | lia].
  - destruct (remain itcg) as [|t rest] eqn:Erc.
    + eexists _, _, None. split; [reflexivity |].
      destruct (Z.eq_dec m 0) as [|Hne]; [right; assumption | left].
      change (len (@nil Time)) with 0 in Hle, Hlt.
      destruct Hlt as [-> _]; [lia |]. cbn [app] in Hr. rewrite Hr in Hp.
      injection Hp as <- <- <-. reflexivity.
    + eexists _, _, (Some t). split; [reflexivity |].
      rewrite Hr in Hp. cbn [app] in Hp. injection Hp as <- <- <-.
      rewrite len_cons in Hle, Hlt. pose proof (len_nonneg rest).
      split; [reflexivity |]. split; [lia |]. split; [exact HSg |].
      right. unfold cutShort. cbn [remain finished].
      split; [exact Hf |]. exists extra. split; [reflexivity |].
      split; [lia |]. intros Hlt'. apply Hlt. lia.
Qed.

Lemma nexts_counted fuel k m r0 rc it0 itc r0' it0' outs0 :
  sameCore r0 rc -> 0 <= m -> inStep m it0 itc \/ cutShort m it0 itc ->
  nexts fuel k r0 it0 = Ok (r0', it0', outs0) ->
  exists rc' itc',
    nexts fuel k rc itc = Ok (rc', itc', take (Z.to_nat m) outs0).
Proof.
  revert m r0 rc it0 itc r0' it0' outs0.
  induction k as [|k IH]; intros m r0 rc it0 itc r0' it0' outs0 HS Hm Hrel H;
    cbn [nexts] in H |- *.
  - injection H as <- <- <-. rewrite take_nil. eauto.
  - apply bind_Ok in H as ([[r1 it1] v] & Hn & H).
    destruct (next_counted _ _ _ _ _ _ _ _ _ HS Hm Hrel Hn)
      as (rc1 & itc1 & vc & -> & Hv).
    rsimpl. destruct vc as [t|].
    + destruct Hv as (-> & Hpos & HS1 & Hrel1).
      apply bind_Ok in H as ([[r2 it2] l] & Hk & H). injection H as <- <- <-.
      destruct (IH (m - 1) _ _ _ _ _ _ _ HS1 ltac:(lia) Hrel1 Hk)
        as (rc' & itc' & ->).
      rsimpl. replace (Z.to_nat m) with (S (Z.to_nat (m - 1))) by lia.
      eauto.
    + destruct Hv as [-> | ->].
      * injection H as <- <- <-. rewrite take_nil. eauto.
      * change (Z.to_nat 0) with 0%nat. rewrite take_0. eauto.
Qed.

(** [generate] keeps the counted iterator within its allowance. *)
Lemma generate_allows fuel m r it r' it' :
  0 < count it -> count it + len (remain it) <= m ->
  generate fuel r it = Ok (r', it') -> allows m it'.
Proof.
  revert it r' it'. induction fuel as [|fuel IH]; intros it r' it' Hc Hm H;
    cbn [generate] in H.
  - destruct (len (remain it) =? 0); [discriminate |].
    injection H as <- <-. left. auto.
  - destruct (len (remain it) =? 0).
    2:{ injection H as <- <-. left. auto. }
    rewrite period_candidates in H.
    destruct (periodCandidates r (cursor_of it)) as [[cands filtered]| |];
      rsimpl in H; try discriminate.
    rewrite (emitList_counted r it cands Hc) in H.
    destruct (accepted r cands) as [a cut]. cbv zeta in H.
    pose proof (len_nonneg a) as Ha. pose proof (len_nonneg (remain it)) as Hr.
    destruct (Z.leb_spec (count it) (len a)) as [Hle|Hgt].
    + rsimpl in H. injection H as <- <-. right. iter_simpl.
      rewrite len_app, len_take_le by lia. split; [reflexivity | lia].
    + destruct cut; rsimpl in H.
      * injection H as <- <-. left. iter_simpl. rewrite len_app. lia.
      * rewrite step_withEmit in H.
        destruct (step r (S fuel) filtered it) as [[r1 it1|it1]| |];
          rsimpl in H; try discriminate.
        -- injection H as <- <-. left. iter_simpl. rewrite len_app. lia.
        -- apply IH in H; [exact H | |]; iter_simpl; [| rewrite len_app]; lia.
Qed.

Lemma nexts_allows fuel k m r it r' it' outs :
  allows m it -> nexts fuel k r it = Ok (r', it', outs) -> len outs <= m.
Proof.
  revert m r it r' it' outs.
  induction k as [|k IH]; intros m r it r' it' outs Hal H; cbn [nexts] in H.
  - injection H as <- <- <-. change (len (@nil Time)) with 0.
    destruct Hal as [[Hc Hm] | [_ Hm]]; pose proof (len_nonneg (remain it)); lia.
  - apply bind_Ok in H as ([[r1 it1] v] & Hn & H). unfold next in Hn.
    apply bind_Ok in Hn as ([rg itg] & Hg & Hp).
    assert (Hal' : allows m itg).
    { destruct Hal as [[Hc Hm] | [Hf Hm]].
      - destruct (finished it); rsimpl in Hg.
        + injection Hg as <- <-. left. auto.
        + eapply generate_allows; eassumption.
      - rewrite Hf in Hg. rsimpl in Hg. injection Hg as <- <-. right. auto. }
    destruct (remain itg) as [|t rest] eqn:Er.
    + injection Hp as <- <- <-. injection H as <- <- <-.
      change (len (@nil Time)) with 0.
      destruct Hal' as [[Hc Hm] | [_ Hm]]; rewrite Er in Hm;
        change (len (@nil Time)) with 0 in Hm; lia.
    + injection Hp as <- <- <-.
      apply bind_Ok in H as ([[r2 it2] l] & Hk & H). injection H as <- <- <-.
      rewrite len_cons. apply (IH (m - 1)) in Hk; [lia |].
      unfold allows in Hal'. rewrite Er, len_cons in Hal'. unfold allows. cbn [count remain finished].
      destruct Hal' as [[Hc Hm] | [Hf Hm]]; [left | right]; split;
        try assumption; lia.
Qed.

Lemma count_at_most fuel k r r' it' outs :
  0 < Count r -> iterate fuel k r = Ok (r', it', outs) -> len outs <= Count r.
Proof.
  intros Hn H. unfold iterate in H.
  apply bind_Ok in H as (it & Hi & H).
  apply Iterator_fresh in Hi as (_ & Hcnt & Hrem & _).
  eapply nexts_allows; [| exact H]. left. rewrite Hcnt, Hrem.
  change (len (@nil Time)) with 0. lia.
Qed.

Lemma count_prefix fuel k r0 rn r' it' outs0 :
  sameCore r0 rn -> Count r0 = 0 -> 0 < Count rn ->
  iterate fuel k r0 = Ok (r', it', outs0) ->
  exists r'' it'',
    iterate fuel k rn = Ok (r'', it'', take (Z.to_nat (Count rn)) outs0).
Proof.
  intros HS C0 Hn H. unfold iterate in H |- *.
  apply bind_Ok in H as (it0 & Hi & H).
  rewrite (Iterator_sameCore _ _ HS), Hi.
  change (mapR (fun it => withEmit it (total it) (Count rn) (remain it) (finished it))
            (Ok it0))
    with (Ok (withEmit it0 (total it0) (Count rn) (remain it0) (finished it0))).
  pose proof (Iterator_fresh _ _ Hi) as (_ & Hcnt & Hrem & _).
  assert (Hin : inStep (Count rn) it0
            (withEmit it0 (total it0) (Count rn) (remain it0) (finished it0))).
  { unfold inStep. rewrite Hcnt, Hrem, C0.
    change (len (@nil Time)) with 0. split; [reflexivity |].
    split; [f_equal; lia | lia]. }
  assert (Hm : 0 <= Count rn) by lia.
  destruct (nexts_counted fuel k (Count rn) r0 rn it0 _ r' it' outs0 HS Hm
              (or_introl Hin) H) as (rc' & itc' & Hk).
  exists rc', itc'. exact Hk.
Qed.

(** X1: a rule with count [n > 0] yields at most [n] occurrences; what it
    yields is what the same rule without a count yields, cut after [n]
    occurrences, so exactly [n] when there are that many; and with count 0
    the iterator counts nothing: the output loop appends every candidate in
    range and ends the stream at the until only. *)
Theorem count_bounds_stream (now : Time) (arg : ROption) (n : Z)
    (r0 rn : RRule) (fuel k : nat) :
  0 < n ->
  NewRRule now (OptUpd.with_Count arg 0) = inr r0 ->
  NewRRule now (OptUpd.with_Count arg n) = inr rn ->
  (forall r' it' outs, iterate fuel k rn = Ok (r', it', outs) -> len outs <= n)
  /\ (forall r' it' outs0,
        iterate fuel k r0 = Ok (r', it', outs0) ->
        exists r'' it'' outs,
          iterate fuel k rn = Ok (r'', it'', outs)
          /\ outs = take (Z.to_nat n) outs0
          /\ (n <= len outs0 -> len outs = n))
  /\ (forall it, Iterator r0 = Ok it -> count it = 0)
  /\ (forall it l,
        count it = 0 ->
        emitList r0 it l
        = let '(a, cut) := accepted r0 l in
          let it' := withEmit it (total it + len a) 0 (remain it ++ a) in
          if cut : bool then Return (set_Len r0 (total it + len a)) (it' true)
          else Continue (it' (finished it))).
Proof.
  intros Hn H0 Hc.
  apply NewRRule_inr in H0 as [_ H0]. apply NewRRule_inr in Hc as [_ Hc].
  assert (HS : sameCore r0 rn).
  { rewrite H0, Hc. apply normalize_sameCore_Count. }
  assert (C0 : Count r0 = 0) by (rewrite H0; apply normalize_Count).
  assert (Cn : Count rn = n) by (rewrite Hc; apply normalize_Count).
  clear H0 Hc.
  split; [| split; [| split]].
  - intros r' it' outs H. rewrite <- Cn. eapply count_at_most; [lia | exact H].
  - intros r' it' outs0 H.
    destruct (count_prefix fuel k r0 rn r' it' outs0 HS C0 ltac:(lia) H)
      as (r'' & it'' & Hk).
    rewrite Cn in Hk. exists r'', it'', (take (Z.to_nat n) outs0).
    split; [exact Hk |]. split; [reflexivity |].
    intros Hlen. unfold len in *. rewrite length_take. lia.
  - intros it Hi. apply Iterator_fresh in Hi as (_ & -> & _). exact C0.
  - intros it l Hcnt. apply emitList_uncounted. exact Hcnt.
Qed.

Lemma count_bounds_stream_witness :
  exists outs0 outs,
    (exists r' it',
       iterate 10 5 (normalize zeroTime (OptUpd.with_Count dailyOptions 0))
       = Ok (r', it', outs0))
    /\ (exists r' it',
          iterate 10 5 (normalize zeroTime (OptUpd.with_Count dailyOptions 2))
          = Ok (r', it', outs))
    /\ outs = take 2 outs0 /\ len outs <= 2.
Proof.
  assert (E0 : exists r' it' outs0,
    iterate 10 5 (normalize zeroTime (OptUpd.with_Count dailyOptions 0))
    = Ok (r', it', outs0)).
  { vm_compute. repeat eexists. }
  destruct E0 as (r' & it' & outs0 & E0).
  destruct (count_bounds_stream zeroTime dailyOptions 2
              (normalize zeroTime (OptUpd.with_Count dailyOptions 0))
              (normalize zeroTime (OptUpd.with_Count dailyOptions 2))
              10 5 eq_refl eq_refl eq_refl) as (H1 & H2 & _).
  destruct (H2 r' it' outs0 E0) as (r'' & it'' & outs & E & Ho & _).
  exists outs0, outs. split; [eauto |]. split; [eauto |].
  split; [exact Ho | exact (H1 r'' it'' outs E)].
Defined.

(** ** Rules made by [NewRRule] are well formed *)

Lemma Hour_range (t : Time) : 0 <= Hour t <= 23.
Proof. unfold Hour. Z.to_euclidean_division_equations. lia. Qed.

Lemma Minute_range (t : Time) : 0 <= Minute t <= 59.
Proof. unfold Minute. Z.to_euclidean_division_equations. lia. Qed.

Lemma Sec_range (t : Time) : 0 <= Sec t <= 59.
Proof. unfold Sec. Z.to_euclidean_division_equations. lia. Qed.

Lemma absDate_leap (days : Z) :
  snd (absDate days) < 365 + isLeap (fst (absDate days)).
Proof.
  unfold absDate, isLeap. cbv zeta. cbn [fst snd].
  destruct (Z.eqb_spec ((1 + 400 * (days / 146097)
     + 100 * Z.min (days mod 146097 / 36524) 3
     + 4 * ((days mod 146097 - 36524 * Z.min (days mod 146097 / 36524) 3) / 1461)
     + Z.min ((days mod 146097 - 36524 * Z.min (days mod 146097 / 36524) 3
               - 1461 * ((days mod 146097
                          - 36524 * Z.min (days mod 146097 / 36524) 3) / 1461))
              / 365) 3) mod 4) 0) as [E4|E4];
  destruct (Z.eqb_spec ((1 + 400 * (days / 146097)
     + 100 * Z.min (days mod 146097 / 36524) 3
     + 4 * ((days mod 146097 - 36524 * Z.min (days mod 146097 / 36524) 3) / 1461)
     + Z.min ((days mod 146097 - 36524 * Z.min (days mod 146097 / 36524) 3
               - 1461 * ((days mod 146097
                          - 36524 * Z.min (days mod 146097 / 36524) 3) / 1461))
              / 365) 3) mod 100) 0) as [E100|E100];
  destruct (Z.eqb_spec ((1 + 400 * (days / 146097)
     + 100 * Z.min (days mod 146097 / 36524) 3
     + 4 * ((days mod 146097 - 36524 * Z.min (days mod 146097 / 36524) 3) / 1461)
     + Z.min ((days mod 146097 - 36524 * Z.min (days mod 146097 / 36524) 3
               - 1461 * ((days mod 146097
                          - 36524 * Z.min (days mod 146097 / 36524) 3) / 1461))
              / 365) 3) mod 400) 0) as [E400|E400];
  cbn [negb andb orb]; revert E4 E100 E400;
  Z.to_euclidean_division_equations; lia.
Qed.

Lemma isLeap_cases (year : Z) : isLeap year = 0 \/ isLeap year = 1.
Proof. unfold isLeap. destruct (_ && _); auto. Qed.

Lemma monthDay_range (year yday : Z) :
  0 <= yday < 365 + isLeap year ->
  1 <= fst (monthDay year yday) <= 12 /\ 1 <= snd (monthDay year yday) <= 31.
Proof.
  intros H. unfold monthDay, leapYear.
  destruct (isLeap_cases year) as [E|E]; rewrite E in *; cbn [Z.eqb Pos.eqb andb].
  - cbv zeta.
    assert (Hq : 0 <= yday / 31 <= 11) by (Z.to_euclidean_division_equations; lia).
    pose proof (Z.div_mod yday 31 ltac:(lia)) as Hdm.
    pose proof (Z.mod_pos_bound yday 31 ltac:(lia)) as Hmod.
    set (q := yday / 31) in *. clearbody q.
    assert (Hc : q = 0 \/ q = 1 \/ q = 2 \/ q = 3 \/ q = 4 \/ q = 5 \/ q = 6
                 \/ q = 7 \/ q = 8 \/ q = 9 \/ q = 10 \/ q = 11) by lia.
    repeat destruct Hc as [-> | Hc]; try subst q;
      repeat match goal with
             | |- context [nth ?n daysBefore 0] =>
                 let v := eval vm_compute in (nth n daysBefore 0) in
                 change (nth n daysBefore 0) with v
             end;
      match goal with |- context [?e <=? yday] => destruct (Z.leb_spec e yday) end;
      cbn [fst snd]; lia.
  - destruct (Z.eqb_spec yday 59) as [->|Hne]; [cbn [fst snd]; lia |].
    cbv zeta.
    set (day := if 59 <? yday then yday - 1 else yday).
    assert (Hd : 0 <= day < 365).
    { subst day. destruct (Z.ltb_spec 59 yday); lia. }
    assert (Hd2 : day = yday \/ day = yday - 1).
    { subst day. destruct (59 <? yday); auto. }
    clearbody day.
    assert (Hq : 0 <= day / 31 <= 11) by (Z.to_euclidean_division_equations; lia).
    pose proof (Z.div_mod day 31 ltac:(lia)) as Hdm.
    pose proof (Z.mod_pos_bound day 31 ltac:(lia)) as Hmod.
    set (q := day / 31) in *. clearbody q.
    assert (Hc : q = 0 \/ q = 1 \/ q = 2 \/ q = 3 \/ q = 4 \/ q = 5 \/ q = 6
                 \/ q = 7 \/ q = 8 \/ q = 9 \/ q = 10 \/ q = 11) by lia.
    repeat destruct Hc as [-> | Hc]; try subst q;
      repeat match goal with
             | |- context [nth ?n daysBefore 0] =>
                 let v := eval vm_compute in (nth n daysBefore 0) in
                 change (nth n daysBefore 0) with v
             end;
      match goal with |- context [?e <=? day] => destruct (Z.leb_spec e day) end;
      cbn [fst snd]; lia.
Qed.

Lemma MonthOf_range (t : Time) : 1 <= MonthOf t <= 12.
Proof.
  unfold MonthOf. pose proof (absDate_yday (abs t / 86400)) as H.
  pose proof (absDate_leap (abs t / 86400)) as HL.
  destruct (absDate (abs t / 86400)) as [y yd]. cbn [fst snd] in *.
  apply monthDay_range. lia.
Qed.

Lemma Day_range (t : Time) : 1 <= Day t <= 31.
Proof.
  unfold Day. pose proof (absDate_yday (abs t / 86400)) as H.
  pose proof (absDate_leap (abs t / 86400)) as HL.
  destruct (absDate (abs t / 86400)) as [y yd]. cbn [fst snd] in *.
  apply monthDay_range. lia.
Qed.

(** ** The rule that [NewRRule] makes, field by field *)

Lemma defaultsFromStart_with_Dtstart freq start arg v :
  defaultsFromStart freq start (OptUpd.with_Dtstart arg v)
  = OptUpd.with_Dtstart (defaultsFromStart freq start arg) v.
Proof.
  unfold defaultsFromStart.
  change (Opt.Byweekno (OptUpd.with_Dtstart arg v)) with (Opt.Byweekno arg).
  change (Opt.Byyearday (OptUpd.with_Dtstart arg v)) with (Opt.Byyearday arg).
  change (Opt.Bymonthday (OptUpd.with_Dtstart arg v)) with (Opt.Bymonthday arg).
  change (Opt.Byweekday (OptUpd.with_Dtstart arg v)) with (Opt.Byweekday arg).
  change (Opt.Byeaster (OptUpd.with_Dtstart arg v)) with (Opt.Byeaster arg).
  change (Opt.Bymonth (OptUpd.with_Dtstart arg v)) with (Opt.Bymonth arg).
  destruct ((len (Opt.Byweekno arg) =? 0) && (len (Opt.Byyearday arg) =? 0)
            && (len (Opt.Bymonthday arg) =? 0) && (len (Opt.Byweekday arg) =? 0)
            && (len (Opt.Byeaster arg) =? 0)); [| reflexivity].
  destruct freq; try reflexivity.
  destruct (len (Opt.Bymonth arg) =? 0); reflexivity.
Qed.

Lemma defaultsFromStart_with_Until freq start arg v :
  defaultsFromStart freq start (OptUpd.with_Until arg v)
  = OptUpd.with_Until (defaultsFromStart freq start arg) v.
Proof.
  unfold defaultsFromStart.
  change (Opt.Byweekno (OptUpd.with_Until arg v)) with (Opt.Byweekno arg).
  change (Opt.Byyearday (OptUpd.with_Until arg v)) with (Opt.Byyearday arg).
  change (Opt.Bymonthday (OptUpd.with_Until arg v)) with (Opt.Bymonthday arg).
  change (Opt.Byweekday (OptUpd.with_Until arg v)) with (Opt.Byweekday arg).
  change (Opt.Byeaster (OptUpd.with_Until arg v)) with (Opt.Byeaster arg).
  change (Opt.Bymonth (OptUpd.with_Until arg v)) with (Opt.Bymonth arg).
  destruct ((len (Opt.Byweekno arg) =? 0) && (len (Opt.Byyearday arg) =? 0)
            && (len (Opt.Bymonthday arg) =? 0) && (len (Opt.Byweekday arg) =? 0)
            && (len (Opt.Byeaster arg) =? 0)); [| reflexivity].
  destruct freq; try reflexivity.
  destruct (len (Opt.Bymonth arg) =? 0); reflexivity.
Qed.

Lemma defaultsFromStart_keeps freq start arg :
  let arg' := defaultsFromStart freq start arg in
  Opt.Byhour arg' = Opt.Byhour arg /\ Opt.Byminute arg' = Opt.Byminute arg
  /\ Opt.Bysecond arg' = Opt.Bysecond arg /\ Opt.Byyearday arg' = Opt.Byyearday arg
  /\ Opt.Byweekno arg' = Opt.Byweekno arg /\ Opt.Byeaster arg' = Opt.Byeaster arg.
Proof.
  unfold defaultsFromStart.
  destruct ((len (Opt.Byweekno arg) =? 0) && (len (Opt.Byyearday arg) =? 0)
            && (len (Opt.Bymonthday arg) =? 0) && (len (Opt.Byweekday arg) =? 0)
            && (len (Opt.Byeaster arg) =? 0)); [| cbv zeta; tauto].
  destruct freq; cbv zeta; try tauto;
    try destruct (len (Opt.Bymonth arg) =? 0); repeat split; reflexivity.
Qed.

Lemma normalize_eq now arg :
  normalize now arg
  = let start := startOf now arg in
    let until :=
      if IsZero (Opt.Until arg) then Add start maxDuration else Opt.Until arg in
    let arg' := defaultsFromStart (Opt.Freq arg) start arg in
    let '(bymonthday, bynmonthday) := splitMonthdays (Opt.Bymonthday arg') in
    let '(byweekday, bynweekday) :=
      splitWeekdays (Opt.Freq arg) (Opt.Byweekday arg') in
    let byhour :=
      if len (Opt.Byhour arg) =? 0
      then (if freqZ (Opt.Freq arg) <? freqZ HOURLY then [Hour start] else [])
      else Opt.Byhour arg in
    let byminute :=
      if len (Opt.Byminute arg) =? 0
      then (if freqZ (Opt.Freq arg) <? freqZ MINUTELY then [Minute start] else [])
      else Opt.Byminute arg in
    let bysecond :=
      if len (Opt.Bysecond arg) =? 0
      then (if freqZ (Opt.Freq arg) <? freqZ SECONDLY then [Sec start] else [])
      else Opt.Bysecond arg in
    mkRRule arg
      (if IsZero (Opt.Until arg)
       then OptUpd.with_Until (OptUpd.with_Dtstart arg' start) until
       else OptUpd.with_Dtstart arg' start)
      (Opt.Freq arg) start
      (if Opt.Interval arg =? 0 then 1 else Opt.Interval arg)
      (wd_weekday (Opt.Wkst arg)) (Opt.Count arg) until (Opt.Bysetpos arg)
      (Opt.Bymonth arg') bymonthday bynmonthday (Opt.Byyearday arg)
      (Opt.Byweekno arg) byweekday bynweekday byhour byminute bysecond
      (Opt.Byeaster arg)
      (calculateTimeset (Opt.Freq arg) byhour byminute bysecond (LocationOf start))
      0.
Proof.
  unfold normalize, startOf. cbv zeta.
  destruct (IsZero (Opt.Dtstart arg)); push_opts;
    destruct (IsZero (Opt.Until arg)); push_opts;
    rewrite ?defaultsFromStart_with_Until, ?defaultsFromStart_with_Dtstart;
    push_opts;
    match goal with
    | |- context [defaultsFromStart ?f ?s arg] =>
        destruct (defaultsFromStart_keeps f s arg)
          as (-> & -> & -> & -> & -> & ->)
    end;
    repeat match goal with
           | |- context [let '(_, _) := ?p in _] => destruct p
           end;
    reflexivity.
Qed.

Lemma not_Exists_outOfBounds lo hi pm l :
  ~ Exists (outOfBounds lo hi pm) l -> Forall (inBounds lo hi pm) l.
Proof.
  intros H. apply Forall_forall. intros v Hin.
  destruct (Z_le_dec lo v) as [H1|H1], (Z_le_dec v hi) as [H2|H2];
    try (left; lia);
    (destruct pm;
     [ destruct (Z_le_dec (- hi) v) as [H3|H3], (Z_le_dec v (- lo)) as [H4|H4];
       try (right; split; [reflexivity | lia])
     | ]);
    exfalso; apply H, Exists_exists; exists v; (split; [exact Hin |]);
    (split; [lia | intros E; try discriminate; lia]).
Qed.

Lemma validated_options (arg : ROption) :
  validateBounds arg = None ->
  Forall (inBounds 0 59 false) (Opt.Bysecond arg)
  /\ Forall (inBounds 0 59 false) (Opt.Byminute arg)
  /\ Forall (inBounds 0 23 false) (Opt.Byhour arg)
  /\ Forall (inBounds 1 31 true) (Opt.Bymonthday arg)
  /\ Forall (inBounds 1 366 true) (Opt.Byyearday arg)
  /\ Forall (inBounds 1 53 true) (Opt.Byweekno arg)
  /\ Forall (inBounds 1 12 false) (Opt.Bymonth arg)
  /\ Forall (inBounds 1 366 true) (Opt.Bysetpos arg)
  /\ Forall (fun w => Z.abs (wd_n w) <= 53) (Opt.Byweekday arg)
  /\ 0 <= Opt.Interval arg.
Proof.
  intros Hv.
  assert (Hn : ~ invalidOptions arg).
  { intros Hi. apply validateBounds_Some in Hi as [e He]. congruence. }
  unfold invalidOptions in Hn.
  repeat split; try (apply not_Exists_outOfBounds; tauto).
  - apply Forall_forall. intros w Hin.
    destruct (Z_le_dec (Z.abs (wd_n w)) 53) as [|Hgt]; [assumption |].
    exfalso. apply Hn. do 8 right. left. apply Exists_exists.
    exists w. split; [exact Hin | lia].
  - destruct (Z_le_dec 0 (Opt.Interval arg)); [assumption |].
    exfalso. apply Hn. do 9 right. lia.
Qed.

Lemma Forall_List_filter {A} (P : A -> Prop) (p : A -> bool) (l : list A) :
  Forall P l -> Forall P (List.filter p l).
Proof.
  induction 1 as [|x l Hx Hl IH]; cbn [List.filter]; [constructor |].
  destruct (p x); [constructor; assumption | assumption].
Qed.

Lemma Forall_filter_both {A} (P : A -> Prop) (p : A -> bool) (l : list A) :
  Forall P l -> Forall (fun x => P x /\ p x = true) (List.filter p l).
Proof.
  induction 1 as [|x l Hx Hl IH]; cbn [List.filter]; [constructor |].
  destruct (p x) eqn:E; [constructor; auto | assumption].
Qed.

Lemma normalize_bounds (now : Time) (arg : ROption) :
  validateBounds arg = None ->
  let r := normalize now arg in
  1 <= Interval r
  /\ Forall (fun m => 1 <= m <= 12) (Bymonth r)
  /\ Forall (fun d => 1 <= d <= 31) (Bymonthday r)
  /\ Forall (fun d => -31 <= d <= -1) (Bynmonthday r)
  /\ Forall (fun d => 1 <= Z.abs d <= 366) (Byyearday r)
  /\ Forall (fun w => 1 <= Z.abs w <= 53) (Byweekno r)
  /\ Forall (fun p => 1 <= Z.abs p <= 366) (Bysetpos r)
  /\ Forall (fun w => 1 <= Z.abs (wd_n w) <= 53) (Bynweekday r)
  /\ Forall (fun h => 0 <= h <= 23) (Byhour r)
  /\ Forall (fun m => 0 <= m <= 59) (Byminute r)
  /\ Forall (fun s => 0 <= s <= 59) (Bysecond r).
Proof.
  intros Hv r. subst r.
  apply validated_options in Hv
    as (Hs & Hmi & Hh & Hmd & Hyd & Hwn & Hm & Hsp & Hwd & Hi).
  rewrite normalize_eq. cbv zeta.
  rewrite splitMonthdays_filter, splitWeekdays_filter.
  cbn [Interval Bymonth Bymonthday Bynmonthday Byyearday Byweekno Bysetpos
       Bynweekday Byhour Byminute Bysecond].
  set (start := startOf now arg).
  assert (Hm' : Forall (fun m => 1 <= m <= 12)
                  (Opt.Bymonth (defaultsFromStart (Opt.Freq arg) start arg))).
  { assert (Hm0 : Forall (fun m => 1 <= m <= 12) (Opt.Bymonth arg)).
    { eapply Forall_impl; [exact Hm |]. intros m [H | [H _]]; [lia | discriminate]. }
    unfold defaultsFromStart.
    destruct (_ && _); [| exact Hm0].
    destruct (Opt.Freq arg); try exact Hm0.
    destruct (len (Opt.Bymonth arg) =? 0); [| exact Hm0].
    cbn [Opt.Bymonth OptUpd.with_Bymonthday OptUpd.with_Bymonth].
    constructor; [apply MonthOf_range | constructor]. }
  assert (Hmd' : Forall (inBounds 1 31 true)
                   (Opt.Bymonthday (defaultsFromStart (Opt.Freq arg) start arg))).
  { unfold defaultsFromStart.
    destruct (_ && _); [| exact Hmd].
    destruct (Opt.Freq arg); try exact Hmd;
      try destruct (len (Opt.Bymonth arg) =? 0);
      cbn [Opt.Bymonthday OptUpd.with_Bymonthday OptUpd.with_Bymonth
           OptUpd.with_Byweekday];
      try exact Hmd;
      (constructor; [left; apply Day_range | constructor]). }
  assert (Hwd' : Forall (fun w => Z.abs (wd_n w) <= 53)
                   (Opt.Byweekday (defaultsFromStart (Opt.Freq arg) start arg))).
  { unfold defaultsFromStart.
    destruct (_ && _); [| exact Hwd].
    destruct (Opt.Freq arg); try exact Hwd;
      try destruct (len (Opt.Bymonth arg) =? 0);
      cbn [Opt.Byweekday OptUpd.with_Bymonthday OptUpd.with_Bymonth
           OptUpd.with_Byweekday];
      try exact Hwd.
    all: constructor; [cbn [wd_n]; lia | constructor]. }
  split; [destruct (Z.eqb_spec (Opt.Interval arg) 0); lia |].
  split; [exact Hm' |].
  split.
  { eapply Forall_impl; [apply Forall_filter_both, Hmd' |].
    cbv beta. intros d [[H | [_ H]] Hp]; lia. }
  split.
  { eapply Forall_impl; [apply Forall_filter_both, Hmd' |].
    cbv beta. intros d [[H | [_ H]] Hp]; lia. }
  split.
  { eapply Forall_impl; [exact Hyd |]. intros d [H | [_ H]]; lia. }
  split.
  { eapply Forall_impl; [exact Hwn |]. intros d [H | [_ H]]; lia. }
  split.
  { eapply Forall_impl; [exact Hsp |]. intros d [H | [_ H]]; lia. }
  split.
  { eapply Forall_impl; [apply Forall_filter_both, Hwd' |].
    cbv beta. intros w [H Hp]. apply andb_true_iff in Hp as [Hp _].
    destruct (Z.eqb_spec (wd_n w) 0); [discriminate | lia]. }
  split.
  { destruct (len (Opt.Byhour arg) =? 0).
    - destruct (_ <? _); constructor; [apply Hour_range | constructor].
    - eapply Forall_impl; [exact Hh |]. intros d [H | [H _]]; [lia | discriminate]. }
  split.
  { destruct (len (Opt.Byminute arg) =? 0).
    - destruct (_ <? _); constructor; [apply Minute_range | constructor].
    - eapply Forall_impl; [exact Hmi |]. intros d [H | [H _]]; [lia | discriminate]. }
  destruct (len (Opt.Bysecond arg) =? 0).
  - destruct (_ <? _); constructor; [apply Sec_range | constructor].
  - eapply Forall_impl; [exact Hs |]. intros d [H | [H _]]; [lia | discriminate].
Qed.

(** X4: a rule made by [NewRRule] is well formed: its interval is at
    least 1, and every part lies within its bounds, the parts taken from
    the start included: months in 1..12, month days in 1..31 and -31..-1,
    year days and set positions in 1..366 by absolute value, week numbers
    in 1..53 by absolute value, weekday ordinals non-zero and at most 53 by
    absolute value, hours in 0..23, minutes and seconds in 0..59. *)
Theorem NewRRule_wellformed (now : Time) (arg : ROption) (r : RRule) :
  NewRRule now arg = inr r ->
  1 <= Interval r
  /\ Forall (fun m => 1 <= m <= 12) (Bymonth r)
  /\ Forall (fun d => 1 <= d <= 31) (Bymonthday r)
  /\ Forall (fun d => -31 <= d <= -1) (Bynmonthday r)
  /\ Forall (fun d => 1 <= Z.abs d <= 366) (Byyearday r)
  /\ Forall (fun w => 1 <= Z.abs w <= 53) (Byweekno r)
  /\ Forall (fun p => 1 <= Z.abs p <= 366) (Bysetpos r)
  /\ Forall (fun w => 1 <= Z.abs (wd_n w) <= 53) (Bynweekday r)
  /\ Forall (fun h => 0 <= h <= 23) (Byhour r)
  /\ Forall (fun m => 0 <= m <= 59) (Byminute r)
  /\ Forall (fun s => 0 <= s <= 59) (Bysecond r).
Proof.
  intros Hr. apply NewRRule_inr in Hr as [Hv ->].
  exact (normalize_bounds now arg Hv).
Qed.

Lemma NewRRule_wellformed_witness :
  let r := normalize zeroTime mixedOptions in
  1 <= Interval r
  /\ Forall (fun d => 1 <= d <= 31) (Bymonthday r)
  /\ Forall (fun d => -31 <= d <= -1) (Bynmonthday r).
Proof.
  intros r.
  pose proof (NewRRule_wellformed zeroTime mixedOptions r eq_refl)
    as (H1 & _ & H3 & H4 & _).
  auto.
Defined.

(** ** Exhaustion and the cached length *)

Lemma generate_done fuel r it r' it' :
  generate fuel r it = Ok (r', it') -> remain it' <> [] \/ finished it' = true.
Proof.
  revert it. induction fuel as [|fuel IH]; intros it; cbn [generate].
  - destruct (Z.eqb_spec (len (remain it)) 0) as [E|E]; [discriminate |].
    intros [= <- <-]. left. intros Hr. rewrite Hr in E. apply E. reflexivity.
  - destruct (Z.eqb_spec (len (remain it)) 0) as [E|E].
    + intros H. apply bind_Ok in H as (ctl & Hp & H).
      apply period_extends in Hp. destruct ctl as [r1 it1 | it1].
      * injection H as <- <-. right. apply Hp.
      * eapply IH. exact H.
    + intros [= <- <-]. left. intros Hr. rewrite Hr in E. apply E. reflexivity.
Qed.

Lemma next_None fuel r it r' it' :
  next fuel r it = Ok (r', it', None) -> remain it' = [] /\ finished it' = true.
Proof.
  unfold next. intros H. apply bind_Ok in H as ([r1 it1] & Hg & H).
  destruct (remain it1) as [|t rest] eqn:Er; [| discriminate].
  injection H as <- <-. split; [exact Er |].
  destruct (finished it) eqn:Hf; rsimpl in Hg.
  - injection Hg as <- <-. exact Hf.
  - apply generate_done in Hg as [Hg | Hg]; [congruence | exact Hg].
Qed.

Lemma next_exhausted fuel r it :
  finished it = true -> remain it = [] -> next fuel r it = Ok (r, it, None).
Proof. intros Hf Hr. unfold next. rewrite Hf. rsimpl. rewrite Hr. reflexivity. Qed.

Lemma nexts_exhausted fuel k r it :
  finished it = true -> remain it = [] -> nexts fuel k r it = Ok (r, it, []).
Proof.
  intros Hf Hr. destruct k as [|k]; cbn [nexts]; [reflexivity |].
  rewrite next_exhausted by assumption. reflexivity.
Qed.

Lemma nexts_short fuel k r it r' it' outs :
  nexts fuel k r it = Ok (r', it', outs) -> (length outs < k)%nat ->
  remain it' = [] /\ finished it' = true.
Proof.
  revert r it r' it' outs. induction k as [|k IH]; intros r it r' it' outs H Hlt;
    [lia |].
  cbn [nexts] in H. apply bind_Ok in H as ([[r1 it1] v] & Hn & H).
  destruct v as [t|].
  - apply bind_Ok in H as ([[r3 it3] l] & Hk & H). injection H as <- <- <-.
    eapply IH; [exact Hk |]. cbn [length] in Hlt. lia.
  - injection H as <- <- <-. eapply next_None. exact Hn.
Qed.

Lemma nexts_tally fuel k r it r' it' outs :
  nexts fuel k r it = Ok (r', it', outs) ->
  total it' - len (remain it') = total it - len (remain it) + len outs.
Proof.
  revert r it r' it' outs. induction k as [|k IH]; intros r it r' it' outs H;
    cbn [nexts] in H.
  - injection H as <- <- <-. change (len (@nil Time)) with 0. lia.
  - apply bind_Ok in H as ([[r1 it1] v] & Hn & H).
    apply next_extends in Hn as (it2 & (_ & a & _ & Hr & Ht) & Hv).
    assert (Hb : total it2 - len (remain it2) = total it - len (remain it)).
    { rewrite Hr, len_app. lia. }
    destruct v as [t|].
    + destruct Hv as (rest & Hr2 & ->).
      apply bind_Ok in H as ([[r3 it3] l] & Hk & H). injection H as <- <- <-.
      apply IH in Hk. cbn [total remain withEmit] in Hk.
      rewrite Hr2, len_cons in Hb. rewrite len_cons. lia.
    + destruct Hv as (Hr2 & ->). injection H as <- <- <-.
      change (len (@nil Time)) with 0. lia.
Qed.

(** X5: exhaustion is final: when a client that asks up to [k] times is
    given fewer than [k] occurrences, the iterator has finished with an
    empty buffer, and every later call of [next] reports exhaustion again
    and leaves the rule and the iterator as they are. *)
Theorem exhaustion_is_final (r : RRule) (fuel k : nat) (r' : RRule)
    (it' : rIterator) (outs : list Time) :
  iterate fuel k r = Ok (r', it', outs) ->
  (length outs < k)%nat ->
  finished it' = true /\ remain it' = []
  /\ forall fuel' k',
       next fuel' r' it' = Ok (r', it', None)
       /\ nexts fuel' k' r' it' = Ok (r', it', []).
Proof.
  intros H Hlt. unfold iterate in H. apply bind_Ok in H as (it & _ & H).
  destruct (nexts_short _ _ _ _ _ _ _ H Hlt) as [Hr Hf].
  split; [exact Hf |]. split; [exact Hr |]. intros fuel' k'.
  split; [apply next_exhausted | apply nexts_exhausted]; assumption.
Qed.

Lemma exhaustion_is_final_witness :
  exists r' it' outs,
    iterate 10 5 (normalize zeroTime dailyOptions) = Ok (r', it', outs)
    /\ next 0 r' it' = Ok (r', it', None).
Proof.
  assert (E : exists r' it',
    iterate 10 5 (normalize zeroTime dailyOptions)
    = Ok (r', it', [utc 2018 1 1 0 0 0; utc 2018 1 2 0 0 0; utc 2018 1 3 0 0 0])).
  { vm_compute. repeat eexists. }
  destruct E as (r' & it' & E). eexists r', it', _. split; [exact E |].
  refine (proj1 (proj2 (proj2 (exhaustion_is_final _ 10 5 r' it' _ E _)) 0%nat 0%nat)).
  cbn [length]. lia.
Defined.

(** X6: the cached length: the iterator's [total] counts the occurrences
    handed out and those still buffered; when a client that asks up to [k]
    times is given fewer than [k] occurrences, the rule's [Len] is the
    number of occurrences it was given. *)
Theorem Len_counts_occurrences (r : RRule) (fuel k : nat) (r' : RRule)
    (it' : rIterator) (outs : list Time) :
  iterate fuel k r = Ok (r', it', outs) ->
  total it' = len outs + len (remain it')
  /\ ((length outs < k)%nat -> Len r' = len outs).
Proof.
  intros H. unfold iterate in H. apply bind_Ok in H as (it & Hi & H).
  apply Iterator_fresh in Hi as (Ht & _ & Hr & Hf).
  pose proof (nexts_tally _ _ _ _ _ _ _ H) as Hb.
  rewrite Ht, Hr in Hb. change (len (@nil Time)) with 0 in Hb.
  split; [lia |]. intros Hlt.
  destruct (nexts_short _ _ _ _ _ _ _ H Hlt) as [Hr' Hf'].
  assert (HL : lenWritten r' it').
  { eapply nexts_lenWritten; [| exact H]. intros Hfin. congruence. }
  rewrite (HL Hf'). rewrite Hr' in Hb. change (len (@nil Time)) with 0 in Hb. lia.
Qed.

Lemma Len_counts_occurrences_witness :
  exists r' it' outs,
    iterate 10 5 (normalize zeroTime dailyOptions) = Ok (r', it', outs)
    /\ Len r' = 3.
Proof.
  assert (E : exists r' it',
    iterate 10 5 (normalize zeroTime dailyOptions)
    = Ok (r', it', [utc 2018 1 1 0 0 0; utc 2018 1 2 0 0 0; utc 2018 1 3 0 0 0])).
  { vm_compute. repeat eexists. }
  destruct E as (r' & it' & E). eexists r', it', _. split; [exact E |].
  refine (proj2 (Len_counts_occurrences _ 10 5 r' it' _ E) _).
  cbn [length]. lia.
Defined.

(** ** The setters *)

Lemma iterate_sameCore fuel k r r2 r' it' outs :
  sameCore r r2 -> Count r2 = Count r ->
  iterate fuel k r = Ok (r', it', outs) ->
  exists r2', iterate fuel k r2 = Ok (r2', it', outs) /\ sameCore r' r2'.
Proof.
  intros HS HC H. unfold iterate in H |- *.
  apply bind_Ok in H as (it & Hi & H).
  rewrite (Iterator_sameCore _ _ HS), Hi.
  pose proof (Iterator_fresh _ _ Hi) as (_ & Hcnt & _).
  change (mapR (fun it => withEmit it (total it) (Count r2) (remain it) (finished it))
            (Ok it))
    with (Ok (withEmit it (total it) (Count r2) (remain it) (finished it))).
  rewrite HC, <- Hcnt, withEmit_id.
  change (Ok it ≫= nexts fuel k r2) with (nexts fuel k r2 it).
  eapply nexts_sameCore; eassumption.
Qed.

Lemma iterate_inRange fuel k r r' it' outs :
  iterate fuel k r = Ok (r', it', outs) -> Forall (inRange r) outs.
Proof.
  intros H. unfold iterate in H. apply bind_Ok in H as (it & Hi & H).
  apply Iterator_fresh in Hi as (_ & _ & Hrem & _).
  eapply nexts_frame in H as (_ & Ho & _); [exact Ho |].
  rewrite Hrem. constructor.
Qed.

(** X7: [Until] on a rule made by [NewRRule]: with an until that is not
    the zero time the rule yields what the rule made from the same options
    with that until yields, and nothing after the until; with the zero
    time the rule has no until at all: no candidate is beyond it. *)
Theorem Until_setter (now : Time) (arg : ROption) (r : RRule) (ut : Time) :
  NewRRule now arg = inr r ->
  (IsZero ut = false ->
   (exists r2,
      NewRRule now (OptUpd.with_Until arg ut) = inr r2
      /\ forall fuel k r' it' outs,
           iterate fuel k r2 = Ok (r', it', outs) ->
           exists r'', iterate fuel k (Until r ut) = Ok (r'', it', outs))
   /\ forall fuel k r' it' outs,
        iterate fuel k (Until r ut) = Ok (r', it', outs) ->
        Forall (fun t => After t ut = false) outs)
  /\ (IsZero ut = true -> forall res, exceeds (Until r ut) res = false).
Proof.
  intros Hr. apply NewRRule_inr in Hr as [Hv ->]. split.
  - intros Hz. split.
    + exists (normalize now (OptUpd.with_Until arg ut)).
      split; [apply NewRRule_inr; split; [exact Hv | reflexivity] |].
      intros fuel k r' it' outs H.
      assert (HS : sameCore (normalize now (OptUpd.with_Until arg ut))
                     (Until (normalize now arg) ut)
                   /\ Count (Until (normalize now arg) ut)
                      = Count (normalize now (OptUpd.with_Until arg ut))).
      { rewrite !normalize_eq. cbv zeta. push_opts.
        rewrite defaultsFromStart_with_Until. push_opts. rewrite Hz.
        change (startOf now (OptUpd.with_Until arg ut)) with (startOf now arg).
        destruct (splitMonthdays _), (splitWeekdays _ _).
        split; [| reflexivity]. unfold Until. repeat eexists. }
      destruct HS as [HS HC].
      destruct (iterate_sameCore _ _ _ _ _ _ _ HS HC H) as (r'' & H' & _).
      exists r''. exact H'.
    + intros fuel k r' it' outs H. apply iterate_inRange in H.
      eapply Forall_impl; [exact H |]. intros t [_ He].
      unfold exceeds, Until in He. cbn [UntilTime] in He. rewrite Hz in He.
      exact He.
  - intros Hz res. unfold exceeds, Until. cbn [UntilTime]. rewrite Hz. reflexivity.
Qed.

Lemma Until_setter_witness :
  exists r' it' outs,
    iterate 10 5 (Until (normalize zeroTime dailyOptions) (utc 2018 1 2 0 0 0))
    = Ok (r', it', outs)
    /\ Forall (fun t => After t (utc 2018 1 2 0 0 0) = false) outs.
Proof.
  assert (E : exists r' it' outs,
    iterate 10 5 (Until (normalize zeroTime dailyOptions) (utc 2018 1 2 0 0 0))
    = Ok (r', it', outs)).
  { vm_compute. repeat eexists. }
  destruct E as (r' & it' & outs & E). exists r', it', outs.
  split; [exact E |].
  exact (proj2 (proj1 (Until_setter zeroTime dailyOptions
                         (normalize zeroTime dailyOptions) (utc 2018 1 2 0 0 0)
                         eq_refl) eq_refl) 10%nat 5%nat r' it' outs E).
Defined.

Lemma defaultsFromStart_id freq start arg :
  ~ noDaySelector arg \/ freqZ WEEKLY < freqZ freq ->
  defaultsFromStart freq start arg = arg.
Proof.
  intros H. unfold defaultsFromStart.
  destruct (Z.eqb_spec (len (Opt.Byweekno arg)) 0) as [E1|E1]; [| reflexivity].
  destruct (Z.eqb_spec (len (Opt.Byyearday arg)) 0) as [E2|E2]; [| reflexivity].
  destruct (Z.eqb_spec (len (Opt.Bymonthday arg)) 0) as [E3|E3]; [| reflexivity].
  destruct (Z.eqb_spec (len (Opt.Byweekday arg)) 0) as [E4|E4]; [| reflexivity].
  destruct (Z.eqb_spec (len (Opt.Byeaster arg)) 0) as [E5|E5]; [| reflexivity].
  cbn [andb]. destruct H as [H | H].
  - exfalso. apply H. unfold noDaySelector.
    repeat split; apply len_nil_inv; assumption.
  - destruct freq; cbn [freqZ] in H; try lia; reflexivity.
Qed.

(** X8: [DTStart] on a rule made by [NewRRule]: setting the start to the
    rule's own start changes nothing; setting it to another instant gives a
    rule that yields what the rule made from the same options with that
    start yields, provided that the options carry an until and that the
    start gave no default (a day-selecting part is given, or the frequency
    is finer than WEEKLY); otherwise the parts taken from the old start
    stay: the month day of a MONTHLY rule, and the until that stood in for
    a missing one. *)
Theorem DTStart_setter (now : Time) (arg : ROption) (r : RRule) (dt : Time) :
  NewRRule now arg = inr r ->
  DTStart r (DateStart r) = r
  /\ (IsZero dt = false -> IsZero (Opt.Until arg) = false ->
      ~ noDaySelector arg \/ freqZ WEEKLY < freqZ (Opt.Freq arg) ->
      exists r2,
        NewRRule now (OptUpd.with_Dtstart arg dt) = inr r2
        /\ forall fuel k r' it' outs,
             iterate fuel k r2 = Ok (r', it', outs) ->
             exists r'', iterate fuel k (DTStart r dt) = Ok (r'', it', outs))
  /\ (noDaySelector arg -> Opt.Freq arg = MONTHLY ->
      Bymonthday (DTStart r dt) = [Day (DateStart r)])
  /\ (IsZero (Opt.Until arg) = true ->
      UntilTime (DTStart r dt) = Add (DateStart r) maxDuration).
Proof.
  intros Hr. apply NewRRule_inr in Hr as [Hv ->].
  split; [| split; [| split]].
  - rewrite normalize_eq. cbv zeta.
    destruct (defaultsFromStart_keeps (Opt.Freq arg) (startOf now arg) arg)
      as (Eh & Em & Es & _).
    destruct (splitMonthdays _), (splitWeekdays _ _).
    unfold DTStart.
    cbn [OrigOptions Options Freq DateStart Interval Wkst Count UntilTime
         Bysetpos Bymonth Bymonthday Bynmonthday Byyearday Byweekno Byweekday
         Bynweekday Byhour Byminute Bysecond Byeaster Timeset Len].
    change (TruncateSecond (startOf now arg)) with (startOf now arg).
    destruct (IsZero (Opt.Until arg)); push_opts; rewrite Eh, Em, Es;
      destruct (len (Opt.Byhour arg) =? 0), (len (Opt.Byminute arg) =? 0),
        (len (Opt.Bysecond arg) =? 0),
        (freqZ (Opt.Freq arg) <? freqZ HOURLY),
        (freqZ (Opt.Freq arg) <? freqZ MINUTELY),
        (freqZ (Opt.Freq arg) <? freqZ SECONDLY); reflexivity.
  - intros Hz Hu Hd.
    exists (normalize now (OptUpd.with_Dtstart arg dt)).
    split; [apply NewRRule_inr; split; [exact Hv | reflexivity] |].
    intros fuel k r' it' outs H.
    assert (HS : sameCore (normalize now (OptUpd.with_Dtstart arg dt))
                   (DTStart (normalize now arg) dt)
                 /\ Count (DTStart (normalize now arg) dt)
                    = Count (normalize now (OptUpd.with_Dtstart arg dt))).
    { rewrite !normalize_eq. cbv zeta. unfold startOf. push_opts.
      rewrite Hz, Hu. rewrite !defaultsFromStart_with_Dtstart. push_opts.
      rewrite !defaultsFromStart_id by assumption.
      destruct (splitMonthdays _), (splitWeekdays _ _).
      unfold DTStart.
      cbn [OrigOptions Options Freq DateStart Interval Wkst Count UntilTime
           Bysetpos Bymonth Bymonthday Bynmonthday Byyearday Byweekno Byweekday
           Bynweekday Byhour Byminute Bysecond Byeaster Timeset Len].
      push_opts.
      split; [| reflexivity].
      destruct (len (Opt.Byhour arg) =? 0), (len (Opt.Byminute arg) =? 0),
        (len (Opt.Bysecond arg) =? 0),
        (freqZ (Opt.Freq arg) <? freqZ HOURLY),
        (freqZ (Opt.Freq arg) <? freqZ MINUTELY),
        (freqZ (Opt.Freq arg) <? freqZ SECONDLY); repeat eexists. }
    destruct HS as [HS HC].
    destruct (iterate_sameCore _ _ _ _ _ _ _ HS HC H) as (r'' & H' & _).
    exists r''. exact H'.
  - intros Hn Hf. rewrite normalize_eq. cbv zeta.
    destruct Hn as (E1 & E2 & E3 & E4 & E5).
    unfold defaultsFromStart. rewrite E1, E2, E3, E4, E5, Hf.
    change (len (@nil Z)) with 0. change (len (@nil Weekday)) with 0.
    cbn [Z.eqb andb]. cbn [Opt.Bymonthday OptUpd.with_Bymonthday Opt.Byweekday].
    rewrite splitMonthdays_filter. cbn [List.filter].
    pose proof (Day_ge_1 (startOf now arg)) as Hd.
    destruct (Z.ltb_spec 0 (Day (startOf now arg))) as [_|Hn]; [| lia].
    destruct (splitWeekdays _ _). reflexivity.
  - intros Hu. rewrite normalize_eq. cbv zeta. rewrite Hu.
    destruct (splitMonthdays _), (splitWeekdays _ _). reflexivity.
Qed.

(** FREQ=DAILY;UNTIL=2018-01-03T00:00:00Z, started again on
    2018-01-02T12:00:00Z. *)
Lemma DTStart_setter_witness :
  let r := normalize zeroTime dailyUntilOptions in
  let dt := utc 2018 1 2 12 0 0 in
  exists r2,
    NewRRule zeroTime (OptUpd.with_Dtstart dailyUntilOptions dt) = inr r2
    /\ forall fuel k r' it' outs,
         iterate fuel k r2 = Ok (r', it', outs) ->
         exists r'', iterate fuel k (DTStart r dt) = Ok (r'', it', outs).
Proof.
  intros r dt.
  refine (proj1 (proj2 (DTStart_setter zeroTime dailyUntilOptions r dt eq_refl))
            eq_refl eq_refl _).
  right. cbn [freqZ]. vm_compute. reflexivity.
Defined.

(** ** The time set *)

Lemma Date_clock (h mi s : Z) (loc : Location) :
  0 <= h <= 23 -> 0 <= mi <= 59 -> 0 <= s <= 59 ->
  let t := Date 1 1 1 h mi s 0 loc in
  Hour t = h /\ Minute t = mi /\ Sec t = s /\ Nanosecond t = 0
  /\ LocationOf t = loc.
Proof.
  intros Hh Hm Hs. unfold Date, norm. cbv beta iota zeta.
  change ((1 - 1) / 12) with 0. change ((1 - 1) mod 12) with 0.
  change (0 / 1000000000) with 0. change (0 mod 1000000000) with 0.
  rewrite !Z.add_0_r.
  rewrite (Z.div_small s 60), (Z.mod_small s 60) by lia. rewrite !Z.add_0_r.
  rewrite (Z.div_small mi 60), (Z.mod_small mi 60) by lia. rewrite !Z.add_0_r.
  rewrite (Z.div_small h 24), (Z.mod_small h 24) by lia. rewrite !Z.add_0_r.
  change (daysSinceEpoch 1 + nth (Z.to_nat 0) daysBefore 0) with 0.
  change (leapYear 1 && (2 <=? 0)) with false. cbv iota.
  unfold Hour, Minute, Sec, Nanosecond, LocationOf, abs. cbn [tsec tnsec tloc].
  repeat split; Z.to_euclidean_division_equations; lia.
Qed.

Lemma length_bind_const {A B} (f : A -> list B) (l : list A) (n : nat) :
  (forall x, length (f x) = n) -> length (l ≫= f) = (length l * n)%nat.
Proof.
  intros H. induction l as [|x l IH]; [reflexivity |].
  change ((x :: l) ≫= f) with (f x ++ (l ≫= f)).
  rewrite length_app, H, IH. cbn [length]. lia.
Qed.

(** X9: [calculateTimeset]: for a frequency of HOURLY or finer the time
    set is empty; for a coarser one it holds, in ascending order, one time
    for each combination of an hour, a minute and a second of the rule,
    repetitions included; when the parts are within their bounds, each
    time has its hour, minute and second among the rule's, no sub-second
    part, and the location given. *)
Theorem calculateTimeset_combinations (freq : Frequency)
    (byhour byminute bysecond : list Z) (loc : Location) :
  let ts := calculateTimeset freq byhour byminute bysecond loc in
  (freqZ HOURLY <= freqZ freq -> ts = [])
  /\ (freqZ freq < freqZ HOURLY ->
      StronglySorted notAfter ts
      /\ len ts = len byhour * len byminute * len bysecond
      /\ (forall t, t ∈ ts <->
            exists h mi s, h ∈ byhour /\ mi ∈ byminute /\ s ∈ bysecond
                           /\ t = Date 1 1 1 h mi s 0 loc)
      /\ (Forall (fun h => 0 <= h <= 23) byhour ->
          Forall (fun m => 0 <= m <= 59) byminute ->
          Forall (fun s => 0 <= s <= 59) bysecond ->
          Forall (fun t => Hour t ∈ byhour /\ Minute t ∈ byminute
                           /\ Sec t ∈ bysecond /\ Nanosecond t = 0
                           /\ LocationOf t = loc) ts)).
Proof.
  intros ts. subst ts. unfold calculateTimeset. split.
  - intros H. destruct (Z.ltb_spec (freqZ freq) (freqZ HOURLY)); [lia | reflexivity].
  - intros H. destruct (Z.ltb_spec (freqZ freq) (freqZ HOURLY)); [| lia].
    set (combos := byhour ≫= (fun hour => byminute ≫= (fun minute =>
                     bysecond ≫= (fun second => [Date 1 1 1 hour minute second 0 loc])))).
    assert (Hmem : forall t, t ∈ combos <->
              exists h mi s, h ∈ byhour /\ mi ∈ byminute /\ s ∈ bysecond
                             /\ t = Date 1 1 1 h mi s 0 loc).
    { intros t. subst combos. rewrite list_elem_of_bind. split.
      - intros (h & Ht & Hh). apply list_elem_of_bind in Ht as (mi & Ht & Hmi).
        apply list_elem_of_bind in Ht as (s & Ht & Hs).
        apply list_elem_of_singleton in Ht. eauto 8.
      - intros (h & mi & s & Hh & Hmi & Hs & ->). exists h. split; [| exact Hh].
        apply list_elem_of_bind. exists mi. split; [| exact Hmi].
        apply list_elem_of_bind. exists s. split; [| exact Hs].
        apply list_elem_of_singleton. reflexivity. }
    split; [apply sortTimes_sorted |]. split; [| split].
    + unfold len. rewrite (Permutation_length (sortTimes_Permutation combos)).
      subst combos.
      rewrite (length_bind_const _ byhour (length byminute * length bysecond)%nat).
      * lia.
      * intros h. rewrite (length_bind_const _ byminute (length bysecond)).
        -- reflexivity.
        -- intros mi. rewrite (length_bind_const _ bysecond 1%nat); [lia |].
           reflexivity.
    + intros t. rewrite sortTimes_Permutation. apply Hmem.
    + intros Fh Fm Fs. apply Forall_forall. intros t Ht.
      rewrite sortTimes_Permutation in Ht.
      apply Hmem in Ht as (h & mi & s & Hh & Hmi & Hs & ->).
      pose proof (proj1 (Forall_forall _ _) Fh h Hh) as Bh.
      pose proof (proj1 (Forall_forall _ _) Fm mi Hmi) as Bm.
      pose proof (proj1 (Forall_forall _ _) Fs s Hs) as Bs.
      destruct (Date_clock h mi s loc Bh Bm Bs) as (-> & -> & -> & Hn & Hl).
      auto.
Qed.

Lemma calculateTimeset_combinations_witness :
  let ts := calculateTimeset DAILY [9; 17] [0; 30] [0] UTC in
  StronglySorted notAfter ts /\ len ts = 4.
Proof.
  intros ts.
  destruct (proj2 (calculateTimeset_combinations DAILY [9; 17] [0; 30] [0] UTC)
              eq_refl) as (H1 & H2 & _).
  split; [exact H1 | exact H2].
Defined.

(** ** The tables of [rebuild] *)

Lemma WeekdayOf_range (t : Time) : 0 <= WeekdayOf t <= 6.
Proof. unfold WeekdayOf. Z.to_euclidean_division_equations. lia. Qed.

Lemma toPyWeekday_range (t : Time) : 0 <= toPyWeekday (WeekdayOf t) <= 6.
Proof.
  pose proof (WeekdayOf_range t) as H. unfold toPyWeekday.
  set (w := WeekdayOf t) in *. clearbody w.
  assert (Hc : w = 0 \/ w = 1 \/ w = 2 \/ w = 3 \/ w = 4 \/ w = 5 \/ w = 6) by lia.
  repeat destruct Hc as [-> | Hc]; try subst w; vm_compute; split; discriminate.
Qed.

Lemma len_replicate {A} (n : Z) (x : A) : len (replicate (Z.to_nat n) x) = Z.max 0 n.
Proof. unfold len. rewrite length_replicate. lia. Qed.

Lemma store_Ok {A} (l : list A) (i : Z) (x : A) :
  0 <= i < len l ->
  exists l', store l i x = Ok l' /\ len l' = len l.
Proof.
  intros H. unfold store.
  destruct (Z.leb_spec 0 i); [| lia]. destruct (Z.ltb_spec i (len l)); [| lia].
  cbn [andb]. eexists. split; [reflexivity |].
  unfold len. rewrite length_insert. reflexivity.
Qed.

Lemma store_Panic {A} (l : list A) (i : Z) (x : A) :
  ~ (0 <= i < len l) -> store l i x = Panic.
Proof.
  intros H. unfold store.
  destruct (Z.leb_spec 0 i), (Z.ltb_spec i (len l)); cbn [andb];
    try reflexivity. lia.
Qed.

Lemma foldR_store_Ok {A} (g : A -> Z) (l : list A) (mask : list Z) :
  Forall (fun o => 0 <= g o < len mask) l ->
  exists mask', foldR (fun m o => store m (g o) 1) l mask = Ok mask'
                /\ len mask' = len mask.
Proof.
  revert mask. induction l as [|o l IH]; intros mask H; cbn [foldR].
  - eauto.
  - inversion H as [|? ? Ho Hl]; subst.
    destruct (store_Ok mask (g o) 1 Ho) as (m1 & -> & Hlen). rsimpl.
    destruct (IH m1) as (m2 & -> & Hlen2).
    + rewrite Hlen. exact Hl.
    + exists m2. split; [reflexivity | lia].
Qed.

Lemma foldR_store_Panic {A} (g : A -> Z) (l : list A) (mask : list Z) :
  Exists (fun o => ~ (0 <= g o < len mask)) l ->
  foldR (fun m o => store m (g o) 1) l mask = Panic.
Proof.
  revert mask. induction l as [|o l IH]; intros mask H; cbn [foldR].
  - inversion H.
  - destruct (Z_le_dec 0 (g o)) as [H1|H1];
      [destruct (Z_lt_dec (g o) (len mask)) as [H2|H2] |].
    + destruct (store_Ok mask (g o) 1 (conj H1 H2)) as (m1 & -> & Hlen). rsimpl.
      apply IH. rewrite Hlen. inversion H; subst; [lia | assumption].
    + rewrite store_Panic by lia. reflexivity.
    + rewrite store_Panic by lia. reflexivity.
Qed.

Lemma inRange_or_not {A} (g : A -> Z) (n : Z) (l : list A) :
  Forall (fun o => 0 <= g o < n) l \/ Exists (fun o => ~ (0 <= g o < n)) l.
Proof.
  induction l as [|o l [IH | IH]].
  - left. constructor.
  - destruct (Z_le_dec 0 (g o)) as [H1|H1];
      [destruct (Z_lt_dec (g o) n) as [H2|H2] |].
    + left. constructor; [lia | exact IH].
    + right. left. lia.
    + right. left. lia.
  - right. right. exact IH.
Qed.

Lemma slice_from_WDAYMASK (w : Z) :
  0 <= w <= 6 ->
  exists wdmask, slice_from WDAYMASK w = Ok wdmask /\ len wdmask = 385 - w.
Proof.
  intros H. unfold slice_from, slice.
  change (len WDAYMASK) with 385.
  destruct (Z.leb_spec 0 w); [| lia]. destruct (Z.leb_spec w 385); [| lia].
  cbn [andb Z.leb Z.compare Pos.compare Pos.compare_cont].
  eexists. split; [reflexivity |].
  unfold len. rewrite length_take, length_drop.
  change (length WDAYMASK) with 385%nat. lia.
Qed.

Lemma rebuild_inv r info year month info' :
  rebuild r info year month = Ok info' ->
  exists info1 nwd east,
    (if negb (year =? lastyear info) then
       exists wdmask wno,
         slice_from WDAYMASK
           (toPyWeekday (WeekdayOf (Date year 1 1 0 0 0 0 (LocationOf (DateStart r)))))
         = Ok wdmask
         /\ (if len (Byweekno r) =? 0 then Ok []
             else buildWnomask r year (365 + isLeap year)
                    (toPyWeekday (WeekdayOf (Date year 1 1 0 0 0 0
                                               (LocationOf (DateStart r)))))
                    wdmask) = Ok wno
         /\ info1
            = mkIterInfo (lastyear info) (lastmonth info) (365 + isLeap year)
                (365 + isLeap (year + 1))
                (Date year 1 1 0 0 0 0 (LocationOf (DateStart r)))
                (toPyWeekday (WeekdayOf (Date year 1 1 0 0 0 0
                                           (LocationOf (DateStart r)))))
                (if 365 + isLeap year =? 365 then M365MASK else M366MASK)
                (if 365 + isLeap year =? 365 then M365RANGE else M366RANGE)
                (if 365 + isLeap year =? 365 then MDAY365MASK else MDAY366MASK)
                (if 365 + isLeap year =? 365 then NMDAY365MASK else NMDAY366MASK)
                wdmask wno (nwdaymask info) (eastermask info)
     else info1 = info)
    /\ (if negb (len (Byeaster r) =? 0)
        then buildEastermask r (yearlen info1) year
        else Ok (eastermask info1)) = Ok east
    /\ info'
       = mkIterInfo year month (yearlen info1) (nextyearlen info1)
           (firstyday info1) (yearweekday info1) (mmask info1) (mrange info1)
           (mdaymask info1) (nmdaymask info1) (wdaymask info1) (wnomask info1)
           nwd east.
Proof.
  unfold rebuild. intros H.
  apply bind_Ok in H as (info1 & H1 & H).
  apply bind_Ok in H as (nwd & _ & H).
  apply bind_Ok in H as (east & He & H).
  injection H as <-. exists info1, nwd, east.
  split; [| split; [exact He | reflexivity]].
  destruct (negb (year =? lastyear info)).
  - cbv zeta in H1. apply bind_Ok in H1 as (wdmask & Hw & H1).
    destruct (365 + isLeap year =? 365);
      apply bind_Ok in H1 as (wno & Hn & H1); injection H1 as <-;
      exists wdmask, wno; auto.
  - injection H1 as <-. reflexivity.
Qed.

(** X10: the tables that [rebuild] leaves for a new year: the year has 365
    or 366 days; the month, month-day and negative month-day masks hold
    seven entries more than the year has days; the weekday mask starts at
    the weekday of January 1 and is at least as long; the month ranges are
    those of the year's length; and the Easter mask, when the rule has
    Easter offsets, is as long as the other masks. *)
Theorem rebuild_tables (r : RRule) (info : iterInfo) (year : Z) (month : Month)
    (info' : iterInfo) :
  rebuild r info year month = Ok info' ->
  year <> lastyear info ->
  lastyear info' = year /\ lastmonth info' = month
  /\ yearlen info' = 365 + isLeap year
  /\ nextyearlen info' = 365 + isLeap (year + 1)
  /\ firstyday info' = Date year 1 1 0 0 0 0 (LocationOf (DateStart r))
  /\ yearweekday info' = toPyWeekday (WeekdayOf (firstyday info'))
  /\ 0 <= yearweekday info' <= 6
  /\ len (mmask info') = yearlen info' + 7
  /\ len (mdaymask info') = yearlen info' + 7
  /\ len (nmdaymask info') = yearlen info' + 7
  /\ len (wdaymask info') = 385 - yearweekday info'
  /\ mrange info' = (if isLeap year =? 1 then M366RANGE else M365RANGE)
  /\ (Byeaster r <> [] -> len (eastermask info') = yearlen info' + 7).
Proof.
  intros H Hy. apply rebuild_inv in H as (info1 & nwd & east & H1 & He & ->).
  destruct (Z.eqb_spec year (lastyear info)) as [|_]; [contradiction |].
  cbn [negb] in H1. destruct H1 as (wdmask & wno & Hw & _ & ->).
  cbn [lastyear lastmonth yearlen nextyearlen firstyday yearweekday mmask
       mrange mdaymask nmdaymask wdaymask wnomask nwdaymask eastermask] in *.
  pose proof (toPyWeekday_range
                (Date year 1 1 0 0 0 0 (LocationOf (DateStart r)))) as Hwd.
  destruct (slice_from_WDAYMASK _ Hwd) as (wdmask' & Hw' & Hlen).
  rewrite Hw in Hw'. injection Hw' as <-.
  assert (Heast : Byeaster r <> [] -> len east = 365 + isLeap year + 7).
  { intros Hne.
    destruct (Z.eqb_spec (len (Byeaster r)) 0) as [E|E].
    { apply len_nil_inv in E. contradiction. }
    cbn [negb] in He. unfold buildEastermask in He.
    destruct (inRange_or_not (fun o => int_add (YearDay (easter year) - 1) o)
                (len (make (365 + isLeap year + 7))) (Byeaster r))
      as [Hall | Hex].
    - destruct (foldR_store_Ok _ _ _ Hall) as (m & Hm & Hl).
      rewrite Hm in He. injection He as <-. rewrite Hl. unfold make.
      rewrite len_replicate. destruct (isLeap_cases year) as [-> | ->]; lia.
    - rewrite (foldR_store_Panic _ _ _ Hex) in He. discriminate. }
  destruct (isLeap_cases year) as [E | E]; rewrite E in *;
    cbn [Z.add Z.eqb Pos.add Pos.eqb Pos.succ] in *;
    repeat split; try reflexivity; try lia; try exact Heast.
Qed.

Lemma rebuild_tables_witness :
  exists info',
    rebuild (normalize zeroTime dailyOptions) iterInfo0 2018 1 = Ok info'
    /\ yearlen info' = 365 + isLeap 2018
    /\ len (mmask info') = yearlen info' + 7.
Proof.
  assert (E : exists info',
    rebuild (normalize zeroTime dailyOptions) iterInfo0 2018 1 = Ok info').
  { vm_compute. eexists. reflexivity. }
  destruct E as (info' & E). exists info'. split; [exact E |].
  pose proof (rebuild_tables _ iterInfo0 2018 1 info' E
                ltac:(cbn [lastyear iterInfo0]; lia))
    as (_ & _ & H1 & _ & _ & _ & _ & H2 & _).
  split; [exact H1 | exact H2].
Defined.

Lemma rebuild_plain r info year month :
  Byweekno r = [] -> Bynweekday r = [] ->
  exists info1,
    (if year =? lastyear info then info1 = info
     else
       exists wdmask,
         let fyday := Date year 1 1 0 0 0 0 (LocationOf (DateStart r)) in
         let w := toPyWeekday (WeekdayOf fyday) in
         len wdmask = 385 - w /\ 0 <= w <= 6
         /\ info1
            = mkIterInfo (lastyear info) (lastmonth info) (365 + isLeap year)
                (365 + isLeap (year + 1)) fyday w
                (if 365 + isLeap year =? 365 then M365MASK else M366MASK)
                (if 365 + isLeap year =? 365 then M365RANGE else M366RANGE)
                (if 365 + isLeap year =? 365 then MDAY365MASK else MDAY366MASK)
                (if 365 + isLeap year =? 365 then NMDAY365MASK else NMDAY366MASK)
                wdmask [] (nwdaymask info) (eastermask info))
    /\ rebuild r info year month
       = east ← (if negb (len (Byeaster r) =? 0)
                 then buildEastermask r (yearlen info1) year
                 else Ok (eastermask info1));
         Ok (mkIterInfo year month (yearlen info1) (nextyearlen info1)
               (firstyday info1) (yearweekday info1) (mmask info1)
               (mrange info1) (mdaymask info1) (nmdaymask info1)
               (wdaymask info1) (wnomask info1) (nwdaymask info1) east).
Proof.
  intros Hwn Hnw. unfold rebuild. rewrite Hwn, Hnw.
  change (len (@nil Z) =? 0) with true. change (len (@nil Weekday) =? 0) with true.
  cbn [negb andb].
  destruct (year =? lastyear info).
  - cbn [negb]. exists info. split; [reflexivity |]. rsimpl. reflexivity.
  - cbn [negb]. cbv zeta.
    pose proof (toPyWeekday_range
                  (Date year 1 1 0 0 0 0 (LocationOf (DateStart r)))) as Hw.
    destruct (slice_from_WDAYMASK _ Hw) as (wdmask & -> & Hlen).
    rsimpl.
    destruct (365 + isLeap year =? 365); rsimpl;
      (eexists; split; [exists wdmask; split; [exact Hlen |];
                        split; [exact Hw | reflexivity] | reflexivity]).
Qed.

Lemma rebuild_plain_yearlen (r : RRule) (info : iterInfo) (year : Z) (info1 : iterInfo) :
  (if year =? lastyear info then info1 = info
   else
     exists wdmask,
       let fyday := Date year 1 1 0 0 0 0 (LocationOf (DateStart r)) in
       let w := toPyWeekday (WeekdayOf fyday) in
       len wdmask = 385 - w /\ 0 <= w <= 6
       /\ info1
          = mkIterInfo (lastyear info) (lastmonth info) (365 + isLeap year)
              (365 + isLeap (year + 1)) fyday w
              (if 365 + isLeap year =? 365 then M365MASK else M366MASK)
              (if 365 + isLeap year =? 365 then M365RANGE else M366RANGE)
              (if 365 + isLeap year =? 365 then MDAY365MASK else MDAY366MASK)
              (if 365 + isLeap year =? 365 then NMDAY365MASK else NMDAY366MASK)
              wdmask [] (nwdaymask info) (eastermask info)) ->
  yearlen info1
  = (if year =? lastyear info then yearlen info else 365 + isLeap year).
Proof.
  destruct (year =? lastyear info); [intros ->; reflexivity |].
  intros (wdmask & _ & _ & ->). reflexivity.
Qed.

(** X11: the Easter offsets are not validated, and index the Easter mask
    unchecked: the options pass [validateBounds] whatever their Easter
    offsets; and for a rule without week numbers and positioned weekdays,
    [rebuild] returns when every offset, added to the day of Easter, falls
    within the mask of the year (its days and seven more), and panics when
    one does not. *)
Theorem easter_offsets_unchecked (r : RRule) (info : iterInfo) (year : Z)
    (month : Month) :
  Byweekno r = [] -> Bynweekday r = [] ->
  let ylen := if year =? lastyear info then yearlen info else 365 + isLeap year in
  let eyday := YearDay (easter year) - 1 in
  (Forall (fun offset => 0 <= int_add eyday offset < ylen + 7) (Byeaster r) ->
   exists info', rebuild r info year month = Ok info')
  /\ (Exists (fun offset => ~ (0 <= int_add eyday offset < ylen + 7)) (Byeaster r) ->
      rebuild r info year month = Panic)
  /\ (forall f d i w c u sp bm bmd byd bwn bwd bh bmi bs be be' rfc,
        validateBounds (Opt.mk f d i w c u sp bm bmd byd bwn bwd bh bmi bs be rfc)
        = validateBounds (Opt.mk f d i w c u sp bm bmd byd bwn bwd bh bmi bs be' rfc)).
Proof.
  intros Hwn Hnw ylen eyday.
  destruct (rebuild_plain r info year month Hwn Hnw) as (info1 & Hy & ->).
  apply rebuild_plain_yearlen in Hy. fold ylen in Hy. rewrite Hy.
  assert (Hlen : len (make (ylen + 7)) = Z.max 0 (ylen + 7)) by apply len_replicate.
  split; [| split].
  - intros Hall. destruct (len (Byeaster r) =? 0); cbn [negb]; rsimpl; [eauto |].
    unfold buildEastermask.
    destruct (foldR_store_Ok (fun o => int_add eyday o) (Byeaster r)
                (make (ylen + 7))) as (m & Hm & _).
    { eapply Forall_impl; [exact Hall |]. cbv beta. intros o Ho. rewrite Hlen. lia. }
    fold eyday. rewrite Hm. rsimpl. eauto.
  - intros Hex. destruct (Z.eqb_spec (len (Byeaster r)) 0) as [E|E].
    { apply len_nil_inv in E. rewrite E in Hex. inversion Hex. }
    cbn [negb]. unfold buildEastermask. fold eyday.
    rewrite (foldR_store_Panic (fun o => int_add eyday o)); [reflexivity |].
    eapply Exists_impl; [exact Hex |]. cbv beta. intros o Ho. rewrite Hlen. lia.
  - reflexivity.
Qed.

Lemma easter_offsets_unchecked_witness :
  rebuild (normalize zeroTime easterOptions) iterInfo0 2019 1 = Panic.
Proof.
  refine (proj1 (proj2 (easter_offsets_unchecked (normalize zeroTime easterOptions)
                          iterInfo0 2019 1 eq_refl eq_refl)) _).
  left. vm_compute. intros [_ H]. discriminate H.
Defined.

(** ** The calendar tables *)

Lemma dayEntryb_spec mm mdm nmdm mr i :
  dayEntryb mm mdm nmdm mr i = true -> dayEntry mm mdm nmdm mr i.
Proof.
  unfold dayEntryb, dayEntry.
  destruct (mm !! Z.to_nat i) as [m|]; [| discriminate].
  destruct (mdm !! Z.to_nat i) as [d|]; [| discriminate].
  destruct (nmdm !! Z.to_nat i) as [nd|]; [| discriminate].
  destruct (mr !! Z.to_nat (m - 1)) as [lo|] eqn:Elo; [| discriminate].
  destruct (mr !! Z.to_nat m) as [hi|] eqn:Ehi; [| discriminate].
  intros H. repeat (apply andb_true_iff in H as [H ?]).
  exists m, d, nd, lo, hi. repeat split; try reflexivity; try assumption; lia.
Qed.

Lemma forallb_range (p : Z -> bool) (lo n : nat) (i : Z) :
  forallb (fun k => p (Z.of_nat k)) (seq lo n) = true ->
  Z.of_nat lo <= i < Z.of_nat lo + Z.of_nat n -> p i = true.
Proof.
  intros H Hi. rewrite forallb_forall in H.
  specialize (H (Z.to_nat i)). rewrite Z2Nat.id in H by lia.
  apply H. apply in_seq. lia.
Qed.

(** X12: the tables that [init] builds agree with one another: in the
    365-day and in the 366-day tables alike, each day of the year is given
    its month by the month mask, lies within that month's bounds of the
    range table, and is counted from the start of the month by the
    month-day mask and from its end by the negative one; the seven
    entries after the year are January 1 to 7; and the weekday mask
    repeats the week from Monday. *)
Theorem tables_agree (i : Z) :
  (0 <= i < 365 -> dayEntry M365MASK MDAY365MASK NMDAY365MASK M365RANGE i)
  /\ (0 <= i < 366 -> dayEntry M366MASK MDAY366MASK NMDAY366MASK M366RANGE i)
  /\ (365 <= i < 372 ->
      M365MASK !! Z.to_nat i = Some 1
      /\ MDAY365MASK !! Z.to_nat i = Some (i - 364)
      /\ NMDAY365MASK !! Z.to_nat i = Some (i - 396))
  /\ (366 <= i < 373 ->
      M366MASK !! Z.to_nat i = Some 1
      /\ MDAY366MASK !! Z.to_nat i = Some (i - 365)
      /\ NMDAY366MASK !! Z.to_nat i = Some (i - 397))
  /\ (0 <= i < 385 -> WDAYMASK !! Z.to_nat i = Some (i mod 7))
  /\ len M365MASK = 372 /\ len M366MASK = 373 /\ len WDAYMASK = 385.
Proof.
  split; [| split; [| split; [| split; [| split]]]].
  - intros Hi. apply dayEntryb_spec.
    apply (forallb_range (dayEntryb M365MASK MDAY365MASK NMDAY365MASK M365RANGE)
             0 365); [vm_compute; reflexivity | lia].
  - intros Hi. apply dayEntryb_spec.
    apply (forallb_range (dayEntryb M366MASK MDAY366MASK NMDAY366MASK M366RANGE)
             0 366); [vm_compute; reflexivity | lia].
  - intros Hi.
    assert (H : overhangEntryb M365MASK MDAY365MASK NMDAY365MASK 365 i = true).
    { apply (forallb_range _ 365 7); [vm_compute; reflexivity | lia]. }
    unfold overhangEntryb in H.
    destruct (M365MASK !! Z.to_nat i) as [m|]; [| discriminate].
    destruct (MDAY365MASK !! Z.to_nat i) as [d|]; [| discriminate].
    destruct (NMDAY365MASK !! Z.to_nat i) as [nd|]; [| discriminate].
    repeat (apply andb_true_iff in H as [H ?]).
    repeat split; f_equal; lia.
  - intros Hi.
    assert (H : overhangEntryb M366MASK MDAY366MASK NMDAY366MASK 366 i = true).
    { apply (forallb_range _ 366 7); [vm_compute; reflexivity | lia]. }
    unfold overhangEntryb in H.
    destruct (M366MASK !! Z.to_nat i) as [m|]; [| discriminate].
    destruct (MDAY366MASK !! Z.to_nat i) as [d|]; [| discriminate].
    destruct (NMDAY366MASK !! Z.to_nat i) as [nd|]; [| discriminate].
    repeat (apply andb_true_iff in H as [H ?]).
    repeat split; f_equal; lia.
  - intros Hi.
    pose proof (forallb_range
                  (fun j => match WDAYMASK !! Z.to_nat j with
                            | Some w => w =? j mod 7
                            | None => false
                            end) 0 385 i) as H.
    cbv beta in H. specialize (H ltac:(vm_compute; reflexivity) ltac:(lia)).
    destruct (WDAYMASK !! Z.to_nat i) as [w|]; [| discriminate].
    f_equal. lia.
  - repeat split; reflexivity.
Qed.

Lemma tables_agree_witness :
  dayEntry M366MASK MDAY366MASK NMDAY366MASK M366RANGE 59.
Proof. apply (proj1 (proj2 (tables_agree 59))). lia. Defined.

(** ** An HOURLY rule whose hours are never reached *)

Lemma wrap_small (x : Z) : - 2 ^ 63 <= x < 2 ^ 63 -> wrap x = x.
Proof. intros H. unfold wrap. rewrite Z.mod_small; lia. Qed.

Lemma int_add_small (a b : Z) : - 2 ^ 63 <= a + b < 2 ^ 63 -> int_add a b = a + b.
Proof. apply wrap_small. Qed.

Lemma unreachableHour_shift r h q :
  0 <= q -> unreachableHour r h ->
  unreachableHour r ((h + q * Interval r) mod 24).
Proof.
  intros Hq H n Hn. rewrite Z.add_mod_idemp_l by lia.
  replace (h + q * Interval r + n * Interval r) with (h + (q + n) * Interval r)
    by lia.
  apply H. lia.
Qed.

Lemma hourLoop_Timeout r fuel h day fixday :
  Byhour r <> [] -> 1 <= Interval r < 2 ^ 62 -> 0 <= h < 24 ->
  unreachableHour r h ->
  hourLoop r fuel h day fixday = Timeout.
Proof.
  intros Hne Hi. revert h day fixday.
  induction fuel as [|fuel IH]; intros h day fixday Hh Hu; [reflexivity |].
  cbn [hourLoop]. rewrite (int_add_small h (Interval r)) by lia.
  unfold divmod, pymod. cbv zeta.
  assert (Hlen : (len (Byhour r) =? 0) = false).
  { destruct (Z.eqb_spec (len (Byhour r)) 0) as [E|E]; [| reflexivity].
    apply len_nil_inv in E. contradiction. }
  pose proof (unreachableHour_shift r h 1 ltac:(lia) Hu) as Hu'.
  rewrite Z.mul_1_l in Hu'.
  pose proof (Z.mod_pos_bound (h + Interval r) 24 ltac:(lia)) as Hb.
  assert (Hc : contains (Byhour r) ((h + Interval r) mod 24) = false).
  { specialize (Hu 1 ltac:(lia)). rewrite Z.mul_1_l in Hu. exact Hu. }
  destruct (Z.eqb_spec ((h + Interval r) / 24) 0) as [E|E]; cbn [negb].
  - assert (Hm : (h + Interval r) mod 24 = h + Interval r).
    { pose proof (Z.div_mod (h + Interval r) 24 ltac:(lia)). lia. }
    rewrite Hm in Hc, Hu', Hb. rewrite Hlen, Hc. cbn [orb].
    apply IH; assumption.
  - rewrite Hlen, Hc. cbn [orb]. apply IH; assumption.
Qed.

Lemma stepCursor_hourly_Timeout r fuel filtered y m d h mi s wd info ts :
  Freq r = HOURLY -> Byhour r <> [] -> 1 <= Interval r < 2 ^ 62 ->
  0 <= h < 24 -> unreachableHour r h ->
  stepCursor r fuel filtered (y, m, d, h, mi, s, wd, info, ts) = Timeout.
Proof.
  intros Hf Hne Hi Hh Hu. unfold stepCursor. rewrite Hf.
  destruct filtered.
  - unfold int_div. destruct (Z.eqb_spec (Interval r) 0); [lia |]. rsimpl.
    rewrite Z.quot_div_nonneg by lia.
    pose proof (Z.div_pos (23 - h) (Interval r) ltac:(lia) ltac:(lia)) as Hq0.
    pose proof (Z.mul_div_le (23 - h) (Interval r) ltac:(lia)) as Hq1.
    assert (Hq2 : (23 - h) / Interval r <= 23).
    { apply Z.div_le_upper_bound; nia. }
    set (q := (23 - h) / Interval r) in *.
    rewrite (wrap_small q) by lia.
    unfold int_mul, int_add. rewrite (wrap_small (q * Interval r)) by nia.
    rewrite (wrap_small (h + q * Interval r)) by nia.
    rewrite hourLoop_Timeout; try assumption; [reflexivity | nia |].
    pose proof (unreachableHour_shift r h q Hq0 Hu) as Hs.
    rewrite Z.mod_small in Hs by nia. exact Hs.
  - rsimpl. rewrite hourLoop_Timeout by assumption. reflexivity.
Qed.

Lemma plainCandidates_no_times info window : plainCandidates info [] window = [].
Proof.
  unfold plainCandidates. induction (surviving window) as [|i l IH];
    [reflexivity | exact IH].
Qed.

Lemma hourly_generate_stuck r fuel it x :
  Freq r = HOURLY -> Byhour r <> [] -> 1 <= Interval r < 2 ^ 62 ->
  0 <= hour it < 24 -> unreachableHour r (hour it) ->
  remain it = [] -> timeset it = [] ->
  generate fuel r it <> Ok x.
Proof.
  intros Hf Hne Hi Hh Hu Hrem Hts. destruct fuel as [|fuel]; cbn [generate];
    rewrite Hrem; change (len (@nil Time) =? 0) with true; cbv iota;
    [discriminate |].
  rewrite period_candidates.
  destruct (periodCandidates r (cursor_of it)) as [[cands filtered]| |] eqn:E;
    rsimpl; try discriminate.
  assert (Hc : cands = []).
  { unfold periodCandidates, cursor_of in E.
    apply bind_Ok in E as ([[set s] e] & _ & E).
    apply bind_Ok in E as ([set' flt] & _ & E).
    apply bind_Ok in E as (window & _ & E).
    apply bind_Ok in E as (cs & Hcs & E). injection E as <- _.
    unfold candidates in Hcs. rewrite Hts in Hcs.
    change (len (@nil Time) =? 0) with true in Hcs.
    rewrite andb_false_r in Hcs. injection Hcs as <-.
    apply plainCandidates_no_times. }
  subst cands. cbn [emitList]. unfold step, cursor_of.
  rewrite stepCursor_hourly_Timeout by assumption. discriminate.
Qed.

(** X13: an HOURLY rule whose hours are never reached never yields: when
    no hour of the rule is among the hours that the stepper visits from
    the start's hour on, in steps of the interval, the first call of
    [next] does not return, whatever the fuel: the loop of the stepper
    never finds an hour of the rule. *)
Theorem hourly_rule_never_yields (r : RRule) (fuel : nat) (it : rIterator)
    (x : RRule * rIterator * option Time) :
  Freq r = HOURLY -> Byhour r <> [] -> 1 <= Interval r < 2 ^ 62 ->
  unreachableHour r (Hour (DateStart r)) ->
  Iterator r = Ok it ->
  next fuel r it <> Ok x
  /\ forall filtered, step r fuel filtered it = Timeout.
Proof.
  intros Hf Hne Hi Hu Hit.
  pose proof (Hour_range (DateStart r)) as Hh.
  assert (Hc : contains (Byhour r) (Hour (DateStart r)) = false).
  { specialize (Hu 0 ltac:(lia)). rewrite Z.mul_0_l, Z.add_0_r in Hu.
    rewrite Z.mod_small in Hu by lia. exact Hu. }
  assert (Hlen : (len (Byhour r) =? 0) = false).
  { destruct (Z.eqb_spec (len (Byhour r)) 0) as [E|E]; [| reflexivity].
    apply len_nil_inv in E. contradiction. }
  unfold Iterator in Hit. cbv zeta in Hit.
  apply bind_Ok in Hit as (info & _ & Hit).
  rewrite Hf, Hlen, Hc in Hit.
  change (freqZ HOURLY <? freqZ HOURLY) with false in Hit.
  change (freqZ HOURLY <=? freqZ HOURLY) with true in Hit.
  cbn [negb andb orb] in Hit. injection Hit as <-.
  split.
  - unfold next. cbn [finished negb]. intros H.
    apply bind_Ok in H as ([r1 it1] & Hg & _). revert Hg.
    apply hourly_generate_stuck; cbn [hour remain timeset];
      try assumption; try reflexivity; lia.
  - intros filtered. unfold step, cursor_of.
    cbn [year month day hour minute second weekday ii timeset].
    rewrite stepCursor_hourly_Timeout by (try assumption; lia). reflexivity.
Qed.

Lemma hourly_rule_never_yields_witness :
  exists it,
    Iterator (normalize zeroTime oddHourOptions) = Ok it
    /\ step (normalize zeroTime oddHourOptions) 100 false it = Timeout.
Proof.
  assert (E : exists it, Iterator (normalize zeroTime oddHourOptions) = Ok it).
  { vm_compute. eexists. reflexivity. }
  destruct E as (it & E). exists it. split; [exact E |].
  refine (proj2 (hourly_rule_never_yields (normalize zeroTime oddHourOptions)
                   100 it (normalize zeroTime oddHourOptions, it, None)
                   eq_refl _ _ _ E) false).
  - vm_compute. discriminate.
  - vm_compute. split; [discriminate | reflexivity].
  - intros n Hn.
    change (Byhour (normalize zeroTime oddHourOptions)) with [1].
    change (Interval (normalize zeroTime oddHourOptions)) with 2.
    change (Hour (DateStart (normalize zeroTime oddHourOptions))) with 0.
    unfold contains. cbn [existsb]. rewrite orb_false_r.
    apply Z.eqb_neq. Z.to_euclidean_division_equations. lia.
Defined.

(** ** YEARLY and MONTHLY rules without week numbers, Easter offsets and
    positioned weekdays *)

Lemma rebuild_tablesOk r info year month :
  Byweekno r = [] -> Byeaster r = [] -> Bynweekday r = [] ->
  nwdaymask info = [] ->
  tablesOk info \/ year <> lastyear info ->
  exists info', rebuild r info year month = Ok info' /\ tablesOk info'.
Proof.
  intros Hwn Hbe Hnw Hn Hor.
  destruct (rebuild_plain r info year month Hwn Hnw) as (info1 & H1 & ->).
  rewrite Hbe. change (len (@nil Z) =? 0) with true. cbn [negb]. rsimpl.
  eexists. split; [reflexivity |]. unfold tablesOk.
  cbn [yearlen mmask mdaymask nmdaymask wdaymask mrange nwdaymask].
  destruct (Z.eqb_spec year (lastyear info)) as [E|E].
  - subst info1. destruct Hor as [Hok | Hne]; [exact Hok | contradiction].
  - destruct H1 as (wdmask & Hlen & Hw & ->). cbv zeta in Hlen, Hw.
    cbn [yearlen mmask mdaymask nmdaymask wdaymask mrange nwdaymask].
    destruct (isLeap_cases year) as [EL | EL]; rewrite EL;
      cbn [Z.add Z.eqb Pos.add Pos.eqb Pos.succ];
      repeat split; try reflexivity; try lia; try (left; reflexivity);
      try (right; reflexivity); try exact Hn.
Qed.

Lemma elem_of_rang (lo hi k : Z) : k ∈ rang lo hi <-> lo <= k < hi.
Proof.
  unfold rang. rewrite list_elem_of_fmap. split.
  - intros (n & -> & Hn). apply list_elem_of_In, in_seq in Hn. lia.
  - intros H. exists (Z.to_nat (k - lo)). split; [lia |].
    apply list_elem_of_In, in_seq. lia.
Qed.

Lemma NoDup_rang (lo hi : Z) : NoDup (rang lo hi).
Proof.
  unfold rang. apply NoDup_fmap_2; [| apply NoDup_seq].
  intros a b H. lia.
Qed.

Lemma store_lookup {A} (l l' : list A) (i : Z) (x : A) :
  store l i x = Ok l' ->
  len l' = len l
  /\ l' !! Z.to_nat i = Some x
  /\ forall k, 0 <= k -> k <> i -> l' !! Z.to_nat k = l !! Z.to_nat k.
Proof.
  unfold store. destruct (Z.leb_spec 0 i); [| discriminate].
  destruct (Z.ltb_spec i (len l)); [| discriminate]. cbn [andb].
  intros [= <-]. split; [| split].
  - unfold len. rewrite length_insert. reflexivity.
  - apply list_lookup_insert_eq. unfold len in *. lia.
  - intros k Hk Hne. apply list_lookup_insert_ne. lia.
Qed.

(** The loops [for i := ...; i++ { set[i] = &i }] of [getdayset]. *)
Lemma foldR_mark (l : list Z) (set : dayset) :
  Forall (fun i => 0 <= i < len set) l ->
  exists set',
    foldR (fun set i => store set i (Some i)) l set = Ok set'
    /\ len set' = len set
    /\ (forall k, k ∈ l -> set' !! Z.to_nat k = Some (Some k))
    /\ (forall k, 0 <= k -> k ∉ l -> set' !! Z.to_nat k = set !! Z.to_nat k).
Proof.
  revert set. induction l as [|i l IH]; intros set H; cbn [foldR].
  - exists set. split; [reflexivity |]. split; [reflexivity |].
    split; [intros k Hk; inversion Hk | reflexivity].
  - inversion H as [|? ? Hi Hl]; subst.
    destruct (store_Ok set i (Some i) Hi) as (set1 & Hs & _).
    rewrite Hs. rsimpl.
    apply store_lookup in Hs as (Hlen & Hat & Hne).
    destruct (IH set1) as (set' & -> & Hlen' & Hin & Hout).
    { rewrite Hlen. exact Hl. }
    exists set'. split; [reflexivity |]. split; [lia |]. split.
    + intros k Hk. destruct (decide (k ∈ l)) as [Hkl | Hkl]; [apply Hin, Hkl |].
      apply elem_of_cons in Hk as [-> | Hk]; [| contradiction].
      rewrite Hout by (lia || assumption). exact Hat.
    + intros k Hk0 Hk. apply not_elem_of_cons in Hk as [Hne' Hk].
      rewrite Hout by assumption. apply Hne; assumption.
Qed.

Lemma index_Ok {A} (l : list A) (i : Z) :
  0 <= i < len l -> exists x, index l i = Ok x.
Proof. intros H. destruct (index_lookup l i H) as (x & _ & Hx). eauto. Qed.

Lemma mrange_bounds info m :
  tablesOk info -> 1 <= m <= 12 ->
  exists s e, index (mrange info) (m - 1) = Ok s /\ index (mrange info) m = Ok e
              /\ 0 <= s <= e /\ e <= yearlen info.
Proof.
  intros (Hy & _ & _ & _ & _ & Hr & _) Hm. rewrite Hr.
  assert (Hc : m = 1 \/ m = 2 \/ m = 3 \/ m = 4 \/ m = 5 \/ m = 6 \/ m = 7
               \/ m = 8 \/ m = 9 \/ m = 10 \/ m = 11 \/ m = 12) by lia.
  destruct Hy as [-> | ->]; cbn [Z.eqb Pos.eqb];
    repeat destruct Hc as [-> | Hc]; try subst m;
    (eexists _, _; split; [reflexivity |]; split; [reflexivity |]; lia).
Qed.

Lemma getdayset_ok r info y m d :
  tablesOk info -> 1 <= m <= 12 ->
  Freq r = YEARLY \/ Freq r = MONTHLY ->
  exists set s e,
    getdayset r info (Freq r) y m d = Ok (set, s, e)
    /\ 0 <= s <= e /\ e <= yearlen info /\ len set = yearlen info
    /\ forall k, s <= k < e -> set !! Z.to_nat k = Some (Some k).
Proof.
  intros Ht Hm Hf. pose proof Ht as (Hy & _).
  assert (Hmk : len (makeDayset (yearlen info)) = yearlen info).
  { unfold makeDayset. rewrite len_replicate. lia. }
  unfold getdayset. destruct Hf as [-> | ->].
  - destruct (foldR_mark (rang 0 (yearlen info)) (makeDayset (yearlen info)))
      as (set & -> & Hlen & Hin & _).
    { apply Forall_forall. intros k Hk. apply elem_of_rang in Hk. lia. }
    rsimpl. exists set, 0, (yearlen info). split; [reflexivity |].
    split; [lia |]. split; [lia |]. split; [lia |].
    intros k Hk. apply Hin, elem_of_rang. lia.
  - destruct (mrange_bounds info m Ht Hm) as (s & e & -> & -> & Hse & He).
    rsimpl.
    destruct (foldR_mark (rang s e) (makeDayset (yearlen info)))
      as (set & -> & Hlen & Hin & _).
    { apply Forall_forall. intros k Hk. apply elem_of_rang in Hk. lia. }
    rsimpl. exists set, s, e. split; [reflexivity |].
    split; [lia |]. split; [lia |]. split; [lia |].
    intros k Hk. apply Hin, elem_of_rang. lia.
Qed.

Lemma rejects_ok r info i :
  Byweekno r = [] -> Byeaster r = [] -> tablesOk info ->
  0 <= i < yearlen info ->
  exists b, rejects r info i = Ok b.
Proof.
  intros Hwn Hbe (Hy & Hm & Hmd & Hnmd & Hwd & _ & Hnw) Hi.
  unfold rejects. rewrite Hwn, Hbe, Hnw.
  change (len (@nil Z) =? 0) with true. cbn [negb].
  destruct (index_Ok (mmask info) i ltac:(lia)) as (x1 & ->).
  destruct (index_Ok (wdaymask info) i ltac:(lia)) as (x2 & ->).
  destruct (index_Ok (mdaymask info) i ltac:(lia)) as (x3 & ->).
  destruct (index_Ok (nmdaymask info) i ltac:(lia)) as (x4 & ->).
  unfold orR, andR. rsimpl.
  repeat match goal with
         | |- context [if ?b then _ else _] => destruct b; rsimpl
         end;
    eexists; reflexivity.
Qed.

Lemma index_Some {A} (l : list A) (i : Z) (x : A) :
  0 <= i -> l !! Z.to_nat i = Some x -> index l i = Ok x.
Proof.
  intros Hi H. unfold index. destruct (Z.ltb_spec i 0); [lia |].
  rewrite H. reflexivity.
Qed.

(** The filter loop, over the days [l] that are still to be visited. *)
Lemma filter_loop_ok r info (l : list Z) (set : dayset) (flt : bool) :
  NoDup l ->
  (forall k, k ∈ l -> 0 <= k < len set /\ set !! Z.to_nat k = Some (Some k)
                      /\ exists b, rejects r info k = Ok b) ->
  exists set' flt',
    foldR
      (fun '(set, filtered) k =>
         cell ← index set k;
         match cell with
         | None => Panic
         | Some i =>
             rej ← rejects r info i;
             if rej : bool then set ← store set i None; Ok (set, true)
             else Ok (set, filtered)
         end) l (set, flt)
    = Ok (set', flt')
    /\ len set' = len set.
Proof.
  revert set flt.
  match goal with |- context [foldR ?f] => set (F := f) end.
  assert (HF : forall (set : dayset) (flt : bool) (k : Z),
    F (set, flt) k
    = (cell ← index set k;
       match cell with
       | None => Panic
       | Some i =>
           rej ← rejects r info i;
           if rej : bool then set ← store set i None; Ok (set, true)
           else Ok (set, flt)
       end)) by reflexivity.
  clearbody F.
  induction l as [|k l IH]; intros set flt Hnd H; cbn [foldR].
  - eauto.
  - apply NoDup_cons in Hnd as [Hk Hnd].
    destruct (H k ltac:(left)) as (Hr & Hc & b & Hb).
    assert (Hi : index set k = Ok (Some k)).
    { apply index_Some; [lia | exact Hc]. }
    rewrite HF, Hi. rsimpl. rewrite Hb. rsimpl. destruct b.
    + destruct (store_Ok set k None Hr) as (set1 & Hs & _). rewrite Hs. rsimpl.
      apply store_lookup in Hs as (Hlen & _ & Hne).
      destruct (IH set1 true Hnd) as (set' & flt' & Heq & Hlen').
      { intros j Hj. destruct (H j ltac:(right; exact Hj)) as (Hjr & Hjc & Hjb).
        split; [lia |]. split; [| exact Hjb].
        rewrite Hne; [exact Hjc | lia |]. intros ->. contradiction. }
      exists set', flt'. split; [exact Heq | lia].
    + destruct (IH set flt Hnd) as (set' & flt' & Heq & Hlen').
      { intros j Hj. apply H. right. exact Hj. }
      exists set', flt'. split; [exact Heq | lia].
Qed.

Lemma slice_Ok {A} (l : list A) (lo hi : Z) :
  0 <= lo <= hi -> hi <= len l -> exists w, slice l lo hi = Ok w.
Proof.
  intros H1 H2. unfold slice.
  destruct (Z.leb_spec 0 lo); [| lia]. destruct (Z.leb_spec lo hi); [| lia].
  destruct (Z.leb_spec hi (len l)); [| lia]. cbn [andb]. eauto.
Qed.

Lemma filterDays_ok r info set s e :
  Byweekno r = [] -> Byeaster r = [] -> tablesOk info ->
  0 <= s <= e -> e <= yearlen info -> len set = yearlen info ->
  (forall k, s <= k < e -> set !! Z.to_nat k = Some (Some k)) ->
  exists set' flt,
    filterDays r info set s e = Ok (set', flt) /\ len set' = len set.
Proof.
  intros Hwn Hbe Ht Hse He Hlen Hcells. unfold filterDays.
  destruct (slice_Ok set s e Hse ltac:(lia)) as (w & ->). rsimpl.
  apply filter_loop_ok; [apply NoDup_rang |].
  intros k Hk. apply elem_of_rang in Hk.
  split; [lia |]. split; [apply Hcells; exact Hk |].
  apply rejects_ok; try assumption. lia.
Qed.

Lemma candidates_ok r info ts window :
  Forall (fun pos => pos <> 0) (Bysetpos r) ->
  exists cands, candidates r info ts window = Ok cands.
Proof.
  intros Hp. unfold candidates.
  destruct (Z.eqb_spec (len ts) 0) as [E|E];
    [rewrite andb_false_r; eauto |].
  destruct (negb (len (Bysetpos r) =? 0)); cbn [negb andb]; [| eauto].
  rewrite selectPositions_dedup;
    [rsimpl; eauto | pose proof (len_nonneg ts); lia | exact Hp].
Qed.

Lemma periodCandidates_ok r it :
  plainRule r -> cursorOk it ->
  exists cands flt, periodCandidates r (cursor_of it) = Ok (cands, flt).
Proof.
  intros (Hf & Hwn & Hbe & Hnw & Hi & Hp) (Hm & Hy & Ht).
  unfold periodCandidates, cursor_of.
  destruct (getdayset_ok r (ii it) (year it) (month it) (day it) Ht Hm Hf)
    as (set & s & e & -> & Hse & He & Hlen & Hcells).
  rsimpl.
  destruct (filterDays_ok r (ii it) set s e Hwn Hbe Ht Hse He Hlen Hcells)
    as (set' & flt & -> & Hlen').
  rsimpl.
  destruct (slice_Ok set' s e Hse ltac:(lia)) as (w & ->). rsimpl.
  destruct (candidates_ok r (ii it) (timeset it) w Hp) as (cands & ->).
  rsimpl. eauto.
Qed.

Lemma stepCursor_plain r fuel filtered it :
  plainRule r -> cursorOk it ->
  exists over c',
    stepCursor r fuel filtered (cursor_of it) = Ok (over, c')
    /\ (over = false ->
        cursorOk (set_cursor it c')
        /\ (monthsLeft (set_cursor it c') < monthsLeft it)%nat).
Proof.
  intros (Hf & Hwn & Hbe & Hnw & Hi & Hp) (Hm & Hy & Ht).
  pose proof Ht as (_ & _ & _ & _ & _ & _ & Hnwd).
  unfold MAXYEAR in Hy.
  unfold stepCursor, cursor_of. destruct Hf as [Hf | Hf]; rewrite Hf.
  - rewrite (int_add_small (year it) (Interval r)) by lia.
    unfold MAXYEAR.
    destruct (Z.ltb_spec 9999 (year it + Interval r)) as [Ho | Ho].
    + rsimpl. eexists true, _. split; [reflexivity |]. discriminate.
    + destruct (rebuild_tablesOk r (ii it) (year it + Interval r) (month it)
                  Hwn Hbe Hnw Hnwd (or_introl Ht)) as (info' & -> & Ht').
      rsimpl. eexists false, _. split; [reflexivity |]. intros _.
      unfold cursorOk, monthsLeft, set_cursor, MAXYEAR. cbn [year month ii].
      split; [split; [lia | split; [lia | exact Ht']] | lia].
  - rewrite (int_add_small (month it) (Interval r)) by lia.
    destruct (Z.ltb_spec 12 (month it + Interval r)) as [Hgt | Hle].
    + unfold divmod, pymod. cbv zeta.
      pose proof (Z.div_mod (month it + Interval r) 12 ltac:(lia)) as Hdm.
      pose proof (Z.mod_pos_bound (month it + Interval r) 12 ltac:(lia)) as Hmb.
      assert (Hd1 : 1 <= (month it + Interval r) / 12) by lia.
      assert (Hd2 : (month it + Interval r) / 12 < 2 ^ 62) by lia.
      rewrite (int_add_small (year it)) by lia.
      set (q := (month it + Interval r) / 12) in *.
      set (m' := (month it + Interval r) mod 12) in *.
      destruct (Z.eqb_spec m' 0) as [E0 | E0].
      * unfold int_sub. rewrite wrap_small by lia. unfold MAXYEAR.
        destruct (Z.ltb_spec 9999 (year it + q - 1)) as [Ho | Ho].
        -- rsimpl. eexists true, _. split; [reflexivity |]. discriminate.
        -- destruct (rebuild_tablesOk r (ii it) (year it + q - 1) 12
                       Hwn Hbe Hnw Hnwd (or_introl Ht)) as (info' & -> & Ht').
           rsimpl. eexists false, _. split; [reflexivity |]. intros _.
           unfold cursorOk, monthsLeft, set_cursor, MAXYEAR. cbn [year month ii].
           split; [split; [lia | split; [lia | exact Ht']] | lia].
      * unfold MAXYEAR.
        destruct (Z.ltb_spec 9999 (year it + q)) as [Ho | Ho].
        -- rsimpl. eexists true, _. split; [reflexivity |]. discriminate.
        -- destruct (rebuild_tablesOk r (ii it) (year it + q) m'
                       Hwn Hbe Hnw Hnwd (or_introl Ht)) as (info' & -> & Ht').
           rsimpl. eexists false, _. split; [reflexivity |]. intros _.
           unfold cursorOk, monthsLeft, set_cursor, MAXYEAR. cbn [year month ii].
           split; [split; [lia | split; [lia | exact Ht']] | lia].
    + destruct (rebuild_tablesOk r (ii it) (year it) (month it + Interval r)
                  Hwn Hbe Hnw Hnwd (or_introl Ht)) as (info' & -> & Ht').
      rsimpl. eexists false, _. split; [reflexivity |]. intros _.
      unfold cursorOk, monthsLeft, set_cursor, MAXYEAR. cbn [year month ii].
      split; [split; [lia | split; [lia | exact Ht']] | lia].
Qed.

Lemma plainRule_lenOnly r r' : lenOnly r r' -> plainRule r -> plainRule r'.
Proof. intros ->. destruct r. exact (fun H => H). Qed.

Lemma goodIter_mono fuel it : goodIter fuel it -> goodIter (S fuel) it.
Proof. intros [H | [H1 H2]]; [left; exact H | right; split; [exact H1 | lia]]. Qed.

Lemma generate_total r fuel it :
  plainRule r -> cursorOk it -> (monthsLeft it < fuel)%nat ->
  exists r' it',
    generate fuel r it = Ok (r', it') /\ goodIter fuel it'.
Proof.
  intros Hp. revert it. induction fuel as [|fuel IH]; intros it Hc Hlt; [lia |].
  cbn [generate]. destruct (len (remain it) =? 0).
  2:{ exists r, it. split; [reflexivity |]. right. auto. }
  rewrite period_candidates.
  destruct (periodCandidates_ok r it Hp Hc) as (cands & flt & ->). rsimpl.
  destruct (emitList r it cands) as [r1 it1 | it1] eqn:E.
  - rsimpl. exists r1, it1. split; [reflexivity |]. left.
    apply emitList_Return in E as (a & cnt & _ & _ & ->). reflexivity.
  - apply emitList_Continue in E as (a & cnt & _ & ->).
    unfold step.
    destruct (stepCursor_plain r (S fuel) flt
                (withEmit it (total it + len a) cnt (remain it ++ a) (finished it))
                Hp Hc) as (over & c' & -> & Hc').
    rsimpl. destruct over.
    + rsimpl. eexists _, _. split; [reflexivity |]. left.
      destruct c' as [[[[[[[[? ?] ?] ?] ?] ?] ?] ?] ?]. reflexivity.
    + rsimpl. destruct (Hc' eq_refl) as [Hok Hless].
      destruct (IH _ Hok) as (r' & it' & -> & Hg).
      { change (monthsLeft (withEmit it (total it + len a) cnt (remain it ++ a)
                              (finished it))) with (monthsLeft it) in Hless.
        lia. }
      exists r', it'. split; [reflexivity |]. apply goodIter_mono, Hg.
Qed.

Lemma next_total r fuel it :
  plainRule r -> goodIter fuel it ->
  exists r' it' v,
    next fuel r it = Ok (r', it', v) /\ plainRule r' /\ goodIter fuel it'.
Proof.
  intros Hp Hg. unfold next.
  assert (Hgen : exists r1 it1,
    (if negb (finished it) then generate fuel r it else Ok (r, it)) = Ok (r1, it1)
    /\ plainRule r1 /\ goodIter fuel it1).
  { destruct (finished it) eqn:Hf; cbn [negb].
    - exists r, it. split; [reflexivity |]. split; [exact Hp |]. left. exact Hf.
    - destruct Hg as [Hg | [Hc Hlt]]; [congruence |].
      destruct (generate_total r fuel it Hp Hc Hlt) as (r1 & it1 & Hgen & Hg1).
      exists r1, it1. split; [exact Hgen |]. split; [| exact Hg1].
      apply generate_extends in Hgen as [HL _].
      eapply plainRule_lenOnly; eassumption. }
  destruct Hgen as (r1 & it1 & -> & Hp1 & Hg1). rsimpl.
  destruct (remain it1) as [|t rest].
  - eexists _, _, _. split; [reflexivity |]. auto.
  - eexists _, _, _. split; [reflexivity |]. split; [exact Hp1 |].
    destruct Hg1 as [Hf | [Hc Hlt]]; [left; exact Hf | right].
    split; [exact Hc | exact Hlt].
Qed.

Lemma nexts_total r fuel k it :
  plainRule r -> goodIter fuel it ->
  exists r' it' outs, nexts fuel k r it = Ok (r', it', outs).
Proof.
  revert r it. induction k as [|k IH]; intros r it Hp Hg; cbn [nexts].
  - eauto.
  - destruct (next_total r fuel it Hp Hg) as (r1 & it1 & v & -> & Hp1 & Hg1).
    rsimpl. destruct v as [t|]; [| eauto].
    destruct (IH r1 it1 Hp1 Hg1) as (r' & it' & outs & ->). rsimpl. eauto.
Qed.

Lemma iterate_total r fuel k :
  plainRule r -> 1 <= Year (DateStart r) <= MAXYEAR ->
  (Z.to_nat 120000 < fuel)%nat ->
  exists r' it' outs, iterate fuel k r = Ok (r', it', outs).
Proof.
  intros Hp Hy Hfuel. pose proof Hp as (Hf & Hwn & Hbe & Hnw & Hi & Hsp).
  unfold iterate, Iterator. cbv zeta.
  destruct (rebuild_tablesOk r iterInfo0 (Year (DateStart r))
              (MonthOf (DateStart r)) Hwn Hbe Hnw eq_refl)
    as (info & -> & Ht).
  { right. cbn [lastyear iterInfo0]. lia. }
  rsimpl. apply nexts_total; [exact Hp |]. right.
  pose proof (MonthOf_range (DateStart r)) as Hm.
  unfold cursorOk, monthsLeft. cbn [year month ii].
  split; [split; [exact Hm | split; [exact Hy | exact Ht]] |].
  unfold MAXYEAR in Hy. lia.
Qed.

(** X14: a YEARLY or MONTHLY rule without week numbers, Easter offsets
    and positioned weekdays, whose interval is below 2^62 and whose start
    lies in the years 1 to [MAXYEAR], can be iterated safely: with fuel for
    the months up to the end of [MAXYEAR], any number of calls of [next]
    return, without a panic and without running out of fuel. *)
Theorem plain_rules_iterate (now : Time) (arg : ROption) (r : RRule)
    (fuel k : nat) :
  NewRRule now arg = inr r ->
  Freq r = YEARLY \/ Freq r = MONTHLY ->
  Byweekno r = [] -> Byeaster r = [] -> Bynweekday r = [] ->
  Interval r < 2 ^ 62 ->
  1 <= Year (DateStart r) <= MAXYEAR ->
  (Z.to_nat 120000 < fuel)%nat ->
  exists r' it' outs, iterate fuel k r = Ok (r', it', outs).
Proof.
  intros Hr Hf Hwn Hbe Hnw Hi Hy Hfuel.
  apply iterate_total; [| exact Hy | exact Hfuel].
  pose proof (validated_Bysetpos now arg r Hr) as Hsp.
  apply NewRRule_inr in Hr as [Hv ->].
  pose proof (normalize_bounds now arg Hv) as (Hi1 & _).
  unfold plainRule. auto 10.
Qed.

Lemma plain_rules_iterate_witness :
  exists r' it' outs,
    iterate (Z.to_nat 120001) 3 (normalize zeroTime monthEndOptions)
    = Ok (r', it', outs).
Proof.
  apply (plain_rules_iterate zeroTime monthEndOptions
           (normalize zeroTime monthEndOptions) (Z.to_nat 120001) 3 eq_refl).
  - right. reflexivity.
  - reflexivity.
  - reflexivity.
  - reflexivity.
  - vm_compute. reflexivity.
  - vm_compute. split; discriminate.
  - lia.
Defined.

(** X15: the iterator reads neither [OrigOptions] nor [Options] nor
    [Len]: a rule whose three fields are replaced by anything yields the
    same occurrences, call by call, and leaves the iterator in the same
    state. *)
Theorem iterator_ignores_options (r : RRule) (o1 o2 : ROption) (l : Z)
    (fuel k : nat) (r' : RRule) (it' : rIterator) (outs : list Time) :
  iterate fuel k r = Ok (r', it', outs) ->
  exists r'',
    iterate fuel k
      (mkRRule o1 o2 (Freq r) (DateStart r) (Interval r) (Wkst r) (Count r)
         (UntilTime r) (Bysetpos r) (Bymonth r) (Bymonthday r) (Bynmonthday r)
         (Byyearday r) (Byweekno r) (Byweekday r) (Bynweekday r) (Byhour r)
         (Byminute r) (Bysecond r) (Byeaster r) (Timeset r) l)
    = Ok (r'', it', outs).
Proof.
  intros H.
  destruct (iterate_sameCore fuel k r
              (mkRRule o1 o2 (Freq r) (DateStart r) (Interval r) (Wkst r) (Count r)
                 (UntilTime r) (Bysetpos r) (Bymonth r) (Bymonthday r)
                 (Bynmonthday r) (Byyearday r) (Byweekno r) (Byweekday r)
                 (Bynweekday r) (Byhour r) (Byminute r) (Bysecond r)
                 (Byeaster r) (Timeset r) l) r' it' outs) as (r'' & H' & _).
  - repeat eexists.
  - reflexivity.
  - exact H.
  - exists r''. exact H'.
Qed.

Lemma iterator_ignores_options_witness :
  let r := normalize zeroTime dailyOptions in
  exists r' it' outs r'',
    iterate 10 5 r = Ok (r', it', outs)
    /\ iterate 10 5
         (mkRRule monthEndOptions easterOptions (Freq r) (DateStart r)
            (Interval r) (Wkst r) (Count r) (UntilTime r) (Bysetpos r)
            (Bymonth r) (Bymonthday r) (Bynmonthday r) (Byyearday r)
            (Byweekno r) (Byweekday r) (Bynweekday r) (Byhour r) (Byminute r)
            (Bysecond r) (Byeaster r) (Timeset r) 77)
       = Ok (r'', it', outs).
Proof.
  intros r.
  assert (E : exists r' it' outs, iterate 10 5 r = Ok (r', it', outs)).
  { vm_compute. repeat eexists. }
  destruct E as (r' & it' & outs & E).
  destruct (iterator_ignores_options r monthEndOptions easterOptions 77
              10 5 r' it' outs E) as (r'' & E').
  exists r', it', outs, r''. split; [exact E | exact E'].
Defined.

(** ** The civil calendar *)

Lemma year_decompose (y : Z) :
  exists a b c e,
    y - 1 = 400 * a + 100 * b + 4 * c + e
    /\ 0 <= b < 4 /\ 0 <= c < 25 /\ 0 <= e < 4
    /\ daysSinceEpoch y = 146097 * a + 36524 * b + 1461 * c + 365 * e
    /\ isLeap y = (if (e =? 3) && ((c <? 24) || (b =? 3)) then 1 else 0).
Proof.
  set (a := (y - 1) / 400). set (r := (y - 1) mod 400).
  set (b := r / 100). set (r2 := r mod 100).
  set (c := r2 / 4). set (e := r2 mod 4).
  pose proof (Z.div_mod (y - 1) 400 ltac:(lia)) as H1.
  pose proof (Z.mod_pos_bound (y - 1) 400 ltac:(lia)) as B1.
  pose proof (Z.div_mod r 100 ltac:(lia)) as H2.
  pose proof (Z.mod_pos_bound r 100 ltac:(lia)) as B2.
  pose proof (Z.div_mod r2 4 ltac:(lia)) as H3.
  pose proof (Z.mod_pos_bound r2 4 ltac:(lia)) as B3.
  fold a r in H1, B1. fold b r2 in H2, B2. fold c e in H3, B3.
  assert (Hb : 0 <= b < 4).
  { subst b. split; [apply Z.div_pos; lia | apply Z.div_lt_upper_bound; lia]. }
  assert (Hc : 0 <= c < 25).
  { subst c. split; [apply Z.div_pos; lia | apply Z.div_lt_upper_bound; lia]. }
  assert (Hy : y - 1 = 400 * a + 100 * b + 4 * c + e) by lia.
  clearbody a r b r2 c e.
  exists a, b, c, e. split; [exact Hy |]. split; [exact Hb |].
  split; [exact Hc |]. split; [exact B3 |].
  assert (Q4 : (y - 1) / 4 = 100 * a + 25 * b + c).
  { symmetry. apply (Z.div_unique _ 4 _ e); lia. }
  assert (Q100 : (y - 1) / 100 = 4 * a + b).
  { symmetry. apply (Z.div_unique _ 100 _ (4 * c + e)); lia. }
  assert (Q400 : (y - 1) / 400 = a).
  { symmetry. apply (Z.div_unique _ 400 _ (100 * b + 4 * c + e)); lia. }
  split.
  - unfold daysSinceEpoch. cbv zeta. rewrite Q4, Q100, Q400. lia.
  - unfold isLeap.
    assert (M4 : y mod 4 = (e + 1) mod 4).
    { replace y with (e + 1 + (100 * a + 25 * b + c) * 4) by lia.
      apply Z_mod_plus_full. }
    assert (M100 : y mod 100 = (4 * c + e + 1) mod 100).
    { replace y with (4 * c + e + 1 + (4 * a + b) * 100) by lia.
      apply Z_mod_plus_full. }
    assert (M400 : y mod 400 = (100 * b + 4 * c + e + 1) mod 400).
    { replace y with (100 * b + 4 * c + e + 1 + a * 400) by lia.
      apply Z_mod_plus_full. }
    rewrite M4, M100, M400.
    destruct (Z.eqb_spec e 3) as [E3 | E3].
    + assert (R4 : (e + 1) mod 4 = 0) by (rewrite E3; reflexivity).
      rewrite R4. cbn [Z.eqb andb].
      destruct (Z.ltb_spec c 24) as [C | C].
      * assert (R100 : (4 * c + e + 1) mod 100 = 4 * c + 4)
          by (rewrite Z.mod_small; lia).
        rewrite R100. destruct (Z.eqb_spec (4 * c + 4) 0); [lia |]. reflexivity.
      * assert (R100 : (4 * c + e + 1) mod 100 = 0).
        { replace (4 * c + e + 1) with (0 + 1 * 100) by lia.
          apply Z_mod_plus_full. }
        rewrite R100. cbn [Z.eqb negb orb].
        destruct (Z.eqb_spec b 3) as [B | B].
        -- assert (R400 : (100 * b + 4 * c + e + 1) mod 400 = 0).
           { replace (100 * b + 4 * c + e + 1) with (0 + 1 * 400) by lia.
             apply Z_mod_plus_full. }
           rewrite R400. reflexivity.
        -- assert (R400 : (100 * b + 4 * c + e + 1) mod 400 = 100 * b + 100)
             by (rewrite Z.mod_small; lia).
           rewrite R400. destruct (Z.eqb_spec (100 * b + 100) 0); [lia |].
           reflexivity.
    + assert (R4 : (e + 1) mod 4 = e + 1) by (rewrite Z.mod_small; lia).
      rewrite R4. destruct (Z.eqb_spec (e + 1) 0); [lia |]. reflexivity.
Qed.

Lemma absDate_round (y yd : Z) :
  0 <= yd < 365 + isLeap y -> absDate (daysSinceEpoch y + yd) = (y, yd).
Proof.
  intros H.
  destruct (year_decompose y) as (a & b & c & e & Hy & Hb & Hc & He & Hd & HL).
  rewrite Hd. rewrite HL in H. clear Hd HL.
  assert (Hrest : 0 <= 365 * e + yd < 1461).
  { destruct (Z.eqb_spec e 3); cbn [andb] in H;
      [destruct ((c <? 24) || (b =? 3)) |]; lia. }
  assert (Hcent : 0 <= 1461 * c + 365 * e + yd < 36524 + (if b =? 3 then 1 else 0)).
  { destruct (Z.eqb_spec e 3), (Z.ltb_spec c 24), (Z.eqb_spec b 3);
      cbn [andb orb] in H; lia. }
  unfold absDate. cbv zeta.
  set (D := 146097 * a + 36524 * b + 1461 * c + 365 * e + yd).
  assert (E400 : D / 146097 = a).
  { symmetry. apply (Z.div_unique D 146097 a (D - 146097 * a)); [| lia].
    subst D. destruct (Z.eqb_spec b 3); lia. }
  assert (M400 : D mod 146097 = 36524 * b + 1461 * c + 365 * e + yd).
  { pose proof (Z.div_mod D 146097 ltac:(lia)). subst D. lia. }
  rewrite E400, M400.
  assert (E100 : Z.min ((36524 * b + 1461 * c + 365 * e + yd) / 36524) 3 = b).
  { destruct (Z.eqb_spec b 3) as [Eb3 | Hb3].
    - assert (3 <= (36524 * b + 1461 * c + 365 * e + yd) / 36524)
        by (apply Z.div_le_lower_bound; lia).
      lia.
    - assert ((36524 * b + 1461 * c + 365 * e + yd) / 36524 = b).
      { symmetry.
        apply (Z.div_unique _ 36524 b (1461 * c + 365 * e + yd)); lia. }
      lia. }
  rewrite E100.
  replace (36524 * b + 1461 * c + 365 * e + yd - 36524 * b)
    with (1461 * c + 365 * e + yd) by lia.
  assert (E4 : (1461 * c + 365 * e + yd) / 1461 = c).
  { symmetry. apply (Z.div_unique _ 1461 c (365 * e + yd)); lia. }
  rewrite E4.
  replace (1461 * c + 365 * e + yd - 1461 * c) with (365 * e + yd) by lia.
  assert (E1 : Z.min ((365 * e + yd) / 365) 3 = e).
  { destruct (Z.eqb_spec e 3) as [Ee3 | He3].
    - assert (3 <= (365 * e + yd) / 365) by (apply Z.div_le_lower_bound; lia).
      lia.
    - cbn [andb] in H.
      assert ((365 * e + yd) / 365 = e).
      { symmetry. apply (Z.div_unique _ 365 e yd); lia. }
      lia. }
  rewrite E1. f_equal; lia.
Qed.

Lemma Date_abs (y : Z) (m : Month) (d : Z) :
  1 <= m <= 12 ->
  abs (Date y m d 0 0 0 0 UTC) = (daysSinceEpoch y + ydayOf y m d) * 86400.
Proof.
  intros Hm. unfold Date, norm, ydayOf. cbv beta iota zeta.
  rewrite (Z.div_small (m - 1) 12), (Z.mod_small (m - 1) 12) by lia.
  change (0 / 1000000000) with 0. change (0 mod 1000000000) with 0.
  change (0 + 0) with 0. change (0 / 60) with 0. change (0 mod 60) with 0.
  change (0 + 0) with 0. change (0 / 24) with 0. change (0 mod 24) with 0.
  rewrite !Z.add_0_r. unfold abs. cbn [tsec tloc zoneOffset UTC].
  destruct (leapYear y && (2 <=? m - 1)); lia.
Qed.

Lemma month_cases (m : Z) :
  1 <= m <= 12 ->
  m = 1 \/ m = 2 \/ m = 3 \/ m = 4 \/ m = 5 \/ m = 6 \/ m = 7 \/ m = 8 \/ m = 9
  \/ m = 10 \/ m = 11 \/ m = 12.
Proof. lia. Qed.

Lemma monthLength_range (y : Z) (m : Month) :
  1 <= m <= 12 -> 28 <= monthLength y m <= 31.
Proof.
  intros Hm. unfold monthLength, leapYear.
  destruct (isLeap_cases y) as [E | E]; rewrite E;
    destruct (month_cases m Hm) as [-> | [-> | [-> | [-> | [-> | [-> | [-> | [->
      | [-> | [-> | [-> | ->]]]]]]]]]]]; vm_compute; split; discriminate.
Qed.

Lemma ydayOf_bounds (y : Z) (m : Month) (d : Z) :
  1 <= m <= 12 -> 1 <= d <= monthLength y m ->
  0 <= ydayOf y m d < 365 + isLeap y.
Proof.
  intros Hm. unfold monthLength, ydayOf, leapYear.
  destruct (isLeap_cases y) as [E | E]; rewrite E;
    destruct (month_cases m Hm) as [-> | [-> | [-> | [-> | [-> | [-> | [-> | [->
      | [-> | [-> | [-> | ->]]]]]]]]]]];
    eval_tables; intros Hd; lia.
Qed.

Lemma YearDay_Date (y : Z) (m : Month) (d : Z) :
  1 <= m <= 12 -> 1 <= d <= monthLength y m ->
  YearDay (Date y m d 0 0 0 0 UTC) - 1 = ydayOf y m d
  /\ Year (Date y m d 0 0 0 0 UTC) = y.
Proof.
  intros Hm Hd. unfold YearDay, Year. rewrite Date_abs by exact Hm.
  rewrite Z.div_mul by lia.
  rewrite absDate_round by (apply ydayOf_bounds; assumption).
  cbn [fst snd]. split; [lia | reflexivity].
Qed.

Lemma daysSinceEpoch_succ (y : Z) :
  daysSinceEpoch (y + 1) = daysSinceEpoch y + 365 + isLeap y.
Proof.
  destruct (year_decompose y) as (a & b & c & e & Hy & Hb & Hc & He & Hd & HL).
  destruct (year_decompose (y + 1))
    as (a' & b' & c' & e' & Hy' & Hb' & Hc' & He' & Hd' & _).
  rewrite Hd, Hd', HL.
  destruct (Z.eqb_spec e 3), (Z.ltb_spec c 24), (Z.eqb_spec b 3);
    cbn [andb orb]; lia.
Qed.

Lemma daysIn_eq (m : Month) (y : Z) :
  1 <= m <= 12 -> daysIn m y = monthLength y m.
Proof.
  intros Hm. unfold daysIn, Day.
  destruct (Z.eq_dec m 12) as [-> | Hne].
  - assert (Ha : abs (Date y (12 + 1) 0 0 0 0 0 UTC)
                 = (daysSinceEpoch y + (364 + isLeap y)) * 86400).
    { unfold Date, norm. cbv beta iota zeta.
      change ((12 + 1 - 1) / 12) with 1. change ((12 + 1 - 1) mod 12) with 0.
      change (0 / 1000000000) with 0. change (0 mod 1000000000) with 0.
      change (0 + 0) with 0. change (0 / 60) with 0. change (0 mod 60) with 0.
      change (0 + 0) with 0. change (0 / 24) with 0. change (0 mod 24) with 0.
      rewrite !Z.add_0_r. unfold abs. cbn [tsec tloc zoneOffset UTC].
      rewrite andb_false_r. rewrite daysSinceEpoch_succ.
      change (nth (Z.to_nat 0) daysBefore 0) with 0. lia. }
    rewrite Ha, Z.div_mul by lia.
    rewrite absDate_round by (destruct (isLeap_cases y) as [E | E]; rewrite E; lia).
    unfold monthDay, monthLength, leapYear.
    destruct (isLeap_cases y) as [E | E]; rewrite E; vm_compute; reflexivity.
  - rewrite Date_abs by lia. rewrite Z.div_mul by lia.
    assert (Hb : 0 <= ydayOf y (m + 1) 0 < 365 + isLeap y).
    { unfold ydayOf, leapYear.
      destruct (isLeap_cases y) as [E | E]; rewrite E;
        destruct (month_cases m Hm) as [-> | [-> | [-> | [-> | [-> | [-> | [->
          | [-> | [-> | [-> | [-> | ->]]]]]]]]]]];
        try contradiction; eval_tables; lia. }
    rewrite absDate_round by exact Hb.
    unfold monthDay, monthLength, ydayOf, leapYear.
    destruct (isLeap_cases y) as [E | E]; rewrite E;
      destruct (month_cases m Hm) as [-> | [-> | [-> | [-> | [-> | [-> | [->
        | [-> | [-> | [-> | [-> | ->]]]]]]]]]]];
      try contradiction; vm_compute; reflexivity.
Qed.

Lemma Date_abs_clock (y : Z) (m : Month) (d h mi s : Z) (loc : Location) :
  1 <= m <= 12 -> 0 <= h < 24 -> 0 <= mi < 60 -> 0 <= s < 60 ->
  abs (Date y m d h mi s 0 loc)
  = (daysSinceEpoch y + ydayOf y m d) * 86400 + h * 3600 + mi * 60 + s.
Proof.
  intros Hm Hh Hmi Hs. unfold Date, norm, ydayOf. cbv beta iota zeta.
  rewrite (Z.div_small (m - 1) 12), (Z.mod_small (m - 1) 12) by lia.
  change (0 / 1000000000) with 0. change (0 mod 1000000000) with 0.
  rewrite !Z.add_0_r.
  rewrite (Z.div_small s 60), (Z.mod_small s 60) by lia. rewrite !Z.add_0_r.
  rewrite (Z.div_small mi 60), (Z.mod_small mi 60) by lia. rewrite !Z.add_0_r.
  rewrite (Z.div_small h 24), (Z.mod_small h 24) by lia. rewrite !Z.add_0_r.
  unfold abs. cbn [tsec tloc].
  destruct (leapYear y && (2 <=? m - 1)); lia.
Qed.

(** The fields of an instant given by its day and its clock. *)
Lemma fields_of_abs (t : Time) (y yd h mi s : Z) :
  abs t = (daysSinceEpoch y + yd) * 86400 + h * 3600 + mi * 60 + s ->
  0 <= yd < 365 + isLeap y ->
  0 <= h < 24 -> 0 <= mi < 60 -> 0 <= s < 60 ->
  Year t = y /\ YearDay t = yd + 1
  /\ MonthOf t = fst (monthDay y yd) /\ Day t = snd (monthDay y yd)
  /\ Hour t = h /\ Minute t = mi /\ Sec t = s
  /\ WeekdayOf t = (daysSinceEpoch y + yd + 1) mod 7.
Proof.
  intros Ha Hyd Hh Hmi Hs.
  assert (Hq : abs t / 86400 = daysSinceEpoch y + yd).
  { rewrite Ha. symmetry.
    apply (Z.div_unique _ 86400 _ (h * 3600 + mi * 60 + s)); lia. }
  assert (Hr : abs t mod 86400 = h * 3600 + mi * 60 + s).
  { pose proof (Z.div_mod (abs t) 86400 ltac:(lia)). lia. }
  unfold Year, YearDay, MonthOf, Day, Hour, Minute, Sec, WeekdayOf.
  rewrite Hq, Hr, absDate_round by exact Hyd. cbn [fst snd].
  repeat split; try reflexivity.
  - symmetry. apply (Z.div_unique _ 3600 _ (mi * 60 + s)); lia.
  - assert (Hm3600 : abs t mod 3600 = mi * 60 + s).
    { rewrite Ha. symmetry.
      apply (Z.mod_unique _ 3600 ((daysSinceEpoch y + yd) * 24 + h)); lia. }
    rewrite Hm3600. symmetry. apply (Z.div_unique _ 60 _ s); lia.
  - rewrite Ha. symmetry.
    apply (Z.mod_unique _ 60 ((daysSinceEpoch y + yd) * 1440 + h * 60 + mi)); lia.
Qed.

Lemma monthDay_leap_only (y y' yd : Z) :
  isLeap y = isLeap y' -> monthDay y yd = monthDay y' yd.
Proof. intros H. unfold monthDay, leapYear. rewrite H. reflexivity. Qed.

(** Day [i] of the year [y] at midnight, as [rebuild] dates it from the
    first day of the year. *)
Lemma day_of_year (y i : Z) (loc : Location) :
  0 <= i < 365 + isLeap y ->
  let t := AddDate (Date y 1 1 0 0 0 0 loc) 0 0 i in
  abs t = (daysSinceEpoch y + i) * 86400
  /\ Year t = y /\ YearDay t = i + 1
  /\ MonthOf t = fst (monthDay y i) /\ Day t = snd (monthDay y i)
  /\ WeekdayOf t = (daysSinceEpoch y + i + 1) mod 7
  /\ LocationOf t = loc.
Proof.
  intros Hi.
  assert (H0 : abs (Date y 1 1 0 0 0 0 loc) = (daysSinceEpoch y + 0) * 86400 + 0 * 3600 + 0 * 60 + 0).
  { rewrite Date_abs_clock by lia. unfold ydayOf.
    change (nth (Z.to_nat (1 - 1)) daysBefore 0) with 0.
    rewrite andb_false_r. lia. }
  destruct (fields_of_abs _ y 0 0 0 0 H0) as (Fy & _ & Fm & Fd & Fh & Fmi & Fs & _);
    try lia.
  assert (Hmd : monthDay y 0 = (1, 1)).
  { unfold monthDay, leapYear. destruct (isLeap_cases y) as [E | E]; rewrite E;
      vm_compute; reflexivity. }
  rewrite Hmd in Fm, Fd. cbn [fst snd] in Fm, Fd.
  intros t. subst t. unfold AddDate. rewrite Fy, Fm, Fd, Fh, Fmi, Fs.
  rewrite !Z.add_0_r.
  assert (Ha : abs (Date y 1 (1 + i) 0 0 0
                      (Nanosecond (Date y 1 1 0 0 0 0 loc))
                      (LocationOf (Date y 1 1 0 0 0 0 loc)))
               = (daysSinceEpoch y + i) * 86400 + 0 * 3600 + 0 * 60 + 0).
  { change (Nanosecond (Date y 1 1 0 0 0 0 loc)) with 0.
    rewrite Date_abs_clock by lia. unfold ydayOf.
    change (nth (Z.to_nat (1 - 1)) daysBefore 0) with 0.
    rewrite andb_false_r. lia. }
  destruct (fields_of_abs _ y i 0 0 0 Ha) as (Gy & Gyd & Gm & Gd & _ & _ & _ & Gw);
    try lia.
  repeat split; try assumption. lia.
Qed.

Lemma monthLength_leap_only (y y' : Z) (m : Month) :
  isLeap y = isLeap y' -> monthLength y m = monthLength y' m.
Proof. intros H. unfold monthLength, leapYear. rewrite H. reflexivity. Qed.

Lemma masks_calendar (y i : Z) :
  0 <= i < 365 + isLeap y ->
  let mm := if 365 + isLeap y =? 365 then M365MASK else M366MASK in
  let mdm := if 365 + isLeap y =? 365 then MDAY365MASK else MDAY366MASK in
  let nmdm := if 365 + isLeap y =? 365 then NMDAY365MASK else NMDAY366MASK in
  index mm i = Ok (fst (monthDay y i))
  /\ index mdm i = Ok (snd (monthDay y i))
  /\ index nmdm i
     = Ok (snd (monthDay y i) - monthLength y (fst (monthDay y i)) - 1).
Proof.
  intros Hi.
  assert (Hgen : forall mm mdm nmdm y0,
    isLeap y = isLeap y0 -> maskEntryb mm mdm nmdm y0 i = true ->
    index mm i = Ok (fst (monthDay y i))
    /\ index mdm i = Ok (snd (monthDay y i))
    /\ index nmdm i
       = Ok (snd (monthDay y i) - monthLength y (fst (monthDay y i)) - 1)).
  { intros mm mdm nmdm y0 HL H. unfold maskEntryb in H.
    rewrite (monthDay_leap_only y y0 i HL), (monthLength_leap_only y y0 _ HL).
    destruct (mm !! Z.to_nat i) as [m|] eqn:E1; [| discriminate].
    destruct (mdm !! Z.to_nat i) as [d|] eqn:E2; [| discriminate].
    destruct (nmdm !! Z.to_nat i) as [nd|] eqn:E3; [| discriminate].
    apply andb_true_iff in H as [H H3]. apply andb_true_iff in H as [H1 H2].
    apply Z.eqb_eq in H1, H2, H3. subst m d nd.
    repeat split; apply index_Some; (lia || assumption). }
  destruct (isLeap_cases y) as [E | E]; rewrite E in *;
    cbn [Z.add Z.eqb Pos.add Pos.eqb Pos.succ]; cbv zeta.
  - apply (Hgen _ _ _ 1 eq_refl).
    apply (forallb_range (maskEntryb M365MASK MDAY365MASK NMDAY365MASK 1) 0 365);
      [vm_compute; reflexivity | lia].
  - apply (Hgen _ _ _ 4 eq_refl).
    apply (forallb_range (maskEntryb M366MASK MDAY366MASK NMDAY366MASK 4) 0 366);
      [vm_compute; reflexivity | lia].
Qed.

Lemma toPyWeekday_mod (n : Z) : toPyWeekday ((n + 1) mod 7) = n mod 7.
Proof.
  pose proof (Z.mod_pos_bound n 7 ltac:(lia)) as Hb.
  assert (Hs : (n + 1) mod 7 = (n mod 7 + 1) mod 7).
  { rewrite <- Z.add_mod_idemp_l by lia. reflexivity. }
  rewrite Hs. set (k := n mod 7) in *. clearbody k.
  assert (Hc : k = 0 \/ k = 1 \/ k = 2 \/ k = 3 \/ k = 4 \/ k = 5 \/ k = 6) by lia.
  repeat destruct Hc as [-> | Hc]; try subst k; reflexivity.
Qed.

Lemma WDAYMASK_lookup (w i : Z) (wdmask : list Z) :
  slice_from WDAYMASK w = Ok wdmask -> 0 <= w <= 6 -> 0 <= i < 379 ->
  index wdmask i = Ok ((w + i) mod 7).
Proof.
  unfold slice_from, slice. change (len WDAYMASK) with 385.
  destruct ((0 <=? w) && (w <=? 385) && (385 <=? 385)); [| discriminate].
  intros [= <-] Hw Hi. apply index_Some; [lia |].
  rewrite lookup_take_lt by lia. rewrite lookup_drop.
  replace (Z.to_nat w + Z.to_nat i)%nat with (Z.to_nat (w + i)) by lia.
  pose proof (forallb_range
                (fun j => match WDAYMASK !! Z.to_nat j with
                          | Some x => x =? j mod 7
                          | None => false
                          end) 0 385 (w + i)) as H.
  cbv beta in H. specialize (H ltac:(vm_compute; reflexivity) ltac:(lia)).
  destruct (WDAYMASK !! Z.to_nat (w + i)) as [x|]; [| discriminate].
  f_equal. lia.
Qed.

(** The tables of a new year against the dates of its days. *)
Lemma rebuild_calendar (r : RRule) (info : iterInfo) (year : Z)
    (month : Month) (info' : iterInfo) (i : Z) :
  rebuild r info year month = Ok info' ->
  year <> lastyear info ->
  0 <= i < yearlen info' ->
  let t := AddDate (firstyday info') 0 0 i in
  Year t = year /\ YearDay t = i + 1
  /\ index (mmask info') i = Ok (MonthOf t)
  /\ index (mdaymask info') i = Ok (Day t)
  /\ index (nmdaymask info') i = Ok (Day t - daysIn (MonthOf t) year - 1)
  /\ index (wdaymask info') i = Ok (toPyWeekday (WeekdayOf t)).
Proof.
  intros H Hy Hi. apply rebuild_inv in H as (info1 & nwd & east & H1 & _ & ->).
  destruct (Z.eqb_spec year (lastyear info)) as [|_]; [contradiction |].
  cbn [negb] in H1. destruct H1 as (wdmask & wno & Hw & _ & ->).
  cbn [yearlen firstyday mmask mdaymask nmdaymask wdaymask] in *.
  destruct (day_of_year year i (LocationOf (DateStart r)) Hi)
    as (_ & Fy & Fyd & Fm & Fd & Fw & _).
  cbv zeta. rewrite Fy, Fyd, Fm, Fd, Fw.
  destruct (masks_calendar year i Hi) as (M1 & M2 & M3).
  split; [reflexivity |]. split; [reflexivity |].
  split; [exact M1 |]. split; [exact M2 |]. split.
  - rewrite daysIn_eq; [exact M3 |].
    destruct (monthDay_range year i) as [Hr _]; [lia | exact Hr].
  - pose proof (toPyWeekday_range
                  (Date year 1 1 0 0 0 0 (LocationOf (DateStart r)))) as Hwr.
    rewrite (WDAYMASK_lookup _ i wdmask Hw Hwr)
      by (destruct (isLeap_cases year) as [E | E]; rewrite E in Hi; lia).
    f_equal.
    assert (Hd0 : WeekdayOf (Date year 1 1 0 0 0 0 (LocationOf (DateStart r)))
                  = (daysSinceEpoch year + 1) mod 7).
    { unfold WeekdayOf. rewrite Date_abs_clock by lia. unfold ydayOf.
      change (nth (Z.to_nat (1 - 1)) daysBefore 0) with 0.
      rewrite andb_false_r.
      replace ((daysSinceEpoch year + (0 + 0 + (1 - 1))) * 86400 + 0 * 3600
               + 0 * 60 + 0) with (daysSinceEpoch year * 86400) by lia.
      rewrite Z.div_mul by lia. reflexivity. }
    rewrite Hd0, !toPyWeekday_mod.
    rewrite Z.add_mod_idemp_l by lia. reflexivity.
Qed.

(** X16: the tables that [rebuild] leaves for a new year are those of the
    calendar: for every day [i] of the year, counted from January 1, the
    month mask holds the month of that day, the month-day mask its day of
    the month, the negative month-day mask that day counted back from the
    end of the month, and the weekday mask its weekday, Monday being 0. *)
Theorem rebuild_tables_calendar (r : RRule) (info : iterInfo) (year : Z)
    (month : Month) (info' : iterInfo) (i : Z) :
  rebuild r info year month = Ok info' ->
  year <> lastyear info ->
  0 <= i < yearlen info' ->
  let t := AddDate (firstyday info') 0 0 i in
  Year t = year /\ YearDay t = i + 1
  /\ index (mmask info') i = Ok (MonthOf t)
  /\ index (mdaymask info') i = Ok (Day t)
  /\ index (nmdaymask info') i = Ok (Day t - daysIn (MonthOf t) year - 1)
  /\ index (wdaymask info') i = Ok (toPyWeekday (WeekdayOf t)).
Proof. apply rebuild_calendar. Qed.

Lemma rebuild_tables_calendar_witness :
  exists info',
    rebuild (normalize zeroTime dailyOptions) iterInfo0 2018 1 = Ok info'
    /\ index (mmask info') 58
       = Ok (MonthOf (AddDate (firstyday info') 0 0 58)).
Proof.
  assert (E : exists info',
    rebuild (normalize zeroTime dailyOptions) iterInfo0 2018 1 = Ok info'
    /\ yearlen info' = 365).
  { vm_compute. eexists. split; reflexivity. }
  destruct E as (info' & E & Hy). exists info'. split; [exact E |].
  refine (proj1 (proj2 (proj2
            (rebuild_tables_calendar _ iterInfo0 2018 1 info' 58 E _ _)))).
  - cbn [lastyear iterInfo0]. lia.
  - rewrite Hy. lia.
Defined.

Lemma ydayOf_leap_only (y y' : Z) (m : Month) (d : Z) :
  isLeap y = isLeap y' -> ydayOf y m d = ydayOf y' m d.
Proof. intros H. unfold ydayOf, leapYear. rewrite H. reflexivity. Qed.

(** Every day count is a day of some year. *)
Lemma day_count_year (n : Z) :
  exists y yd, n = daysSinceEpoch y + yd /\ 0 <= yd < 365 + isLeap y.
Proof.
  assert (Hup : forall k : nat,
    exists y yd, Z.of_nat k = daysSinceEpoch y + yd /\ 0 <= yd < 365 + isLeap y).
  { induction k as [| k (y & yd & E & Hb)].
    - exists 1, 0. split; [reflexivity | vm_compute; split; [discriminate | reflexivity]].
    - destruct (Z_lt_dec (yd + 1) (365 + isLeap y)) as [Hlt | Hge].
      + exists y, (yd + 1). lia.
      + exists (y + 1), 0. rewrite daysSinceEpoch_succ.
        destruct (isLeap_cases (y + 1)); lia. }
  assert (Hdown : forall k : nat,
    exists y yd, - Z.of_nat k = daysSinceEpoch y + yd /\ 0 <= yd < 365 + isLeap y).
  { induction k as [| k (y & yd & E & Hb)].
    - exists 1, 0. split; [reflexivity | vm_compute; split; [discriminate | reflexivity]].
    - destruct (Z_lt_dec 0 yd) as [Hlt | Hge].
      + exists y, (yd - 1). lia.
      + exists (y - 1), (364 + isLeap (y - 1)).
        pose proof (daysSinceEpoch_succ (y - 1)) as Hs.
        replace (y - 1 + 1) with y in Hs by lia.
        destruct (isLeap_cases (y - 1)); lia. }
  destruct (Z_le_dec 0 n) as [Hn | Hn].
  - destruct (Hup (Z.to_nat n)) as (y & yd & E & Hb). exists y, yd. lia.
  - destruct (Hdown (Z.to_nat (- n))) as (y & yd & E & Hb). exists y, yd. lia.
Qed.

Lemma absDate_inv (n : Z) :
  n = daysSinceEpoch (fst (absDate n)) + snd (absDate n)
  /\ 0 <= snd (absDate n) < 365 + isLeap (fst (absDate n)).
Proof.
  destruct (day_count_year n) as (y & yd & E & Hb).
  subst n. rewrite (absDate_round y yd Hb). cbn [fst snd].
  split; [reflexivity | exact Hb].
Qed.

Lemma monthDay_inv (y yd : Z) :
  0 <= yd < 365 + isLeap y ->
  1 <= fst (monthDay y yd) <= 12
  /\ 1 <= snd (monthDay y yd) <= monthLength y (fst (monthDay y yd))
  /\ ydayOf y (fst (monthDay y yd)) (snd (monthDay y yd)) = yd.
Proof.
  intros Hb.
  assert (Hgen : forall y0, isLeap y = isLeap y0 -> monthDayb y0 yd = true ->
    1 <= fst (monthDay y yd) <= 12
    /\ 1 <= snd (monthDay y yd) <= monthLength y (fst (monthDay y yd))
    /\ ydayOf y (fst (monthDay y yd)) (snd (monthDay y yd)) = yd).
  { intros y0 HL H. unfold monthDayb in H.
    rewrite (monthDay_leap_only y y0 yd HL).
    rewrite (monthLength_leap_only y y0 _ HL), (ydayOf_leap_only y y0 _ _ HL).
    destruct (monthDay y0 yd) as [m d]. cbn [fst snd].
    repeat (apply andb_true_iff in H as [H ?]). lia. }
  destruct (isLeap_cases y) as [E | E]; rewrite E in Hb.
  - apply (Hgen 1); [exact E |].
    apply (forallb_range (monthDayb 1) 0 365); [vm_compute; reflexivity | lia].
  - apply (Hgen 4); [exact E |].
    apply (forallb_range (monthDayb 4) 0 366); [vm_compute; reflexivity | lia].
Qed.

Lemma monthDay_ydayOf (y : Z) (m : Month) (d : Z) :
  1 <= m <= 12 -> 1 <= d <= monthLength y m ->
  monthDay y (ydayOf y m d) = (m, d).
Proof.
  intros Hm Hd. pose proof (monthLength_range y m Hm) as Hr.
  assert (Hgen : forall y0, isLeap y = isLeap y0 ->
    ydayOfb y0 (31 * (m - 1) + (d - 1)) = true ->
    monthDay y (ydayOf y m d) = (m, d)).
  { intros y0 HL H. unfold ydayOfb in H. cbv zeta in H.
    replace ((31 * (m - 1) + (d - 1)) / 31 + 1) with m in H
      by (symmetry; rewrite (Z.mul_comm 31), Z.div_add_l, (Z.div_small (d - 1)) by lia; lia).
    replace ((31 * (m - 1) + (d - 1)) mod 31 + 1) with d in H
      by (symmetry; rewrite (Z.add_comm (31 * (m - 1))), (Z.mul_comm 31), Z.mod_add, Z.mod_small by lia; lia).
    rewrite (monthLength_leap_only y y0 _ HL) in Hd.
    rewrite (ydayOf_leap_only y y0 _ _ HL), (monthDay_leap_only y y0 _ HL).
    apply orb_true_iff in H as [H | H]; [lia |].
    apply andb_true_iff in H as [H1 H2].
    destruct (monthDay y0 (ydayOf y0 m d)) as [m' d']. cbn [fst snd] in *.
    f_equal; lia. }
  destruct (isLeap_cases y) as [E | E].
  - apply (Hgen 1 E).
    apply (forallb_range (ydayOfb 1) 0 372); [vm_compute; reflexivity | lia].
  - apply (Hgen 4 E).
    apply (forallb_range (ydayOfb 4) 0 372); [vm_compute; reflexivity | lia].
Qed.

(** The clock of an instant. *)
Lemma clock_split (a : Z) :
  a = (a / 86400) * 86400 + (a mod 86400 / 3600) * 3600
      + (a mod 3600 / 60) * 60 + a mod 60
  /\ 0 <= a mod 86400 / 3600 < 24 /\ 0 <= a mod 3600 / 60 < 60
  /\ 0 <= a mod 60 < 60.
Proof. Z.to_euclidean_division_equations. lia. Qed.

Lemma Date_nsec0 (y : Z) (m : Month) (d h mi sc : Z) (loc : Location) :
  tnsec (Date y m d h mi sc 0 loc) = 0 /\ tloc (Date y m d h mi sc 0 loc) = loc.
Proof.
  unfold Date, norm. cbv beta iota zeta. cbn [tnsec tloc]. split; reflexivity.
Qed.

Lemma Time_ext (t u : Time) :
  abs t = abs u -> tnsec t = tnsec u -> tloc t = tloc u -> t = u.
Proof.
  destruct t as [s n l], u as [s' n' l']. unfold abs. cbn [tsec tnsec tloc].
  intros Ha -> ->. f_equal. lia.
Qed.

(** An instant is given by its fields: the year, the month, the day and
    the clock of an instant date the same second. *)
Lemma Date_fields (t : Time) :
  Date (Year t) (MonthOf t) (Day t) (Hour t) (Minute t) (Sec t) 0 (LocationOf t)
  = TruncateSecond t.
Proof.
  destruct (clock_split (abs t)) as (Ea & Hh & Hmi & Hs).
  destruct (absDate_inv (abs t / 86400)) as (Ed & Hyd).
  destruct (monthDay_inv _ _ Hyd) as (Hm & Hd & Ey).
  destruct (Date_nsec0 (Year t) (MonthOf t) (Day t) (Hour t) (Minute t) (Sec t)
              (LocationOf t)) as [Hn Hl].
  apply Time_ext; [| exact Hn | exact Hl].
  rewrite Date_abs_clock.
  - change (abs (TruncateSecond t)) with (abs t).
    revert Ea Ed Ey. unfold Year, MonthOf, Day, Hour, Minute, Sec.
    generalize (abs t). intros a.
    destruct (absDate (a / 86400)) as [y yd]. cbn [fst snd].
    intros Ea Ed Ey. rewrite Ey. lia.
  - unfold MonthOf. destruct (absDate (abs t / 86400)). exact Hm.
  - exact Hh.
  - exact Hmi.
  - exact Hs.
Qed.

(** The day of the year of the date of an instant. *)
Lemma YearDay_fields (t : Time) :
  YearDay (Date (Year t) (MonthOf t) (Day t) 0 0 0 0 UTC) - 1 = YearDay t - 1
  /\ 0 <= YearDay t - 1 < 365 + isLeap (Year t)
  /\ 1 <= MonthOf t <= 12
  /\ 1 <= Day t <= monthLength (Year t) (MonthOf t).
Proof.
  destruct (absDate_inv (abs t / 86400)) as (Ed & Hyd).
  destruct (monthDay_inv _ _ Hyd) as (Hm & Hd & Ey).
  assert (Hm' : 1 <= MonthOf t <= 12).
  { unfold MonthOf. destruct (absDate (abs t / 86400)). exact Hm. }
  assert (Hd' : 1 <= Day t <= monthLength (Year t) (MonthOf t)).
  { unfold Day, MonthOf, Year. destruct (absDate (abs t / 86400)). exact Hd. }
  destruct (YearDay_Date (Year t) (MonthOf t) (Day t) Hm' Hd') as [E _].
  rewrite E. split; [| split; [| split; assumption]].
  - unfold YearDay, Year, MonthOf, Day.
    destruct (absDate (abs t / 86400)) as [y yd]. cbn [fst snd] in *. lia.
  - unfold YearDay, Year. replace (snd (absDate (abs t / 86400)) + 1 - 1)
      with (snd (absDate (abs t / 86400))) by lia. exact Hyd.
Qed.

(** ** What the filter loop leaves *)

Lemma filter_loop_spec r info (b : Z -> bool) (l : list Z) (set : dayset)
    (flt : bool) :
  NoDup l ->
  (forall k, k ∈ l -> 0 <= k < len set /\ set !! Z.to_nat k = Some (Some k)
                      /\ rejects r info k = Ok (b k)) ->
  exists set',
    foldR
      (fun '(set, filtered) k =>
         cell ← index set k;
         match cell with
         | None => Panic
         | Some i =>
             rej ← rejects r info i;
             if rej : bool then set ← store set i None; Ok (set, true)
             else Ok (set, filtered)
         end) l (set, flt)
    = Ok (set', flt || existsb b l)
    /\ len set' = len set
    /\ (forall k, k ∈ l ->
        set' !! Z.to_nat k = Some (if b k then None else Some k))
    /\ (forall k, 0 <= k -> k ∉ l -> set' !! Z.to_nat k = set !! Z.to_nat k).
Proof.
  revert set flt.
  match goal with |- context [foldR ?f] => set (F := f) end.
  assert (HF : forall (set : dayset) (flt : bool) (k : Z),
    F (set, flt) k
    = (cell ← index set k;
       match cell with
       | None => Panic
       | Some i =>
           rej ← rejects r info i;
           if rej : bool then set ← store set i None; Ok (set, true)
           else Ok (set, flt)
       end)) by reflexivity.
  clearbody F.
  induction l as [|k l IH]; intros set flt Hnd H; cbn [foldR existsb].
  - exists set. rewrite orb_false_r. repeat split; try reflexivity.
    intros k Hk. apply elem_of_nil in Hk. contradiction.
  - apply NoDup_cons in Hnd as [Hk Hnd].
    destruct (H k ltac:(left)) as (Hr & Hc & Hb).
    assert (Hi : index set k = Ok (Some k)).
    { apply index_Some; [lia | exact Hc]. }
    rewrite HF, Hi. rsimpl. rewrite Hb. rsimpl. destruct (b k) eqn:Ebk.
    + destruct (store_Ok set k None Hr) as (set1 & Hs & _). rewrite Hs. rsimpl.
      apply store_lookup in Hs as (Hlen & Hat & Hne).
      destruct (IH set1 true Hnd) as (set' & Heq & Hlen' & Hin & Hout).
      { intros j Hj. destruct (H j ltac:(right; exact Hj)) as (Hjr & Hjc & Hjb).
        split; [lia |]. split; [| exact Hjb].
        rewrite Hne; [exact Hjc | lia |]. intros ->. contradiction. }
      exists set'. rewrite orb_true_r. cbn [orb] in Heq.
      split; [exact Heq |]. split; [lia |]. split.
      * intros j Hj. apply elem_of_cons in Hj as [-> | Hj].
        -- rewrite Ebk. rewrite Hout by (assumption || lia). exact Hat.
        -- apply Hin. exact Hj.
      * intros j Hj0 Hj. apply not_elem_of_cons in Hj as [Hjk Hj].
        rewrite Hout by assumption. apply Hne; assumption.
    + destruct (IH set flt Hnd) as (set' & Heq & Hlen' & Hin & Hout).
      { intros j Hj. apply H. right. exact Hj. }
      exists set'. cbn [orb]. split; [exact Heq |]. split; [exact Hlen' |]. split.
      * intros j Hj. apply elem_of_cons in Hj as [-> | Hj].
        -- rewrite Ebk. rewrite Hout by (assumption || lia). exact Hc.
        -- apply Hin. exact Hj.
      * intros j Hj0 Hj. apply not_elem_of_cons in Hj as [Hjk Hj].
        apply Hout; assumption.
Qed.

(** The days that are left of a run of cells. *)
Lemma surviving_cells (b : Z -> bool) (s : Z) (w : dayset) (a : nat) :
  (forall j, (j < length w)%nat ->
     w !! j = Some (if b (s + Z.of_nat (a + j)) then None
                    else Some (s + Z.of_nat (a + j)))) ->
  surviving w
  = List.filter (fun k => negb (b k))
      (map (fun k => s + Z.of_nat k) (seq a (length w))).
Proof.
  revert a. induction w as [| c w IH]; intros a H; [reflexivity |].
  pose proof (H 0%nat ltac:(cbn; lia)) as H0. cbn [lookup list_lookup] in H0.
  rewrite Nat.add_0_r in H0. injection H0 as ->.
  assert (IH' : surviving w
                = List.filter (fun k => negb (b k))
                    (map (fun k => s + Z.of_nat k) (seq (S a) (length w)))).
  { apply IH. intros j Hj. specialize (H (S j) ltac:(cbn; lia)).
    cbn [lookup list_lookup] in H. rewrite Nat.add_succ_r in H. exact H. }
  cbn [length seq map List.filter]. unfold surviving in *.
  destruct (b (s + Z.of_nat a)); cbn [omap list_omap id negb]; rewrite IH';
    reflexivity.
Qed.

Lemma lookup_window {A} (l : list A) (s n j : nat) :
  (j < n)%nat -> take n (drop s l) !! j = l !! (s + j)%nat.
Proof. intros H. rewrite lookup_take_lt by exact H. apply lookup_drop. Qed.

Lemma filterDays_spec r info (b : Z -> bool) (set : dayset) (s e : Z) :
  0 <= s <= e -> e <= len set ->
  (forall k, s <= k < e ->
     set !! Z.to_nat k = Some (Some k) /\ rejects r info k = Ok (b k)) ->
  exists set' window,
    filterDays r info set s e = Ok (set', existsb b (rang s e))
    /\ slice set' s e = Ok window
    /\ surviving window = List.filter (fun k => negb (b k)) (rang s e).
Proof.
  intros Hse He H. unfold filterDays.
  destruct (slice_Ok set s e Hse He) as (w0 & Hw0). rewrite Hw0. rsimpl.
  destruct (filter_loop_spec r info b (rang s e) set false (NoDup_rang s e))
    as (set' & Heq & Hlen & Hin & _).
  { intros k Hk. apply elem_of_rang in Hk. destruct (H k Hk) as [Hc Hb].
    split; [lia |]. split; assumption. }
  cbn [orb] in Heq. exists set'.
  assert (Hsl : slice set' s e
                = Ok (take (Z.to_nat (e - s)) (drop (Z.to_nat s) set'))).
  { unfold slice. rewrite Hlen.
    destruct (Z.leb_spec 0 s); [| lia]. destruct (Z.leb_spec s e); [| lia].
    destruct (Z.leb_spec e (len set)); [| lia]. reflexivity. }
  eexists. split; [exact Heq |]. split; [exact Hsl |].
  set (w := take (Z.to_nat (e - s)) (drop (Z.to_nat s) set')).
  assert (Hlw : length w = Z.to_nat (e - s)).
  { subst w. rewrite length_take, length_drop. unfold len in *. lia. }
  rewrite (surviving_cells b s w 0).
  - rewrite Hlw. reflexivity.
  - intros j Hj. subst w. cbn [Nat.add].
    etransitivity; [exact (lookup_window set' (Z.to_nat s) (Z.to_nat (e - s)) j ltac:(lia)) |].
    replace (Z.to_nat s + j)%nat with (Z.to_nat (s + Z.of_nat j)) by lia.
    apply Hin. apply elem_of_rang. lia.
Qed.

(** A list in which one element only passes a test. *)
Lemma filter_single {A} (p : A -> bool) (l : list A) (x : A) :
  NoDup l -> x ∈ l -> p x = true ->
  (forall y, y ∈ l -> p y = true -> y = x) ->
  List.filter p l = [x].
Proof.
  induction l as [| y l IH]; intros Hnd Hx Hp Hu.
  - apply elem_of_nil in Hx. contradiction.
  - apply NoDup_cons in Hnd as [Hy Hnd]. cbn [List.filter].
    assert (Hrest : forall l', (forall z, z ∈ l' -> p z = false) ->
                               List.filter p l' = []).
    { induction l' as [| z l' IHl]; intros Hz; [reflexivity |].
      cbn [List.filter]. rewrite (Hz z ltac:(left)). apply IHl.
      intros z' Hz'. apply Hz. right. exact Hz'. }
    apply elem_of_cons in Hx as [<- | Hx].
    + rewrite Hp. f_equal. apply Hrest. intros z Hz.
      destruct (p z) eqn:Ez; [| reflexivity].
      rewrite (Hu z ltac:(right; exact Hz) Ez) in Hz. contradiction.
    + destruct (p y) eqn:Ey.
      * rewrite (Hu y ltac:(left) Ey) in Hy. contradiction.
      * apply IH; try assumption. intros z Hz. apply Hu. right. exact Hz.
Qed.

(** ** The first period of a rule *)

Lemma WeekdayOf_newyear (y : Z) (loc : Location) :
  toPyWeekday (WeekdayOf (Date y 1 1 0 0 0 0 loc)) = daysSinceEpoch y mod 7.
Proof.
  unfold WeekdayOf. rewrite Date_abs_clock by lia. unfold ydayOf.
  change (nth (Z.to_nat (1 - 1)) daysBefore 0) with 0.
  rewrite andb_false_r.
  replace ((daysSinceEpoch y + (0 + 0 + (1 - 1))) * 86400 + 0 * 3600
           + 0 * 60 + 0) with (daysSinceEpoch y * 86400) by lia.
  rewrite Z.div_mul by lia. apply toPyWeekday_mod.
Qed.

Lemma rebuild_bare (r : RRule) (info : iterInfo) (y : Z) (m : Month) :
  Byweekno r = [] -> Bynweekday r = [] -> Byeaster r = [] ->
  nwdaymask info = [] ->
  y <> lastyear info \/ calendarOf (LocationOf (DateStart r)) y info ->
  exists info',
    rebuild r info y m = Ok info'
    /\ calendarOf (LocationOf (DateStart r)) y info'
    /\ lastmonth info' = m.
Proof.
  intros Hwn Hnw He Hn Hy. unfold rebuild. rewrite Hwn, He, Hnw.
  change (len (@nil Z) =? 0) with true. change (len (@nil Weekday) =? 0) with true.
  cbn [negb andb].
  destruct (Z.eqb_spec y (lastyear info)) as [Ey | Ey]; cbn [negb].
  - destruct Hy as [Hy | Hc]; [contradiction |]. rsimpl.
    eexists. split; [reflexivity |]. split; [| reflexivity].
    destruct Hc as (C1 & C2 & C3 & C4 & C5 & C6 & C7).
    unfold calendarOf.
    cbn [lastyear yearlen firstyday mrange nwdaymask mmask mdaymask nmdaymask
         wdaymask].
    split; [reflexivity |]. repeat (split; [assumption |]). assumption.
  - set (w := toPyWeekday (WeekdayOf (Date y 1 1 0 0 0 0 (LocationOf (DateStart r))))).
    assert (Hw : 0 <= w <= 6) by apply toPyWeekday_range.
    destruct (slice_from_WDAYMASK w Hw) as (wdmask & Hs & Hl).
    cbv zeta. fold w. rewrite Hs. rsimpl.
    assert (Hwd : forall i, 0 <= i < 379 ->
                    index wdmask i = Ok ((daysSinceEpoch y + i) mod 7)).
    { intros i Hi. rewrite (WDAYMASK_lookup w i wdmask Hs Hw Hi).
      unfold w. rewrite WeekdayOf_newyear.
      rewrite Z.add_mod_idemp_l by lia. reflexivity. }
    pose proof (masks_calendar y) as Hm. cbv zeta in Hm.
    destruct (365 + isLeap y =? 365) eqn:E365; rsimpl;
      (eexists; split; [reflexivity |]; split; [| reflexivity];
       unfold calendarOf;
       cbn [lastyear yearlen firstyday mrange nwdaymask mmask mdaymask
            nmdaymask wdaymask];
       rewrite ?E365;
       do 5 (split; [first [reflexivity | assumption] |]);
       split; [| exact Hwd];
       intros i Hi; destruct (Hm i Hi) as (M1 & M2 & M3);
       split; [exact M1 |]; split; [exact M2 | eexists; exact M3]).
Qed.

Lemma getdayset_yearly (r : RRule) (info : iterInfo) (y : Z) (m : Month) (d : Z) :
  0 <= yearlen info ->
  exists set,
    getdayset r info YEARLY y m d = Ok (set, 0, yearlen info)
    /\ len set = yearlen info
    /\ forall k, 0 <= k < yearlen info -> set !! Z.to_nat k = Some (Some k).
Proof.
  intros Hy. unfold getdayset.
  assert (Hlen : len (makeDayset (yearlen info)) = yearlen info).
  { unfold makeDayset. rewrite len_replicate. lia. }
  destruct (foldR_mark (rang 0 (yearlen info)) (makeDayset (yearlen info)))
    as (set & Hf & Hl & Hin & _).
  { apply Forall_forall. intros k Hk. apply elem_of_rang in Hk. lia. }
  rewrite Hf. rsimpl. exists set. split; [reflexivity |]. split; [lia |].
  intros k Hk. apply Hin. apply elem_of_rang. lia.
Qed.

Lemma month_bounds (y : Z) (m : Month) :
  1 <= m <= 12 ->
  exists lo hi,
    index (if 365 + isLeap y =? 365 then M365RANGE else M366RANGE) (m - 1) = Ok lo
    /\ index (if 365 + isLeap y =? 365 then M365RANGE else M366RANGE) m = Ok hi
    /\ 0 <= lo <= hi /\ hi <= 365 + isLeap y
    /\ hi - lo = monthLength y m
    /\ forall k, 0 <= k < 365 + isLeap y ->
         (lo <= k < hi <-> fst (monthDay y k) = m).
Proof.
  intros Hm.
  assert (Hgen : forall mr y0, isLeap y = isLeap y0 ->
    (forall j, 0 <= j < 12 * (365 + isLeap y0) -> monthBoundsb mr y0 j = true) ->
    exists lo hi,
      index mr (m - 1) = Ok lo /\ index mr m = Ok hi
      /\ 0 <= lo <= hi /\ hi <= 365 + isLeap y
      /\ hi - lo = monthLength y m
      /\ forall k, 0 <= k < 365 + isLeap y ->
           (lo <= k < hi <-> fst (monthDay y k) = m)).
  { intros mr y0 HL H. rewrite HL, (monthLength_leap_only y y0 m HL).
    assert (Hjm : forall k, 0 <= k ->
              (12 * k + (m - 1)) / 12 = k /\ (12 * k + (m - 1)) mod 12 + 1 = m).
    { intros k Hk. split.
      - rewrite (Z.mul_comm 12), Z.div_add_l, (Z.div_small (m - 1)) by lia. lia.
      - rewrite (Z.add_comm (12 * k)), (Z.mul_comm 12), Z.mod_add, Z.mod_small
          by lia. lia. }
    pose proof (H (12 * 0 + (m - 1)) ltac:(destruct (isLeap_cases y0); lia)) as H0.
    unfold monthBoundsb in H0. cbv zeta in H0.
    destruct (Hjm 0 ltac:(lia)) as [_ Em]. rewrite Em in H0.
    destruct (mr !! Z.to_nat (m - 1)) as [lo|] eqn:Elo; [| discriminate].
    destruct (mr !! Z.to_nat m) as [hi|] eqn:Ehi; [| discriminate].
    exists lo, hi.
    apply andb_true_iff in H0 as [H0 _].
    split; [apply index_Some; [lia | exact Elo] |].
    split; [apply index_Some; [lia | exact Ehi] |].
    split; [lia |]. split; [lia |]. split; [lia |].
    intros k Hk. rewrite (monthDay_leap_only y y0 k HL).
    pose proof (H (12 * k + (m - 1)) ltac:(lia)) as Hj.
    unfold monthBoundsb in Hj. cbv zeta in Hj.
    destruct (Hjm k ltac:(lia)) as [Ek Em']. rewrite Ek, Em', Elo, Ehi in Hj.
    apply andb_true_iff in Hj as [_ Hj]. apply Bool.eqb_prop in Hj.
    destruct (Z.eqb_spec (fst (monthDay y0 k)) m) as [E | E].
    - split; [intros _; exact E | intros _].
      apply andb_true_iff in Hj. lia.
    - split; [intros Hlk | intros E'; contradiction].
      assert ((lo <=? k) && (k <? hi) = true) by (apply andb_true_iff; lia).
      congruence. }
  destruct (isLeap_cases y) as [E | E]; rewrite E;
    cbn [Z.add Z.eqb Pos.add Pos.eqb Pos.succ].
  - destruct (Hgen M365RANGE 1 E) as (lo & hi & H); [| rewrite E in H; eauto].
    intros j Hj.
    apply (forallb_range (monthBoundsb M365RANGE 1) 0 4380);
      [vm_compute; reflexivity | change (isLeap 1) with 0 in Hj; lia].
  - destruct (Hgen M366RANGE 4 E) as (lo & hi & H); [| rewrite E in H; eauto].
    intros j Hj.
    apply (forallb_range (monthBoundsb M366RANGE 4) 0 4392);
      [vm_compute; reflexivity | change (isLeap 4) with 1 in Hj; lia].
Qed.

Lemma getdayset_monthly (r : RRule) (info : iterInfo) (y : Z) (m : Month)
    (d : Z) :
  yearlen info = 365 + isLeap y ->
  mrange info = (if 365 + isLeap y =? 365 then M365RANGE else M366RANGE) ->
  1 <= m <= 12 ->
  exists set s e,
    getdayset r info MONTHLY y m d = Ok (set, s, e)
    /\ len set = yearlen info /\ 0 <= s <= e /\ e <= yearlen info
    /\ e - s = monthLength y m
    /\ (forall k, s <= k < e -> set !! Z.to_nat k = Some (Some k))
    /\ (forall k, 0 <= k < yearlen info ->
          (s <= k < e <-> fst (monthDay y k) = m)).
Proof.
  intros C2 C4 Hm. unfold getdayset.
  destruct (month_bounds y m Hm)
    as (lo & hi & Hlo & Hhi & Hb & Hh & Hml & Hiff).
  rewrite C4, Hlo, Hhi. rsimpl.
  assert (Hlen : len (makeDayset (yearlen info)) = yearlen info).
  { unfold makeDayset. rewrite len_replicate.
    destruct (isLeap_cases y); lia. }
  destruct (foldR_mark (rang lo hi) (makeDayset (yearlen info)))
    as (set & Hf & Hl & Hin & _).
  { apply Forall_forall. intros k Hk. apply elem_of_rang in Hk. lia. }
  rewrite Hf. rsimpl. exists set, lo, hi. split; [reflexivity |].
  split; [lia |]. split; [lia |]. split; [lia |]. split; [exact Hml |]. split.
  - intros k Hk. apply Hin. apply elem_of_rang. lia.
  - intros k Hk. apply Hiff. lia.
Qed.

Lemma weekWindow_spec (wdmask : list Z) (wkst : Z) (j : nat) :
  forall (set : dayset) (i : Z),
    0 <= i -> i + Z.of_nat j <= len set ->
    (forall k, i < k <= i + Z.of_nat j -> exists w, index wdmask k = Ok w) ->
    exists set' e,
      weekWindow wdmask wkst j set i = Ok (set', e)
      /\ len set' = len set /\ i <= e <= i + Z.of_nat j
      /\ ((0 < j)%nat -> i < e)
      /\ (forall k, i <= k < e -> set' !! Z.to_nat k = Some (Some k))
      /\ (forall k, 0 <= k -> ~ (i <= k < e) ->
            set' !! Z.to_nat k = set !! Z.to_nat k)
      /\ (forall k, i < k < e -> index wdmask k <> Ok wkst)
      /\ (e < i + Z.of_nat j -> index wdmask e = Ok wkst).
Proof.
  induction j as [| j IH]; intros set i Hi Hlen Hw; cbn [weekWindow].
  - exists set, i. split; [reflexivity |]. split; [reflexivity |].
    split; [lia |]. split; [lia |]. split; [intros k Hk; lia |].
    split; [reflexivity |]. split; [intros k Hk; lia | lia].
  - destruct (store_Ok set i (Some i) ltac:(lia)) as (set1 & Hs & Hl1).
    rewrite Hs. rsimpl.
    apply store_lookup in Hs as (_ & Hat & Hne).
    destruct (Hw (i + 1) ltac:(lia)) as (w & Hwi). rewrite Hwi. rsimpl.
    destruct (Z.eqb_spec w wkst) as [Ew | Ew].
    + exists set1, (i + 1). split; [reflexivity |]. split; [exact Hl1 |].
      split; [lia |]. split; [lia |]. split.
      * intros k Hk. replace k with i by lia. exact Hat.
      * split; [intros k Hk0 Hk; apply Hne; lia |].
        split; [intros k Hk; lia |]. intros _. rewrite Hwi, Ew. reflexivity.
    + destruct (IH set1 (i + 1) ltac:(lia) ltac:(lia)) as
        (set' & e & Heq & Hl' & He & _ & Hin & Hout & Hno & Hend).
      { intros k Hk. apply Hw. lia. }
      exists set', e. split; [exact Heq |]. split; [lia |].
      split; [lia |]. split; [lia |]. split.
      * intros k Hk. destruct (Z.eq_dec k i) as [-> | Hki].
        -- rewrite Hout by lia. exact Hat.
        -- apply Hin. lia.
      * split.
        -- intros k Hk0 Hk. rewrite Hout by lia. apply Hne; lia.
        -- split.
           ++ intros k Hk. destruct (Z.eq_dec k (i + 1)) as [-> | Hki].
              ** rewrite Hwi. intros [= E]. contradiction.
              ** apply Hno. lia.
           ++ intros He'. apply Hend. lia.
Qed.

Lemma len_cons_eqb {A} (x : A) (l : list A) : (len (x :: l) =? 0) = false.
Proof. rewrite len_cons. pose proof (len_nonneg l). apply Z.eqb_neq. lia. Qed.

(** The filter test of a rule that has months, weekdays and positive
    month days only. *)
Lemma rejects_parts (r : RRule) (info : iterInfo) (i m0 w0 d0 : Z) :
  Byweekno r = [] -> Byeaster r = [] -> Byyearday r = [] ->
  Bynmonthday r = [] -> nwdaymask info = [] ->
  (Bymonth r <> [] -> index (mmask info) i = Ok m0) ->
  (Byweekday r <> [] -> index (wdaymask info) i = Ok w0) ->
  (Bymonthday r <> [] ->
   index (mdaymask info) i = Ok d0 /\ exists nd, index (nmdaymask info) i = Ok nd) ->
  rejects r info i
  = Ok (negb (len (Bymonth r) =? 0) && negb (contains (Bymonth r) m0)
        || negb (len (Byweekday r) =? 0) && negb (contains (Byweekday r) w0)
        || negb (len (Bymonthday r) =? 0) && negb (contains (Bymonthday r) d0)).
Proof.
  intros Hwn He Hyd Hnm Hnw Hm Hw Hd. unfold rejects.
  rewrite Hwn, He, Hyd, Hnm, Hnw.
  change (len (@nil Z) =? 0) with true.
  destruct (Bymonth r) as [| a1 l1].
  - change (len (@nil Z) =? 0) with true.
    destruct (Byweekday r) as [| a2 l2].
    + change (len (@nil Z) =? 0) with true.
      destruct (Bymonthday r) as [| a3 l3].
      * reflexivity.
      * destruct (Hd ltac:(discriminate)) as (Hd1 & nd & Hd2).
        rewrite Hd1, Hd2, len_cons_eqb. unfold orR, andR. rsimpl.
        destruct (contains (a3 :: l3) d0); reflexivity.
    + rewrite (Hw ltac:(discriminate)), len_cons_eqb.
      destruct (Bymonthday r) as [| a3 l3].
      * unfold orR, andR. rsimpl.
        destruct (contains (a2 :: l2) w0); reflexivity.
      * destruct (Hd ltac:(discriminate)) as (Hd1 & nd & Hd2).
        rewrite Hd1, Hd2, len_cons_eqb. unfold orR, andR. rsimpl.
        destruct (contains (a2 :: l2) w0), (contains (a3 :: l3) d0); reflexivity.
  - rewrite (Hm ltac:(discriminate)), len_cons_eqb.
    destruct (Byweekday r) as [| a2 l2].
    + change (len (@nil Z) =? 0) with true.
      destruct (Bymonthday r) as [| a3 l3].
      * unfold orR, andR. rsimpl.
        destruct (contains (a1 :: l1) m0); reflexivity.
      * destruct (Hd ltac:(discriminate)) as (Hd1 & nd & Hd2).
        rewrite Hd1, Hd2, len_cons_eqb. unfold orR, andR. rsimpl.
        destruct (contains (a1 :: l1) m0), (contains (a3 :: l3) d0); reflexivity.
    + rewrite (Hw ltac:(discriminate)), len_cons_eqb.
      destruct (Bymonthday r) as [| a3 l3].
      * unfold orR, andR. rsimpl.
        destruct (contains (a1 :: l1) m0), (contains (a2 :: l2) w0); reflexivity.
      * destruct (Hd ltac:(discriminate)) as (Hd1 & nd & Hd2).
        rewrite Hd1, Hd2, len_cons_eqb. unfold orR, andR. rsimpl.
        destruct (contains (a1 :: l1) m0), (contains (a2 :: l2) w0),
          (contains (a3 :: l3) d0); reflexivity.
Qed.

Lemma contains_single (a x : Z) : contains [a] x = (x =? a).
Proof. unfold contains. cbn [existsb]. apply orb_false_r. Qed.

Lemma fields_of_yearday (t : Time) :
  MonthOf t = fst (monthDay (Year t) (YearDay t - 1))
  /\ Day t = snd (monthDay (Year t) (YearDay t - 1))
  /\ abs t / 86400 = daysSinceEpoch (Year t) + (YearDay t - 1).
Proof.
  destruct (absDate_inv (abs t / 86400)) as (Ed & _). revert Ed.
  unfold MonthOf, Day, Year, YearDay.
  destruct (absDate (abs t / 86400)) as [y yd]. cbn [fst snd]. intros Ed.
  replace (yd + 1 - 1) with yd by lia. auto.
Qed.

Lemma TruncateSecond_id (t : Time) : tnsec t = 0 -> TruncateSecond t = t.
Proof. destruct t as [s n l]. cbn. intros ->. reflexivity. Qed.

(** The candidate of the start's own day at the start's own clock. *)
Lemma occurrence_start (s : Time) (info : iterInfo) :
  calendarOf (LocationOf s) (Year s) info -> tnsec s = 0 ->
  occurrence info (YearDay s - 1)
    (Date 1 1 1 (Hour s) (Minute s) (Sec s) 0 (LocationOf s))
  = s.
Proof.
  intros (_ & _ & C3 & _) Hn.
  destruct (YearDay_fields s) as (_ & Hi0 & _ & _).
  destruct (fields_of_yearday s) as (Em & Ed & _).
  pose proof (Hour_range s) as Hh. pose proof (Minute_range s) as Hmi.
  pose proof (Sec_range s) as Hs.
  unfold occurrence. rewrite C3. cbv zeta.
  destruct (day_of_year (Year s) (YearDay s - 1) (LocationOf s) Hi0)
    as (_ & Fy & _ & Fm & Fd & _).
  rewrite Fy, Fm, Fd, <- Em, <- Ed.
  set (tt := Date 1 1 1 (Hour s) (Minute s) (Sec s) 0 (LocationOf s)).
  assert (Ha : abs tt = (daysSinceEpoch 1 + 0) * 86400 + Hour s * 3600
                        + Minute s * 60 + Sec s).
  { unfold tt. rewrite Date_abs_clock by lia. reflexivity. }
  destruct (fields_of_abs tt 1 0 (Hour s) (Minute s) (Sec s) Ha)
    as (_ & _ & _ & _ & Th & Tm & Ts & _); try lia.
  { vm_compute. split; [discriminate | reflexivity]. }
  destruct (Date_nsec0 1 1 1 (Hour s) (Minute s) (Sec s) (LocationOf s))
    as [Tn Tl].
  fold tt in Tn, Tl. unfold Nanosecond. change (LocationOf tt) with (tloc tt).
  rewrite Th, Tm, Ts, Tn, Tl.
  rewrite Date_fields. apply TruncateSecond_id. exact Hn.
Qed.

(** The time set with which the iterator of such a rule starts. *)
Lemma startOnly_timeset (r : RRule) :
  startOnly r ->
  let s := DateStart r in
  (if freqZ (Freq r) <? freqZ HOURLY then Timeset r
   else if (freqZ HOURLY <=? freqZ (Freq r)) && negb (len (Byhour r) =? 0)
             && negb (contains (Byhour r) (Hour s))
           || (freqZ MINUTELY <=? freqZ (Freq r)) && negb (len (Byminute r) =? 0)
              && negb (contains (Byminute r) (Minute s))
           || (freqZ SECONDLY <=? freqZ (Freq r)) && negb (len (Bysecond r) =? 0)
              && negb (contains (Bysecond r) (Sec s))
   then []
   else gettimeset r (Freq r) (Hour s) (Minute s) (Sec s))
  = [Date 1 1 1 (Hour s) (Minute s) (Sec s) 0 (LocationOf s)].
Proof.
  intros (_ & _ & _ & _ & _ & _ & _ & _ & _ & Hh & Hmi & Hs & Hts & _) s.
  fold s in Hh, Hmi, Hs, Hts. unfold gettimeset. fold s.
  rewrite Hts, Hh, Hmi, Hs. unfold calculateTimeset.
  destruct (Freq r); cbn [freqZ Z.ltb Z.leb Z.compare Pos.compare
                          Pos.compare_cont andb orb negb];
    rewrite ?contains_single, ?len_cons_eqb, ?Z.eqb_refl;
    cbn [andb orb negb]; reflexivity.
Qed.

Lemma rejects_calendar (r : RRule) (info : iterInfo) (y k : Z) :
  Byweekno r = [] -> Byeaster r = [] -> Byyearday r = [] ->
  Bynmonthday r = [] ->
  calendarOf (LocationOf (DateStart r)) y info ->
  0 <= k < 379 ->
  (Bymonth r <> [] \/ Bymonthday r <> [] -> k < 365 + isLeap y) ->
  rejects r info k = Ok (calendarRejects r y k).
Proof.
  intros Hwn He Hyd Hnm (_ & _ & _ & _ & C5 & C6 & C7) Hk Hin.
  apply rejects_parts; try assumption.
  - intros Hm. apply C6. split; [lia | apply Hin; left; exact Hm].
  - intros _. apply C7. exact Hk.
  - intros Hd. destruct (C6 k) as (_ & M2 & M3);
      [split; [lia | apply Hin; right; exact Hd] |].
    split; assumption.
Qed.

(** A period of which one day alone passes the filter. *)
Lemma period_single (r : RRule) (info : iterInfo) (ts : list Time)
    (set : dayset) (lo hi : Z) (b : Z -> bool) (i0 : Z) :
  Bysetpos r = [] -> 0 <= lo <= hi -> hi <= len set -> lo <= i0 < hi ->
  (forall k, lo <= k < hi ->
     set !! Z.to_nat k = Some (Some k) /\ rejects r info k = Ok (b k)) ->
  b i0 = false ->
  (forall k, lo <= k < hi -> b k = false -> k = i0) ->
  ('(set, filtered) ← filterDays r info set lo hi;
   window ← slice set lo hi;
   cands ← candidates r info ts window;
   Ok (cands, filtered))
  = Ok (map (occurrence info i0) ts, existsb b (rang lo hi)).
Proof.
  intros Hsp Hlo Hhi Hi0 Hcells Hb0 Huniq.
  destruct (filterDays_spec r info b set lo hi Hlo Hhi Hcells)
    as (set' & window & Hf & Hs & Hsurv).
  rewrite Hf. rsimpl. rewrite Hs. rsimpl.
  unfold candidates. rewrite Hsp. change (len (@nil Z) =? 0) with true.
  cbn [negb andb]. rsimpl. unfold plainCandidates. rewrite Hsurv.
  rewrite (filter_single (fun k => negb (b k)) (rang lo hi) i0).
  - cbn [flat_map]. rewrite app_nil_r. reflexivity.
  - apply NoDup_rang.
  - apply elem_of_rang. exact Hi0.
  - rewrite Hb0. reflexivity.
  - intros k Hk Hbk. apply elem_of_rang in Hk. apply Huniq; [exact Hk |].
    destruct (b k); [discriminate | reflexivity].
Qed.

Lemma getdayset_daily (r : RRule) (info : iterInfo) (f : Frequency) (y : Z)
    (m : Month) (d : Z) :
  freqZ DAILY <= freqZ f -> 0 <= YearDay (Date y m d 0 0 0 0 UTC) - 1 < yearlen info ->
  exists set,
    getdayset r info f y m d
    = Ok (set, YearDay (Date y m d 0 0 0 0 UTC) - 1,
          YearDay (Date y m d 0 0 0 0 UTC) - 1 + 1)
    /\ len set = yearlen info
    /\ set !! Z.to_nat (YearDay (Date y m d 0 0 0 0 UTC) - 1)
       = Some (Some (YearDay (Date y m d 0 0 0 0 UTC) - 1)).
Proof.
  intros Hf Hi. set (i := YearDay (Date y m d 0 0 0 0 UTC) - 1) in *.
  assert (Hlen : len (makeDayset (yearlen info)) = yearlen info).
  { unfold makeDayset. rewrite len_replicate. lia. }
  destruct (store_Ok (makeDayset (yearlen info)) i (Some i) ltac:(lia))
    as (set & Hs & Hl).
  exists set.
  assert (Hg : getdayset r info f y m d = Ok (set, i, i + 1)).
  { unfold getdayset. fold i.
    destruct f; cbn [freqZ] in Hf; try lia; rewrite Hs; reflexivity. }
  split; [exact Hg |]. split; [lia |].
  apply store_lookup in Hs as (_ & Hat & _). exact Hat.
Qed.

Lemma getdayset_weekly (r : RRule) (info : iterInfo) (y0 y : Z)
    (m : Month) (d : Z) :
  yearlen info = 365 + isLeap y0 ->
  (forall i, 0 <= i < 379 ->
     index (wdaymask info) i = Ok ((daysSinceEpoch y0 + i) mod 7)) ->
  0 <= YearDay (Date y m d 0 0 0 0 UTC) - 1 < yearlen info ->
  let i := YearDay (Date y m d 0 0 0 0 UTC) - 1 in
  exists set e,
    getdayset r info WEEKLY y m d = Ok (set, i, e)
    /\ len set = yearlen info + 7 /\ i < e <= i + 7
    /\ (forall k, i <= k < e -> set !! Z.to_nat k = Some (Some k))
    /\ (forall k, i < k < e -> index (wdaymask info) k <> Ok (Wkst r))
    /\ (e < i + 7 -> index (wdaymask info) e = Ok (Wkst r)).
Proof.
  intros C2 C7 Hi i. fold i in Hi.
  assert (Hlen : len (makeDayset (yearlen info + 7)) = yearlen info + 7).
  { unfold makeDayset. rewrite len_replicate. lia. }
  destruct (weekWindow_spec (wdaymask info) (Wkst r) 7
              (makeDayset (yearlen info + 7)) i)
    as (set & e & Hw & Hl & He & Hpos & Hin & _ & Hno & Hend).
  - lia.
  - change (Z.of_nat 7) with 7. lia.
  - change (Z.of_nat 7) with 7. intros k Hk. eexists. apply C7.
    destruct (isLeap_cases y0); lia.
  - change (Z.of_nat 7) with 7 in *. exists set, e.
    unfold getdayset. fold i. rewrite Hw. rsimpl.
    split; [reflexivity |]. split; [lia |].
    split; [split; [apply Hpos; lia | lia] |].
    split; [exact Hin |]. split; assumption.
Qed.

(** The first period of such a rule has the start as its one candidate. *)
Lemma first_candidates (r : RRule) (h mi sc wd : Z) (ts : list Time) :
  startOnly r -> Year (DateStart r) <> 0 ->
  let s := DateStart r in
  exists info flt,
    rebuild r iterInfo0 (Year s) (MonthOf s) = Ok info
    /\ calendarOf (LocationOf s) (Year s) info
    /\ periodCandidates r
         (Year s, MonthOf s, Day s, h, mi, sc, wd, info,
          [Date 1 1 1 (Hour s) (Minute s) (Sec s) 0 (LocationOf s)])
       = Ok ([s], flt).
Proof.
  intros Hso Hy0 s.
  pose proof Hso as (Hsp & Hyd & Hwn & He & Hnw & Hnm & Hbm & Hbd & Hbw & _
                     & _ & _ & _ & Hns & _).
  fold s in Hbm, Hbd, Hbw, Hns.
  destruct (rebuild_bare r iterInfo0 (Year s) (MonthOf s) Hwn Hnw He eq_refl
              (or_introl Hy0)) as (info & Hreb & Hcal & _).
  fold s in Hcal.
  destruct (YearDay_fields s) as (Eyd & Hi0 & Hm & Hd).
  destruct (fields_of_yearday s) as (Em & Ed & Eabs).
  pose proof (occurrence_start s info Hcal Hns) as Hocc.
  pose proof Hcal as (_ & C2 & _ & C4 & _ & _ & C7).
  set (y := Year s) in *. set (i0 := YearDay s - 1) in *.
  assert (Hrej : forall k, 0 <= k < 379 ->
            (Bymonth r <> [] \/ Bymonthday r <> [] -> k < 365 + isLeap y) ->
            rejects r info k = Ok (calendarRejects r y k)).
  { intros k Hk Hin. apply rejects_calendar; assumption. }
  assert (Hsame : forall k, 0 <= k < 365 + isLeap y ->
            fst (monthDay y k) = MonthOf s -> snd (monthDay y k) = Day s ->
            k = i0).
  { intros k Hk E1 E2.
    destruct (monthDay_inv y k Hk) as (_ & _ & Ek).
    destruct (monthDay_inv y i0 Hi0) as (_ & _ & Ei).
    rewrite E1, E2 in Ek. rewrite <- Em, <- Ed in Ei. lia. }
  assert (Hleap : 365 <= 365 + isLeap y <= 366)
    by (destruct (isLeap_cases y); lia).
  exists info.
  assert (Hp : exists flt,
    periodCandidates r
      (y, MonthOf s, Day s, h, mi, sc, wd, info,
       [Date 1 1 1 (Hour s) (Minute s) (Sec s) 0 (LocationOf s)])
    = Ok ([s], flt));
    [| destruct Hp as [flt Hp]; exists flt;
       split; [exact Hreb | split; [exact Hcal | exact Hp]]].
  unfold periodCandidates.
  destruct (Freq r) eqn:EF.
  - (* YEARLY *)
    destruct (getdayset_yearly r info y (MonthOf s) (Day s) ltac:(lia))
      as (set & Hg & Hl & Hc).
    rewrite Hg. rsimpl. rewrite C2 in *.
    erewrite (period_single r info _ set 0 (365 + isLeap y)
                (calendarRejects r y) i0);
      [cbn [map]; rewrite Hocc; eexists; reflexivity | assumption | lia | lia
       | lia | | |].
    + intros k Hk. split; [apply Hc; lia | apply Hrej; lia].
    + unfold calendarRejects. rewrite Hbm, Hbd, Hbw, <- Em, <- Ed.
      rewrite !len_cons_eqb, !contains_single, !Z.eqb_refl. reflexivity.
    + intros k Hk. unfold calendarRejects. rewrite Hbm, Hbd, Hbw.
      rewrite !len_cons_eqb, !contains_single.
      change (len (@nil Z) =? 0) with true. cbn [negb andb orb].
      intros Hb. apply Hsame; [lia | |].
      * destruct (Z.eqb_spec (fst (monthDay y k)) (MonthOf s)); [assumption |].
        discriminate.
      * destruct (Z.eqb_spec (snd (monthDay y k)) (Day s)); [assumption |].
        rewrite orb_true_r in Hb. discriminate.
  - (* MONTHLY *)
    destruct (getdayset_monthly r info y (MonthOf s) (Day s) C2 C4 Hm)
      as (set & lo & hi & Hg & Hl & Hlo & Hhi & _ & Hc & Hiff).
    rewrite Hg. rsimpl. rewrite C2 in *.
    erewrite (period_single r info _ set lo hi (calendarRejects r y) i0);
      [cbn [map]; rewrite Hocc; eexists; reflexivity | assumption | lia | lia
       | | | |].
    + apply Hiff; [lia | symmetry; exact Em].
    + intros k Hk. split; [apply Hc; lia | apply Hrej; lia].
    + unfold calendarRejects. rewrite Hbm, Hbd, Hbw, <- Ed.
      rewrite !len_cons_eqb, !contains_single, !Z.eqb_refl. reflexivity.
    + intros k Hk. unfold calendarRejects. rewrite Hbm, Hbd, Hbw.
      rewrite !len_cons_eqb, !contains_single.
      change (len (@nil Z) =? 0) with true. cbn [negb andb orb].
      intros Hb. apply Hsame; [lia | apply Hiff; lia |].
      destruct (Z.eqb_spec (snd (monthDay y k)) (Day s)); [assumption |].
      discriminate.
  - (* WEEKLY *)
    destruct (getdayset_weekly r info y y (MonthOf s) (Day s) C2 C7)
      as (set & e & Hg & Hl & He' & Hc & _); [rewrite Eyd, C2; lia |].
    rewrite Eyd in Hg, He', Hc.
    rewrite Hg. rsimpl. rewrite C2 in *.
    assert (Hwd : toPyWeekday (WeekdayOf s) = (daysSinceEpoch y + i0) mod 7).
    { unfold WeekdayOf. rewrite toPyWeekday_mod, Eabs. reflexivity. }
    erewrite (period_single r info _ set i0 e (calendarRejects r y) i0);
      [cbn [map]; rewrite Hocc; eexists; reflexivity | assumption | lia | lia
       | lia | | |].
    + intros k Hk. split; [apply Hc; lia |]. apply Hrej; [lia |].
      rewrite Hbm, Hbd. intros [H | H]; contradiction.
    + unfold calendarRejects. rewrite Hbm, Hbd, Hbw, Hwd.
      rewrite !len_cons_eqb, !contains_single, !Z.eqb_refl. reflexivity.
    + intros k Hk. unfold calendarRejects. rewrite Hbm, Hbd, Hbw, Hwd.
      rewrite !len_cons_eqb, !contains_single.
      change (len (@nil Z) =? 0) with true. cbn [negb andb orb].
      rewrite orb_false_r. intros Hb.
      destruct (Z.eqb_spec ((daysSinceEpoch y + k) mod 7)
                           ((daysSinceEpoch y + i0) mod 7)) as [E | E];
        [| discriminate].
      revert E. generalize (daysSinceEpoch y). intros a E.
      Z.to_euclidean_division_equations. lia.
  - (* DAILY *)
    destruct (getdayset_daily r info DAILY y (MonthOf s) (Day s))
      as (set & Hg & Hl & Hc); [cbn; lia | rewrite Eyd, C2; lia |].
    rewrite Eyd in Hg, Hc. rewrite Hg. rsimpl. rewrite C2 in *.
    erewrite (period_single r info _ set i0 (i0 + 1) (calendarRejects r y) i0);
      [cbn [map]; rewrite Hocc; eexists; reflexivity | assumption | lia | lia
       | lia | | |].
    + intros k Hk. replace k with i0 by lia. split; [exact Hc |].
      apply Hrej; [lia |]. rewrite Hbm, Hbd. intros [H | H]; contradiction.
    + unfold calendarRejects. rewrite Hbm, Hbd, Hbw. reflexivity.
    + intros k Hk _. lia.
  - (* HOURLY *)
    destruct (getdayset_daily r info HOURLY y (MonthOf s) (Day s))
      as (set & Hg & Hl & Hc); [cbn; lia | rewrite Eyd, C2; lia |].
    rewrite Eyd in Hg, Hc. rewrite Hg. rsimpl. rewrite C2 in *.
    erewrite (period_single r info _ set i0 (i0 + 1) (calendarRejects r y) i0);
      [cbn [map]; rewrite Hocc; eexists; reflexivity | assumption | lia | lia
       | lia | | |].
    + intros k Hk. replace k with i0 by lia. split; [exact Hc |].
      apply Hrej; [lia |]. rewrite Hbm, Hbd. intros [H | H]; contradiction.
    + unfold calendarRejects. rewrite Hbm, Hbd, Hbw. reflexivity.
    + intros k Hk _. lia.
  - (* MINUTELY *)
    destruct (getdayset_daily r info MINUTELY y (MonthOf s) (Day s))
      as (set & Hg & Hl & Hc); [cbn; lia | rewrite Eyd, C2; lia |].
    rewrite Eyd in Hg, Hc. rewrite Hg. rsimpl. rewrite C2 in *.
    erewrite (period_single r info _ set i0 (i0 + 1) (calendarRejects r y) i0);
      [cbn [map]; rewrite Hocc; eexists; reflexivity | assumption | lia | lia
       | lia | | |].
    + intros k Hk. replace k with i0 by lia. split; [exact Hc |].
      apply Hrej; [lia |]. rewrite Hbm, Hbd. intros [H | H]; contradiction.
    + unfold calendarRejects. rewrite Hbm, Hbd, Hbw. reflexivity.
    + intros k Hk _. lia.
  - (* SECONDLY *)
    destruct (getdayset_daily r info SECONDLY y (MonthOf s) (Day s))
      as (set & Hg & Hl & Hc); [cbn; lia | rewrite Eyd, C2; lia |].
    rewrite Eyd in Hg, Hc. rewrite Hg. rsimpl. rewrite C2 in *.
    erewrite (period_single r info _ set i0 (i0 + 1) (calendarRejects r y) i0);
      [cbn [map]; rewrite Hocc; eexists; reflexivity | assumption | lia | lia
       | lia | | |].
    + intros k Hk. replace k with i0 by lia. split; [exact Hc |].
      apply Hrej; [lia |]. rewrite Hbm, Hbd. intros [H | H]; contradiction.
    + unfold calendarRejects. rewrite Hbm, Hbd, Hbw. reflexivity.
    + intros k Hk _. lia.
Qed.

(** ** One move of the cursor *)

Lemma fixLoop_ok (fuel : nat) :
  forall (y : Z) (m : Month) (d dim : Z),
    1 <= m <= 12 -> 1 <= y <= MAXYEAR ->
    (Z.to_nat (12 * (MAXYEAR + 1 - y) + 13 - m) <= fuel)%nat ->
    exists res, fixLoop fuel y m d dim = Ok res.
Proof.
  unfold MAXYEAR.
  induction fuel as [| fuel IH]; intros y m d dim Hm Hy Hf; cbn [fixLoop].
  - lia.
  - destruct (dim <? d); [| eauto].
    rewrite (int_add_small m 1) by lia.
    destruct (Z.eqb_spec (m + 1) 13) as [E | E].
    + rewrite (int_add_small y 1) by lia.
      unfold MAXYEAR. destruct (Z.ltb_spec 9999 (y + 1)); [eauto |].
      apply IH; lia.
    + apply IH; lia.
Qed.

Lemma rebuild_any (r : RRule) (info : iterInfo) (y0 y : Z) (m : Month) :
  Byweekno r = [] -> Bynweekday r = [] -> Byeaster r = [] ->
  calendarOf (LocationOf (DateStart r)) y0 info ->
  exists info',
    rebuild r info y m = Ok info'
    /\ calendarOf (LocationOf (DateStart r)) y info'.
Proof.
  intros Hwn Hnw He Hcal.
  pose proof Hcal as (C1 & _ & _ & _ & C5 & _).
  destruct (rebuild_bare r info y m Hwn Hnw He C5) as (info' & Hr & Hc & _).
  - destruct (Z.eq_dec y (lastyear info)) as [E | E]; [right | left; exact E].
    rewrite C1 in E. subst y. exact Hcal.
  - eauto.
Qed.

Lemma int_div_Ok (a b : Z) : b <> 0 -> exists q, int_div a b = Ok q.
Proof.
  intros Hb. unfold int_div. destruct (Z.eqb_spec b 0); [contradiction | eauto].
Qed.

(** The stepper returns on a rule without week numbers, positioned
    weekdays and Easter offsets whose hours, minutes and seconds, where
    the frequency steps through them, are unrestricted. *)
Lemma stepCursor_returns (r : RRule) (fuel : nat) (filtered : bool)
    (y : Z) (m : Month) (d h mi sc wd : Z) (info : iterInfo) (ts : list Time) :
  Byweekno r = [] -> Bynweekday r = [] -> Byeaster r = [] ->
  (freqZ HOURLY <= freqZ (Freq r) -> Byhour r = []) ->
  (freqZ MINUTELY <= freqZ (Freq r) -> Byminute r = []) ->
  (freqZ SECONDLY <= freqZ (Freq r) -> Bysecond r = []) ->
  1 <= Interval r ->
  calendarOf (LocationOf (DateStart r)) y info ->
  1 <= m <= 12 -> 1 <= y <= MAXYEAR ->
  (Z.to_nat 120000 < fuel)%nat ->
  exists over c',
    stepCursor r fuel filtered (y, m, d, h, mi, sc, wd, info, ts) = Ok (over, c').
Proof.
  intros Hwn Hnw He Hbh Hbm Hbs Hint Hcal Hm Hy Hf.
  assert (Hreb : forall info0 y0 y' m',
            calendarOf (LocationOf (DateStart r)) y0 info0 ->
            exists info', rebuild r info0 y' m' = Ok info').
  { intros info0 y0 y' m' Hc.
    destruct (rebuild_any r info0 y0 y' m' Hwn Hnw He Hc) as (info' & Hr & _).
    eauto. }
  assert (Hfix : forall d' dim, exists res, fixLoop fuel y m d' dim = Ok res).
  { intros d' dim. apply fixLoop_ok; [exact Hm | exact Hy |].
    unfold MAXYEAR in *. lia. }
  assert (Htail : forall (d' h' mi' sc' wd' : Z) (ts' : list Time)
                          (fixday : bool),
    exists (over : bool) (c' : cursor),
      (if (fixday : bool) && (28 <? d') then
         if daysIn m y <? d' then
           '(over, (year, month, day)) ← fixLoop fuel y m d' (daysIn m y);
           if over : bool
           then Ok (true, (year, month, day, h', mi', sc', wd', info, ts'))
           else
             info ← rebuild r info year month;
             Ok (false, (year, month, day, h', mi', sc', wd', info, ts'))
         else Ok (false, (y, m, d', h', mi', sc', wd', info, ts'))
       else Ok (false, (y, m, d', h', mi', sc', wd', info, ts')))
      = Ok (over, c')).
  { intros d' h' mi' sc' wd' ts' fixday.
    destruct (fixday && (28 <? d')); [| eauto].
    destruct (daysIn m y <? d'); [| eauto].
    destruct (Hfix d' (daysIn m y)) as ([over [[y' m'] d'']] & ->). rsimpl.
    destruct over; [eauto |].
    destruct (Hreb info y y' m' Hcal) as (info' & ->). rsimpl. eauto. }
  destruct fuel as [| fuel']; [lia |].
  unfold stepCursor. destruct (Freq r) eqn:EF; cbn [freqZ] in Hbh, Hbm, Hbs.
  - destruct (MAXYEAR <? int_add y (Interval r)); rsimpl; [eauto |].
    destruct (Hreb info y (int_add y (Interval r)) m Hcal) as (info' & ->).
    rsimpl. eauto.
  - unfold divmod.
    destruct (12 <? int_add m (Interval r)); cbv beta iota zeta.
    + destruct (pymod (int_add m (Interval r)) 12 =? 0); cbv beta iota zeta.
      * destruct (MAXYEAR <? int_sub (int_add y (int_add m (Interval r) / 12)) 1);
          rsimpl; [eauto |].
        destruct (Hreb info y (int_sub (int_add y (int_add m (Interval r) / 12)) 1)
                    12 Hcal) as (info' & ->).
        rsimpl. eauto.
      * destruct (MAXYEAR <? int_add y (int_add m (Interval r) / 12));
          rsimpl; [eauto |].
        destruct (Hreb info y (int_add y (int_add m (Interval r) / 12))
                    (pymod (int_add m (Interval r)) 12) Hcal) as (info' & ->).
        rsimpl. eauto.
    + destruct (Hreb info y y (int_add m (Interval r)) Hcal) as (info' & ->).
      rsimpl. eauto.
  - rsimpl. cbv beta iota zeta.
    match goal with
    | |- context [fixLoop _ _ _ ?d' _] => exact (Htail d' _ _ _ _ _ true)
    end.
  - rsimpl. cbv beta iota zeta.
    match goal with
    | |- context [fixLoop _ _ _ ?d' _] => exact (Htail d' _ _ _ _ _ true)
    end.
  - assert (Hh : exists h0, (if filtered
                             then q ← int_div (23 - h) (Interval r);
                                  Ok (int_add h (int_mul q (Interval r)))
                             else Ok h) = Ok h0).
    { destruct filtered; [| eauto].
      destruct (int_div_Ok (23 - h) (Interval r) ltac:(lia)) as (q & ->).
      rsimpl. eauto. }
    destruct Hh as (h0 & ->). rsimpl. cbn [hourLoop]. unfold divmod.
    rewrite (Hbh ltac:(lia)). change (len (@nil Z) =? 0) with true.
    destruct (negb (int_add h0 (Interval r) / 24 =? 0)); cbn [orb]; rsimpl;
      cbv beta iota zeta;
      first [ solve [eauto]
            | match goal with
              | |- context [fixLoop _ _ _ ?d' _] =>
                  exact (Htail d' _ _ _ _ _ true)
              end ].
  - assert (Hh : exists m0, (if filtered
                             then q ← int_div (1439 - (h * 60 + mi)) (Interval r);
                                  Ok (int_add mi (int_mul q (Interval r)))
                             else Ok mi) = Ok m0).
    { destruct filtered; [| eauto].
      destruct (int_div_Ok (1439 - (h * 60 + mi)) (Interval r) ltac:(lia))
        as (q & ->).
      rsimpl. eauto. }
    destruct Hh as (m0 & ->). rsimpl. cbn [minuteLoop]. unfold divmod.
    rewrite (Hbh ltac:(lia)), (Hbm ltac:(lia)).
    change (len (@nil Z) =? 0) with true.
    destruct (negb (int_add m0 (Interval r) / 60 =? 0)); cbv beta iota zeta;
      [destruct (negb (int_add h (int_add m0 (Interval r) / 60) / 24 =? 0)) |];
      cbn [orb andb]; rsimpl; cbv beta iota zeta;
      first [ solve [eauto]
            | match goal with
              | |- context [fixLoop _ _ _ ?d' _] =>
                  exact (Htail d' _ _ _ _ _ true)
              end ].
  - assert (Hh : exists s0, (if filtered
                             then q ← int_div (86399 - (h * 3600 + mi * 60 + sc))
                                        (Interval r);
                                  Ok (int_add sc (int_mul q (Interval r)))
                             else Ok sc) = Ok s0).
    { destruct filtered; [| eauto].
      destruct (int_div_Ok (86399 - (h * 3600 + mi * 60 + sc)) (Interval r)
                  ltac:(lia)) as (q & ->).
      rsimpl. eauto. }
    destruct Hh as (s0 & ->). rsimpl. cbn [secondLoop]. unfold divmod.
    rewrite (Hbh ltac:(lia)), (Hbm ltac:(lia)), (Hbs ltac:(lia)).
    change (len (@nil Z) =? 0) with true.
    destruct (negb (int_add s0 (Interval r) / 60 =? 0)); cbv beta iota zeta;
      [destruct (negb (int_add mi (int_add s0 (Interval r) / 60) / 60 =? 0));
       cbv beta iota zeta;
       [destruct (negb (int_add h (int_add mi (int_add s0 (Interval r) / 60) / 60)
                        / 24 =? 0)) |] |];
      cbn [orb andb]; rsimpl; cbv beta iota zeta;
      first [ solve [eauto]
            | match goal with
              | |- context [fixLoop _ _ _ ?d' _] =>
                  exact (Htail d' _ _ _ _ _ true)
              end ].
Qed.

(** ** The first occurrence *)

Lemma bare_startOnly (now : Time) (arg : ROption) :
  validateBounds arg = None -> bareOptions arg ->
  startOnly (normalize now arg).
Proof.
  intros Hv (Hsp & Hbm & Hbd & Hyd & Hwn & Hwd & Hh & Hmi & Hs & He).
  pose proof (normalize_bounds now arg Hv) as (Hint & _). cbv zeta in Hint.
  revert Hint. rewrite normalize_eq. cbv zeta.
  rewrite splitMonthdays_filter, splitWeekdays_filter.
  unfold defaultsFromStart. rewrite Hwn, Hyd, Hbd, Hwd, He, Hbm, Hh, Hmi, Hs, Hsp.
  change (len (@nil Z) =? 0) with true.
  change (len (@nil Weekday) =? 0) with true.
  cbn [andb].
  pose proof (Day_ge_1 (startOf now arg)) as Hday.
  assert (Hpos : (0 <? Day (startOf now arg)) = true) by (apply Z.ltb_lt; lia).
  assert (Hneg : (Day (startOf now arg) <? 0) = false) by (apply Z.ltb_ge; lia).
  intros Hint. unfold startOnly.
  cbn [DateStart Freq Interval Bysetpos Byyearday Byweekno Byeaster Bynweekday
       Bynmonthday Bymonth Bymonthday Byweekday Byhour Byminute Bysecond
       Timeset] in *.
  destruct (Opt.Freq arg);
    cbn [OptUpd.with_Bymonth OptUpd.with_Bymonthday OptUpd.with_Byweekday
         Opt.Bymonth Opt.Bymonthday Opt.Byweekday List.filter map wd_n
         wd_weekday keepsPosition Z.eqb orb andb negb];
    rewrite ?Hbd, ?Hwd, ?Hbm; cbn [List.filter map]; rewrite ?Hpos, ?Hneg.
  all: repeat (split; [reflexivity |]); exact Hint.
Qed.

Lemma Before_irrefl (t : Time) : Before t t = false.
Proof.
  unfold Before. rewrite !Z.ltb_irrefl, andb_false_r. reflexivity.
Qed.

(** The iterator of such a rule yields the start first. *)
Lemma first_occurrence (r : RRule) (fuel : nat) :
  startOnly r -> 1 <= Year (DateStart r) <= MAXYEAR ->
  exceeds r (DateStart r) = false ->
  (Z.to_nat 120000 < fuel)%nat ->
  exists r' it', iterate fuel 1 r = Ok (r', it', [DateStart r]).
Proof.
  intros Hso Hy Hex Hf.
  pose proof Hso as (Hsp & Hyd & Hwn & He & Hnw & Hnm & _ & _ & _ & Hbh & Hbmi
                     & Hbs & _ & _ & Hint).
  destruct (first_candidates r (Hour (DateStart r)) (Minute (DateStart r))
              (Sec (DateStart r)) (toPyWeekday (WeekdayOf (DateStart r)))
              [] Hso ltac:(lia)) as (info & flt & Hreb & Hcal & Hper).
  pose proof (startOnly_timeset r Hso) as Hts. cbv zeta in Hts, Hper.
  destruct (stepCursor_returns r fuel flt (Year (DateStart r))
              (MonthOf (DateStart r)) (Day (DateStart r)) (Hour (DateStart r))
              (Minute (DateStart r)) (Sec (DateStart r))
              (toPyWeekday (WeekdayOf (DateStart r))) info
              [Date 1 1 1 (Hour (DateStart r)) (Minute (DateStart r))
                 (Sec (DateStart r)) 0 (LocationOf (DateStart r))])
    as (over & c' & Hstep); try assumption.
  { intros H. rewrite Hbh. destruct (Z.ltb_spec (freqZ (Freq r)) (freqZ HOURLY));
      [lia | reflexivity]. }
  { intros H. rewrite Hbmi.
    destruct (Z.ltb_spec (freqZ (Freq r)) (freqZ MINUTELY)); [lia | reflexivity]. }
  { intros H. rewrite Hbs.
    destruct (Z.ltb_spec (freqZ (Freq r)) (freqZ SECONDLY)); [lia | reflexivity]. }
  { apply MonthOf_range. }
  unfold iterate, Iterator. cbv zeta. rewrite Hreb. rsimpl. rewrite Hts.
  cbn [nexts]. unfold next. cbn [finished negb].
  destruct fuel as [| fuel']; [lia |]. cbn [generate remain].
  change (len (@nil Time) =? 0) with true. cbv iota.
  rewrite period_candidates.
  unfold cursor_of.
    cbn [year month day hour minute second weekday ii timeset].
  rewrite Hper. rsimpl. cbn [emitList]. unfold emitOne.
  unfold exceeds in Hex. rewrite Hex, Before_irrefl.
  cbn [negb count total remain app finish year month day hour minute second
       weekday ii timeset finished].
  destruct (Count r =? 0) eqn:Ec; cbn [negb].
  - unfold step.
    unfold cursor_of.
    cbn [year month day hour minute second weekday ii timeset].
    rewrite Hstep. rsimpl. destruct over.
    + unfold finish. rsimpl. cbn [remain]. rewrite remain_set_cursor.
      cbn [remain]. rsimpl. eauto.
    + rsimpl. rewrite generate_buffered
        by (rewrite remain_set_cursor; cbn [remain]; discriminate).
      rsimpl. rewrite remain_set_cursor. cbn [remain]. rsimpl. eauto.
  - destruct (Count r - 1 =? 0) eqn:Ec1.
    + rsimpl. cbn [remain]. rsimpl. eauto.
    + unfold step.
      unfold cursor_of.
    cbn [year month day hour minute second weekday ii timeset].
      rewrite Hstep. rsimpl. destruct over.
      * unfold finish. rsimpl. cbn [remain]. rewrite remain_set_cursor.
        cbn [remain]. rsimpl. eauto.
      * rsimpl. rewrite generate_buffered
          by (rewrite remain_set_cursor; cbn [remain]; discriminate).
        rsimpl. rewrite remain_set_cursor. cbn [remain]. rsimpl. eauto.
Qed.

Lemma After_Add_maxDuration (s : Time) :
  tnsec s = 0 -> After s (Add s maxDuration) = false.
Proof.
  intros Hn. unfold Add, After. rewrite Hn.
  change (Z.rem maxDuration 1000000000) with 854775807.
  change (Z.quot maxDuration 1000000000) with 9223372036.
  change (1000000000 <=? 0 + 854775807) with false.
  change (0 + 854775807 <? 0) with false. cbv iota. cbn [tsec tnsec].
  destruct (Z.ltb_spec (tsec s + 9223372036) (tsec s)); [lia |].
  destruct (Z.eqb_spec (tsec s) (tsec s + 9223372036)); [lia |]. reflexivity.
Qed.

(** X17: a rule made from options that name no BY part yields its start
    first, whatever its frequency, interval and count: if the start lies
    in the years 1 to 9999 and the options have no until, or one that the
    start is not after, the first call of next returns the rule's start
    (the start of the options, or the clock's reading when they have none,
    cut to the second). *)
Theorem first_occurrence_is_start (now : Time) (arg : ROption) (r : RRule)
    (fuel : nat) :
  NewRRule now arg = inr r ->
  bareOptions arg ->
  1 <= Year (DateStart r) <= MAXYEAR ->
  IsZero (Opt.Until arg) = true \/ After (DateStart r) (Opt.Until arg) = false ->
  (Z.to_nat 120000 < fuel)%nat ->
  DateStart r = startOf now arg
  /\ exists r' it', iterate fuel 1 r = Ok (r', it', [DateStart r]).
Proof.
  intros Hnew Hbare Hy Hu Hf. apply NewRRule_inr in Hnew as [Hv ->].
  split; [apply normalize_DateStart |].
  pose proof (bare_startOnly now arg Hv Hbare) as Hso.
  apply first_occurrence; try assumption.
  unfold exceeds. rewrite normalize_UntilTime, normalize_DateStart in *.
  destruct (IsZero (Opt.Until arg)) eqn:Ez.
  - rewrite After_Add_maxDuration; [apply andb_false_r | reflexivity].
  - destruct Hu as [Hu | Hu]; [discriminate |]. rewrite Hu. apply andb_false_r.
Qed.

Lemma first_occurrence_is_start_witness :
  exists r' it',
    iterate (Z.to_nat 120001) 1 (normalize zeroTime fortnightOptions)
    = Ok (r', it', [DateStart (normalize zeroTime fortnightOptions)]).
Proof.
  refine (proj2 (first_occurrence_is_start zeroTime fortnightOptions
                   (normalize zeroTime fortnightOptions) (Z.to_nat 120001)
                   eq_refl _ _ _ _)).
  - repeat split.
  - vm_compute. split; discriminate.
  - left. reflexivity.
  - lia.
Defined.

(** ** A period against the calendar *)

Lemma rebuild_year (r : RRule) (info : iterInfo) (year : Z) (month : Month)
    (info' : iterInfo) :
  rebuild r info year month = Ok info' ->
  year <> lastyear info ->
  yearlen info' = 365 + isLeap year
  /\ firstyday info' = Date year 1 1 0 0 0 0 (LocationOf (DateStart r))
  /\ mrange info' = (if 365 + isLeap year =? 365 then M365RANGE else M366RANGE).
Proof.
  intros H Hy. apply rebuild_inv in H as (info1 & nwd & east & H1 & _ & ->).
  destruct (Z.eqb_spec year (lastyear info)) as [|_]; [contradiction |].
  cbn [negb] in H1. destruct H1 as (wdmask & wno & _ & _ & ->).
  cbn [yearlen firstyday mrange]. auto.
Qed.

Lemma rejects_dates (r : RRule) (info0 info : iterInfo) (y : Z) (m : Month)
    (k : Z) :
  rebuild r info0 y m = Ok info -> y <> lastyear info0 ->
  Byweekno r = [] -> Byeaster r = [] -> nwdaymask info = [] ->
  0 <= k < yearlen info ->
  rejects r info k = Ok (dateRejected r (AddDate (firstyday info) 0 0 k)).
Proof.
  intros Hreb Hy Hwn He Hnw Hk.
  destruct (rebuild_year r info0 y m info Hreb Hy) as (Hyl & _ & _).
  destruct (rebuild_calendar r info0 y m info k Hreb Hy Hk)
    as (Fy & Fyd & M1 & M2 & M3 & M4).
  cbv zeta in Fy, Fyd, M1, M2, M3, M4.
  unfold rejects, dateRejected. cbv zeta.
  rewrite Hwn, He, Hnw, M1, M2, M3, M4, Fy, Fyd, Hyl.
  change (len (@nil Z) =? 0) with true.
  replace (- (365 + isLeap y) + k) with (k + 1 - (365 + isLeap y) - 1) by lia.
  destruct (Z.ltb_spec k (365 + isLeap y)) as [_ |]; [| lia].
  destruct (Z.leb_spec (365 + isLeap y) k) as [| _]; [lia |].
  set (t := AddDate (firstyday info) 0 0 k).
  unfold orR, andR. rsimpl.
  generalize (contains (Bymonth r) (MonthOf t)).
  generalize (contains (Byweekday r) (toPyWeekday (WeekdayOf t))).
  generalize (contains (Bymonthday r) (Day t)).
  generalize (contains (Bynmonthday r) (Day t - daysIn (MonthOf t) y - 1)).
  generalize (contains (Byyearday r) (k + 1)).
  generalize (contains (Byyearday r) (k + 1 - (365 + isLeap y) - 1)).
  generalize (len (Bymonth r) =? 0). generalize (len (Byweekday r) =? 0).
  generalize (len (Bymonthday r) =? 0). generalize (len (Bynmonthday r) =? 0).
  generalize (len (Byyearday r) =? 0).
  intros b1 b2 b3 b4 b5 b6 b7 b8 b9 b10 b11.
  destruct b1, b2, b3, b4, b5, b6, b7, b8, b9, b10, b11; reflexivity.
Qed.

Lemma map_seq_from {A} (m : nat) :
  forall (f : nat -> A) (n : nat),
    map f (seq n m) = map (fun k => f (n + k)%nat) (seq 0 m).
Proof.
  induction m as [| m IH]; intros f n; [reflexivity |].
  cbn [seq map]. rewrite Nat.add_0_r. f_equal.
  rewrite (IH f (S n)), (IH (fun k => f (n + k)%nat) 1%nat).
  apply map_ext. intros k. f_equal. lia.
Qed.

Lemma rang_app (a b c : Z) :
  a <= b <= c -> rang a c = rang a b ++ rang b c.
Proof.
  intros H. unfold rang.
  replace (Z.to_nat (c - a)) with (Z.to_nat (b - a) + Z.to_nat (c - b))%nat by lia.
  rewrite seq_app, map_app. f_equal. cbn [Nat.add].
  rewrite map_seq_from. apply map_ext. intros k. lia.
Qed.

Lemma filter_none {A} (p : A -> bool) (l : list A) :
  (forall x, x ∈ l -> p x = false) -> List.filter p l = [].
Proof.
  induction l as [| x l IH]; intros H; [reflexivity |]. cbn [List.filter].
  rewrite (H x ltac:(left)). apply IH. intros z Hz. apply H. right. exact Hz.
Qed.

Lemma filter_same {A} (p q : A -> bool) (l : list A) :
  (forall x, x ∈ l -> p x = q x) -> List.filter p l = List.filter q l.
Proof.
  induction l as [| x l IH]; intros H; [reflexivity |]. cbn [List.filter].
  rewrite (H x ltac:(left)), IH; [reflexivity |].
  intros z Hz. apply H. right. exact Hz.
Qed.

(** A filter over a window of the year is a filter over the year. *)
Lemma filter_window (p q : Z -> bool) (s e n : Z) :
  0 <= s <= e -> e <= n ->
  (forall k, 0 <= k < n -> q k = ((s <=? k) && (k <? e) && p k)) ->
  List.filter p (rang s e) = List.filter q (rang 0 n).
Proof.
  intros Hs He Hq.
  rewrite (rang_app 0 s n), (rang_app s e n) by lia.
  rewrite !List.filter_app.
  rewrite (filter_none q (rang 0 s)), (filter_none q (rang e n)).
  - rewrite app_nil_r. cbn [app]. apply filter_same.
    intros k Hk. apply elem_of_rang in Hk. rewrite Hq by lia.
    destruct (Z.leb_spec s k); [| lia]. destruct (Z.ltb_spec k e); [| lia].
    reflexivity.
  - intros k Hk. apply elem_of_rang in Hk. rewrite Hq by lia.
    destruct (Z.ltb_spec k e); [lia |]. rewrite andb_false_r. reflexivity.
  - intros k Hk. apply elem_of_rang in Hk. rewrite Hq by lia.
    destruct (Z.leb_spec s k); [lia |]. reflexivity.
Qed.

Lemma periodCandidates_calendar (r : RRule) (info0 info : iterInfo) (y : Z)
    (m : Month) (d h mi sc wd : Z) (ts : list Time) :
  Freq r = YEARLY \/ Freq r = MONTHLY ->
  Bysetpos r = [] -> Byweekno r = [] -> Byeaster r = [] ->
  nwdaymask info = [] ->
  rebuild r info0 y m = Ok info -> y <> lastyear info0 -> 1 <= m <= 12 ->
  exists flt,
    periodCandidates r (y, m, d, h, mi, sc, wd, info, ts)
    = Ok (flat_map (fun k => map (occurrence info k) ts) (periodDays r info m),
          flt).
Proof.
  intros Hf Hsp Hwn He Hnw Hreb Hy Hm.
  destruct (rebuild_year r info0 y m info Hreb Hy) as (Hyl & Hfy & Hmr).
  assert (Hleap : 365 <= yearlen info <= 366)
    by (destruct (isLeap_cases y); lia).
  set (b := fun k => dateRejected r (AddDate (firstyday info) 0 0 k)).
  assert (Hrej : forall k, 0 <= k < yearlen info -> rejects r info k = Ok (b k)).
  { intros k Hk. apply (rejects_dates r info0 info y m); assumption. }
  assert (Hgo : forall set s e,
    getdayset r info (Freq r) y m d = Ok (set, s, e) ->
    len set = yearlen info -> 0 <= s <= e -> e <= yearlen info ->
    (forall k, s <= k < e -> set !! Z.to_nat k = Some (Some k)) ->
    (forall k, 0 <= k < yearlen info ->
       ((s <=? k) && (k <? e))
       = match Freq r with
         | MONTHLY => MonthOf (AddDate (firstyday info) 0 0 k) =? m
         | _ => true
         end) ->
    exists flt,
      periodCandidates r (y, m, d, h, mi, sc, wd, info, ts)
      = Ok (flat_map (fun k => map (occurrence info k) ts) (periodDays r info m),
            flt)).
  { intros set s e Hg Hl Hs He' Hc Hwin. unfold periodCandidates.
    rewrite Hg. rsimpl.
    destruct (filterDays_spec r info b set s e Hs ltac:(lia))
      as (set' & window & Hfd & Hsl & Hsurv).
    { intros k Hk. split; [apply Hc; exact Hk | apply Hrej; lia]. }
    rewrite Hfd. rsimpl. rewrite Hsl. rsimpl.
    unfold candidates. rewrite Hsp. change (len (@nil Z) =? 0) with true.
    cbn [negb andb]. rsimpl. unfold plainCandidates. rewrite Hsurv.
    eexists. f_equal. f_equal. f_equal. unfold periodDays.
    apply (filter_window _ _ s e (yearlen info) Hs He').
    intros k Hk. cbv zeta. rewrite <- (Hwin k Hk). reflexivity. }
  destruct Hf as [EF | EF].
  - destruct (getdayset_yearly r info y m d ltac:(lia)) as (set & Hg & Hl & Hc).
    apply (Hgo set 0 (yearlen info)); rewrite ?EF; try assumption; lia.
  - destruct (getdayset_monthly r info y m d Hyl Hmr Hm)
      as (set & s & e & Hg & Hl & Hs & He' & _ & Hc & Hiff).
    apply (Hgo set s e); rewrite ?EF; try assumption.
    intros k Hk.
    destruct (rebuild_calendar r info0 y m info k Hreb Hy Hk)
      as (_ & _ & _ & _ & _ & _).
    assert (Emo : MonthOf (AddDate (firstyday info) 0 0 k) = fst (monthDay y k)).
    { rewrite Hfy.
      destruct (day_of_year y k (LocationOf (DateStart r)) ltac:(lia))
        as (_ & _ & _ & Fm & _). exact Fm. }
    rewrite Emo. specialize (Hiff k Hk).
    destruct (Z.eqb_spec (fst (monthDay y k)) m) as [E | E].
    + apply andb_true_iff. split; [apply Z.leb_le | apply Z.ltb_lt];
        apply Hiff in E; lia.
    + apply not_true_is_false. intros Hb. apply andb_true_iff in Hb as [H1 H2].
      apply Z.leb_le in H1. apply Z.ltb_lt in H2. apply E, Hiff. lia.
Qed.

(** X18: a period of a YEARLY or MONTHLY rule without BYSETPOS, week
    numbers and Easter offsets, and without positioned weekdays in its
    tables, offers as candidates exactly the dates of the year (of the
    cursor's month, for MONTHLY) that pass the BY parts of the rule, in
    ascending order, each at every time of the time set: the month, the
    weekday, the day of the month counted from either end and the day of
    the year counted from either end are read off the date itself. *)
Theorem period_by_calendar (r : RRule) (info0 : iterInfo) (it : rIterator)
    (fuel : nat) :
  Freq r = YEARLY \/ Freq r = MONTHLY ->
  Bysetpos r = [] -> Byweekno r = [] -> Byeaster r = [] ->
  nwdaymask (ii it) = [] ->
  rebuild r info0 (year it) (month it) = Ok (ii it) ->
  year it <> lastyear info0 -> 1 <= month it <= 12 ->
  exists flt,
    period r fuel it
    = match
        emitList r it
          (flat_map (fun k => map (occurrence (ii it) k) (timeset it))
             (periodDays r (ii it) (month it)))
      with
      | Return r' it' => Ok (Return r' it')
      | Continue it' => step r fuel flt it'
      end.
Proof.
  intros Hf Hsp Hwn He Hnw Hreb Hy Hm.
  destruct (periodCandidates_calendar r info0 (ii it) (year it) (month it)
              (day it) (hour it) (minute it) (second it) (weekday it)
              (timeset it) Hf Hsp Hwn He Hnw Hreb Hy Hm) as (flt & Hp).
  exists flt. rewrite period_candidates. unfold cursor_of. rewrite Hp.
  reflexivity.
Qed.

Lemma period_by_calendar_witness :
  exists info flt,
    rebuild (normalize zeroTime monthEndOptions) iterInfo0 2020 1 = Ok info
    /\ let r := normalize zeroTime monthEndOptions in
       let it := mkIter 2020 1 31 9 0 0 4 info (Timeset r) 0 4 [] false in
       period r 1 it
       = match
           emitList r it
             (flat_map (fun k => map (occurrence info k) (Timeset r))
                (periodDays r info 1))
         with
         | Return r' it' => Ok (Return r' it')
         | Continue it' => step r 1 flt it'
         end.
Proof.
  assert (E : exists info,
    rebuild (normalize zeroTime monthEndOptions) iterInfo0 2020 1 = Ok info
    /\ nwdaymask info = []).
  { vm_compute. eexists. split; reflexivity. }
  destruct E as (info & E & Hn). exists info.
  destruct (period_by_calendar (normalize zeroTime monthEndOptions) iterInfo0
              (mkIter 2020 1 31 9 0 0 4 info
                 (Timeset (normalize zeroTime monthEndOptions)) 0 4 [] false) 1)
    as [flt H].
  - right. reflexivity.
  - reflexivity.
  - reflexivity.
  - reflexivity.
  - exact Hn.
  - exact E.
  - cbn [year lastyear iterInfo0]. discriminate.
  - cbn [month]. lia.
  - exists flt. split; [exact E | exact H].
Defined.

(** ** The period of a WEEKLY rule *)

Lemma rebuild_wdaymask (r : RRule) (info : iterInfo) (year : Z) (month : Month)
    (info' : iterInfo) (i : Z) :
  rebuild r info year month = Ok info' ->
  year <> lastyear info ->
  0 <= i < 379 ->
  index (wdaymask info') i = Ok ((daysSinceEpoch year + i) mod 7).
Proof.
  intros H Hy Hi. apply rebuild_inv in H as (info1 & nwd & east & H1 & _ & ->).
  destruct (Z.eqb_spec year (lastyear info)) as [|_]; [contradiction |].
  cbn [negb] in H1. destruct H1 as (wdmask & wno & Hw & _ & ->).
  cbn [wdaymask].
  rewrite (WDAYMASK_lookup _ i wdmask Hw (toPyWeekday_range _) Hi).
  rewrite WeekdayOf_newyear, Z.add_mod_idemp_l by lia. reflexivity.
Qed.

(** The day of the year and the weekday of a date. *)
Lemma date_day (y : Z) (m : Month) (d : Z) :
  1 <= m <= 12 -> 1 <= d <= daysIn m y ->
  let t := Date y m d 0 0 0 0 UTC in
  0 <= YearDay t - 1 < 365 + isLeap y
  /\ YearDay t - 1 = ydayOf y m d
  /\ toPyWeekday (WeekdayOf t) = (daysSinceEpoch y + (YearDay t - 1)) mod 7.
Proof.
  intros Hm Hd t. rewrite daysIn_eq in Hd by exact Hm.
  destruct (YearDay_Date y m d Hm Hd) as [E _]. fold t in E.
  pose proof (ydayOf_bounds y m d Hm Hd) as Hb.
  split; [lia |]. split; [exact E |].
  unfold WeekdayOf, t. rewrite Date_abs by exact Hm.
  rewrite Z.div_mul by lia. rewrite toPyWeekday_mod. fold t. rewrite E.
  reflexivity.
Qed.

Lemma week_length (wd wkst n : Z) :
  0 <= wd <= 6 -> 0 <= wkst <= 6 -> 1 <= n <= 7 ->
  (forall j, 0 < j < n -> (wd + j) mod 7 <> wkst) ->
  (n < 7 -> (wd + n) mod 7 = wkst) ->
  n = 1 + (wkst - wd - 1) mod 7.
Proof.
  intros Hwd Hwk Hn Hno Hend.
  set (c := 1 + (wkst - wd - 1) mod 7).
  assert (Hc : 1 <= c <= 7 /\ (wd + c) mod 7 = wkst).
  { subst c. Z.to_euclidean_division_equations. lia. }
  destruct Hc as [Hc1 Hc2].
  destruct (Z_lt_dec c n) as [Hlt | Hge].
  - exfalso. apply (Hno c); [lia | exact Hc2].
  - destruct (Z_lt_dec n 7) as [Hn7 | Hn7]; [| lia].
    specialize (Hend Hn7). revert Hc2 Hend. generalize c Hc1 Hge.
    intros c' Hc1' Hge' Hc2 Hend.
    Z.to_euclidean_division_equations. lia.
Qed.

(** X19: the period of a WEEKLY rule runs from the cursor's date to the end
    of its week: [getdayset] marks the days from the date's day of the year
    up to, but not including, the next day that falls on the week start,
    seven days at most; with a week start in 0..6 these are
    1 + (wkst - weekday - 1) mod 7 days.  The window may run past the end
    of the year, into the seven days by which every table is longer. *)
Theorem weekly_window (r : RRule) (info0 info : iterInfo) (y : Z) (m : Month)
    (d : Z) :
  rebuild r info0 y m = Ok info -> y <> lastyear info0 ->
  1 <= m <= 12 -> 1 <= d <= daysIn m y ->
  let t := Date y m d 0 0 0 0 UTC in
  let i := YearDay t - 1 in
  let wd := toPyWeekday (WeekdayOf t) in
  exists set e,
    getdayset r info WEEKLY y m d = Ok (set, i, e)
    /\ i < e <= i + 7
    /\ (forall k, i <= k < e -> set !! Z.to_nat k = Some (Some k))
    /\ (forall k, i < k < e -> (wd + (k - i)) mod 7 <> Wkst r)
    /\ (e < i + 7 -> (wd + (e - i)) mod 7 = Wkst r)
    /\ (0 <= Wkst r <= 6 -> e = i + 1 + (Wkst r - wd - 1) mod 7).
Proof.
  intros Hreb Hy Hm Hd t i wd.
  destruct (rebuild_year r info0 y m info Hreb Hy) as (Hyl & _ & _).
  destruct (date_day y m d Hm Hd) as (Hi & _ & Hwd). fold t in Hi, Hwd.
  fold i in Hi, Hwd. fold wd in Hwd.
  assert (Hlook : forall k, 0 <= k < 379 ->
            index (wdaymask info) k = Ok ((daysSinceEpoch y + k) mod 7)).
  { intros k Hk. apply (rebuild_wdaymask r info0 y m); assumption. }
  destruct (getdayset_weekly r info y y m d Hyl Hlook)
    as (set & e & Hg & _ & He & Hc & Hno & Hend); [fold t; fold i; lia |].
  fold t in Hg, He, Hc, Hno, Hend. fold i in Hg, He, Hc, Hno, Hend.
  assert (Hleap : 365 <= 365 + isLeap y <= 366)
    by (destruct (isLeap_cases y); lia).
  assert (Hday : forall k, (wd + (k - i)) mod 7 = (daysSinceEpoch y + k) mod 7).
  { intros k. rewrite Hwd, Z.add_mod_idemp_l by lia. f_equal. lia. }
  assert (Hno' : forall k, i < k < e -> (wd + (k - i)) mod 7 <> Wkst r).
  { intros k Hk E. apply (Hno k Hk). rewrite Hlook by lia.
    rewrite <- Hday, E. reflexivity. }
  assert (Hend' : e < i + 7 -> (wd + (e - i)) mod 7 = Wkst r).
  { intros He7. specialize (Hend He7). rewrite Hlook in Hend by lia.
    rewrite Hday. congruence. }
  exists set, e. split; [exact Hg |]. split; [exact He |].
  split; [exact Hc |]. split; [exact Hno' |]. split; [exact Hend' |].
  intros Hwk.
  assert (Hn : e - i = 1 + (Wkst r - wd - 1) mod 7).
  { apply (week_length wd (Wkst r) (e - i)).
    - rewrite Hwd.
      pose proof (Z.mod_pos_bound (daysSinceEpoch y + i) 7 ltac:(lia)). lia.
    - exact Hwk.
    - lia.
    - intros j Hj. replace j with ((i + j) - i) by lia. apply Hno'. lia.
    - intros Hlt. apply Hend'. lia. }
  lia.
Qed.

Lemma weekly_window_witness :
  exists info set e,
    rebuild (normalize zeroTime fortnightOptions) iterInfo0 2018 3 = Ok info
    /\ getdayset (normalize zeroTime fortnightOptions) info WEEKLY 2018 3 14
       = Ok (set, YearDay (Date 2018 3 14 0 0 0 0 UTC) - 1, e)
    /\ e = YearDay (Date 2018 3 14 0 0 0 0 UTC) - 1 + 5.
Proof.
  assert (E : exists info,
    rebuild (normalize zeroTime fortnightOptions) iterInfo0 2018 3 = Ok info).
  { vm_compute. eexists. reflexivity. }
  destruct E as (info & E). exists info.
  destruct (weekly_window (normalize zeroTime fortnightOptions) iterInfo0 info
              2018 3 14 E) as (set & e & Hg & _ & _ & _ & _ & He).
  - cbn [lastyear iterInfo0]. discriminate.
  - lia.
  - vm_compute. split; discriminate.
  - exists set, e. split; [exact E |]. split; [exact Hg |].
    rewrite He by (vm_compute; split; discriminate). reflexivity.
Defined.
